(** * crew_os: the scheduling and dependency-resolution core

    A shallow embedding of [crew_os/enums.py], [components/task.py],
    [components/agent.py], [components/crew.py], [core/task_manager.py],
    [core/scheduler.py], [core/resource_monitor.py],
    [core/tool_dispatcher.py] and the work step and tick of
    [core/kernel.py].

    Python objects are shared by reference: the crew's [tasks] dictionary is
    the very dictionary the task manager holds, and the crew's [agents]
    dictionary is the one the scheduler holds.  The embedding keeps one
    table of each and refers to an object by its key.  A dictionary
    [{obj.id: obj}] is a list of records in insertion order (the order
    [values()] iterates in), looked up by the record's own id.  A [str] is
    its UTF-8 encoding, a sequence of bytes; a character is a byte sequence
    opened by a byte that is not a continuation byte. *)

From Stdlib Require Import ZArith List String Ascii Bool Lia.
From Stdlib Require Import DecimalString.
Import ListNotations.
Open Scope string_scope.
Open Scope Z_scope.

(** ** Python primitives *)

(** ["\n"]. *)
Definition nl : string := String (ascii_of_nat 10) EmptyString.

(** [str(n)] for an [int]. *)
Definition str_of_int (n : Z) : string := NilZero.string_of_int (Z.to_int n).

(** [sep.join(parts)]. *)
Fixpoint join (sep : string) (parts : list string) : string :=
  match parts with
  | [] => ""
  | [p] => p
  | p :: rest => p ++ sep ++ join sep rest
  end.

(** A byte [10xxxxxx], which continues the encoding of a character. *)
Definition is_continuation (c : ascii) : bool :=
  (128 <=? nat_of_ascii c)%nat && (nat_of_ascii c <? 192)%nat.

(** [s[:n]]: the first [n] characters of [s], that is the bytes before the
    one that opens character [n + 1]. *)
Fixpoint prefix_of (n : nat) (s : string) : string :=
  match s with
  | EmptyString => EmptyString
  | String c rest =>
      if is_continuation c then String c (prefix_of n rest)
      else match n with
           | O => EmptyString
           | S m => String c (prefix_of m rest)
           end
  end.

(** [x in l] for a list of strings. *)
Definition str_in (x : string) (l : list string) : bool :=
  existsb (String.eqb x) l.

(** ** crew_os/enums.py *)

Module AgentState.
Inductive t : Set :=
  | IDLE | ASSIGNED | RUNNING_TASK | USING_TOOL | WAITING_DELEGATION | TERMINATED.

Definition eqb (a b : t) : bool :=
  match a, b with
  | IDLE, IDLE | ASSIGNED, ASSIGNED | RUNNING_TASK, RUNNING_TASK
  | USING_TOOL, USING_TOOL | WAITING_DELEGATION, WAITING_DELEGATION
  | TERMINATED, TERMINATED => true
  | _, _ => false
  end.
End AgentState.

Module TaskState.
Inductive t : Set :=
  | PENDING | READY | ASSIGNED | RUNNING | WAITING_CONTEXT | COMPLETED | FAILED.

Definition eqb (a b : t) : bool :=
  match a, b with
  | PENDING, PENDING | READY, READY | ASSIGNED, ASSIGNED | RUNNING, RUNNING
  | WAITING_CONTEXT, WAITING_CONTEXT | COMPLETED, COMPLETED | FAILED, FAILED => true
  | _, _ => false
  end.
End TaskState.

Inductive CrewProcess : Set := SEQUENTIAL | HIERARCHICAL.

(** ** Dictionaries keyed by the stored object's id *)

Section Dict.
Context {V : Type} (key : V -> Z).

(** [d.get(k)] *)
Definition dict_get (d : list V) (k : Z) : option V :=
  find (fun v => key v =? k) d.

(** In-place mutation of the object stored under [k]. *)
Definition dict_modify (k : Z) (f : V -> V) (d : list V) : list V :=
  map (fun v => if key v =? k then f v else v) d.

(** [d[key v] = v]: an existing key keeps its position and takes the new
    value, a new key is appended. *)
Definition dict_put (d : list V) (v : V) : list V :=
  if existsb (fun w => key w =? key v) d
  then map (fun w => if key w =? key v then v else w) d
  else (d ++ [v])%list.

(** [{key v: v for v in l}] *)
Definition dict_of_list (l : list V) : list V := fold_left dict_put l [].

Definition dict_keys (d : list V) : list Z := map key d.

(** Keys of a dictionary are distinct. *)
Definition dict_wf (d : list V) : Prop := NoDup (dict_keys d).

(** A mutation that leaves the object's id alone. *)
Definition keeps_key (f : V -> V) : Prop := forall v, key (f v) = key v.
End Dict.

(** ** components/task.py *)

Module Task.
Record t : Type := mk {
  tid : Z;
  description : string;
  expected_output : string;
  assigned_agent_id : option Z;
  dependencies : list Z;
  state : TaskState.t;
  context : option string;
  result : option string
}.

(** [Task(description, expected_output, agent_id, dependencies)] with the
    class counter [_next_tid] at [next_tid]. *)
Definition init (next_tid : Z) (description expected_output : string)
    (agent_id : option Z) (dependencies : list Z) : t :=
  mk next_tid description expected_output agent_id dependencies
     TaskState.PENDING None None.

Definition update_state (new_state : TaskState.t) (task : t) : t :=
  mk (tid task) (description task) (expected_output task) (assigned_agent_id task)
     (dependencies task) new_state (context task) (result task).

Definition add_context (context_data : option string) (task : t) : t :=
  mk (tid task) (description task) (expected_output task) (assigned_agent_id task)
     (dependencies task) (state task) context_data (result task).

Definition add_result (result_data : string) (task : t) : t :=
  mk (tid task) (description task) (expected_output task) (assigned_agent_id task)
     (dependencies task) (state task) (context task) (Some result_data).

(** [task.assigned_agent_id = aid] *)
Definition set_assigned_agent_id (aid : Z) (task : t) : t :=
  mk (tid task) (description task) (expected_output task) (Some aid)
     (dependencies task) (state task) (context task) (result task).

(** [task.result = None] *)
Definition clear_result (task : t) : t :=
  mk (tid task) (description task) (expected_output task) (assigned_agent_id task)
     (dependencies task) (state task) (context task) None.
End Task.

(** ** components/agent.py *)

Module Agent.
(** [resource_usage = {"tokens": _, "tool_calls": _}]; no other key is ever
    added. *)
Record usage : Type := mk_usage { tokens : Z; tool_calls : Z }.

Record t : Type := mk {
  aid : Z;
  role : string;
  goal : string;
  backstory : string;
  tools : list string;
  state : AgentState.t;
  current_task_id : option Z;
  resource_usage : usage
}.

Definition init (next_aid : Z) (role goal backstory : string) (tools : list string) : t :=
  mk next_aid role goal backstory tools AgentState.IDLE None (mk_usage 0 0).

Definition update_state (new_state : AgentState.t) (a : t) : t :=
  mk (aid a) (role a) (goal a) (backstory a) (tools a) new_state
     (current_task_id a) (resource_usage a).

Definition set_current_task_id (c : option Z) (a : t) : t :=
  mk (aid a) (role a) (goal a) (backstory a) (tools a) (state a) c (resource_usage a).

Definition set_resource_usage (u : usage) (a : t) : t :=
  mk (aid a) (role a) (goal a) (backstory a) (tools a) (state a)
     (current_task_id a) u.

Definition assign_task (task_id : Z) (a : t) : t :=
  update_state AgentState.ASSIGNED (set_current_task_id (Some task_id) a).

Definition record_usage (usage_type : string) (amount : Z) (a : t) : t :=
  if amount <=? 0 then a
  else if String.eqb usage_type "tokens" then
    set_resource_usage (mk_usage (tokens (resource_usage a) + amount)
                                 (tool_calls (resource_usage a))) a
  else if String.eqb usage_type "tool_calls" then
    set_resource_usage (mk_usage (tokens (resource_usage a))
                                 (tool_calls (resource_usage a) + amount)) a
  else a.
End Agent.

Definition TaskTable := list Task.t.
Definition AgentTable := list Agent.t.

(** ** core/task_manager.py

    The manager's [_tasks] is the crew's task dictionary. *)

Module TaskManager.

Definition get_task (tasks : TaskTable) (tid : Z) : option Task.t :=
  dict_get Task.tid tasks tid.

Definition update_task_state (tid : Z) (new_state : TaskState.t) (tasks : TaskTable)
  : TaskTable :=
  match get_task tasks tid with
  | Some task =>
      if negb (TaskState.eqb (Task.state task) new_state)
      then dict_modify Task.tid tid (Task.update_state new_state) tasks
      else tasks
  | None => tasks
  end.

Definition add_result (tid : Z) (result : string) (tasks : TaskTable) : TaskTable :=
  match get_task tasks tid with
  | Some _ => dict_modify Task.tid tid (Task.add_result result) tasks
  | None => tasks
  end.

(** The f-string appended to [context_parts] for one dependency. *)
Definition context_part (dep_tid : Z) (dep_task : Task.t) (dep_result : string) : string :=
  "--- Output from Task " ++ str_of_int dep_tid ++ " ("
    ++ prefix_of 30 (Task.description dep_task) ++ "...) ---" ++ nl
    ++ dep_result ++ nl ++ "--- End Task " ++ str_of_int dep_tid ++ " ---".

(** The [for dep_tid in task.dependencies] loop of [build_context]: returns
    [context_parts] and [all_deps_completed]; [break] leaves the loop at the
    first dependency that is missing, not COMPLETED or without result. *)
Fixpoint collect_context (tasks : TaskTable) (deps : list Z) (context_parts : list string)
  : list string * bool :=
  match deps with
  | [] => (context_parts, true)
  | dep_tid :: rest =>
      match get_task tasks dep_tid with
      | Some dep_task =>
          if TaskState.eqb (Task.state dep_task) TaskState.COMPLETED then
            match Task.result dep_task with
            | Some r =>
                collect_context tasks rest
                  (context_parts ++ [context_part dep_tid dep_task r])%list
            | None => (context_parts, false)
            end
          else (context_parts, false)
      | None => (context_parts, false)
      end
  end.

(** [build_context(task)], [task] being the object stored under its tid.
    Returns the returned string and the table after [task.add_context]. *)
Definition build_context (tasks : TaskTable) (task : Task.t) : string * TaskTable :=
  match Task.dependencies task with
  | [] => ("", dict_modify Task.tid (Task.tid task) (Task.add_context (Some "")) tasks)
  | _ =>
      let '(context_parts, all_deps_completed) :=
        collect_context tasks (Task.dependencies task) [] in
      if all_deps_completed then
        let full_context := join (nl ++ nl) context_parts in
        (full_context,
         dict_modify Task.tid (Task.tid task) (Task.add_context (Some full_context)) tasks)
      else
        ("", dict_modify Task.tid (Task.tid task) (Task.add_context None) tasks)
  end.

(** The inner [for dep_tid in task.dependencies] loop of
    [check_and_update_task_readiness], with its [break]. *)
Fixpoint deps_met_loop (tasks : TaskTable) (deps : list Z) : bool :=
  match deps with
  | [] => true
  | dep_tid :: rest =>
      match get_task tasks dep_tid with
      | Some dep_task =>
          if negb (TaskState.eqb (Task.state dep_task) TaskState.COMPLETED)
          then false
          else deps_met_loop tasks rest
      | None => false
      end
  end.

(** Body of the outer loop for the task stored under [k]. *)
Definition readiness_step (tasks : TaskTable) (k : Z) : TaskTable :=
  match get_task tasks k with
  | Some task =>
      if TaskState.eqb (Task.state task) TaskState.PENDING then
        let deps_met :=
          match Task.dependencies task with
          | [] => true
          | deps => deps_met_loop tasks deps
          end in
        if deps_met
        then update_task_state (Task.tid task) TaskState.READY tasks
        else tasks
      else tasks
  | None => tasks
  end.

(** [for task in self._tasks.values(): ...]: the objects are visited in
    dictionary order and mutated as the loop goes. *)
Definition check_and_update_task_readiness (tasks : TaskTable) : TaskTable :=
  fold_left readiness_step (dict_keys Task.tid tasks) tasks.

End TaskManager.

(** ** components/crew.py *)

(** The class counters [Agent._next_aid] and [Task._next_tid]. *)
Record IdCounters : Type := mk_counters { next_aid : Z; next_tid : Z }.

Module Crew.
Record t : Type := mk {
  agents : AgentTable;
  tasks : TaskTable;
  process : CrewProcess;
  task_order : list Z
}.

(** [Crew(agents, tasks, process)] *)
Definition init (agents : list Agent.t) (tasks : list Task.t) (process : CrewProcess) : t :=
  mk (dict_of_list Agent.aid agents) (dict_of_list Task.tid tasks) process
     (map Task.tid tasks).

Definition with_agents (a : AgentTable) (c : t) : t :=
  mk a (tasks c) (process c) (task_order c).

Definition with_tasks (ts : TaskTable) (c : t) : t :=
  mk (agents c) ts (process c) (task_order c).

Definition get_agent (c : t) (aid : Z) : option Agent.t := dict_get Agent.aid (agents c) aid.

Definition get_task (c : t) (tid : Z) : option Task.t := dict_get Task.tid (tasks c) tid.

Definition get_tasks_by_state (c : t) (state : TaskState.t) : list Task.t :=
  filter (fun t => TaskState.eqb (Task.state t) state) (tasks c).

Definition get_agents_by_state (c : t) (state : AgentState.t) : list Agent.t :=
  filter (fun a => AgentState.eqb (Agent.state a) state) (agents c).

Definition all_tasks_done (c : t) : bool :=
  forallb (fun t => TaskState.eqb (Task.state t) TaskState.COMPLETED
                    || TaskState.eqb (Task.state t) TaskState.FAILED) (tasks c).

Definition reset_agent (agent : Agent.t) : Agent.t :=
  Agent.set_resource_usage (Agent.mk_usage 0 0)
    (Agent.set_current_task_id None (Agent.update_state AgentState.IDLE agent)).

Definition reset_task (task : Task.t) : Task.t :=
  Task.clear_result (Task.add_context None (Task.update_state TaskState.PENDING task)).

(** [reset_states()]: the class counters go back to 0, the objects stay. *)
Definition reset_states (c : t) (ids : IdCounters) : t * IdCounters :=
  (mk (map reset_agent (agents c)) (map reset_task (tasks c)) (process c) (task_order c),
   mk_counters 0 0).
End Crew.

(** ** core/resource_monitor.py *)

Module ResourceMonitor.
(** One [usage_log] entry: [(usage_type, agent_id, task_id, amount)]. *)
Definition entry : Type := (string * Z * option Z * Z)%type.

Record t : Type := mk {
  total_tokens_used : Z;
  total_tool_calls : Z;
  usage_log : list entry
}.

Definition init : t := mk 0 0 [].

Definition record_usage (usage_type : string) (agent_id : Z) (task_id : option Z)
    (amount : Z) (m : t) : t :=
  if amount <=? 0 then m
  else
    let '(tok, calls) :=
      if String.eqb usage_type "tokens" then (total_tokens_used m + amount, total_tool_calls m)
      else if String.eqb usage_type "tool_calls" then (total_tokens_used m, total_tool_calls m + amount)
      else (total_tokens_used m, total_tool_calls m) in
    mk tok calls (usage_log m ++ [(usage_type, agent_id, task_id, amount)])%list.

(** [get_report()]: [(total_tokens, total_tool_calls)]. *)
Definition get_report (m : t) : Z * Z := (total_tokens_used m, total_tool_calls m).
End ResourceMonitor.

(** ** Values exchanged with the oracle and the tools *)

#[warnings="-register-all"]
(** What [json.loads] produces.  Of a float only its truth value is ever
    inspected by the core. *)
Inductive pyval : Type :=
  | PNone
  | PBool (b : bool)
  | PInt (n : Z)
  | PFloat (nonzero : bool)
  | PStr (s : string)
  | PList (items : list pyval)
  | PDict (items : list (string * pyval)).

(** The exceptions a [try] in the core tells apart: [TypeError] (and its
    subclasses) and any other subclass of [Exception], with [type(e).__name__]
    and [str(e)]. *)
Inductive exn : Type :=
  | TypeError (msg : string)
  | OtherError (type_name msg : string).

Inductive outcome (A : Type) : Type :=
  | Returned (a : A)
  | Raised (e : exn).
Arguments Returned {A} a.
Arguments Raised {A} e.

(** [d.get(k)] on a JSON object, [None] when absent. *)
Definition py_get (k : string) (d : list (string * pyval)) : option pyval :=
  option_map snd (find (fun kv => String.eqb (fst kv) k) d).

(** [bool(v)] *)
Definition truthy (v : pyval) : bool :=
  match v with
  | PNone => false
  | PBool b => b
  | PInt n => negb (n =? 0)
  | PFloat nz => nz
  | PStr s => negb (String.eqb s "")
  | PList l => match l with [] => false | _ => true end
  | PDict d => match d with [] => false | _ => true end
  end.

(** [v == s] for a string [s]. *)
Definition is_str (s : string) (v : pyval) : bool :=
  match v with PStr s' => String.eqb s' s | _ => false end.

(** Lists and dicts cannot be dictionary keys. *)
Definition hashable (v : pyval) : bool :=
  match v with PList _ | PDict _ => false | _ => true end.

(** ** components/tool.py *)

Module Tool.
(** [execute], called with keyword arguments, either returns a string or
    raises.  [signature] is
    what [inspect.signature(tool.execute)] prints. *)
Record t : Type := mk {
  name : string;
  description : string;
  cost : Z;
  execute : list (string * pyval) -> outcome string;
  signature : string
}.
End Tool.

(** [WebSearchTool] *)
Definition WebSearchTool : Tool.t :=
  Tool.mk "web_search"
    "Searches the web for a query. Requires string argument: 'query'."
    5
    (fun kwargs =>
       match py_get "query" kwargs with
       | Some (PStr query) =>
           if negb (String.eqb query "")
           then Returned ("Simulated search results for '" ++ query ++ "': Key AI trends for 2025 include Generative AI advancements in multimodal understanding, increased focus on AI ethics frameworks, and edge AI deployment in IoT devices.")
           else Returned "Error: Missing or invalid string argument 'query' for web_search tool."
       | _ => Returned "Error: Missing or invalid string argument 'query' for web_search tool."
       end)
    "(**kwargs) -> str".

Module ToolRegistry.
(** [_tools]: name -> tool. *)
Definition t : Type := list (string * Tool.t).

Definition get_tool (r : t) (name : string) : option Tool.t :=
  option_map snd (find (fun kv => String.eqb (fst kv) name) r).

Definition register_tool (tool : Tool.t) (r : t) : t :=
  if existsb (fun kv => String.eqb (fst kv) (Tool.name tool)) r
  then map (fun kv => if String.eqb (fst kv) (Tool.name tool)
                      then (Tool.name tool, tool) else kv) r
  else (r ++ [(Tool.name tool, tool)])%list.

(** [ToolRegistry()] *)
Definition empty : t := [].

(** [list_tools()]: the registered names, in registration order. *)
Definition list_tools (r : t) : list string := map fst r.
End ToolRegistry.

(** ** The loaded system

    What [Kernel.load_crew] wires together: the crew (its tables are the
    ones the task manager, the scheduler and the dispatcher hold), the
    scheduler's queue, the resource monitor and the dispatcher's registry. *)

Record World : Type := mk_world {
  crew : Crew.t;
  task_queue : list Z;
  resource_monitor : ResourceMonitor.t;
  tool_registry : ToolRegistry.t
}.

Definition w_tasks (w : World) : TaskTable := Crew.tasks (crew w).
Definition w_agents (w : World) : AgentTable := Crew.agents (crew w).

Definition with_tasks (ts : TaskTable) (w : World) : World :=
  mk_world (Crew.with_tasks ts (crew w)) (task_queue w) (resource_monitor w) (tool_registry w).

Definition with_agents (a : AgentTable) (w : World) : World :=
  mk_world (Crew.with_agents a (crew w)) (task_queue w) (resource_monitor w) (tool_registry w).

Definition with_queue (q : list Z) (w : World) : World :=
  mk_world (crew w) q (resource_monitor w) (tool_registry w).

Definition with_monitor (m : ResourceMonitor.t) (w : World) : World :=
  mk_world (crew w) (task_queue w) m (tool_registry w).

Definition with_crew (c : Crew.t) (w : World) : World :=
  mk_world c (task_queue w) (resource_monitor w) (tool_registry w).

Definition get_task (w : World) (tid : Z) : option Task.t := Crew.get_task (crew w) tid.
Definition get_agent (w : World) (aid : Z) : option Agent.t := Crew.get_agent (crew w) aid.

(** [agents.get(x)] for an [int | None] key: [None] is no key. *)
Definition get_agent_opt (w : World) (aid : option Z) : option Agent.t :=
  match aid with Some a => get_agent w a | None => None end.

Definition modify_task (tid : Z) (f : Task.t -> Task.t) (w : World) : World :=
  with_tasks (dict_modify Task.tid tid f (w_tasks w)) w.

Definition modify_agent (aid : Z) (f : Agent.t -> Agent.t) (w : World) : World :=
  with_agents (dict_modify Agent.aid aid f (w_agents w)) w.

(** ** core/scheduler.py *)

Module AgentScheduler.

(** [AgentScheduler(agents, task_manager, process, task_order).task_queue] *)
Definition init_queue (process : CrewProcess) (task_order : list Z) : list Z :=
  match process with SEQUENTIAL => task_order | HIERARCHICAL => [] end.

Definition get_available_agents (w : World) : list Agent.t :=
  filter (fun a => AgentState.eqb (Agent.state a) AgentState.IDLE) (w_agents w).

Definition assign_task_to_agent (task : Task.t) (agent : Agent.t) (w : World) : World :=
  let w1 := modify_task (Task.tid task) (Task.set_assigned_agent_id (Agent.aid agent)) w in
  let w2 := with_tasks (TaskManager.update_task_state (Task.tid task) TaskState.ASSIGNED
                          (w_tasks w1)) w1 in
  modify_agent (Agent.aid agent) (Agent.assign_task (Task.tid task)) w2.

Definition release_agent (agent_id : Z) (w : World) : World :=
  match get_agent w agent_id with
  | Some agent =>
      if negb (AgentState.eqb (Agent.state agent) AgentState.IDLE)
      then modify_agent agent_id
             (fun a => Agent.set_current_task_id None (Agent.update_state AgentState.IDLE a)) w
      else w
  | None => w
  end.

(** Body of [for task in assigned_tasks], for the task object stored under
    [tid]. *)
Definition promote_step (w : World) (tid : Z) : World :=
  match get_task w tid with
  | Some task =>
      match get_agent_opt w (Task.assigned_agent_id task) with
      | Some agent =>
          if match Agent.current_task_id agent with
             | Some c => c =? Task.tid task
             | None => false
             end && AgentState.eqb (Agent.state agent) AgentState.ASSIGNED
          then
            let w1 := modify_agent (Agent.aid agent)
                        (Agent.update_state AgentState.RUNNING_TASK) w in
            let w2 := with_tasks (TaskManager.update_task_state (Task.tid task)
                                    TaskState.RUNNING (w_tasks w1)) w1 in
            with_tasks (snd (TaskManager.build_context (w_tasks w2) task)) w2
          else w
      | None => w
      end
  | None => w
  end.

(** Part 1 of [schedule_next]: [assigned_tasks] is computed once, before
    the loop. *)
Definition promote_assigned (w : World) : World :=
  let assigned_tasks :=
    filter (fun t => TaskState.eqb (Task.state t) TaskState.ASSIGNED) (w_tasks w) in
  fold_left promote_step (map Task.tid assigned_tasks) w.

Definition popleft (w : World) : World := with_queue (tl (task_queue w)) w.

(** Part 2 of [schedule_next]. *)
Definition assign_head (w : World) : World :=
  match task_queue w with
  | [] => w
  | next_tid_in_queue :: _ =>
      let w := with_tasks (TaskManager.check_and_update_task_readiness (w_tasks w)) w in
      match get_task w next_tid_in_queue with
      | Some task =>
          match Task.state task with
          | TaskState.READY =>
              match get_available_agents w with
              | agent :: _ => assign_task_to_agent task agent (popleft w)
              | [] => w
              end
          | TaskState.PENDING => w
          | TaskState.ASSIGNED | TaskState.RUNNING
          | TaskState.COMPLETED | TaskState.FAILED => popleft w
          | TaskState.WAITING_CONTEXT => w
          end
      | None => popleft w
      end
  end.

Definition schedule_next (w : World) : World :=
  match Crew.process (crew w) with
  | SEQUENTIAL => assign_head (promote_assigned w)
  | HIERARCHICAL => w
  end.

End AgentScheduler.

(** ** core/tool_dispatcher.py and core/kernel.py

    [py_repr] stands for Python's builtin [repr] on the values above; the
    core only ever prints with it. *)

Class PyRuntime : Type := { py_repr : pyval -> string }.

(** [str(v)] *)
Definition py_str `{PyRuntime} (v : pyval) : string :=
  match v with PStr s => s | _ => py_repr v end.

(** [v in l] for [l : list[str]]. *)
Definition py_in_strs (v : pyval) (l : list string) : bool :=
  match v with PStr s => str_in s l | _ => false end.

Module ToolDispatcher.

(** Named parameters of [execute_tool(self, agent, task_id, tool_name,
    **kwargs)].  A keyword argument of one of these names cannot be bound:
    the call raises [TypeError] before the body runs. *)
Definition parameter_names : list string := ["self"; "agent"; "task_id"; "tool_name"].

(** [self.tool_registry.get_tool(tool_name)]; reached only with a name
    found in a list of strings. *)
Definition lookup_tool (r : ToolRegistry.t) (tool_name : pyval) : option Tool.t :=
  match tool_name with PStr s => ToolRegistry.get_tool r s | _ => None end.

(** [execute_tool(agent, task_id, tool_name, **kwargs)] where [agent] is the
    crew's agent object [agent_aid]; the dispatcher's [crew] is the loaded
    one. *)
Definition execute_tool `{PyRuntime} (w : World) (agent_aid : Z) (task_id : option Z)
    (tool_name : pyval) (kwargs : list (string * pyval)) : outcome string * World :=
  match find (fun kv => str_in (fst kv) parameter_names) kwargs with
  | Some (k, _) =>
      (Raised (TypeError ("ToolDispatcher.execute_tool() got multiple values for argument '"
                            ++ k ++ "'")), w)
  | None =>
      match get_agent w agent_aid with
      | None => (Returned ("Error: Agent " ++ str_of_int agent_aid ++ " not found."), w)
      | Some agent_obj =>
          if negb (py_in_strs tool_name (Agent.tools agent_obj)) then
            (Returned ("Error: You are not authorized to use the tool '" ++ py_str tool_name
                         ++ "'. Available tools: "
                         ++ py_repr (PList (map PStr (Agent.tools agent_obj)))), w)
          else
            match lookup_tool (tool_registry w) tool_name with
            | None =>
                (Returned ("Error: Tool '" ++ py_str tool_name
                             ++ "' not found in the system."), w)
            | Some tool =>
                let m := ResourceMonitor.record_usage "tool_calls" agent_aid task_id 1
                           (resource_monitor w) in
                let m := ResourceMonitor.record_usage "tokens" agent_aid task_id
                           (Tool.cost tool) m in
                let w := with_monitor m w in
                let w := modify_agent agent_aid (Agent.record_usage "tool_calls" 1) w in
                let w := modify_agent agent_aid
                           (Agent.record_usage "tokens" (Tool.cost tool)) w in
                match Tool.execute tool kwargs with
                | Returned result => (Returned result, w)
                | Raised (TypeError e) =>
                    (Returned ("Error: Tool '" ++ py_str tool_name
                                 ++ "' failed. Incorrect arguments provided. Expected arguments: "
                                 ++ Tool.signature tool ++ ". Error: " ++ e), w)
                | Raised (OtherError type_name e) =>
                    (Returned ("Error executing tool '" ++ py_str tool_name ++ "': "
                                 ++ type_name ++ " - " ++ e), w)
                end
            end
      end
  end.

End ToolDispatcher.

(** The decision oracle ([_build_llm_prompt] followed by [ollama.chat] and
    [json.loads]): from the agent, the task and the tool results of this
    work step to the parsed response, [None] when the call or the parsing
    failed. *)
Definition Oracle : Type := Agent.t -> Task.t -> list (pyval * string) -> option pyval.

Module Kernel.

Record t : Type := mk {
  loaded : option World;
  tick_count : Z;
  running : bool
}.

(** [Kernel()] *)
Definition init : t := mk None 0 false.

(** [load_crew(crew)]; [registry] is [default_tool_registry]. *)
Definition load_world (registry : ToolRegistry.t) (c : Crew.t) : World :=
  mk_world c (AgentScheduler.init_queue (Crew.process c) (Crew.task_order c))
           ResourceMonitor.init registry.

Definition load_crew (registry : ToolRegistry.t) (c : Crew.t) (k : t) : t :=
  mk (Some (load_world registry c)) 0 false.

(** The accounting [_call_ollama] does before it consults the oracle. *)
Definition call_cost : Z := 100.

Definition charge_call (agent_aid task_tid : Z) (w : World) : World :=
  let w := with_monitor (ResourceMonitor.record_usage "tokens" agent_aid (Some task_tid)
                           call_cost (resource_monitor w)) w in
  modify_agent agent_aid (Agent.record_usage "tokens" call_cost) w.

(** [isinstance(llm_response, dict) and "action" in llm_response] *)
Definition valid_action (llm_response : option pyval) : option (list (string * pyval)) :=
  match llm_response with
  | Some (PDict d) =>
      match py_get "action" d with Some _ => Some d | None => None end
  | _ => None
  end.

(** [llm_response.get(k)], JSON [null] and absence both giving [None]. *)
Definition response_get (k : string) (d : list (string * pyval)) : pyval :=
  match py_get k d with Some v => v | None => PNone end.

(** The final-answer part of [_simulate_agent_work], on the response [d]
    last received. *)
Definition conclude `{PyRuntime} (agent : Agent.t) (task : Task.t) (d : list (string * pyval))
    (w : World) : outcome bool * World :=
  let action := response_get "action" d in
  if is_str "final_answer" action then
    match response_get "content" d with
    | PNone =>
        (Returned false,
         modify_agent (Agent.aid agent) (Agent.update_state AgentState.RUNNING_TASK) w)
    | final_content =>
        let w := with_tasks (TaskManager.add_result (Task.tid task) (py_str final_content)
                               (w_tasks w)) w in
        let w := with_tasks (TaskManager.update_task_state (Task.tid task)
                               TaskState.COMPLETED (w_tasks w)) w in
        let w := AgentScheduler.release_agent (Agent.aid agent) w in
        let w := with_tasks (TaskManager.check_and_update_task_readiness (w_tasks w)) w in
        (Returned true, w)
    end
  else
    (Returned false,
     modify_agent (Agent.aid agent) (Agent.update_state AgentState.RUNNING_TASK) w).

(** [_simulate_agent_work(agent, task)], the two objects being the ones
    stored under their ids. *)
Definition simulate_agent_work `{PyRuntime} (oracle : Oracle) (agent : Agent.t) (task : Task.t)
    (w : World) : outcome bool * World :=
  let w := charge_call (Agent.aid agent) (Task.tid task) w in
  match valid_action (oracle agent task []) with
  | None => (Returned false, w)
  | Some d =>
      if is_str "use_tool" (response_get "action" d) then
        let tool_name := response_get "tool_name" d in
        let tool_args_dict :=
          match py_get "arguments" d with Some v => v | None => PDict [] end in
        match tool_args_dict with
        | PDict kwargs =>
            if negb (truthy tool_name) then (Returned false, w)
            else
              let w := modify_agent (Agent.aid agent)
                         (Agent.update_state AgentState.USING_TOOL) w in
              match ToolDispatcher.execute_tool w (Agent.aid agent) (Some (Task.tid task))
                      tool_name kwargs with
              | (Raised e, w) => (Raised e, w)
              | (Returned tool_result, w) =>
                  (* current_tool_results[tool_name] = str(tool_result) *)
                  if negb (hashable tool_name)
                  then (Raised (TypeError "unhashable type"), w)
                  else
                    let w := charge_call (Agent.aid agent) (Task.tid task) w in
                    match valid_action (oracle agent task [(tool_name, tool_result)]) with
                    | None =>
                        (Returned false,
                         modify_agent (Agent.aid agent)
                           (Agent.update_state AgentState.RUNNING_TASK) w)
                    | Some d2 => conclude agent task d2 w
                    end
              end
        | _ => (Returned false, w)
        end
      else conclude agent task d w
  end.

(** Body of [for task in running_tasks] in [tick], for the task object
    stored under [tid]. *)
Definition work_on `{PyRuntime} (oracle : Oracle) (w : World) (tid : Z) : outcome unit * World :=
  match get_task w tid with
  | Some task =>
      if negb (TaskState.eqb (Task.state task) TaskState.RUNNING) then (Returned tt, w)
      else
        match get_agent_opt w (Task.assigned_agent_id task) with
        | Some agent =>
            if AgentState.eqb (Agent.state agent) AgentState.RUNNING_TASK then
              match simulate_agent_work oracle agent task w with
              | (Returned _, w') => (Returned tt, w')
              | (Raised e, w') => (Raised e, w')
              end
            else (Returned tt, w)
        | None => (Returned tt, w)
        end
  | None => (Returned tt, w)
  end.

(** The loop over the snapshot [running_tasks]; an exception leaves it. *)
Fixpoint work_loop `{PyRuntime} (oracle : Oracle) (tids : list Z) (w : World) : outcome unit * World :=
  match tids with
  | [] => (Returned tt, w)
  | tid :: rest =>
      match work_on oracle w tid with
      | (Returned _, w') => work_loop oracle rest w'
      | (Raised e, w') => (Raised e, w')
      end
  end.

(** What one running tick does to the loaded system. *)
Definition tick_world `{PyRuntime} (oracle : Oracle) (w : World) : outcome unit * World :=
  let w := AgentScheduler.schedule_next w in
  let running_tasks := Crew.get_tasks_by_state (crew w) TaskState.RUNNING in
  work_loop oracle (map Task.tid running_tasks) w.

(** [tick()].  The kernel's [crew], [scheduler], [task_manager] and
    [tool_dispatcher] are set together by [load_crew]. *)
Definition tick `{PyRuntime} (oracle : Oracle) (k : t) : outcome bool * t :=
  match loaded k with
  | None => (Returned false, k)
  | Some w =>
      if negb (running k) then (Returned false, k)
      else
        let tick_count := tick_count k + 1 in
        match tick_world oracle w with
        | (Raised e, w') => (Raised e, mk (Some w') tick_count (running k))
        | (Returned _, w') =>
            if Crew.all_tasks_done (crew w')
            then (Returned false, mk (Some w') tick_count false)
            else (Returned true, mk (Some w') tick_count (running k))
        end
  end.

(** The [while self.tick_count < max_ticks] loop of [run]; [oracles n] is the
    oracle met by the tick that starts at tick count [n].  Every turn that
    goes on raises the tick count, so [fuel] turns are enough once [fuel]
    reaches [max_ticks - tick_count]. *)
Fixpoint run_loop `{PyRuntime} (oracles : Z -> Oracle) (fuel : nat) (max_ticks : Z) (k : t)
  : outcome unit * t :=
  match fuel with
  | O => (Returned tt, k)
  | S fuel' =>
      if tick_count k <? max_ticks then
        match tick (oracles (tick_count k)) k with
        | (Returned true, k') => run_loop oracles fuel' max_ticks k'
        | (Returned false, k') => (Returned tt, k')
        | (Raised e, k') => (Raised e, k')
        end
      else (Returned tt, k)
  end.

(** [run(max_ticks, delay)]: the pauses are left out; the [finally] block
    clears the running flag whether the loop ended or a tick raised. *)
Definition run `{PyRuntime} (oracles : Z -> Oracle) (max_ticks : Z) (k : t)
  : outcome unit * t :=
  match loaded k with
  | None => (Returned tt, k)
  | Some _ =>
      let '(r, k') :=
        run_loop oracles (Z.to_nat (max_ticks - tick_count k)) max_ticks
          (mk (loaded k) (tick_count k) true) in
      (r, mk (loaded k') (tick_count k') false)
  end.
End Kernel.

(** ** Operations of the core, as a driver may issue them *)

Inductive core_op : Type :=
  | OpReadiness
  | OpSchedule
  | OpWork (oracle : Oracle) (tid : Z)
  | OpTick (oracle : Oracle)
  | OpRelease (agent_id : Z)
  | OpUpdateState (tid : Z) (new_state : TaskState.t).

Definition apply_op `{PyRuntime} (op : core_op) (w : World) : World :=
  match op with
  | OpReadiness => with_tasks (TaskManager.check_and_update_task_readiness (w_tasks w)) w
  | OpSchedule => AgentScheduler.schedule_next w
  | OpWork oracle tid => snd (Kernel.work_on oracle w tid)
  | OpTick oracle => snd (Kernel.tick_world oracle w)
  | OpRelease agent_id => AgentScheduler.release_agent agent_id w
  | OpUpdateState tid new_state =>
      with_tasks (TaskManager.update_task_state tid new_state (w_tasks w)) w
  end.

Definition run_ops `{PyRuntime} (ops : list core_op) (w : World) : World :=
  fold_left (fun w op => apply_op op w) ops w.

(** ** The sample declaration of [interfaces/shell.py] *)

Module Sample.
Definition researcher : Agent.t :=
  Agent.init 0 "Market Researcher"
    "Find and summarize key AI market trends projected for 2025."
    "An expert analyst skilled in web research and data synthesis. Prefers concise summaries."
    ["web_search"].

Definition calculator_agent : Agent.t :=
  Agent.init 1 "Calculation Assistant"
    "Perform simple calculations based on provided data."
    "A straightforward assistant focused on numerical accuracy."
    ["calculator"].

Definition writer : Agent.t :=
  Agent.init 2 "Content Writer"
    "Write a brief 2-paragraph report based on research findings and calculations."
    "A skilled writer who synthesizes information clearly into reports."
    [].

Definition task1 : Task.t :=
  Task.init 0
    "Research AI market trends for 2025 using web search. Focus on 2-3 key trends."
    "A bulleted list summarizing the key AI trends found."
    (Some 0) [].

Definition task2 : Task.t :=
  Task.init 1
    "Calculate the potential market size increase if AI adoption grows by 15% from a base of $100 Billion. Use the calculator tool with the expression '100 * 1.15'."
    "A single number representing the calculated market size in billions."
    (Some 1) [].

Definition task3 : Task.t :=
  Task.init 2
    "Write a 2-paragraph report summarizing the AI trends from Task 0 and including the market size calculation from Task 1."
    "A formatted text report incorporating information from task dependencies."
    (Some 2) [0; 1].

Definition crew : Crew.t :=
  Crew.init [researcher; calculator_agent; writer] [task1; task2; task3] SEQUENTIAL.

(** The sample's task table once tasks 1 and 0 have completed, in that
    order, with results ["115"] and ["trends"]. *)
Definition tasks_after_two : TaskTable :=
  TaskManager.update_task_state 0 TaskState.COMPLETED
    (TaskManager.add_result 0 "trends"
       (TaskManager.update_task_state 1 TaskState.COMPLETED
          (TaskManager.add_result 1 "115" (Crew.tasks crew)))).
End Sample.

(** ** Vocabulary of the statements *)

(** Dependency [d] is COMPLETED with result [r], [dt] being its task. *)
Definition dep_completed (tasks : TaskTable) (d : Z) (dt : Task.t) (r : string) : Prop :=
  TaskManager.get_task tasks d = Some dt
  /\ Task.state dt = TaskState.COMPLETED /\ Task.result dt = Some r.

Definition dep_ready (tasks : TaskTable) (d : Z) : Prop :=
  exists dt r, dep_completed tasks d dt r.






(** What a readiness pass over [tasks] makes of the task [t]. *)
Definition readiness_of (tasks : TaskTable) (t : Task.t) : Task.t :=
  if TaskState.eqb (Task.state t) TaskState.PENDING
     && TaskManager.deps_met_loop tasks (Task.dependencies t)
  then Task.update_state TaskState.READY t
  else t.

(** The task stored under [k] is COMPLETED. *)
Definition completed (tasks : TaskTable) (k : Z) : bool :=
  match TaskManager.get_task tasks k with
  | Some t => TaskState.eqb (Task.state t) TaskState.COMPLETED
  | None => false
  end.

(** The context [build_context] computes for [t] over [tasks]. *)
Definition context_for (tasks : TaskTable) (t : Task.t) : option string :=
  let '(context_parts, all_deps_completed) :=
    TaskManager.collect_context tasks (Task.dependencies t) [] in
  if all_deps_completed then Some (join (nl ++ nl) context_parts) else None.

(** The agent bound to [task], when it is still ASSIGNED to exactly that
    task. *)
Definition confirming_agent (w : World) (task : Task.t) : option Agent.t :=
  match get_agent_opt w (Task.assigned_agent_id task) with
  | Some agent =>
      if match Agent.current_task_id agent with
         | Some c => c =? Task.tid task
         | None => false
         end && AgentState.eqb (Agent.state agent) AgentState.ASSIGNED
      then Some agent else None
  | None => None
  end.


(** What the promotion phase makes of a task and of an agent. *)
Definition promote_task (w : World) (t : Task.t) : Task.t :=
  if TaskState.eqb (Task.state t) TaskState.ASSIGNED then
    match confirming_agent w t with
    | Some _ =>
        Task.add_context (context_for (w_tasks w) t) (Task.update_state TaskState.RUNNING t)
    | None => t
    end
  else t.

Definition promote_agent (w : World) (a : Agent.t) : Agent.t :=
  if AgentState.eqb (Agent.state a) AgentState.ASSIGNED then
    match Agent.current_task_id a with
    | Some c =>
        match get_task w c with
        | Some t =>
            if TaskState.eqb (Task.state t) TaskState.ASSIGNED
               && match Task.assigned_agent_id t with
                  | Some x => x =? Agent.aid a
                  | None => false
                  end
            then Agent.update_state AgentState.RUNNING_TASK a
            else a
        | None => a
        end
    | None => a
    end
  else a.

(** [k in done] *)
Definition z_in (k : Z) (done : list Z) : bool := existsb (Z.eqb k) done.

(** The system once the promotion loop has visited the tasks [done]. *)
Definition promoted_upto (done : list Z) (w : World) : World :=
  with_agents
    (map (fun a => match Agent.current_task_id a with
                   | Some c => if z_in c done then promote_agent w a else a
                   | None => a
                   end) (w_agents w))
    (with_tasks
       (map (fun t => if z_in (Task.tid t) done then promote_task w t else t) (w_tasks w))
       w).

(** The first IDLE agent, in the order of the agent table. *)
Definition first_idle (w : World) : option Agent.t :=
  find (fun a => AgentState.eqb (Agent.state a) AgentState.IDLE) (w_agents w).



(** Well-formed tables: ids are dictionary keys. *)
Definition wf_world (w : World) : Prop :=
  dict_wf Task.tid (w_tasks w) /\ dict_wf Agent.aid (w_agents w).

(** The system after the promotion phase of a pass, and the task table
    after the readiness recompute that follows it. *)
Definition after_promotion (w : World) : World :=
  with_agents (map (promote_agent w) (w_agents w))
    (with_tasks (map (promote_task w) (w_tasks w)) w).

Definition recomputed_task (w : World) (t : Task.t) : Task.t :=
  readiness_of (w_tasks w) (promote_task w t).

Definition after_recompute (w : World) : World :=
  with_agents (map (promote_agent w) (w_agents w))
    (with_tasks (map (recomputed_task w) (w_tasks w)) w).

(** The sample crew loaded into a kernel whose registry holds the web
    search tool. *)
Definition sample_registry : ToolRegistry.t :=
  ToolRegistry.register_tool WebSearchTool [].

Definition sample_world : World := Kernel.load_world sample_registry Sample.crew.

(** A stand-in for [repr], enough to run the examples. *)
Definition sample_runtime : PyRuntime :=
  {| py_repr := fun v => match v with PStr s => "'" ++ s ++ "'" | _ => "<value>" end |}.

(** ** Vocabulary of the accounting statements *)

(** Between [w] and [w'] exactly one [tool_calls] unit and [cost] tokens
    were recorded for agent [aid] and task [task_id], in the ledger and in
    the agent's own counters. *)
Definition charged (cost : Z) (aid : Z) (task_id : option Z) (w w' : World) : Prop :=
  ResourceMonitor.total_tool_calls (resource_monitor w')
    = ResourceMonitor.total_tool_calls (resource_monitor w) + 1
  /\ ResourceMonitor.total_tokens_used (resource_monitor w')
     = ResourceMonitor.total_tokens_used (resource_monitor w) + cost
  /\ ResourceMonitor.usage_log (resource_monitor w')
     = (ResourceMonitor.usage_log (resource_monitor w)
        ++ ("tool_calls", aid, task_id, 1)
           :: (if 0 <? cost then [("tokens", aid, task_id, cost)] else []))%list
  /\ exists a a', get_agent w aid = Some a /\ get_agent w' aid = Some a'
       /\ Agent.tool_calls (Agent.resource_usage a')
          = Agent.tool_calls (Agent.resource_usage a) + 1
       /\ Agent.tokens (Agent.resource_usage a')
          = Agent.tokens (Agent.resource_usage a) + cost.

(** The keyword arguments can be bound next to the named parameters. *)
Definition binds (kwargs : list (string * pyval)) : Prop :=
  forall k v, In (k, v) kwargs -> ~ In k ToolDispatcher.parameter_names.

(** ** Vocabulary of the reset statement *)

(** The tids a readiness pass over [tasks] leaves READY, in table order. *)
Definition ready_set (tasks : TaskTable) : list Z :=
  map Task.tid
    (filter (fun t => TaskState.eqb (Task.state t) TaskState.READY)
       (TaskManager.check_and_update_task_readiness tasks)).

(** [t0] is a freshly constructed task with the id and declaration of [t]. *)
Definition fresh_task_of (t t0 : Task.t) : Prop :=
  Task.tid t0 = Task.tid t
  /\ Task.description t0 = Task.description t
  /\ Task.expected_output t0 = Task.expected_output t
  /\ Task.dependencies t0 = Task.dependencies t
  /\ Task.state t0 = TaskState.PENDING
  /\ Task.context t0 = None /\ Task.result t0 = None.

(** [a'] is [a] back in its initial state, [t'] is [t] back in its. *)
Definition agent_reset (a a' : Agent.t) : Prop :=
  Agent.aid a' = Agent.aid a /\ Agent.role a' = Agent.role a
  /\ Agent.goal a' = Agent.goal a /\ Agent.backstory a' = Agent.backstory a
  /\ Agent.tools a' = Agent.tools a
  /\ Agent.state a' = AgentState.IDLE /\ Agent.current_task_id a' = None
  /\ Agent.resource_usage a' = Agent.mk_usage 0 0.

Definition task_reset (t t' : Task.t) : Prop :=
  Task.tid t' = Task.tid t /\ Task.description t' = Task.description t
  /\ Task.expected_output t' = Task.expected_output t
  /\ Task.dependencies t' = Task.dependencies t
  /\ Task.state t' = TaskState.PENDING
  /\ Task.context t' = None /\ Task.result t' = None.

(** The sample crew in the middle of a run: task 0 completed, task 1
    running on agent 1. *)
Definition sample_midrun : Crew.t :=
  Crew.mk
    [Sample.researcher;
     Agent.record_usage "tokens" 100
       (Agent.update_state AgentState.RUNNING_TASK
          (Agent.assign_task 1 Sample.calculator_agent));
     Sample.writer]
    [Task.add_result "trends"
       (Task.add_context (Some "") (Task.update_state TaskState.COMPLETED Sample.task1));
     Task.add_context (Some "") (Task.update_state TaskState.RUNNING Sample.task2);
     Sample.task3]
    SEQUENTIAL [0; 1; 2].

(** A kernel holding the loaded sample, not started. *)
Definition sample_kernel : Kernel.t := Kernel.load_crew sample_registry Sample.crew Kernel.init.

(** An oracle that answers every consultation with a final answer. *)
Definition final_answer_oracle : Oracle :=
  fun _ _ _ => Some (PDict [("action", PStr "final_answer"); ("content", PStr "done")]).

(** ** Vocabulary of the work-step statements *)

(** The responses the core takes for no decision: not a dict (or no
    response at all), no [action] field, an unrecognized action, [use_tool]
    without a tool name or with arguments that are not a dict,
    [final_answer] without content. *)
Inductive invalid_decision : option pyval -> Prop :=
  | invalid_not_dict r :
      (forall d, r <> Some (PDict d)) -> invalid_decision r
  | invalid_no_action d :
      py_get "action" d = None -> invalid_decision (Some (PDict d))
  | invalid_unrecognized d action :
      py_get "action" d = Some action ->
      is_str "use_tool" action = false -> is_str "final_answer" action = false ->
      invalid_decision (Some (PDict d))
  | invalid_no_tool_name d :
      py_get "action" d = Some (PStr "use_tool") ->
      truthy (Kernel.response_get "tool_name" d) = false ->
      invalid_decision (Some (PDict d))
  | invalid_arguments d v :
      py_get "action" d = Some (PStr "use_tool") ->
      py_get "arguments" d = Some v -> (forall kwargs, v <> PDict kwargs) ->
      invalid_decision (Some (PDict d))
  | invalid_no_content d :
      py_get "action" d = Some (PStr "final_answer") ->
      Kernel.response_get "content" d = PNone ->
      invalid_decision (Some (PDict d)).

(** A well-formed [use_tool] decision: tool name [tool_name], keyword
    arguments [kwargs]. *)
Definition use_tool_decision (r : option pyval) (tool_name : pyval)
    (kwargs : list (string * pyval)) : Prop :=
  exists d, r = Some (PDict d)
    /\ py_get "action" d = Some (PStr "use_tool")
    /\ Kernel.response_get "tool_name" d = tool_name
    /\ truthy tool_name = true
    /\ (py_get "arguments" d = Some (PDict kwargs)
        \/ (py_get "arguments" d = None /\ kwargs = [])).

(** The work step did not complete and left the task table, the queue and
    the agent's hold on its task as they were, the agent in RUNNING_TASK. *)
Definition retried (agent : Agent.t) (w : World) (res : outcome bool * World) : Prop :=
  fst res = Returned false
  /\ w_tasks (snd res) = w_tasks w
  /\ task_queue (snd res) = task_queue w
  /\ exists a', get_agent (snd res) (Agent.aid agent) = Some a'
       /\ Agent.state a' = AgentState.RUNNING_TASK
       /\ Agent.current_task_id a' = Agent.current_task_id agent.

(** An oracle that never produces a usable response. *)
Definition silent_oracle : Oracle := fun _ _ _ => None.

(** The sample with task 0 RUNNING on the researcher: two passes after the
    load. *)
Definition sample_running : World :=
  AgentScheduler.schedule_next (AgentScheduler.schedule_next sample_world).

(** ** Vocabulary of the run-time invariants *)

(** ASSIGNED or RUNNING. *)
Definition active (t : Task.t) : bool :=
  TaskState.eqb (Task.state t) TaskState.ASSIGNED
  || TaskState.eqb (Task.state t) TaskState.RUNNING.

(** Neither PENDING nor READY. *)
Definition settled (t : Task.t) : Prop :=
  Task.state t <> TaskState.PENDING /\ Task.state t <> TaskState.READY.

(** The ASSIGNED or RUNNING tasks whose [assigned_agent_id] is [aid]. *)
Definition bookings (w : World) (aid : Z) : list Task.t :=
  filter (fun t => active t
                   && match Task.assigned_agent_id t with
                      | Some x => x =? aid
                      | None => false
                      end) (w_tasks w).

Definition no_double_booking (w : World) : Prop :=
  forall aid, (List.length (bookings w aid) <= 1)%nat.

(** The [current_task_id] of every agent names at most one task. *)
Definition holds_at_most_one (w : World) : Prop :=
  forall a c, In a (w_agents w) -> Agent.current_task_id a = Some c ->
    (List.length (filter (fun t => (Task.tid t =? c)%Z) (w_tasks w)) <= 1)%nat.

(** A load of freshly constructed agents and tasks. *)
Definition freshly_loaded (w : World) : Prop :=
  exists registry agents tasks process,
    Forall (fun a => Agent.state a = AgentState.IDLE
                     /\ Agent.current_task_id a = None) agents
    /\ Forall (fun t => Task.state t = TaskState.PENDING) tasks
    /\ w = Kernel.load_world registry (Crew.init agents tasks process).

(** States reached from [w0] by operations [allowed] where they are
    applied. *)
Inductive reachable `{PyRuntime} (allowed : World -> core_op -> Prop) (w0 : World)
  : World -> Prop :=
  | reach_start : reachable allowed w0 w0
  | reach_step w op :
      reachable allowed w0 w -> allowed w op -> reachable allowed w0 (apply_op op w).

(** Scheduling passes, work steps and agent release, unrestricted. *)
Definition pass_work_release (w : World) (op : core_op) : Prop :=
  match op with
  | OpSchedule | OpWork _ _ | OpRelease _ => True
  | _ => False
  end.

(** Readiness and scheduling passes, work steps, ticks, and the release of
    an agent to which no ASSIGNED or RUNNING task is bound. *)
Definition release_when_unbooked (w : World) (op : core_op) : Prop :=
  match op with
  | OpRelease agent_id => bookings w agent_id = []
  | OpUpdateState _ _ => False
  | _ => True
  end.

(** Every operation but a state update to PENDING or READY. *)
Definition no_update_back (op : core_op) : Prop :=
  match op with
  | OpUpdateState _ new_state =>
      new_state <> TaskState.PENDING /\ new_state <> TaskState.READY
  | _ => True
  end.

Definition option_rel {A : Type} (R : A -> A -> Prop) (x y : option A) : Prop :=
  match x, y with
  | Some a, Some b => R a b
  | None, None => True
  | _, _ => False
  end.

(** How an operation that neither binds nor releases may change a task and
    an agent. *)
Definition task_rel (t t' : Task.t) : Prop :=
  Task.tid t' = Task.tid t
  /\ Task.assigned_agent_id t' = Task.assigned_agent_id t
  /\ (active t' = true -> active t = true)
  /\ (settled t -> settled t').

Definition agent_rel (a a' : Agent.t) : Prop :=
  Agent.aid a' = Agent.aid a
  /\ Agent.current_task_id a' = Agent.current_task_id a
  /\ (Agent.state a <> AgentState.IDLE -> Agent.state a' <> AgentState.IDLE).

Definition evolves (w w' : World) : Prop :=
  dict_keys Task.tid (w_tasks w') = dict_keys Task.tid (w_tasks w)
  /\ dict_keys Agent.aid (w_agents w') = dict_keys Agent.aid (w_agents w)
  /\ (forall k, option_rel task_rel (get_task w k) (get_task w' k))
  /\ (forall i, option_rel agent_rel (get_agent w i) (get_agent w' i)).

(** Settled tasks stay settled. *)
Definition settles (w w' : World) : Prop :=
  forall k, option_rel (fun t t' => settled t -> settled t') (get_task w k) (get_task w' k).

(** Every ASSIGNED or RUNNING task is the current task of the agent it is
    bound to, and that agent is not IDLE. *)
Definition bound_consistent (w : World) : Prop :=
  forall k t a, get_task w k = Some t -> active t = true ->
    Task.assigned_agent_id t = Some a ->
    exists ag, get_agent w a = Some ag
               /\ Agent.current_task_id ag = Some k
               /\ Agent.state ag <> AgentState.IDLE.

Definition good_world (w : World) : Prop := wf_world w /\ bound_consistent w.

(** One agent, two independent tasks. *)
Definition solo_world : World :=
  Kernel.load_world []
    (Crew.init [Agent.init 0 "Worker" "Do the work." "A worker." []]
               [Task.init 0 "First task" "A result." None [];
                Task.init 1 "Second task" "A result." None []]
               SEQUENTIAL).

(** The completion a final answer triggers in [_simulate_agent_work]:
    result, COMPLETED, release of the agent, readiness pass. *)
Definition finished (agent_aid task_tid : Z) (content : string) (w : World) : World :=
  let w := with_tasks (TaskManager.add_result task_tid content (w_tasks w)) w in
  let w := with_tasks (TaskManager.update_task_state task_tid TaskState.COMPLETED
                         (w_tasks w)) w in
  let w := AgentScheduler.release_agent agent_aid w in
  with_tasks (TaskManager.check_and_update_task_readiness (w_tasks w)) w.

(** A change that leaves the task table alone. *)
Definition prework (w w' : World) : Prop := evolves w w' /\ w_tasks w' = w_tasks w.

(** No ASSIGNED or RUNNING task is bound to agent [i]. *)
Definition unbooked (w : World) (i : Z) : Prop :=
  forall k t, get_task w k = Some t -> active t = true ->
    Task.assigned_agent_id t <> Some i.

(** The one-agent world after two passes, a release of the busy agent and
    a third pass. *)
Definition solo_double_booked : World :=
  @run_ops sample_runtime [OpSchedule; OpSchedule; OpRelease 0; OpSchedule] solo_world.

(** The sample after two passes and a work step that completes task 0. *)
Definition sample_completed : World :=
  @run_ops sample_runtime [OpSchedule; OpSchedule; OpWork final_answer_oracle 0]
    sample_world.

(** ** Vocabulary of the further properties *)

(** The amounts logged under [kind], summed. *)
Definition logged (kind : string) (log : list ResourceMonitor.entry) : Z :=
  fold_right (fun e acc =>
                match e with
                | (usage_type, _, _, amount) =>
                    if String.eqb usage_type kind then amount + acc else acc
                end) 0 log.

(** One [record_usage] call: [(usage_type, agent_id, task_id, amount)]. *)
Definition record_call (m : ResourceMonitor.t) (c : ResourceMonitor.entry)
  : ResourceMonitor.t :=
  match c with
  | (usage_type, agent_id, task_id, amount) =>
      ResourceMonitor.record_usage usage_type agent_id task_id amount m
  end.

(** The totals are the sums of the log, and every logged amount is
    positive. *)
Definition ledger_consistent (m : ResourceMonitor.t) : Prop :=
  ResourceMonitor.total_tokens_used m = logged "tokens" (ResourceMonitor.usage_log m)
  /\ ResourceMonitor.total_tool_calls m = logged "tool_calls" (ResourceMonitor.usage_log m)
  /\ Forall (fun e => 0 < snd e) (ResourceMonitor.usage_log m).

(** Registry entries are filed under their tool's name, each name once. *)
Definition registry_wf (r : ToolRegistry.t) : Prop :=
  NoDup (ToolRegistry.list_tools r)
  /\ Forall (fun kv => fst kv = Tool.name (snd kv)) r.

(** [l'] is what is left of [l] after some entries were taken from its
    front. *)
Definition is_suffix {A : Type} (l' l : list A) : Prop := exists front, l = (front ++ l')%list.

(** The declared part of a task and of an agent. *)
Definition same_task_declaration (t t' : Task.t) : Prop :=
  Task.tid t' = Task.tid t /\ Task.description t' = Task.description t
  /\ Task.expected_output t' = Task.expected_output t
  /\ Task.dependencies t' = Task.dependencies t.

Definition same_agent_declaration (a a' : Agent.t) : Prop :=
  Agent.aid a' = Agent.aid a /\ Agent.role a' = Agent.role a
  /\ Agent.goal a' = Agent.goal a /\ Agent.backstory a' = Agent.backstory a
  /\ Agent.tools a' = Agent.tools a.

(** The same tasks and agents, in the same order, with the same
    declarations; the same process, declared order and registry. *)
Definition same_declarations (w w' : World) : Prop :=
  Forall2 same_task_declaration (w_tasks w) (w_tasks w')
  /\ Forall2 same_agent_declaration (w_agents w) (w_agents w')
  /\ Crew.process (crew w') = Crew.process (crew w)
  /\ Crew.task_order (crew w') = Crew.task_order (crew w)
  /\ tool_registry w' = tool_registry w.

(** No task is ASSIGNED or RUNNING. *)
Definition nothing_in_flight (w : World) : Prop :=
  Forall (fun t => active t = false) (w_tasks w).

(** The agents' own counters, summed. *)
Definition agents_tokens (agents : AgentTable) : Z :=
  fold_right (fun a acc => Agent.tokens (Agent.resource_usage a) + acc) 0 agents.

Definition agents_tool_calls (agents : AgentTable) : Z :=
  fold_right (fun a acc => Agent.tool_calls (Agent.resource_usage a) + acc) 0 agents.

(** The ledger is consistent and its totals are those of the agents'
    counters. *)
Definition accounts_agree (w : World) : Prop :=
  ledger_consistent (resource_monitor w)
  /\ ResourceMonitor.total_tokens_used (resource_monitor w) = agents_tokens (w_agents w)
  /\ ResourceMonitor.total_tool_calls (resource_monitor w) = agents_tool_calls (w_agents w).

(** A load of agents whose counters are at zero. *)
Definition loaded_at_zero (w : World) : Prop :=
  exists registry c,
    Forall (fun a => Agent.resource_usage a = Agent.mk_usage 0 0) (Crew.agents c)
    /\ dict_wf Agent.aid (Crew.agents c)
    /\ w = Kernel.load_world registry c.

(** The ledger [m'] is [m] after some further [record_usage] calls. *)
Definition ledger_extends (m m' : ResourceMonitor.t) : Prop :=
  exists calls, m' = fold_left record_call calls m.

(** The elementary changes the core makes to the loaded system: a change of
    an agent that keeps its declaration and counters, a change of tasks that
    keeps their declarations, the loss of the queue head, and a charge
    recorded in the ledger and in the counters of an agent of the crew. *)
Inductive steady : World -> World -> Prop :=
  | steady_refl w : steady w w
  | steady_trans w1 w2 w3 : steady w1 w2 -> steady w2 w3 -> steady w1 w3
  | steady_agent w i f :
      (forall a, same_agent_declaration a (f a)
                 /\ Agent.resource_usage (f a) = Agent.resource_usage a) ->
      steady w (modify_agent i f w)
  | steady_tasks w T' :
      Forall2 same_task_declaration (w_tasks w) T' -> steady w (with_tasks T' w)
  | steady_pop w : steady w (AgentScheduler.popleft w)
  | steady_charge w aid task_id kind n :
      get_agent w aid <> None ->
      steady w (modify_agent aid (Agent.record_usage kind n)
                  (with_monitor (ResourceMonitor.record_usage kind aid task_id n
                                   (resource_monitor w)) w)).

(** [sum(g(v) for v in d)] *)
Definition sum_of {V : Type} (g : V -> Z) (d : list V) : Z :=
  fold_right (fun v acc => g v + acc) 0 d.

(** What the completion of task [done] makes of another task [t] of the
    table [tasks]: READY when [t] was PENDING and each of its dependencies is
    [done] or was COMPLETED already. *)
Definition readied_by (done : Z) (tasks : TaskTable) (t : Task.t) : Task.t :=
  if TaskState.eqb (Task.state t) TaskState.PENDING
     && forallb (fun d => (d =? done) || completed tasks d) (Task.dependencies t)
  then Task.update_state TaskState.READY t
  else t.

(** The response [r] is a final answer with content [c]. *)
Definition final_decision (r : option pyval) (c : pyval) : Prop :=
  exists d, r = Some (PDict d)
    /\ py_get "action" d = Some (PStr "final_answer")
    /\ py_get "content" d = Some c /\ c <> PNone.

(** [n] ticks in a row, the first one starting at tick count [start]. *)
Fixpoint ticks_from (oracles : Z -> Oracle) (start : Z) (n : nat) : list core_op :=
  match n with
  | O => []
  | S n' => OpTick (oracles start) :: ticks_from oracles (start + 1) n'
  end.

(** Task [tid] is RUNNING, bound to agent [aid], and that agent is in
    USING_TOOL: the state a work step leaves behind when it is left between
    the tool call and the second decision. *)
Definition stranded (tid aid : Z) (w : World) : Prop :=
  exists t a, get_task w tid = Some t /\ Task.state t = TaskState.RUNNING
    /\ Task.assigned_agent_id t = Some aid
    /\ get_agent w aid = Some a /\ Agent.state a = AgentState.USING_TOOL.

(** Task [tid] and agent [aid] are the same in [w'] as in [w]. *)
Definition untouched (tid aid : Z) (w w' : World) : Prop :=
  get_task w' tid = get_task w tid /\ get_agent w' aid = get_agent w aid.

(** Readiness and scheduling passes, work steps and ticks. *)
Definition passes_and_work (op : core_op) : Prop :=
  match op with
  | OpRelease _ | OpUpdateState _ _ => False
  | _ => True
  end.

(** An oracle whose tool request carries a keyword argument named like a
    parameter of [execute_tool]. *)
Definition clash_oracle : Oracle :=
  fun _ _ _ => Some (PDict [("action", PStr "use_tool");
                            ("tool_name", PStr "web_search");
                            ("arguments", PDict [("query", PStr "ai");
                                                 ("tool_name", PStr "web_search")])]).

(** The running sample after a work step on task 0 under [clash_oracle]. *)
Definition sample_faulted : World :=
  snd (@Kernel.work_on sample_runtime clash_oracle sample_running 0).

(** The place of a state in the life of a task.  FAILED and WAITING_CONTEXT
    are declared by [enums.py] but lie outside the chain. *)
Definition rank (s : TaskState.t) : Z :=
  match s with
  | TaskState.PENDING => 0
  | TaskState.READY => 1
  | TaskState.ASSIGNED => 2
  | TaskState.RUNNING => 3
  | TaskState.COMPLETED => 4
  | TaskState.FAILED => 5
  | TaskState.WAITING_CONTEXT => 6
  end.

(** [s'] is [s] or a later state of the chain PENDING, READY, ASSIGNED,
    RUNNING, COMPLETED. *)
Definition forward (s s' : TaskState.t) : Prop :=
  s' = s \/ (rank s < rank s' /\ rank s' <= 4).

(** Every task of [w] is in [w'], in the same or a later state. *)
Definition advances (w w' : World) : Prop :=
  forall k, option_rel (fun t t' => forward (Task.state t) (Task.state t'))
              (get_task w k) (get_task w' k).

(** Every operation but a direct state update. *)
Definition not_update (op : core_op) : Prop :=
  match op with OpUpdateState _ _ => False | _ => True end.

(** Task [k] exists and is PENDING or READY: it has not been given to an
    agent. *)
Definition waiting (w : World) (k : Z) : Prop :=
  exists t, get_task w k = Some t
    /\ (Task.state t = TaskState.PENDING \/ Task.state t = TaskState.READY).

(** An agent is IDLE exactly when it has no current task. *)
Definition agent_coherent (a : Agent.t) : Prop :=
  Agent.state a = AgentState.IDLE <-> Agent.current_task_id a = None.

Definition agents_coherent (w : World) : Prop := Forall agent_coherent (w_agents w).

(** Agent [i] is at work on task [c]: the agents' ids are distinct, every
    agent is coherent, and [i] has [c] as its current task. *)
Definition at_work (i c : Z) (w : World) : Prop :=
  dict_wf Agent.aid (w_agents w) /\ agents_coherent w
  /\ exists a, get_agent w i = Some a /\ Agent.current_task_id a = Some c.

(** An oracle that answers every first consultation with a final answer
    that has content. *)
Definition cooperative (oracle : Oracle) : Prop :=
  forall a t, exists c, final_decision (oracle a t []) c.

(** Task [k] is RUNNING on agent [i], which is in RUNNING_TASK. *)
Definition workable (w : World) (k i : Z) : Prop :=
  exists t a, get_task w k = Some t /\ Task.state t = TaskState.RUNNING
    /\ Task.assigned_agent_id t = Some i
    /\ get_agent w i = Some a /\ Agent.state a = AgentState.RUNNING_TASK.

(** Task [k] is COMPLETED with a result. *)
Definition completed_with_result (w : World) (k : Z) : Prop :=
  exists t, get_task w k = Some t /\ Task.state t = TaskState.COMPLETED
    /\ Task.result t <> None.

(** Agent [i] is IDLE without current task. *)
Definition freed (w : World) (i : Z) : Prop :=
  exists a, get_agent w i = Some a /\ Agent.state a = AgentState.IDLE
    /\ Agent.current_task_id a = None.

(** An ASSIGNED or RUNNING task [t] is with its agent: the agent it names
    exists, has [t] as its current task, and is ASSIGNED while [t] is
    ASSIGNED, in RUNNING_TASK while [t] is RUNNING. *)
Definition task_bound (w : World) (t : Task.t) : Prop :=
  exists i a, Task.assigned_agent_id t = Some i /\ get_agent w i = Some a
    /\ Agent.current_task_id a = Some (Task.tid t)
    /\ ((Task.state t = TaskState.ASSIGNED /\ Agent.state a = AgentState.ASSIGNED)
        \/ (Task.state t = TaskState.RUNNING /\ Agent.state a = AgentState.RUNNING_TASK)).

(** A busy agent [a] has a task: its current task exists, is ASSIGNED or
    RUNNING, and names [a]. *)
Definition agent_bound (w : World) (a : Agent.t) : Prop :=
  exists k t, Agent.current_task_id a = Some k /\ get_task w k = Some t
    /\ active t = true /\ Task.assigned_agent_id t = Some (Agent.aid a).

(** Every task of the queue [q] depends only on tasks of the table that are
    not at its place or behind it in [q]. *)
Fixpoint deps_in_order (w : World) (q : list Z) : Prop :=
  match q with
  | [] => True
  | k :: rest =>
      (forall t d, get_task w k = Some t -> In d (Task.dependencies t) ->
         (exists td, get_task w d = Some td) /\ ~ In d (k :: rest))
      /\ deps_in_order w rest
  end.

(** A SEQUENTIAL system in which work can go on: tables with distinct ids,
    at least one agent, every task on the chain from PENDING to COMPLETED,
    tasks in flight and busy agents bound to each other, the queue holding
    exactly the tasks not handed out yet, in an order that respects the
    dependencies. *)
Definition live (w : World) : Prop :=
  wf_world w /\ Crew.process (crew w) = SEQUENTIAL /\ w_agents w <> []
  /\ (forall k t, get_task w k = Some t -> rank (Task.state t) <= 4)
  /\ (forall k t, get_task w k = Some t -> active t = true -> task_bound w t)
  /\ (forall i a, get_agent w i = Some a -> Agent.state a <> AgentState.IDLE ->
      agent_bound w a)
  /\ NoDup (task_queue w)
  /\ (forall k, In k (task_queue w) <-> waiting w k)
  /\ deps_in_order w (task_queue w).

(** The work a task still needs: to be assigned, to be started, to be
    completed. *)
Definition weight (s : TaskState.t) : Z :=
  match s with
  | TaskState.PENDING | TaskState.READY => 3
  | TaskState.ASSIGNED => 2
  | TaskState.RUNNING => 1
  | _ => 0
  end.

Definition remaining (w : World) : Z :=
  sum_of (fun t => weight (Task.state t)) (w_tasks w).

(** The tasks of [w] and [w'] are the same ones, with the same
    dependencies. *)
Definition same_shape (w w' : World) : Prop :=
  forall k, option_rel (fun t t' => Task.dependencies t' = Task.dependencies t)
              (get_task w k) (get_task w' k).

(** Every task of the list depends only on tasks listed before it;
    [earlier] holds the ids already passed. *)
Fixpoint deps_declared_before (earlier : list Z) (tasks : list Task.t) : Prop :=
  match tasks with
  | [] => True
  | t :: rest =>
      (forall d, In d (Task.dependencies t) -> In d earlier)
      /\ deps_declared_before (earlier ++ [Task.tid t])%list rest
  end.

(** A declaration the SEQUENTIAL process can carry out: fresh agents, at
    least one, with distinct ids; PENDING tasks with distinct ids, each
    depending only on tasks listed before it. *)
Definition workable_declaration (agents : list Agent.t) (tasks : list Task.t) : Prop :=
  agents <> [] /\ NoDup (map Agent.aid agents)
  /\ Forall (fun a => Agent.state a = AgentState.IDLE
                      /\ Agent.current_task_id a = None) agents
  /\ NoDup (map Task.tid tasks)
  /\ Forall (fun t => Task.state t = TaskState.PENDING) tasks
  /\ deps_declared_before [] tasks.

(** * Properties *)

Arguments dict_get : simpl never.
Arguments dict_modify : simpl never.
Arguments TaskManager.get_task : simpl never.
Arguments TaskManager.update_task_state : simpl never.

(** ** Dictionaries *)

Section DictFacts.
Context {V : Type} (key : V -> Z).

Lemma dict_get_Some (d : list V) (k : Z) (v : V) :
  dict_get key d k = Some v -> key v = k /\ In v d.
Proof.
  unfold dict_get. intros Hf. apply find_some in Hf. destruct Hf as [Hin Hk].
  apply Z.eqb_eq in Hk. auto.
Qed.

Lemma dict_get_None (d : list V) (k : Z) :
  dict_get key d k = None <-> ~ In k (dict_keys key d).
Proof.
  unfold dict_get, dict_keys. induction d as [|v d IH]; simpl.
  - tauto.
  - destruct (key v =? k) eqn:E.
    + apply Z.eqb_eq in E. split; [discriminate | intros Hn; exfalso; auto].
    + apply Z.eqb_neq in E. rewrite IH. tauto.
Qed.

Lemma dict_get_In (d : list V) (v : V) :
  dict_wf key d -> In v d -> dict_get key d (key v) = Some v.
Proof.
  unfold dict_wf, dict_get, dict_keys. induction d as [|x d IH]; simpl; intros Hnd Hin.
  - contradiction.
  - inversion Hnd as [|? ? Hnotin Hnd']; subst.
    destruct Hin as [->|Hin].
    + now rewrite Z.eqb_refl.
    + destruct (key x =? key v) eqn:E.
      * apply Z.eqb_eq in E. exfalso. apply Hnotin. rewrite E. now apply in_map.
      * auto.
Qed.

Lemma dict_keys_modify (k : Z) (f : V -> V) (d : list V) :
  keeps_key key f -> dict_keys key (dict_modify key k f d) = dict_keys key d.
Proof.
  intros Hf. unfold dict_keys, dict_modify. rewrite map_map. apply map_ext.
  intros v. destruct (key v =? k); auto.
Qed.

Lemma dict_get_modify (k k' : Z) (f : V -> V) (d : list V) :
  keeps_key key f ->
  dict_get key (dict_modify key k f d) k' =
    if k =? k' then option_map f (dict_get key d k') else dict_get key d k'.
Proof.
  intros Hf. unfold dict_get, dict_modify. induction d as [|v d IH]; simpl.
  - now destruct (k =? k').
  - destruct (key v =? k) eqn:E1.
    + rewrite Hf. destruct (key v =? k') eqn:E2.
      * apply Z.eqb_eq in E1, E2. subst. now rewrite Z.eqb_refl.
      * exact IH.
    + destruct (key v =? k') eqn:E2.
      * apply Z.eqb_eq in E2. subst. rewrite Z.eqb_sym, E1. reflexivity.
      * exact IH.
Qed.

Lemma dict_modify_absent (k : Z) (f : V -> V) (d : list V) :
  ~ In k (dict_keys key d) -> dict_modify key k f d = d.
Proof.
  unfold dict_modify, dict_keys. induction d as [|v d IH]; simpl; intros Hn; auto.
  destruct (key v =? k) eqn:E.
  - apply Z.eqb_eq in E. exfalso. auto.
  - f_equal. apply IH. tauto.
Qed.

(** Two mutations that agree on the object stored under [k] have the same
    effect. *)
Lemma dict_modify_ext (k : Z) (f g : V -> V) (d : list V) :
  (forall v, In v d -> key v = k -> f v = g v) ->
  dict_modify key k f d = dict_modify key k g d.
Proof.
  intros H. unfold dict_modify. apply map_ext_in. intros v Hin.
  destruct (key v =? k) eqn:E; auto. apply Z.eqb_eq in E. auto.
Qed.

Lemma dict_wf_unique (d : list V) (v v' : V) :
  dict_wf key d -> In v d -> In v' d -> key v = key v' -> v = v'.
Proof.
  intros Hwf Hv Hv' Hk.
  pose proof (dict_get_In d v Hwf Hv) as H1.
  pose proof (dict_get_In d v' Hwf Hv') as H2.
  rewrite Hk in H1. congruence.
Qed.

Lemma dict_wf_modify (k : Z) (f : V -> V) (d : list V) :
  keeps_key key f -> dict_wf key d -> dict_wf key (dict_modify key k f d).
Proof. intros Hf. unfold dict_wf. now rewrite dict_keys_modify. Qed.
End DictFacts.

Lemma task_state_eqb_eq (a b : TaskState.t) : TaskState.eqb a b = true <-> a = b.
Proof. destruct a, b; simpl; split; intros; try reflexivity; discriminate. Qed.

Lemma agent_state_eqb_eq (a b : AgentState.t) : AgentState.eqb a b = true <-> a = b.
Proof. destruct a, b; simpl; split; intros; try reflexivity; discriminate. Qed.


Lemma agent_state_eqb_refl (a : AgentState.t) : AgentState.eqb a a = true.
Proof. now destruct a. Qed.

Create HintDb keeps discriminated.

Lemma keeps_tid_update_state s : keeps_key Task.tid (Task.update_state s).
Proof. now intros []. Qed.
Lemma keeps_tid_add_context c : keeps_key Task.tid (Task.add_context c).
Proof. now intros []. Qed.
Lemma keeps_tid_add_result r : keeps_key Task.tid (Task.add_result r).
Proof. now intros []. Qed.
Lemma keeps_tid_set_assigned a : keeps_key Task.tid (Task.set_assigned_agent_id a).
Proof. now intros []. Qed.
Lemma keeps_aid_update_state s : keeps_key Agent.aid (Agent.update_state s).
Proof. now intros []. Qed.
Lemma keeps_aid_set_current c : keeps_key Agent.aid (Agent.set_current_task_id c).
Proof. now intros []. Qed.
Lemma keeps_aid_assign_task k : keeps_key Agent.aid (Agent.assign_task k).
Proof. now intros []. Qed.
Lemma keeps_aid_record_usage u n : keeps_key Agent.aid (Agent.record_usage u n).
Proof.
  intros a. unfold Agent.record_usage.
  destruct (n <=? 0); [reflexivity|].
  destruct (String.eqb u "tokens"); [reflexivity|].
  destruct (String.eqb u "tool_calls"); reflexivity.
Qed.

#[local] Hint Resolve keeps_tid_update_state keeps_tid_add_context keeps_tid_add_result
  keeps_tid_set_assigned keeps_aid_update_state keeps_aid_set_current
  keeps_aid_assign_task keeps_aid_record_usage : keeps.

(** ** Context aggregation *)

Lemma dep_ready_dec (tasks : TaskTable) (d : Z) : {dep_ready tasks d} + {~ dep_ready tasks d}.
Proof.
  unfold dep_ready, dep_completed.
  destruct (TaskManager.get_task tasks d) as [dt|] eqn:Hg.
  - destruct (TaskState.eqb (Task.state dt) TaskState.COMPLETED) eqn:Hs.
    + destruct (Task.result dt) as [r|] eqn:Hr.
      * left. exists dt, r. apply task_state_eqb_eq in Hs. auto.
      * right. intros (dt' & r & H1 & _ & H3). congruence.
    + right. intros (dt' & r & H1 & H2 & _). inversion H1; subst dt'.
      apply task_state_eqb_eq in H2. congruence.
  - right. intros (dt' & r & H1 & _). discriminate.
Qed.






Lemma get_task_modify (tasks : TaskTable) (k k' : Z) (f : Task.t -> Task.t) :
  keeps_key Task.tid f ->
  TaskManager.get_task (dict_modify Task.tid k f tasks) k' =
    if k =? k' then option_map f (TaskManager.get_task tasks k')
    else TaskManager.get_task tasks k'.
Proof. apply dict_get_modify. Qed.



(** The text of that context: task 0 first although it completed last, and
    the descriptions cut after 30 characters. *)
Lemma build_context_sample_text :
  fst (TaskManager.build_context Sample.tasks_after_two Sample.task3)
  = "--- Output from Task 0 (Research AI market trends for ...) ---" ++ nl
    ++ "trends" ++ nl
    ++ "--- End Task 0 ---" ++ nl ++ nl
    ++ "--- Output from Task 1 (Calculate the potential market...) ---" ++ nl
    ++ "115" ++ nl
    ++ "--- End Task 1 ---".
Proof. reflexivity. Qed.

(** A description with a character of two bytes is cut after the character,
    not inside it. *)
Lemma prefix_of_two_byte_character :
  let e_acute := String (ascii_of_nat 195) (String (ascii_of_nat 169) "") in
  prefix_of 2 ("a" ++ e_acute ++ "b") = "a" ++ e_acute
  /\ prefix_of 1 (e_acute ++ "b") = e_acute.
Proof. split; reflexivity. Qed.

(** ** Readiness *)

Lemma deps_met_loop_spec (tasks : TaskTable) (deps : list Z) :
  TaskManager.deps_met_loop tasks deps = true <->
  (forall d, In d deps ->
     exists dt, TaskManager.get_task tasks d = Some dt
                /\ Task.state dt = TaskState.COMPLETED).
Proof.
  induction deps as [|d deps IH]; simpl.
  - split; [intros _ d []|reflexivity].
  - destruct (TaskManager.get_task tasks d) as [dt|] eqn:Hg.
    + destruct (TaskState.eqb (Task.state dt) TaskState.COMPLETED) eqn:Hs; simpl.
      * apply task_state_eqb_eq in Hs. rewrite IH. split.
        -- intros H d' [<-|Hin]; [exists dt; auto|auto].
        -- intros H d' Hin. apply H. now right.
      * split; [discriminate|]. intros H.
        destruct (H d (or_introl eq_refl)) as (dt' & Hg' & Hs').
        rewrite Hg in Hg'. inversion Hg'; subst dt'.
        apply task_state_eqb_eq in Hs'. congruence.
    + split; [discriminate|]. intros H.
      destruct (H d (or_introl eq_refl)) as (dt' & Hg' & _). congruence.
Qed.

Lemma deps_met_loop_completed (tasks cur : TaskTable) (deps : list Z) :
  (forall k, completed cur k = completed tasks k) ->
  TaskManager.deps_met_loop cur deps = TaskManager.deps_met_loop tasks deps.
Proof.
  intros Hc. induction deps as [|d deps IH]; simpl; [reflexivity|].
  pose proof (Hc d) as Hd. unfold completed in Hd.
  destruct (TaskManager.get_task cur d) as [a0|];
    destruct (TaskManager.get_task tasks d) as [b0|]; simpl.
  - rewrite Hd. destruct (TaskState.eqb (Task.state b0) TaskState.COMPLETED); simpl; auto.
  - rewrite Hd. reflexivity.
  - rewrite <- Hd. reflexivity.
  - reflexivity.
Qed.

Lemma keeps_tid_readiness_of tasks : keeps_key Task.tid (readiness_of tasks).
Proof.
  intros t. unfold readiness_of.
  destruct (TaskState.eqb (Task.state t) TaskState.PENDING
            && TaskManager.deps_met_loop tasks (Task.dependencies t)); now destruct t.
Qed.

#[local] Hint Resolve keeps_tid_readiness_of : keeps.

Lemma readiness_of_completed (tasks : TaskTable) (t : Task.t) :
  TaskState.eqb (Task.state (readiness_of tasks t)) TaskState.COMPLETED
  = TaskState.eqb (Task.state t) TaskState.COMPLETED.
Proof.
  unfold readiness_of.
  destruct (TaskState.eqb (Task.state t) TaskState.PENDING) eqn:E; simpl; [|reflexivity].
  apply task_state_eqb_eq in E.
  destruct (TaskManager.deps_met_loop tasks (Task.dependencies t)); [|reflexivity].
  simpl. now rewrite E.
Qed.

Lemma completed_modify_readiness (tasks cur : TaskTable) (k k' : Z) :
  completed (dict_modify Task.tid k (readiness_of tasks) cur) k' = completed cur k'.
Proof.
  unfold completed. rewrite get_task_modify by auto with keeps.
  destruct (k =? k'); [|reflexivity].
  destruct (TaskManager.get_task cur k') as [t|]; simpl; [|reflexivity].
  apply readiness_of_completed.
Qed.

Lemma dict_modify_id {V : Type} (key : V -> Z) (k : Z) (d : list V) :
  dict_modify key k (fun v => v) d = d.
Proof.
  unfold dict_modify. rewrite <- (map_id d) at 2. apply map_ext.
  intros v. now destruct (key v =? k).
Qed.

(** One iteration of the readiness loop mutates the visited task as the
    closed form says, as long as no COMPLETED flag has changed since the
    pass began. *)
Lemma readiness_step_modify (tasks cur : TaskTable) (k : Z) :
  dict_wf Task.tid cur ->
  (forall k, completed cur k = completed tasks k) ->
  TaskManager.readiness_step cur k = dict_modify Task.tid k (readiness_of tasks) cur.
Proof.
  intros Hwf Hc. unfold TaskManager.readiness_step.
  destruct (TaskManager.get_task cur k) as [task|] eqn:Hg.
  - destruct (dict_get_Some _ _ _ _ Hg) as [Hk Hin].
    assert (Hone : forall f,
               (forall v, In v cur -> Task.tid v = k -> f v = readiness_of tasks v) <->
               f task = readiness_of tasks task).
    { intros f. split; [intros H; now apply H|].
      intros H v Hv Hkv. assert (v = task) as ->; [|exact H].
      apply (dict_wf_unique Task.tid cur); auto. congruence. }
    assert (Hd : match Task.dependencies task with
                 | [] => true
                 | _ :: _ => TaskManager.deps_met_loop cur (Task.dependencies task)
                 end = TaskManager.deps_met_loop tasks (Task.dependencies task)).
    { rewrite <- (deps_met_loop_completed tasks cur _ Hc).
      now destruct (Task.dependencies task). }
    destruct (TaskState.eqb (Task.state task) TaskState.PENDING) eqn:Hs.
    + destruct (Task.dependencies task) as [|d0 deps0] eqn:Hdeps.
      * unfold TaskManager.update_task_state. rewrite Hk, Hg.
        apply task_state_eqb_eq in Hs. rewrite Hs. simpl.
        apply dict_modify_ext. apply Hone. unfold readiness_of.
        now rewrite Hs, Hdeps.
      * rewrite Hd.
        destruct (TaskManager.deps_met_loop tasks (d0 :: deps0)) eqn:Hm.
        -- unfold TaskManager.update_task_state. rewrite Hk, Hg.
           apply task_state_eqb_eq in Hs. rewrite Hs. simpl.
           apply dict_modify_ext. apply Hone. unfold readiness_of.
           now rewrite Hs, Hdeps, Hm.
        -- rewrite <- (dict_modify_id Task.tid k cur) at 1.
           apply dict_modify_ext. apply (Hone (fun v => v)). unfold readiness_of.
           now rewrite Hs, Hdeps, Hm.
    + rewrite <- (dict_modify_id Task.tid k cur) at 1.
      apply dict_modify_ext. apply (Hone (fun v => v)). unfold readiness_of.
      now rewrite Hs.
  - symmetry. apply dict_modify_absent. now apply dict_get_None.
Qed.

Lemma readiness_fold_modify (tasks : TaskTable) (ks : list Z) (cur : TaskTable) :
  dict_wf Task.tid cur ->
  (forall k, completed cur k = completed tasks k) ->
  fold_left TaskManager.readiness_step ks cur
  = fold_left (fun T k => dict_modify Task.tid k (readiness_of tasks) T) ks cur.
Proof.
  revert cur. induction ks as [|k ks IH]; intros cur Hwf Hc; simpl; [reflexivity|].
  rewrite (readiness_step_modify tasks cur k Hwf Hc). apply IH.
  - apply dict_wf_modify; auto with keeps.
  - intros k'. rewrite completed_modify_readiness. apply Hc.
Qed.

Section ModifyEach.
Context {V : Type} (key : V -> Z) (g : V -> V) (Hg : keeps_key key g).

Lemma fold_modify_head (ks : list Z) (x : V) (d : list V) :
  ~ In (key x) ks ->
  fold_left (fun T k => dict_modify key k g T) ks (x :: d)
  = x :: fold_left (fun T k => dict_modify key k g T) ks d.
Proof.
  revert d. induction ks as [|k ks IH]; intros d Hn; simpl; [reflexivity|].
  unfold dict_modify at 2. simpl map.
  destruct (key x =? k) eqn:E.
  - apply Z.eqb_eq in E. exfalso. apply Hn. now left.
  - apply IH. intros H. apply Hn. now right.
Qed.

(** Mutating the object under every key once, in dictionary order, maps
    the mutation over the dictionary. *)
Lemma fold_modify_all (d : list V) :
  dict_wf key d ->
  fold_left (fun T k => dict_modify key k g T) (dict_keys key d) d = map g d.
Proof.
  unfold dict_wf. induction d as [|x d IH]; intros Hnd; simpl; [reflexivity|].
  inversion Hnd as [|? ? Hnotin Hnd']; subst.
  unfold dict_modify at 2. simpl map. rewrite Z.eqb_refl.
  fold (dict_modify key (key x) g d).
  rewrite dict_modify_absent by exact Hnotin.
  rewrite fold_modify_head by (rewrite Hg; exact Hnotin).
  f_equal. now apply IH.
Qed.
End ModifyEach.

(** The readiness pass in closed form. *)
Lemma check_and_update_task_readiness_map (tasks : TaskTable) :
  dict_wf Task.tid tasks ->
  TaskManager.check_and_update_task_readiness tasks = map (readiness_of tasks) tasks.
Proof.
  intros Hwf. unfold TaskManager.check_and_update_task_readiness.
  rewrite (readiness_fold_modify tasks) by auto.
  apply fold_modify_all; auto with keeps.
Qed.

Lemma get_task_map (g : Task.t -> Task.t) (tasks : TaskTable) (k : Z) :
  keeps_key Task.tid g ->
  TaskManager.get_task (map g tasks) k = option_map g (TaskManager.get_task tasks k).
Proof.
  intros Hg. unfold TaskManager.get_task, dict_get.
  induction tasks as [|t ts IH]; simpl; [reflexivity|].
  rewrite Hg. destruct (Task.tid t =? k); [reflexivity|exact IH].
Qed.




Ltac nodup_keys :=
  unfold dict_wf, dict_keys; simpl;
  repeat (constructor; [simpl; intuition congruence|]); constructor.


(** ** Scheduling *)

Lemma dict_get_map {V : Type} (key : V -> Z) (g : V -> V) (d : list V) (k : Z) :
  keeps_key key g -> dict_get key (map g d) k = option_map g (dict_get key d k).
Proof.
  intros Hg. unfold dict_get. induction d as [|v d IH]; simpl; [reflexivity|].
  rewrite Hg. destruct (key v =? k); [reflexivity|exact IH].
Qed.

Lemma dict_wf_map {V : Type} (key : V -> Z) (g : V -> V) (d : list V) :
  keeps_key key g -> dict_wf key d -> dict_wf key (map g d).
Proof.
  intros Hg. unfold dict_wf, dict_keys. rewrite map_map.
  now rewrite (map_ext _ key Hg).
Qed.

Lemma dict_modify_map {V : Type} (key : V -> Z) (k : Z) (f g : V -> V) (d : list V) :
  dict_modify key k f (map g d) = map (fun v => if key (g v) =? k then f (g v) else g v) d.
Proof. unfold dict_modify. now rewrite map_map. Qed.

Lemma world_eta (w : World) : with_agents (w_agents w) (with_tasks (w_tasks w) w) = w.
Proof. destruct w as [[a t p o] q m r]. reflexivity. Qed.

Lemma z_in_app (k : Z) (l1 l2 : list Z) : z_in k (l1 ++ l2) = z_in k l1 || z_in k l2.
Proof. unfold z_in. apply existsb_app. Qed.

Lemma z_in_In (k : Z) (l : list Z) : z_in k l = true <-> In k l.
Proof.
  unfold z_in. rewrite existsb_exists. split.
  - intros (x & Hin & E). apply Z.eqb_eq in E. now subst.
  - intros H. exists k. split; [exact H|apply Z.eqb_refl].
Qed.

Lemma z_in_false (k : Z) (l : list Z) : z_in k l = false <-> ~ In k l.
Proof. rewrite <- z_in_In. now destruct (z_in k l). Qed.

Lemma keeps_tid_promote_task w : keeps_key Task.tid (promote_task w).
Proof.
  intros t. unfold promote_task.
  destruct (TaskState.eqb (Task.state t) TaskState.ASSIGNED); [|reflexivity].
  destruct (confirming_agent w t); reflexivity.
Qed.

Lemma promote_agent_cases w a :
  promote_agent w a = a
  \/ (promote_agent w a = Agent.update_state AgentState.RUNNING_TASK a
      /\ Agent.state a = AgentState.ASSIGNED).
Proof.
  unfold promote_agent.
  destruct (AgentState.eqb (Agent.state a) AgentState.ASSIGNED) eqn:E; [|now left].
  apply agent_state_eqb_eq in E.
  destruct (Agent.current_task_id a) as [c|]; [|now left].
  destruct (get_task w c) as [t|]; [|now left].
  destruct (_ && _); [right|left]; auto.
Qed.

Lemma keeps_aid_promote_agent w : keeps_key Agent.aid (promote_agent w).
Proof. intros a. destruct (promote_agent_cases w a) as [->|[-> _]]; reflexivity. Qed.

Lemma promote_agent_current w a :
  Agent.current_task_id (promote_agent w a) = Agent.current_task_id a.
Proof. destruct (promote_agent_cases w a) as [->|[-> _]]; reflexivity. Qed.

Lemma keeps_aid_promoted_upto done w :
  keeps_key Agent.aid
    (fun a => match Agent.current_task_id a with
              | Some c => if z_in c done then promote_agent w a else a
              | None => a
              end).
Proof.
  intros a. destruct (Agent.current_task_id a) as [c|]; [|reflexivity].
  destruct (z_in c done); [apply keeps_aid_promote_agent|reflexivity].
Qed.

Lemma keeps_tid_promoted_upto done w :
  keeps_key Task.tid (fun t => if z_in (Task.tid t) done then promote_task w t else t).
Proof.
  intros t. destruct (z_in (Task.tid t) done); [apply keeps_tid_promote_task|reflexivity].
Qed.

#[local] Hint Resolve keeps_tid_promote_task keeps_aid_promote_agent
  keeps_aid_promoted_upto keeps_tid_promoted_upto : keeps.

Lemma promoted_upto_nil w : promoted_upto [] w = w.
Proof.
  unfold promoted_upto.
  assert (Ht : map (fun t => if z_in (Task.tid t) [] then promote_task w t else t)
                 (w_tasks w) = w_tasks w).
  { rewrite <- (map_id (w_tasks w)) at 2. apply map_ext. reflexivity. }
  assert (Ha : map (fun a => match Agent.current_task_id a with
                             | Some c => if z_in c [] then promote_agent w a else a
                             | None => a
                             end) (w_agents w) = w_agents w).
  { rewrite <- (map_id (w_agents w)) at 2. apply map_ext.
    intros a. now destruct (Agent.current_task_id a). }
  rewrite Ht, Ha. apply world_eta.
Qed.

(** What a dependency contributes to a context: whether it is COMPLETED,
    its result and its description. *)
Lemma collect_context_ext (T T' : TaskTable) (deps : list Z) (acc : list string) :
  (forall d, option_map (fun t => (TaskState.eqb (Task.state t) TaskState.COMPLETED,
                                   Task.result t, Task.description t))
               (TaskManager.get_task T d)
             = option_map (fun t => (TaskState.eqb (Task.state t) TaskState.COMPLETED,
                                     Task.result t, Task.description t))
                 (TaskManager.get_task T' d)) ->
  TaskManager.collect_context T deps acc = TaskManager.collect_context T' deps acc.
Proof.
  intros H. revert acc. induction deps as [|d deps IH]; intros acc; simpl; [reflexivity|].
  specialize (H d).
  destruct (TaskManager.get_task T d) as [a|], (TaskManager.get_task T' d) as [b|];
    simpl in H; try discriminate; [|reflexivity].
  inversion H as [[H1 H2 H3]]. rewrite H1, H2.
  destruct (TaskState.eqb (Task.state b) TaskState.COMPLETED); [|reflexivity].
  destruct (Task.result b); [|reflexivity].
  unfold TaskManager.context_part. rewrite H3. apply IH.
Qed.

Lemma build_context_modify (T : TaskTable) (t : Task.t) :
  snd (TaskManager.build_context T t)
  = dict_modify Task.tid (Task.tid t) (Task.add_context (context_for T t)) T.
Proof.
  unfold TaskManager.build_context, context_for.
  destruct (Task.dependencies t) as [|d deps]; [reflexivity|].
  destruct (TaskManager.collect_context T (d :: deps) []) as [ps [|]]; reflexivity.
Qed.

Lemma confirming_agent_Some w t a :
  confirming_agent w t = Some a ->
  Task.assigned_agent_id t = Some (Agent.aid a)
  /\ get_agent w (Agent.aid a) = Some a
  /\ Agent.state a = AgentState.ASSIGNED
  /\ Agent.current_task_id a = Some (Task.tid t).
Proof.
  unfold confirming_agent, get_agent_opt.
  destruct (Task.assigned_agent_id t) as [x|]; [|discriminate].
  destruct (get_agent w x) as [b|] eqn:Hg; [|discriminate].
  destruct (Agent.current_task_id b) as [c|] eqn:Hc; [|discriminate].
  destruct (c =? Task.tid t) eqn:E; [|discriminate].
  destruct (AgentState.eqb (Agent.state b) AgentState.ASSIGNED) eqn:Es; [|discriminate].
  simpl. intros [= <-]. apply Z.eqb_eq in E. apply agent_state_eqb_eq in Es.
  destruct (dict_get_Some _ _ _ _ Hg) as [Hk _]. subst x c. auto.
Qed.


Ltac wsimpl :=
  cbn [w_agents w_tasks with_tasks with_agents with_queue with_monitor with_crew
       modify_agent modify_task crew task_queue resource_monitor tool_registry
       Crew.agents Crew.tasks Crew.process Crew.task_order
       Crew.with_tasks Crew.with_agents AgentScheduler.popleft] in *.

Lemma world_ext (w1 w2 : World) :
  w_agents w1 = w_agents w2 -> w_tasks w1 = w_tasks w2 ->
  Crew.process (crew w1) = Crew.process (crew w2) ->
  Crew.task_order (crew w1) = Crew.task_order (crew w2) ->
  task_queue w1 = task_queue w2 -> resource_monitor w1 = resource_monitor w2 ->
  tool_registry w1 = tool_registry w2 -> w1 = w2.
Proof.
  destruct w1 as [[a1 t1 p1 o1] q1 m1 r1], w2 as [[a2 t2 p2 o2] q2 m2 r2].
  unfold w_agents, w_tasks. simpl. intros; subst; reflexivity.
Qed.

Lemma get_task_promoted_upto done w k :
  get_task (promoted_upto done w) k
  = option_map (fun t => if z_in (Task.tid t) done then promote_task w t else t)
      (get_task w k).
Proof.
  unfold get_task, Crew.get_task, promoted_upto. simpl.
  apply dict_get_map. auto with keeps.
Qed.

Lemma get_agent_promoted_upto done w i :
  get_agent (promoted_upto done w) i
  = option_map (fun a => match Agent.current_task_id a with
                         | Some c => if z_in c done then promote_agent w a else a
                         | None => a
                         end) (get_agent w i).
Proof.
  unfold get_agent, Crew.get_agent, promoted_upto. simpl.
  apply dict_get_map. auto with keeps.
Qed.

Lemma confirming_agent_upto done w task :
  ~ In (Task.tid task) done ->
  confirming_agent (promoted_upto done w) task = confirming_agent w task.
Proof.
  intros Hk. unfold confirming_agent, get_agent_opt.
  destruct (Task.assigned_agent_id task) as [x|]; [|reflexivity].
  rewrite get_agent_promoted_upto.
  destruct (get_agent w x) as [a|]; simpl; [|reflexivity].
  destruct (Agent.current_task_id a) as [c|] eqn:Hc.
  - destruct (z_in c done) eqn:Hz.
    + rewrite promote_agent_current, Hc.
      assert (E : (c =? Task.tid task) = false).
      { apply Z.eqb_neq. intros ->. apply z_in_In in Hz. contradiction. }
      rewrite E. reflexivity.
    + rewrite Hc. reflexivity.
  - rewrite Hc. reflexivity.
Qed.

Lemma promote_step_unfold w k :
  AgentScheduler.promote_step w k =
  match get_task w k with
  | Some task =>
      match confirming_agent w task with
      | Some agent =>
          let w1 := modify_agent (Agent.aid agent)
                      (Agent.update_state AgentState.RUNNING_TASK) w in
          let w2 := with_tasks (TaskManager.update_task_state (Task.tid task)
                                  TaskState.RUNNING (w_tasks w1)) w1 in
          with_tasks (snd (TaskManager.build_context (w_tasks w2) task)) w2
      | None => w
      end
  | None => w
  end.
Proof.
  unfold AgentScheduler.promote_step, confirming_agent.
  destruct (get_task w k) as [task|]; [|reflexivity].
  destruct (get_agent_opt w (Task.assigned_agent_id task)) as [a|]; [|reflexivity].
  destruct (_ && _); reflexivity.
Qed.

Lemma get_task_In w k t : wf_world w -> In t (w_tasks w) -> Task.tid t = k ->
  get_task w k = Some t.
Proof. intros [Hwf _] Hin <-. now apply (dict_get_In Task.tid). Qed.

Lemma get_agent_In w i a : wf_world w -> In a (w_agents w) -> Agent.aid a = i ->
  get_agent w i = Some a.
Proof. intros [_ Hwf] Hin <-. now apply (dict_get_In Agent.aid). Qed.

(** One iteration of the promotion loop. *)
Lemma promote_step_upto (w : World) (done : list Z) (k : Z) (task : Task.t) :
  wf_world w -> ~ In k done -> get_task w k = Some task ->
  Task.state task = TaskState.ASSIGNED ->
  AgentScheduler.promote_step (promoted_upto done w) k = promoted_upto (done ++ [k]) w.
Proof.
  intros Hwf Hk Hg Hs.
  destruct (dict_get_Some _ _ _ _ Hg) as [Htid Hin].
  assert (Hz : z_in k done = false) by now apply z_in_false.
  assert (Hgc : get_task (promoted_upto done w) k = Some task).
  { rewrite get_task_promoted_upto, Hg. simpl. now rewrite Htid, Hz. }
  rewrite promote_step_unfold, Hgc, confirming_agent_upto by now rewrite Htid.
  destruct (confirming_agent w task) as [agent|] eqn:Hca.
  - destruct (confirming_agent_Some _ _ _ Hca) as (Hta & Hga & Has & Hac).
    destruct (dict_get_Some _ _ _ _ Hga) as [_ Hina].
    unfold promoted_upto. apply world_ext; wsimpl; try reflexivity.
    + (* agents *)
      rewrite dict_modify_map. apply map_ext_in. intros a Ha.
      rewrite (keeps_aid_promoted_upto done w a).
      destruct (Agent.aid a =? Agent.aid agent) eqn:E.
      * apply Z.eqb_eq in E.
        assert (a = agent) as ->
            by (apply (dict_wf_unique Agent.aid (w_agents w)); auto; apply Hwf).
        rewrite Hac, Htid, Hz, z_in_app. simpl. rewrite Z.eqb_refl, orb_true_r.
        unfold promote_agent. rewrite Has, Hac, Htid, Hg, Hs, Hta, Z.eqb_refl.
        reflexivity.
      * destruct (Agent.current_task_id a) as [c|] eqn:Hc; [|reflexivity].
        rewrite z_in_app. simpl. rewrite orb_false_r.
        destruct (z_in c done); [reflexivity|]. simpl.
        destruct (c =? k) eqn:Eck; [|reflexivity].
        apply Z.eqb_eq in Eck. subst c.
        unfold promote_agent. rewrite Hc, Hg, Hs, Hta.
        rewrite (Z.eqb_sym (Agent.aid agent)), E, andb_false_r.
        now destruct (AgentState.eqb (Agent.state a) AgentState.ASSIGNED).
    + (* tasks *)
      set (T := map (fun t => if z_in (Task.tid t) done then promote_task w t else t)
                  (w_tasks w)).
      assert (HgT : forall d, TaskManager.get_task T d
                 = option_map (fun t => if z_in (Task.tid t) done
                                        then promote_task w t else t)
                     (TaskManager.get_task (w_tasks w) d)).
      { intros d. apply dict_get_map. auto with keeps. }
      assert (HT : TaskManager.update_task_state (Task.tid task) TaskState.RUNNING T
                   = dict_modify Task.tid k (Task.update_state TaskState.RUNNING) T).
      { unfold TaskManager.update_task_state. rewrite HgT, Htid.
        change (TaskManager.get_task (w_tasks w) k) with (get_task w k).
        rewrite Hg. simpl. rewrite Htid, Hz, Hs. reflexivity. }
      rewrite HT, build_context_modify, Htid.
      assert (Hctx : context_for
                (dict_modify Task.tid k (Task.update_state TaskState.RUNNING) T) task
              = context_for (w_tasks w) task).
      { unfold context_for.
        rewrite (collect_context_ext _ (w_tasks w)); [reflexivity|].
        intros d. rewrite get_task_modify by auto with keeps. rewrite HgT.
        destruct (TaskManager.get_task (w_tasks w) d) as [t|] eqn:Hd;
          [|now destruct (k =? d)].
        assert (Hp : (TaskState.eqb (Task.state (promote_task w t)) TaskState.COMPLETED,
                      Task.result (promote_task w t), Task.description (promote_task w t))
                   = (TaskState.eqb (Task.state t) TaskState.COMPLETED,
                      Task.result t, Task.description t)).
        { unfold promote_task.
          destruct (TaskState.eqb (Task.state t) TaskState.ASSIGNED) eqn:Et; [|reflexivity].
          apply task_state_eqb_eq in Et.
          destruct (confirming_agent w t); [|reflexivity]. simpl. now rewrite Et. }
        destruct (k =? d) eqn:Ekd; simpl.
        - apply Z.eqb_eq in Ekd. subst d.
          change (TaskManager.get_task (w_tasks w) k) with (get_task w k) in Hd.
          rewrite Hg in Hd. inversion Hd; subst t.
          rewrite Htid, Hz. simpl. now rewrite Hs.
        - destruct (z_in (Task.tid t) done); [now rewrite Hp|reflexivity]. }
      rewrite Hctx. unfold T. rewrite !dict_modify_map.
      apply map_ext_in. intros t Ht.
      rewrite (keeps_tid_promoted_upto done w t).
      destruct (Task.tid t =? k) eqn:E.
      * apply Z.eqb_eq in E.
        assert (t = task) as ->
            by (apply (dict_wf_unique Task.tid (w_tasks w)); auto; [apply Hwf|congruence]).
        rewrite Htid, Hz. rewrite keeps_tid_update_state, Htid, Z.eqb_refl, z_in_app.
        simpl. rewrite Z.eqb_refl, orb_true_r.
        unfold promote_task. now rewrite Hs, Hca.
      * rewrite z_in_app. simpl. rewrite E, !orb_false_r.
        destruct (z_in (Task.tid t) done) eqn:Hzt.
        -- rewrite keeps_tid_promote_task, E. reflexivity.
        -- rewrite E. reflexivity.
  - unfold promoted_upto. apply world_ext; wsimpl; try reflexivity.
    + apply map_ext_in. intros a Ha.
      destruct (Agent.current_task_id a) as [c|] eqn:Hc; [|reflexivity].
      rewrite z_in_app. simpl. rewrite orb_false_r.
      destruct (z_in c done); [reflexivity|]. simpl.
      destruct (c =? k) eqn:Eck; [|reflexivity].
      apply Z.eqb_eq in Eck. subst c.
      unfold promote_agent.
      destruct (AgentState.eqb (Agent.state a) AgentState.ASSIGNED) eqn:Eas; [|reflexivity].
      rewrite Hc, Hg, Hs. simpl.
      destruct (Task.assigned_agent_id task) as [x|] eqn:Hx; [|reflexivity].
      destruct (x =? Agent.aid a) eqn:Ex; [|reflexivity].
      apply Z.eqb_eq in Ex. subst x. exfalso.
      unfold confirming_agent, get_agent_opt in Hca. rewrite Hx in Hca.
      rewrite (get_agent_In w (Agent.aid a) a Hwf Ha eq_refl) in Hca.
      rewrite Hc, Htid, Z.eqb_refl, Eas in Hca. discriminate.
    + apply map_ext_in. intros t Ht.
      rewrite z_in_app. simpl. rewrite orb_false_r.
      destruct (z_in (Task.tid t) done); [reflexivity|]. simpl.
      destruct (Task.tid t =? k) eqn:E; [|reflexivity].
      apply Z.eqb_eq in E.
      assert (t = task) as ->
          by (apply (dict_wf_unique Task.tid (w_tasks w)); auto; [apply Hwf|congruence]).
      unfold promote_task. now rewrite Hs, Hca.
Qed.

Lemma promote_fold (w : World) (ks done : list Z) :
  wf_world w -> NoDup (done ++ ks) ->
  (forall k, In k ks ->
     exists task, get_task w k = Some task /\ Task.state task = TaskState.ASSIGNED) ->
  fold_left AgentScheduler.promote_step ks (promoted_upto done w)
  = promoted_upto (done ++ ks) w.
Proof.
  intros Hwf. revert done. induction ks as [|k ks IH]; intros done Hnd Hks; simpl.
  - now rewrite app_nil_r.
  - destruct (Hks k (or_introl eq_refl)) as (task & Hg & Hs).
    rewrite (promote_step_upto w done k task Hwf); auto.
    + replace (done ++ k :: ks)%list with ((done ++ [k]) ++ ks)%list
        by (rewrite <- app_assoc; reflexivity).
      apply IH.
      * rewrite <- app_assoc. exact Hnd.
      * intros k' Hk'. apply Hks. now right.
    + intros Hin. apply NoDup_remove_2 in Hnd. apply Hnd. apply in_or_app. now left.
Qed.

Lemma NoDup_map_filter {A B : Type} (f : A -> B) (p : A -> bool) (l : list A) :
  NoDup (map f l) -> NoDup (map f (filter p l)).
Proof.
  induction l as [|x l IH]; simpl; intros H; [constructor|].
  inversion H as [|? ? Hn Hnd]; subst.
  destruct (p x); simpl; auto. constructor; auto.
  intros Hin. apply Hn. apply in_map_iff in Hin. destruct Hin as (y & Hy & Hin).
  apply filter_In in Hin. apply in_map_iff. exists y. tauto.
Qed.

(** The promotion phase in closed form. *)
Lemma promote_assigned_closed (w : World) :
  wf_world w -> AgentScheduler.promote_assigned w = after_promotion w.
Proof.
  intros Hwf. unfold AgentScheduler.promote_assigned.
  set (ks := map Task.tid
               (filter (fun t => TaskState.eqb (Task.state t) TaskState.ASSIGNED)
                  (w_tasks w))).
  assert (Hks : forall k, In k ks <->
            exists task, get_task w k = Some task
                         /\ Task.state task = TaskState.ASSIGNED).
  { intros k. unfold ks. rewrite in_map_iff. split.
    - intros (t & Ht & Hin). apply filter_In in Hin. destruct Hin as [Hin Hs].
      exists t. split; [now apply get_task_In|now apply task_state_eqb_eq].
    - intros (t & Hg & Hs). destruct (dict_get_Some _ _ _ _ Hg) as [Hk Hin].
      exists t. split; [exact Hk|]. apply filter_In. split; [exact Hin|].
      now apply task_state_eqb_eq. }
  replace (fold_left AgentScheduler.promote_step ks w)
    with (fold_left AgentScheduler.promote_step ks (promoted_upto [] w))
    by (now rewrite promoted_upto_nil).
  rewrite promote_fold; auto.
  - simpl app. unfold promoted_upto, after_promotion. f_equal.
    + apply map_ext_in. intros a Ha.
      destruct (Agent.current_task_id a) as [c|] eqn:Hc.
      * destruct (z_in c ks) eqn:Hz; [reflexivity|].
        unfold promote_agent. rewrite Hc.
        destruct (AgentState.eqb (Agent.state a) AgentState.ASSIGNED); [|reflexivity].
        destruct (get_task w c) as [t|] eqn:Hg; [|reflexivity].
        destruct (TaskState.eqb (Task.state t) TaskState.ASSIGNED) eqn:Hs; [|reflexivity].
        exfalso. apply z_in_false in Hz. apply Hz. apply Hks. exists t.
        split; [exact Hg|now apply task_state_eqb_eq].
      * unfold promote_agent. rewrite Hc.
        now destruct (AgentState.eqb (Agent.state a) AgentState.ASSIGNED).
    + f_equal. apply map_ext_in. intros t Ht.
      destruct (z_in (Task.tid t) ks) eqn:Hz; [reflexivity|].
      unfold promote_task.
      destruct (TaskState.eqb (Task.state t) TaskState.ASSIGNED) eqn:Hs; [|reflexivity].
      exfalso. apply z_in_false in Hz. apply Hz. apply Hks. exists t.
      split; [now apply get_task_In|now apply task_state_eqb_eq].
  - simpl app. unfold ks. apply NoDup_map_filter. apply Hwf.
  - intros k Hk. now apply Hks.
Qed.

Lemma promote_task_cases w t :
  (promote_task w t = t /\ (Task.state t <> TaskState.ASSIGNED \/ confirming_agent w t = None))
  \/ (Task.state t = TaskState.ASSIGNED
      /\ exists a, confirming_agent w t = Some a
      /\ promote_task w t = Task.add_context (context_for (w_tasks w) t)
                              (Task.update_state TaskState.RUNNING t)).
Proof.
  unfold promote_task.
  destruct (TaskState.eqb (Task.state t) TaskState.ASSIGNED) eqn:E.
  - apply task_state_eqb_eq in E. destruct (confirming_agent w t) as [a|].
    + right. split; [exact E|]. exists a. auto.
    + left. auto.
  - left. split; [reflexivity|]. left. intros H. rewrite H in E. discriminate.
Qed.

Lemma completed_after_promotion w k :
  completed (w_tasks (after_promotion w)) k = completed (w_tasks w) k.
Proof.
  unfold completed, after_promotion. wsimpl.
  unfold TaskManager.get_task. rewrite dict_get_map by auto with keeps.
  destruct (dict_get Task.tid (w_tasks w) k) as [t|]; simpl; [|reflexivity].
  destruct (promote_task_cases w t) as [[-> _]|(Hs & a & _ & ->)]; [reflexivity|].
  simpl. now rewrite Hs.
Qed.

Lemma wf_after_promotion w : wf_world w -> wf_world (after_promotion w).
Proof.
  intros [Ht Ha]. unfold after_promotion. split; wsimpl.
  - apply dict_wf_map; auto with keeps.
  - apply dict_wf_map; auto with keeps.
Qed.

(** The readiness recompute of a pass, on top of the promotion phase. *)
Lemma recompute_closed (w : World) :
  wf_world w ->
  with_tasks (TaskManager.check_and_update_task_readiness (w_tasks (after_promotion w)))
    (after_promotion w)
  = after_recompute w.
Proof.
  intros Hwf. rewrite check_and_update_task_readiness_map
    by apply (wf_after_promotion w Hwf).
  unfold after_recompute, after_promotion. apply world_ext; wsimpl; try reflexivity.
  rewrite map_map. apply map_ext. intros t. unfold recomputed_task, readiness_of.
  rewrite (deps_met_loop_completed (w_tasks w) (map (promote_task w) (w_tasks w)));
    [reflexivity|].
  intros k. apply (completed_after_promotion w k).
Qed.

Lemma keeps_tid_recomputed_task w : keeps_key Task.tid (recomputed_task w).
Proof.
  intros t. unfold recomputed_task.
  now rewrite keeps_tid_readiness_of, keeps_tid_promote_task.
Qed.

#[local] Hint Resolve keeps_tid_recomputed_task : keeps.

Lemma get_task_after_recompute w k :
  get_task (after_recompute w) k = option_map (recomputed_task w) (get_task w k).
Proof.
  unfold get_task, Crew.get_task, after_recompute. wsimpl.
  apply dict_get_map. auto with keeps.
Qed.

Lemma get_agent_after_recompute w i :
  get_agent (after_recompute w) i = option_map (promote_agent w) (get_agent w i).
Proof.
  unfold get_agent, Crew.get_agent, after_recompute. wsimpl.
  apply dict_get_map. auto with keeps.
Qed.

Lemma get_task_after_promotion w k :
  get_task (after_promotion w) k = option_map (promote_task w) (get_task w k).
Proof.
  unfold get_task, Crew.get_task, after_promotion. wsimpl.
  apply dict_get_map. auto with keeps.
Qed.



Lemma filter_map_stable {A : Type} (p : A -> bool) (f : A -> A) (l : list A) :
  (forall x, p (f x) = p x) -> (forall x, p x = true -> f x = x) ->
  filter p (map f l) = filter p l.
Proof.
  intros H1 H2. induction l as [|x l IH]; simpl; [reflexivity|].
  rewrite H1. destruct (p x) eqn:E; [now rewrite H2, IH|exact IH].
Qed.

Lemma available_after_recompute w :
  AgentScheduler.get_available_agents (after_recompute w)
  = AgentScheduler.get_available_agents w.
Proof.
  unfold AgentScheduler.get_available_agents, after_recompute. wsimpl.
  apply filter_map_stable.
  - intros a. destruct (promote_agent_cases w a) as [->|[-> Hs]]; [reflexivity|].
    simpl. now rewrite Hs.
  - intros a Hs. destruct (promote_agent_cases w a) as [->|[_ Hs']]; [reflexivity|].
    rewrite Hs' in Hs. discriminate.
Qed.

Lemma first_idle_available w :
  first_idle w = match AgentScheduler.get_available_agents w with
                 | a :: _ => Some a
                 | [] => None
                 end.
Proof.
  unfold first_idle, AgentScheduler.get_available_agents.
  induction (w_agents w) as [|a l IH]; simpl; [reflexivity|].
  destruct (AgentState.eqb (Agent.state a) AgentState.IDLE); [reflexivity|exact IH].
Qed.

(** A SEQUENTIAL pass, phase by phase. *)
Lemma schedule_next_sequential (w : World) :
  wf_world w -> Crew.process (crew w) = SEQUENTIAL ->
  AgentScheduler.schedule_next w =
  match task_queue w with
  | [] => after_promotion w
  | h :: q =>
      match get_task (after_recompute w) h with
      | Some task =>
          match Task.state task with
          | TaskState.READY =>
              match first_idle w with
              | Some agent =>
                  AgentScheduler.assign_task_to_agent task agent
                    (AgentScheduler.popleft (after_recompute w))
              | None => after_recompute w
              end
          | TaskState.PENDING | TaskState.WAITING_CONTEXT => after_recompute w
          | _ => AgentScheduler.popleft (after_recompute w)
          end
      | None => AgentScheduler.popleft (after_recompute w)
      end
  end.
Proof.
  intros Hwf Hp. unfold AgentScheduler.schedule_next. rewrite Hp.
  rewrite promote_assigned_closed by exact Hwf.
  unfold AgentScheduler.assign_head.
  change (task_queue (after_promotion w)) with (task_queue w).
  destruct (task_queue w) as [|h q]; [reflexivity|].
  rewrite recompute_closed by exact Hwf.
  rewrite first_idle_available, available_after_recompute.
  destruct (get_task (after_recompute w) h) as [task|]; [|reflexivity].
  destruct (Task.state task); try reflexivity.
  destruct (AgentScheduler.get_available_agents w); reflexivity.
Qed.

Lemma assign_task_to_agent_spec (task : Task.t) (agent : Agent.t) (w : World) :
  get_task w (Task.tid task) = Some task ->
  Task.state task <> TaskState.ASSIGNED ->
  let w' := AgentScheduler.assign_task_to_agent task agent w in
  (forall k, get_task w' k =
     if Task.tid task =? k
     then Some (Task.update_state TaskState.ASSIGNED
                  (Task.set_assigned_agent_id (Agent.aid agent) task))
     else get_task w k)
  /\ (forall i, get_agent w' i =
     if Agent.aid agent =? i
     then option_map (Agent.assign_task (Task.tid task)) (get_agent w i)
     else get_agent w i)
  /\ task_queue w' = task_queue w.
Proof.
  intros Hg Hs w'. subst w'. unfold AgentScheduler.assign_task_to_agent.
  split; [|split].
  - intros k. unfold get_task, Crew.get_task. wsimpl.
    unfold TaskManager.update_task_state.
    rewrite get_task_modify by auto with keeps. rewrite Z.eqb_refl.
    change (TaskManager.get_task (w_tasks w) (Task.tid task))
      with (get_task w (Task.tid task)).
    rewrite Hg. simpl option_map. cbv iota beta.
    assert (E : negb (TaskState.eqb
                        (Task.state (Task.set_assigned_agent_id (Agent.aid agent) task))
                        TaskState.ASSIGNED) = true).
    { simpl. destruct (Task.state task); try reflexivity. now elim Hs. }
    rewrite E.
    change (dict_get Task.tid ?d k) with (TaskManager.get_task d k).
    rewrite !get_task_modify by auto with keeps.
    destruct (Task.tid task =? k) eqn:Ek; [|reflexivity].
    apply Z.eqb_eq in Ek. subst k.
    change (TaskManager.get_task (w_tasks w) (Task.tid task))
      with (get_task w (Task.tid task)).
    rewrite Hg. reflexivity.
  - intros i. unfold get_agent, Crew.get_agent. wsimpl.
    apply dict_get_modify. auto with keeps.
  - reflexivity.
Qed.








Lemma first_idle_Some w a :
  first_idle w = Some a -> In a (w_agents w) /\ Agent.state a = AgentState.IDLE.
Proof.
  unfold first_idle. intros H. apply find_some in H. destruct H as [Hin Hs].
  now apply agent_state_eqb_eq in Hs.
Qed.







(** ** Tool dispatch *)

Section Dispatch.
Context `{RT : PyRuntime}.

Lemma binds_find (kwargs : list (string * pyval)) :
  binds kwargs ->
  find (fun kv => str_in (fst kv) ToolDispatcher.parameter_names) kwargs = None.
Proof.
  intros Hb. destruct (find _ kwargs) as [[k v]|] eqn:Hf; [|reflexivity].
  apply find_some in Hf. destruct Hf as [Hin Hk]. exfalso.
  apply (Hb k v Hin). cbn [fst] in Hk. unfold str_in in Hk.
  apply existsb_exists in Hk. destruct Hk as (x & Hx & E).
  apply String.eqb_eq in E. now subst.
Qed.

Lemma get_agent_modify (w : World) (i j : Z) (f : Agent.t -> Agent.t) :
  keeps_key Agent.aid f ->
  get_agent (modify_agent i f w) j
  = if i =? j then option_map f (get_agent w j) else get_agent w j.
Proof. intros Hf. unfold get_agent, Crew.get_agent. wsimpl. now apply dict_get_modify. Qed.

Lemma get_agent_with_monitor (w : World) m j :
  get_agent (with_monitor m w) j = get_agent w j.
Proof. reflexivity. Qed.

(** A call that is bound, authorized and resolved in the registry is
    charged, whatever the tool then does; the outcome is a string. *)
Lemma execute_tool_accepted (w : World) (aid : Z) (task_id : option Z) (name : string)
    (kwargs : list (string * pyval)) (agent : Agent.t) (tool : Tool.t) :
  binds kwargs ->
  get_agent w aid = Some agent ->
  str_in name (Agent.tools agent) = true ->
  ToolRegistry.get_tool (tool_registry w) name = Some tool ->
  ToolDispatcher.execute_tool w aid task_id (PStr name) kwargs =
  (Returned
     match Tool.execute tool kwargs with
     | Returned result => result
     | Raised (TypeError e) =>
         "Error: Tool '" ++ name
           ++ "' failed. Incorrect arguments provided. Expected arguments: "
           ++ Tool.signature tool ++ ". Error: " ++ e
     | Raised (OtherError type_name e) =>
         "Error executing tool '" ++ name ++ "': " ++ type_name ++ " - " ++ e
     end,
   modify_agent aid (Agent.record_usage "tokens" (Tool.cost tool))
     (modify_agent aid (Agent.record_usage "tool_calls" 1)
        (with_monitor
           (ResourceMonitor.record_usage "tokens" aid task_id (Tool.cost tool)
              (ResourceMonitor.record_usage "tool_calls" aid task_id 1
                 (resource_monitor w))) w))).
Proof.
  intros Hb Hg Hauth Hreg. unfold ToolDispatcher.execute_tool.
  rewrite (binds_find kwargs Hb), Hg. simpl py_in_strs. rewrite Hauth.
  simpl negb. cbv iota. simpl ToolDispatcher.lookup_tool. rewrite Hreg.
  destruct (Tool.execute tool kwargs) as [r|[e|n e]]; reflexivity.
Qed.

(** A call turned down by the authorization check or by the registry leaves
    the system as it was. *)
Lemma execute_tool_rejected (w : World) (aid : Z) (task_id : option Z) (tool_name : pyval)
    (kwargs : list (string * pyval)) (agent : Agent.t) :
  get_agent w aid = Some agent ->
  py_in_strs tool_name (Agent.tools agent) = false
  \/ ToolDispatcher.lookup_tool (tool_registry w) tool_name = None ->
  snd (ToolDispatcher.execute_tool w aid task_id tool_name kwargs) = w.
Proof.
  intros Hg Hrej. unfold ToolDispatcher.execute_tool.
  destruct (find _ kwargs) as [[k v]|]; [reflexivity|]. rewrite Hg.
  destruct (py_in_strs tool_name (Agent.tools agent)) eqn:Hauth; [|reflexivity].
  destruct Hrej as [Hrej|Hrej]; [discriminate|]. now rewrite Hrej.
Qed.

(** C4, amended.  A call that is bound, passes the authorization check and
    finds its tool in the registry records exactly one [tool_calls] unit and
    tokens equal to the tool's declared (non-negative) cost in the ledger
    and in the calling agent's counters, whatever the tool's [execute]
    returns or raises; a call turned down by authorization or lookup records
    nothing. *)
Theorem execute_tool_charges (w : World) (aid : Z) (task_id : option Z) (name : string)
    (kwargs : list (string * pyval)) (agent : Agent.t) :
  get_agent w aid = Some agent ->
  (forall tool,
     binds kwargs ->
     str_in name (Agent.tools agent) = true ->
     ToolRegistry.get_tool (tool_registry w) name = Some tool ->
     0 <= Tool.cost tool ->
     charged (Tool.cost tool) aid task_id w
       (snd (ToolDispatcher.execute_tool w aid task_id (PStr name) kwargs)))
  /\ (str_in name (Agent.tools agent) = false
      \/ ToolRegistry.get_tool (tool_registry w) name = None ->
      snd (ToolDispatcher.execute_tool w aid task_id (PStr name) kwargs) = w).
Proof.
  intros Hg. split.
  - intros tool Hb Hauth Hreg Hcost.
    rewrite (execute_tool_accepted w aid task_id name kwargs agent tool) by assumption.
    cbn [snd]. unfold charged.
    rewrite !get_agent_modify by auto with keeps. rewrite Z.eqb_refl.
    rewrite get_agent_with_monitor, Hg. wsimpl.
    unfold ResourceMonitor.record_usage at 1 3 5.
    destruct (Tool.cost tool <=? 0) eqn:E.
    + assert (Tool.cost tool = 0) as Hz by (apply Z.leb_le in E; lia).
      rewrite Hz. simpl. repeat split; try lia.
      exists agent. eexists. split; [reflexivity|]. split; [reflexivity|].
      simpl. split; lia.
    + apply Z.leb_gt in E.
      assert (Hpos : (0 <? Tool.cost tool) = true) by now apply Z.ltb_lt.
      rewrite Hpos. simpl. rewrite <- app_assoc. repeat split.
      exists agent. eexists. split; [reflexivity|]. split; [reflexivity|].
      unfold Agent.record_usage. simpl.
      assert (Hle : (Tool.cost tool <=? 0) = false) by now apply Z.leb_gt.
      rewrite Hle. simpl. split; reflexivity.
  - intros Hrej. apply (execute_tool_rejected w aid task_id (PStr name) kwargs agent Hg).
    exact Hrej.
Qed.
End Dispatch.

(** The researcher's web search on the sample: one call and the tool's
    five tokens are recorded. *)
Lemma execute_tool_charges_witness :
  get_agent sample_world 0 = Some Sample.researcher
  /\ charged 5 0 (Some 0) sample_world
       (snd (@ToolDispatcher.execute_tool sample_runtime sample_world 0 (Some 0)
               (PStr "web_search") [("query", PStr "ai")])).
Proof.
  assert (Hg : get_agent sample_world 0 = Some Sample.researcher) by reflexivity.
  split; [exact Hg|].
  apply (proj1 (@execute_tool_charges sample_runtime sample_world 0 (Some 0) "web_search"
                  [("query", PStr "ai")] Sample.researcher Hg) WebSearchTool).
  - intros k v [H|[]]. inversion H; subst. simpl. intuition discriminate.
  - reflexivity.
  - reflexivity.
  - simpl. lia.
Defined.

(** C4 as stated fails: the writer, who has no tool, asks for the web
    search.  The tool exists and declares cost 5, the call is a call to
    [execute_tool], and nothing is recorded. *)
Lemma execute_tool_charges_counterexample :
  ToolRegistry.get_tool (tool_registry sample_world) "web_search" = Some WebSearchTool
  /\ Tool.cost WebSearchTool = 5
  /\ snd (@ToolDispatcher.execute_tool sample_runtime sample_world 2 (Some 2)
            (PStr "web_search") [("query", PStr "ai")]) = sample_world
  /\ ~ charged 5 2 (Some 2) sample_world
         (snd (@ToolDispatcher.execute_tool sample_runtime sample_world 2 (Some 2)
                 (PStr "web_search") [("query", PStr "ai")])).
Proof.
  split; [reflexivity|]. split; [reflexivity|]. split; [reflexivity|].
  intros (H & _). vm_compute in H. discriminate.
Qed.

Section DispatchOutcome.
Context `{RT : PyRuntime}.

End DispatchOutcome.

(** C5 fails on the code.  The researcher calls the web search it is
    authorized for, with a keyword argument named like one of
    [execute_tool]'s own parameters: the call raises [TypeError] instead of
    returning a string, and the agent is not even charged. *)
Theorem execute_tool_keyword_clash :
  @ToolDispatcher.execute_tool sample_runtime sample_world 0 (Some 0) (PStr "web_search")
    [("query", PStr "ai"); ("tool_name", PStr "web_search")]
  = (Raised (TypeError
       "ToolDispatcher.execute_tool() got multiple values for argument 'tool_name'"),
     sample_world).
Proof. reflexivity. Qed.

(** ** The running flag *)

(** C10.  With the running flag unset, [tick] returns false at once and
    changes nothing: not the tasks, the agents, the queue, the ledger or the
    tick counter, whatever the crew and the oracle. *)
Theorem tick_not_running `{RT : PyRuntime} (oracle : Oracle) (k : Kernel.t) :
  Kernel.running k = false -> Kernel.tick oracle k = (Returned false, k).
Proof.
  intros Hr. unfold Kernel.tick. rewrite Hr.
  destruct (Kernel.loaded k); reflexivity.
Qed.

(** The loaded sample, with tasks still to run: the tick does nothing until
    the flag is set, and then it works. *)
Lemma tick_not_running_witness :
  Kernel.running sample_kernel = false
  /\ Crew.all_tasks_done Sample.crew = false
  /\ @Kernel.tick sample_runtime final_answer_oracle sample_kernel
     = (Returned false, sample_kernel)
  /\ Kernel.tick_count
       (snd (@Kernel.tick sample_runtime final_answer_oracle
               (Kernel.mk (Kernel.loaded sample_kernel) 0 true))) = 1.
Proof.
  split; [reflexivity|]. split; [reflexivity|]. split.
  - apply (@tick_not_running sample_runtime final_answer_oracle sample_kernel).
    reflexivity.
  - reflexivity.
Defined.

(** ** Reset *)

Lemma completed_all_pending (T : TaskTable) (k : Z) :
  Forall (fun t => Task.state t = TaskState.PENDING) T -> completed T k = false.
Proof.
  intros Hall. unfold completed.
  destruct (TaskManager.get_task T k) as [t|] eqn:Hg; [|reflexivity].
  destruct (dict_get_Some _ _ _ _ Hg) as [_ Hin].
  rewrite Forall_forall in Hall. now rewrite (Hall t Hin).
Qed.

Lemma deps_met_loop_none_completed (T : TaskTable) (deps : list Z) :
  (forall k, completed T k = false) ->
  TaskManager.deps_met_loop T deps = match deps with [] => true | _ => false end.
Proof.
  intros Hc. destruct deps as [|d deps]; [reflexivity|]. simpl.
  specialize (Hc d). unfold completed in Hc.
  destruct (TaskManager.get_task T d) as [t|]; [|reflexivity]. now rewrite Hc.
Qed.

(** Over a table in which nothing is COMPLETED, the READY set of a pass is
    determined by the ids and the dependency lists. *)
Lemma ready_set_pending (TA TB T1 T2 : TaskTable) :
  (forall k, completed TA k = false) -> (forall k, completed TB k = false) ->
  Forall2 (fun a b => Task.tid a = Task.tid b
                      /\ Task.dependencies a = Task.dependencies b
                      /\ Task.state a = TaskState.PENDING
                      /\ Task.state b = TaskState.PENDING) T1 T2 ->
  map Task.tid (filter (fun t => TaskState.eqb (Task.state t) TaskState.READY)
                  (map (readiness_of TA) T1))
  = map Task.tid (filter (fun t => TaskState.eqb (Task.state t) TaskState.READY)
                    (map (readiness_of TB) T2)).
Proof.
  intros HA HB H. induction H as [|a b T1 T2 (Ht & Hd & Ha & Hb) _ IH]; [reflexivity|].
  assert (HfA : readiness_of TA a
                = match Task.dependencies a with
                  | [] => Task.update_state TaskState.READY a
                  | _ => a
                  end).
  { unfold readiness_of. rewrite Ha, (deps_met_loop_none_completed TA _ HA).
    now destruct (Task.dependencies a). }
  assert (HfB : readiness_of TB b
                = match Task.dependencies b with
                  | [] => Task.update_state TaskState.READY b
                  | _ => b
                  end).
  { unfold readiness_of. rewrite Hb, (deps_met_loop_none_completed TB _ HB).
    now destruct (Task.dependencies b). }
  cbn [map filter]. rewrite HfA, HfB, Hd.
  destruct (Task.dependencies b); cbn [Task.state Task.update_state].
  - cbn. rewrite IH, Ht. reflexivity.
  - rewrite Ha, Hb. cbn. exact IH.
Qed.

Lemma Forall2_map_r {A B : Type} (R : A -> B -> Prop) (f : A -> B) (l : list A) :
  (forall x, R x (f x)) -> Forall2 R l (map f l).
Proof. intros H. induction l; simpl; constructor; auto. Qed.

Lemma Forall2_keys (R : Task.t -> Task.t -> Prop) (T1 T2 : TaskTable) :
  (forall a b, R a b -> Task.tid a = Task.tid b) ->
  Forall2 R T1 T2 -> dict_keys Task.tid T1 = dict_keys Task.tid T2.
Proof.
  intros HR H. induction H as [|a b T1 T2 Hab _ IH]; [reflexivity|].
  simpl. now rewrite (HR _ _ Hab), IH.
Qed.

(** C9.  [reset_states] puts every task back to PENDING without context or
    result and every agent back to IDLE without current task and with zeroed
    counters; ids, descriptions, dependency lists, roles and tool allowlists
    stay, as do the process and the declared order.  A readiness pass over
    the reset table yields the READY set of the first readiness pass over a
    freshly constructed table of the same declaration. *)
Theorem reset_states_spec (c c0 : Crew.t) (ids : IdCounters) :
  dict_wf Task.tid (Crew.tasks c) ->
  Forall2 fresh_task_of (Crew.tasks c) (Crew.tasks c0) ->
  let c' := fst (Crew.reset_states c ids) in
  Forall2 task_reset (Crew.tasks c) (Crew.tasks c')
  /\ Forall2 agent_reset (Crew.agents c) (Crew.agents c')
  /\ Crew.process c' = Crew.process c
  /\ Crew.task_order c' = Crew.task_order c
  /\ ready_set (Crew.tasks c') = ready_set (Crew.tasks c0).
Proof.
  intros Hwf Hfresh c'. subst c'. cbn [fst Crew.reset_states Crew.tasks Crew.agents
                                        Crew.process Crew.task_order].
  assert (Hreset : Forall2 task_reset (Crew.tasks c) (map Crew.reset_task (Crew.tasks c))).
  { apply Forall2_map_r. intros t. repeat split. }
  split; [exact Hreset|]. split.
  { apply Forall2_map_r. intros a. repeat split. }
  split; [reflexivity|]. split; [reflexivity|].
  assert (Hk' : dict_keys Task.tid (map Crew.reset_task (Crew.tasks c))
                = dict_keys Task.tid (Crew.tasks c)).
  { symmetry. apply (Forall2_keys task_reset); [|exact Hreset].
    intros a b H. symmetry. apply H. }
  assert (Hk0 : dict_keys Task.tid (Crew.tasks c0) = dict_keys Task.tid (Crew.tasks c)).
  { symmetry. apply (Forall2_keys fresh_task_of); [|exact Hfresh].
    intros a b H. symmetry. apply H. }
  assert (Hp' : Forall (fun t => Task.state t = TaskState.PENDING)
                  (map Crew.reset_task (Crew.tasks c))).
  { apply Forall_forall. intros t Hin. apply in_map_iff in Hin.
    destruct Hin as (x & <- & _). reflexivity. }
  assert (Hp0 : Forall (fun t => Task.state t = TaskState.PENDING) (Crew.tasks c0)).
  { clear - Hfresh. induction Hfresh as [|a b T1 T2 Hab _ IH]; constructor; auto.
    apply Hab. }
  unfold ready_set. rewrite !check_and_update_task_readiness_map.
  - apply ready_set_pending.
    + intros k. now apply completed_all_pending.
    + intros k. now apply completed_all_pending.
    + clear - Hfresh. induction Hfresh as [|a b T1 T2 Hab _ IH]; simpl; constructor; auto.
      destruct Hab as (H1 & _ & _ & H4 & H5 & _). repeat split; auto.
  - unfold dict_wf. rewrite Hk0. exact Hwf.
  - unfold dict_wf. rewrite Hk'. exact Hwf.
Qed.

(** The sample in the middle of a run, reset, against the sample as
    declared: tasks 0 and 1 are READY after a pass over either. *)
Lemma reset_states_spec_witness :
  dict_wf Task.tid (Crew.tasks sample_midrun)
  /\ Forall2 fresh_task_of (Crew.tasks sample_midrun) (Crew.tasks Sample.crew)
  /\ ready_set (Crew.tasks (fst (Crew.reset_states sample_midrun (mk_counters 3 3))))
     = ready_set (Crew.tasks Sample.crew)
  /\ ready_set (Crew.tasks Sample.crew) = [0; 1].
Proof.
  assert (Hwf : dict_wf Task.tid (Crew.tasks sample_midrun)) by nodup_keys.
  assert (Hf : Forall2 fresh_task_of (Crew.tasks sample_midrun) (Crew.tasks Sample.crew)).
  { repeat constructor. }
  split; [exact Hwf|]. split; [exact Hf|]. split.
  - apply (reset_states_spec sample_midrun Sample.crew (mk_counters 3 3) Hwf Hf).
  - reflexivity.
Defined.

(** ** The work step *)

Section WorkStep.
Context `{RT : PyRuntime}.

Lemma charge_call_tables (aid tid : Z) (w : World) :
  w_tasks (Kernel.charge_call aid tid w) = w_tasks w
  /\ task_queue (Kernel.charge_call aid tid w) = task_queue w
  /\ tool_registry (Kernel.charge_call aid tid w) = tool_registry w
  /\ forall i, get_agent (Kernel.charge_call aid tid w) i
       = if aid =? i
         then option_map (Agent.record_usage "tokens" Kernel.call_cost) (get_agent w i)
         else get_agent w i.
Proof.
  unfold Kernel.charge_call. repeat split.
  intros i. rewrite get_agent_modify by auto with keeps. reflexivity.
Qed.

Lemma record_usage_binding (u : string) (n : Z) (a : Agent.t) :
  Agent.state (Agent.record_usage u n a) = Agent.state a
  /\ Agent.current_task_id (Agent.record_usage u n a) = Agent.current_task_id a.
Proof.
  unfold Agent.record_usage. destruct (n <=? 0); [auto|].
  destruct (String.eqb u "tokens"); [auto|].
  destruct (String.eqb u "tool_calls"); auto.
Qed.

(** What a dispatch can do to the system: nothing to the tasks and the
    queue, and to the calling agent a change of counters only. *)
Lemma execute_tool_tables (w : World) (aid : Z) (task_id : option Z) (tool_name : pyval)
    (kwargs : list (string * pyval)) :
  let w' := snd (ToolDispatcher.execute_tool w aid task_id tool_name kwargs) in
  w_tasks w' = w_tasks w /\ task_queue w' = task_queue w
  /\ tool_registry w' = tool_registry w
  /\ forall i a, get_agent w i = Some a ->
       exists a', get_agent w' i = Some a'
                  /\ Agent.state a' = Agent.state a
                  /\ Agent.current_task_id a' = Agent.current_task_id a.
Proof.
  unfold ToolDispatcher.execute_tool.
  assert (Hsame : forall s : outcome string,
            let w' := snd (s, w) in
            w_tasks w' = w_tasks w /\ task_queue w' = task_queue w
            /\ tool_registry w' = tool_registry w
            /\ forall i a, get_agent w i = Some a ->
                 exists a', get_agent w' i = Some a'
                            /\ Agent.state a' = Agent.state a
                            /\ Agent.current_task_id a' = Agent.current_task_id a).
  { intros s. repeat split. intros i a Ha. exists a. auto. }
  destruct (find _ kwargs) as [[k v]|]; [apply Hsame|].
  destruct (get_agent w aid) as [agent|]; [|apply Hsame].
  destruct (py_in_strs tool_name (Agent.tools agent)); [|apply Hsame].
  destruct (ToolDispatcher.lookup_tool (tool_registry w) tool_name) as [tool|];
    [|apply Hsame].
  assert (Hcharged : forall s : outcome string,
            let w' := snd (s,
                           modify_agent aid (Agent.record_usage "tokens" (Tool.cost tool))
                             (modify_agent aid (Agent.record_usage "tool_calls" 1)
                                (with_monitor
                                   (ResourceMonitor.record_usage "tokens" aid task_id
                                      (Tool.cost tool)
                                      (ResourceMonitor.record_usage "tool_calls" aid
                                         task_id 1 (resource_monitor w))) w))) in
            w_tasks w' = w_tasks w /\ task_queue w' = task_queue w
            /\ tool_registry w' = tool_registry w
            /\ forall i a, get_agent w i = Some a ->
                 exists a', get_agent w' i = Some a'
                            /\ Agent.state a' = Agent.state a
                            /\ Agent.current_task_id a' = Agent.current_task_id a).
  { intros s. cbn [snd]. repeat split. intros i a Ha.
    rewrite !get_agent_modify by auto with keeps.
    rewrite get_agent_with_monitor, Ha.
    destruct (aid =? i); simpl.
    - eexists. split; [reflexivity|].
      destruct (record_usage_binding "tokens" (Tool.cost tool)
                  (Agent.record_usage "tool_calls" 1 a)) as [-> ->].
      apply record_usage_binding.
    - exists a. auto. }
  destruct (Tool.execute tool kwargs) as [r|[e|n e]]; apply Hcharged.
Qed.

Lemma valid_action_invalid (r : option pyval) :
  Kernel.valid_action r = None ->
  (forall d, r <> Some (PDict d)) \/ exists d, r = Some (PDict d) /\ py_get "action" d = None.
Proof.
  unfold Kernel.valid_action. destruct r as [[| | | | |l|d]|];
    try (intros _; left; intros d' H; discriminate).
  destruct (py_get "action" d) eqn:E; [discriminate|].
  intros _. right. exists d. auto.
Qed.

Lemma valid_action_Some (d : list (string * pyval)) (a : pyval) :
  py_get "action" d = Some a -> Kernel.valid_action (Some (PDict d)) = Some d.
Proof. intros H. unfold Kernel.valid_action. now rewrite H. Qed.

Lemma response_get_Some (k : string) (d : list (string * pyval)) (v : pyval) :
  py_get k d = Some v -> Kernel.response_get k d = v.
Proof. intros H. unfold Kernel.response_get. now rewrite H. Qed.

(** Back to RUNNING_TASK, nothing else touched. *)
Lemma back_to_running (agent : Agent.t) (w0 w : World) (a : Agent.t) :
  get_agent w (Agent.aid agent) = Some a ->
  Agent.current_task_id a = Agent.current_task_id agent ->
  w_tasks w = w_tasks w0 -> task_queue w = task_queue w0 ->
  retried agent w0
    (Returned false,
     modify_agent (Agent.aid agent) (Agent.update_state AgentState.RUNNING_TASK) w).
Proof.
  intros Hg Hc Ht Hq. unfold retried. cbn [fst snd]. split; [reflexivity|].
  split; [exact Ht|]. split; [exact Hq|].
  rewrite get_agent_modify by auto with keeps. rewrite Z.eqb_refl, Hg.
  eexists. split; [reflexivity|]. split; [reflexivity|exact Hc].
Qed.

(** The final-answer part retries on anything but a final answer with
    content. *)
Lemma conclude_retries (agent : Agent.t) (task : Task.t) (d : list (string * pyval))
    (w0 w : World) (a : Agent.t) :
  get_agent w (Agent.aid agent) = Some a ->
  Agent.current_task_id a = Agent.current_task_id agent ->
  w_tasks w = w_tasks w0 -> task_queue w = task_queue w0 ->
  is_str "final_answer" (Kernel.response_get "action" d) = false
  \/ Kernel.response_get "content" d = PNone ->
  retried agent w0 (Kernel.conclude agent task d w).
Proof.
  intros Hg Hc Ht Hq Hnf. unfold Kernel.conclude.
  destruct (is_str "final_answer" (Kernel.response_get "action" d)) eqn:E.
  - destruct Hnf as [Hnf|Hnf]; [discriminate|]. rewrite Hnf.
    now apply (back_to_running agent w0 w a).
  - now apply (back_to_running agent w0 w a).
Qed.

Lemma invalid_decision_not_final (d : list (string * pyval)) :
  invalid_decision (Some (PDict d))
  \/ is_str "use_tool" (Kernel.response_get "action" d) = true ->
  Kernel.valid_action (Some (PDict d)) = None
  \/ is_str "final_answer" (Kernel.response_get "action" d) = false
  \/ Kernel.response_get "content" d = PNone.
Proof.
  intros [H|H].
  - inversion H as [r Hn|d' Ha|d' a Ha Hu Hf|d' Ha Ht|d' v Ha Hv Hn|d' Ha Hc]; subst.
    + exfalso. now apply (Hn d).
    + left. unfold Kernel.valid_action. now rewrite Ha.
    + right. left. now rewrite (response_get_Some _ _ _ Ha).
    + right. left. now rewrite (response_get_Some _ _ _ Ha).
    + right. left. now rewrite (response_get_Some _ _ _ Ha).
    + right. right. exact Hc.
  - right. left. destruct (Kernel.response_get "action" d) as [| | | |s| |]; try discriminate.
    simpl in H. apply String.eqb_eq in H. subst s. reflexivity.
Qed.

(** C8.  A work step of a RUNNING task on its agent, the agent being in
    RUNNING_TASK as [tick] requires.  If the oracle's response is invalid
    (not a dict, no action, an unrecognized action, [use_tool] without a tool
    name or with non-dict arguments, [final_answer] without content), the
    step returns false without raising, the task table (states, contexts,
    results) and the queue are as before, and the agent is in RUNNING_TASK
    with the same current task.  The same holds when a first, well-formed
    [use_tool] decision was dispatched and the response to the tool result
    is invalid or asks for another tool. *)
Theorem simulate_agent_work_invalid (oracle : Oracle) (agent : Agent.t) (task : Task.t)
    (w : World) :
  get_agent w (Agent.aid agent) = Some agent ->
  Agent.state agent = AgentState.RUNNING_TASK ->
  (invalid_decision (oracle agent task []) ->
   retried agent w (Kernel.simulate_agent_work oracle agent task w))
  /\ (forall tool_name kwargs tool_result w1,
      use_tool_decision (oracle agent task []) tool_name kwargs ->
      ToolDispatcher.execute_tool
        (modify_agent (Agent.aid agent) (Agent.update_state AgentState.USING_TOOL)
           (Kernel.charge_call (Agent.aid agent) (Task.tid task) w))
        (Agent.aid agent) (Some (Task.tid task)) tool_name kwargs
      = (Returned tool_result, w1) ->
      hashable tool_name = true ->
      (invalid_decision (oracle agent task [(tool_name, tool_result)])
       \/ exists d2, oracle agent task [(tool_name, tool_result)] = Some (PDict d2)
            /\ is_str "use_tool" (Kernel.response_get "action" d2) = true) ->
      retried agent w (Kernel.simulate_agent_work oracle agent task w)).
Proof.
  intros Hg Hs.
  destruct (charge_call_tables (Agent.aid agent) (Task.tid task) w) as (Ct & Cq & _ & Ca).
  assert (Hgc : exists a, get_agent (Kernel.charge_call (Agent.aid agent) (Task.tid task) w)
                            (Agent.aid agent) = Some a
                          /\ Agent.state a = AgentState.RUNNING_TASK
                          /\ Agent.current_task_id a = Agent.current_task_id agent).
  { rewrite Ca, Z.eqb_refl, Hg. eexists. split; [reflexivity|].
    destruct (record_usage_binding "tokens" Kernel.call_cost agent) as [-> ->]. auto. }
  destruct Hgc as (ac & Hgc & Hsc & Hcc).
  assert (Hstay : retried agent w
                    (Returned false,
                     Kernel.charge_call (Agent.aid agent) (Task.tid task) w)).
  { unfold retried. cbn [fst snd]. split; [reflexivity|]. split; [exact Ct|].
    split; [exact Cq|]. exists ac. auto. }
  split.
  - (* the first response is invalid *)
    intros Hinv. unfold Kernel.simulate_agent_work.
    remember (oracle agent task []) as r eqn:Hr. clear Hr.
    destruct Hinv as [r Hn|d Ha|d a Ha Hu Hf|d Ha Ht|d v Ha Hv Hn|d Ha Hc].
    + destruct (Kernel.valid_action r) as [d|] eqn:Hv; [|exact Hstay].
      exfalso. unfold Kernel.valid_action in Hv.
      destruct r as [[| | | | |l|d']|]; try discriminate.
      now apply (Hn d').
    + unfold Kernel.valid_action. rewrite Ha. exact Hstay.
    + rewrite (valid_action_Some _ _ Ha), (response_get_Some _ _ _ Ha), Hu.
      apply (conclude_retries agent task d w _ ac); auto.
      left. now rewrite (response_get_Some _ _ _ Ha).
    + rewrite (valid_action_Some _ _ Ha), (response_get_Some _ _ _ Ha).
      simpl is_str. cbv iota. rewrite Ht. simpl negb. cbv iota.
      destruct (py_get "arguments" d) as [[| | | | | |kw]|]; exact Hstay.
    + rewrite (valid_action_Some _ _ Ha), (response_get_Some _ _ _ Ha).
      simpl is_str. cbv iota. rewrite Hv.
      destruct v as [| | | | | |kw]; try exact Hstay.
      exfalso. now apply (Hn kw).
    + rewrite (valid_action_Some _ _ Ha), (response_get_Some _ _ _ Ha).
      simpl is_str. cbv iota.
      apply (conclude_retries agent task d w _ ac); auto.
  - (* a tool was used and the second response is not a final answer *)
    intros tool_name kwargs tool_result w1 (d & Hr & Ha & Htn & Htr & Hargs) Hex Hh Hsecond.
    unfold Kernel.simulate_agent_work.
    rewrite Hr, (valid_action_Some _ _ Ha), (response_get_Some _ _ _ Ha).
    simpl is_str. cbv iota. rewrite Htn.
    assert (Hkw : match py_get "arguments" d with
                  | Some v => v
                  | None => PDict []
                  end = PDict kwargs).
    { destruct Hargs as [->|[-> ->]]; reflexivity. }
    rewrite Hkw, Htr. simpl negb. cbv iota. rewrite Hex, Hh. simpl negb. cbv iota.
    pose proof (execute_tool_tables
                  (modify_agent (Agent.aid agent) (Agent.update_state AgentState.USING_TOOL)
                     (Kernel.charge_call (Agent.aid agent) (Task.tid task) w))
                  (Agent.aid agent) (Some (Task.tid task)) tool_name kwargs) as Hx.
    rewrite Hex in Hx. cbn [snd] in Hx. destruct Hx as (Xt & Xq & _ & Xa).
    destruct (Xa (Agent.aid agent) (Agent.update_state AgentState.USING_TOOL ac))
      as (a1 & Hg1 & _ & Hc1).
    { rewrite get_agent_modify by auto with keeps. now rewrite Z.eqb_refl, Hgc. }
    destruct (charge_call_tables (Agent.aid agent) (Task.tid task) w1)
      as (Ct2 & Cq2 & _ & Ca2).
    assert (Hg2 : exists a2, get_agent (Kernel.charge_call (Agent.aid agent)
                                         (Task.tid task) w1) (Agent.aid agent) = Some a2
                             /\ Agent.current_task_id a2 = Agent.current_task_id agent).
    { rewrite Ca2, Z.eqb_refl, Hg1. eexists. split; [reflexivity|].
      destruct (record_usage_binding "tokens" Kernel.call_cost a1) as [_ ->].
      rewrite Hc1. exact Hcc. }
    destruct Hg2 as (a2 & Hg2 & Hc2).
    assert (Ht2 : w_tasks (Kernel.charge_call (Agent.aid agent) (Task.tid task) w1)
                  = w_tasks w).
    { rewrite Ct2, Xt. exact Ct. }
    assert (Hq2 : task_queue (Kernel.charge_call (Agent.aid agent) (Task.tid task) w1)
                  = task_queue w).
    { rewrite Cq2, Xq. exact Cq. }
    destruct (Kernel.valid_action (oracle agent task [(tool_name, tool_result)]))
      as [d2|] eqn:Hv2.
    + assert (Hr2 : oracle agent task [(tool_name, tool_result)] = Some (PDict d2)).
      { unfold Kernel.valid_action in Hv2.
        destruct (oracle agent task [(tool_name, tool_result)]) as [[| | | | |l|d']|];
          try discriminate.
        destruct (py_get "action" d'); [|discriminate]. now inversion Hv2. }
      apply (conclude_retries agent task d2 w _ a2); auto.
      destruct (invalid_decision_not_final d2) as [H|H].
      * destruct Hsecond as [H|(d' & Hd' & Hu)]; [left; now rewrite <- Hr2|].
        right. rewrite Hr2 in Hd'. now inversion Hd'; subst.
      * rewrite <- Hr2, Hv2 in H. discriminate.
      * exact H.
    + now apply (back_to_running agent w _ a2).
Qed.
End WorkStep.

(** The retried step on the sample: task 0 runs on the researcher and the
    oracle gives no usable response. *)
Lemma simulate_agent_work_invalid_witness :
  get_agent sample_running 0
    = Some (Agent.update_state AgentState.RUNNING_TASK
              (Agent.assign_task 0 Sample.researcher))
  /\ invalid_decision (silent_oracle
                         (Agent.update_state AgentState.RUNNING_TASK
                            (Agent.assign_task 0 Sample.researcher))
                         Sample.task1 [])
  /\ retried (Agent.update_state AgentState.RUNNING_TASK
                (Agent.assign_task 0 Sample.researcher)) sample_running
       (@Kernel.simulate_agent_work sample_runtime silent_oracle
          (Agent.update_state AgentState.RUNNING_TASK
             (Agent.assign_task 0 Sample.researcher))
          Sample.task1 sample_running).
Proof.
  assert (Hg : get_agent sample_running
                 (Agent.aid (Agent.update_state AgentState.RUNNING_TASK
                               (Agent.assign_task 0 Sample.researcher)))
               = Some (Agent.update_state AgentState.RUNNING_TASK
                         (Agent.assign_task 0 Sample.researcher))) by reflexivity.
  assert (Hi : invalid_decision (silent_oracle
                                   (Agent.update_state AgentState.RUNNING_TASK
                                      (Agent.assign_task 0 Sample.researcher))
                                   Sample.task1 [])).
  { apply invalid_not_dict. intros d H. discriminate. }
  split; [exact Hg|]. split; [exact Hi|].
  exact (proj1 (@simulate_agent_work_invalid sample_runtime silent_oracle _ Sample.task1
                  sample_running Hg eq_refl) Hi).
Defined.

(** ** Run-time invariants *)

Lemma option_rel_refl {A : Type} (R : A -> A -> Prop) (x : option A) :
  (forall a, R a a) -> option_rel R x x.
Proof. intros H. destruct x; simpl; auto. Qed.

Lemma option_rel_trans {A : Type} (R : A -> A -> Prop) (x y z : option A) :
  (forall a b c, R a b -> R b c -> R a c) ->
  option_rel R x y -> option_rel R y z -> option_rel R x z.
Proof. intros H. destruct x, y, z; simpl; try tauto. apply H. Qed.

Lemma task_rel_refl t : task_rel t t.
Proof. unfold task_rel. tauto. Qed.

Lemma task_rel_trans a b c : task_rel a b -> task_rel b c -> task_rel a c.
Proof.
  intros (H1 & H2 & H3 & H4) (G1 & G2 & G3 & G4).
  unfold task_rel. split; [congruence|]. split; [congruence|]. split; auto.
Qed.

Lemma agent_rel_refl a : agent_rel a a.
Proof. unfold agent_rel. tauto. Qed.

Lemma agent_rel_trans a b c : agent_rel a b -> agent_rel b c -> agent_rel a c.
Proof.
  intros (H1 & H2 & H3) (G1 & G2 & G3).
  unfold agent_rel. split; [congruence|]. split; [congruence|]. auto.
Qed.

Lemma evolves_refl w : evolves w w.
Proof.
  repeat split; intros; apply option_rel_refl;
    [apply task_rel_refl|apply agent_rel_refl].
Qed.

Lemma evolves_trans w1 w2 w3 : evolves w1 w2 -> evolves w2 w3 -> evolves w1 w3.
Proof.
  intros (H1 & H2 & H3 & H4) (G1 & G2 & G3 & G4). repeat split; try congruence.
  - intros k. apply (option_rel_trans _ _ (get_task w2 k)); auto. apply task_rel_trans.
  - intros i. apply (option_rel_trans _ _ (get_agent w2 i)); auto. apply agent_rel_trans.
Qed.

Lemma evolves_modify_agent (w : World) (i : Z) (f : Agent.t -> Agent.t) :
  keeps_key Agent.aid f ->
  (forall a, get_agent w i = Some a -> agent_rel a (f a)) ->
  evolves w (modify_agent i f w).
Proof.
  intros Hk Hf. repeat split.
  - unfold modify_agent. wsimpl. now apply dict_keys_modify.
  - intros k. apply option_rel_refl, task_rel_refl.
  - intros j. rewrite get_agent_modify by exact Hk.
    destruct (i =? j) eqn:E.
    + apply Z.eqb_eq in E. subst j. destruct (get_agent w i) as [a|]; simpl; auto.
    + apply option_rel_refl, agent_rel_refl.
Qed.

Lemma evolves_same_tables (w w' : World) :
  w_tasks w' = w_tasks w -> w_agents w' = w_agents w -> evolves w w'.
Proof.
  intros Ht Ha. unfold evolves, get_task, get_agent, Crew.get_task, Crew.get_agent.
  unfold w_tasks, w_agents in *. rewrite Ht, Ha. repeat split.
  - intros k. apply option_rel_refl, task_rel_refl.
  - intros i. apply option_rel_refl, agent_rel_refl.
Qed.

Lemma get_task_with_tasks (w : World) (T : TaskTable) (k : Z) :
  get_task (with_tasks T w) k = TaskManager.get_task T k.
Proof. reflexivity. Qed.

Lemma evolves_modify_task (w : World) (k : Z) (f : Task.t -> Task.t) :
  keeps_key Task.tid f ->
  (forall t, get_task w k = Some t -> task_rel t (f t)) ->
  evolves w (with_tasks (dict_modify Task.tid k f (w_tasks w)) w).
Proof.
  intros Hk Hf. repeat split.
  - wsimpl. now apply dict_keys_modify.
  - intros j. rewrite get_task_with_tasks, get_task_modify by exact Hk.
    change (TaskManager.get_task (w_tasks w) j) with (get_task w j).
    destruct (k =? j) eqn:E.
    + apply Z.eqb_eq in E. subst j. destruct (get_task w k) as [t|]; simpl; auto.
    + apply option_rel_refl, task_rel_refl.
  - intros i. apply option_rel_refl, agent_rel_refl.
Qed.

Lemma evolves_update_task_state (w : World) (k : Z) (s : TaskState.t) :
  (forall t, get_task w k = Some t -> task_rel t (Task.update_state s t)) ->
  evolves w (with_tasks (TaskManager.update_task_state k s (w_tasks w)) w).
Proof.
  intros Hf. unfold TaskManager.update_task_state.
  change (TaskManager.get_task (w_tasks w) k) with (get_task w k).
  destruct (get_task w k) as [t|] eqn:Hg.
  - destruct (negb (TaskState.eqb (Task.state t) s)).
    + apply evolves_modify_task; auto with keeps. now rewrite Hg.
    + apply evolves_same_tables; reflexivity.
  - apply evolves_same_tables; reflexivity.
Qed.

Lemma get_task_update_task_state (T : TaskTable) (k : Z) (s : TaskState.t) :
  TaskManager.get_task (TaskManager.update_task_state k s T) k
  = option_map (Task.update_state s) (TaskManager.get_task T k).
Proof.
  unfold TaskManager.update_task_state.
  destruct (TaskManager.get_task T k) as [t|] eqn:Hg; [|now rewrite Hg].
  destruct (TaskState.eqb (Task.state t) s) eqn:E; simpl.
  - rewrite Hg. simpl. apply task_state_eqb_eq in E. subst s. now destruct t.
  - rewrite get_task_modify by auto with keeps. now rewrite Z.eqb_refl, Hg.
Qed.

Lemma evolves_map (w : World) (g : Task.t -> Task.t) (h : Agent.t -> Agent.t) :
  keeps_key Task.tid g -> keeps_key Agent.aid h ->
  (forall t, task_rel t (g t)) -> (forall a, agent_rel a (h a)) ->
  evolves w (with_agents (map h (w_agents w)) (with_tasks (map g (w_tasks w)) w)).
Proof.
  intros Kg Kh Hg Hh. repeat split.
  - wsimpl. unfold dict_keys. rewrite map_map. now apply map_ext.
  - wsimpl. unfold dict_keys. rewrite map_map. now apply map_ext.
  - intros k. unfold get_task, Crew.get_task. wsimpl. rewrite dict_get_map by exact Kg.
    unfold w_tasks. destruct (dict_get Task.tid (Crew.tasks (crew w)) k); simpl; auto.
  - intros i. unfold get_agent, Crew.get_agent. wsimpl. rewrite dict_get_map by exact Kh.
    unfold w_agents. destruct (dict_get Agent.aid (Crew.agents (crew w)) i); simpl; auto.
Qed.

Lemma active_update_state (s : TaskState.t) (t : Task.t) :
  active (Task.update_state s t)
  = TaskState.eqb s TaskState.ASSIGNED || TaskState.eqb s TaskState.RUNNING.
Proof. reflexivity. Qed.

Lemma task_rel_promote w t : task_rel t (promote_task w t).
Proof.
  destruct (promote_task_cases w t) as [[-> _]|(Hs & a & _ & ->)];
    [apply task_rel_refl|].
  repeat split; simpl; try discriminate.
  unfold active. now rewrite Hs.
Qed.

Lemma task_rel_readiness T t : task_rel t (readiness_of T t).
Proof.
  unfold readiness_of.
  destruct (TaskState.eqb (Task.state t) TaskState.PENDING) eqn:E;
    [|apply task_rel_refl].
  apply task_state_eqb_eq in E.
  destruct (TaskManager.deps_met_loop T (Task.dependencies t)); simpl;
    [|apply task_rel_refl].
  repeat split; simpl; try discriminate; destruct H; congruence.
Qed.

Lemma agent_rel_promote w a : agent_rel a (promote_agent w a).
Proof.
  destruct (promote_agent_cases w a) as [->|[-> Hs]]; [apply agent_rel_refl|].
  repeat split; simpl; discriminate.
Qed.

Lemma evolves_after_promotion w : evolves w (after_promotion w).
Proof.
  apply evolves_map; auto with keeps; [apply task_rel_promote|apply agent_rel_promote].
Qed.

Lemma evolves_after_recompute w : evolves w (after_recompute w).
Proof.
  apply evolves_map; auto with keeps; [|apply agent_rel_promote].
  intros t. unfold recomputed_task.
  apply (task_rel_trans _ (promote_task w t)); [apply task_rel_promote|apply task_rel_readiness].
Qed.

Lemma evolves_readiness (w : World) :
  wf_world w ->
  evolves w (with_tasks (TaskManager.check_and_update_task_readiness (w_tasks w)) w).
Proof.
  intros [Hwf _]. rewrite check_and_update_task_readiness_map by exact Hwf.
  repeat split.
  - wsimpl. unfold dict_keys. rewrite map_map. apply map_ext. apply keeps_tid_readiness_of.
  - intros k. rewrite get_task_with_tasks, get_task_map by auto with keeps.
    change (TaskManager.get_task (w_tasks w) k) with (get_task w k).
    destruct (get_task w k); simpl; auto. apply task_rel_readiness.
  - intros i. apply option_rel_refl, agent_rel_refl.
Qed.

Lemma agent_rel_record_usage u n a : agent_rel a (Agent.record_usage u n a).
Proof.
  destruct (record_usage_binding u n a) as [Hs Hc].
  repeat split; [apply keeps_aid_record_usage|exact Hc|now rewrite Hs].
Qed.

Lemma evolves_charge_call (aid tid : Z) (w : World) :
  evolves w (Kernel.charge_call aid tid w).
Proof.
  unfold Kernel.charge_call.
  apply (evolves_trans _ (with_monitor
                            (ResourceMonitor.record_usage "tokens" aid (Some tid)
                               Kernel.call_cost (resource_monitor w)) w)).
  - apply evolves_same_tables; reflexivity.
  - apply evolves_modify_agent; auto with keeps. intros a _. apply agent_rel_record_usage.
Qed.

Lemma wf_evolves w w' : evolves w w' -> wf_world w -> wf_world w'.
Proof.
  intros (Ht & Ha & _) [Wt Wa]. unfold wf_world, dict_wf. now rewrite Ht, Ha.
Qed.

Lemma good_evolves w w' : evolves w w' -> good_world w -> good_world w'.
Proof.
  intros He [Hwf Hb]. split; [now apply (wf_evolves w)|].
  destruct He as (_ & _ & Et & Ea).
  intros k t' a Hg Hact Hasg.
  specialize (Et k). rewrite Hg in Et.
  destruct (get_task w k) as [t|] eqn:Hg0; simpl in Et; [|contradiction].
  destruct Et as (_ & E2 & E3 & _).
  destruct (Hb k t a Hg0 (E3 Hact)) as (ag & Hga & Hc & Hs); [congruence|].
  specialize (Ea a). rewrite Hga in Ea.
  destruct (get_agent w' a) as [ag'|]; simpl in Ea; [|contradiction].
  destruct Ea as (_ & A2 & A3). exists ag'. split; [reflexivity|].
  split; [congruence|auto].
Qed.

Lemma settles_evolves w w' : evolves w w' -> settles w w'.
Proof.
  intros (_ & _ & Et & _) k. specialize (Et k).
  destruct (get_task w k), (get_task w' k); simpl in *; auto. apply Et.
Qed.

Lemma settles_trans w1 w2 w3 : settles w1 w2 -> settles w2 w3 -> settles w1 w3.
Proof.
  intros H G k. apply (option_rel_trans _ _ (get_task w2 k)); auto.
Qed.

Lemma settles_same_tasks w w' : w_tasks w' = w_tasks w -> settles w w'.
Proof.
  intros H k. unfold get_task, Crew.get_task. unfold w_tasks in H. rewrite H.
  apply option_rel_refl. auto.
Qed.

Lemma update_task_state_keys (k : Z) (s : TaskState.t) (T : TaskTable) :
  dict_keys Task.tid (TaskManager.update_task_state k s T) = dict_keys Task.tid T.
Proof.
  unfold TaskManager.update_task_state.
  destruct (TaskManager.get_task T k) as [t|]; [|reflexivity].
  destruct (negb (TaskState.eqb (Task.state t) s)); [|reflexivity].
  apply dict_keys_modify. auto with keeps.
Qed.

Lemma wf_assign (task : Task.t) (agent : Agent.t) (w : World) :
  wf_world w -> wf_world (AgentScheduler.assign_task_to_agent task agent w).
Proof.
  intros [Wt Wa]. unfold AgentScheduler.assign_task_to_agent, wf_world, dict_wf. wsimpl.
  rewrite update_task_state_keys.
  rewrite !dict_keys_modify by auto with keeps. auto.
Qed.

Lemma good_assign (w : World) (task : Task.t) (agent : Agent.t) :
  good_world w ->
  get_task w (Task.tid task) = Some task -> Task.state task <> TaskState.ASSIGNED ->
  get_agent w (Agent.aid agent) = Some agent -> Agent.state agent = AgentState.IDLE ->
  good_world (AgentScheduler.assign_task_to_agent task agent w).
Proof.
  intros [Hwf Hb] Hg Hs Hga Hidle. split; [now apply wf_assign|].
  destruct (assign_task_to_agent_spec task agent w Hg Hs) as (Ht & Ha & _).
  intros k t' a Hg' Hact Hasg. rewrite Ht in Hg'. rewrite Ha.
  destruct (Task.tid task =? k) eqn:E.
  - apply Z.eqb_eq in E. subst k. inversion Hg'; subst t'. simpl in Hasg.
    inversion Hasg; subst a. rewrite Z.eqb_refl, Hga. simpl.
    eexists. split; [reflexivity|]. split; [reflexivity|]. simpl. discriminate.
  - destruct (Hb k t' a Hg' Hact Hasg) as (ag & Hag & Hc & Hst).
    destruct (Agent.aid agent =? a) eqn:Ea.
    + apply Z.eqb_eq in Ea. subst a. rewrite Hga in Hag. inversion Hag; subst ag.
      contradiction.
    + exists ag. auto.
Qed.

Lemma settles_assign (w : World) (task : Task.t) (agent : Agent.t) :
  get_task w (Task.tid task) = Some task -> Task.state task <> TaskState.ASSIGNED ->
  settles w (AgentScheduler.assign_task_to_agent task agent w).
Proof.
  intros Hg Hs k. destruct (assign_task_to_agent_spec task agent w Hg Hs) as (Ht & _).
  rewrite Ht. destruct (Task.tid task =? k) eqn:E.
  - apply Z.eqb_eq in E. subst k. rewrite Hg. simpl. intros _. split; discriminate.
  - apply option_rel_refl. auto.
Qed.

Lemma release_agent_tables (i : Z) (w : World) :
  w_tasks (AgentScheduler.release_agent i w) = w_tasks w
  /\ dict_keys Agent.aid (w_agents (AgentScheduler.release_agent i w))
     = dict_keys Agent.aid (w_agents w)
  /\ forall j, j <> i -> get_agent (AgentScheduler.release_agent i w) j = get_agent w j.
Proof.
  unfold AgentScheduler.release_agent.
  destruct (get_agent w i) as [a|]; [|auto].
  destruct (negb (AgentState.eqb (Agent.state a) AgentState.IDLE)); [|auto].
  split; [reflexivity|]. split.
  - wsimpl. apply dict_keys_modify. now intros [].
  - intros j Hj. rewrite get_agent_modify by (now intros []).
    assert (E : (i =? j) = false) by (apply Z.eqb_neq; congruence). now rewrite E.
Qed.

Lemma get_task_same_tasks (w w' : World) (k : Z) :
  w_tasks w' = w_tasks w -> get_task w' k = get_task w k.
Proof.
  intros H. unfold get_task, Crew.get_task. unfold w_tasks in H. now rewrite H.
Qed.

Lemma good_release (w : World) (i : Z) :
  good_world w -> unbooked w i -> good_world (AgentScheduler.release_agent i w).
Proof.
  intros [[Wt Wa] Hb] Hu. destruct (release_agent_tables i w) as (Rt & Rk & Ra).
  split.
  - unfold wf_world, dict_wf. now rewrite Rt, Rk.
  - intros k t a Hg Hact Hasg. rewrite (get_task_same_tasks w _ k Rt) in Hg.
    destruct (Z.eq_dec a i) as [->|Hne].
    + exfalso. exact (Hu k t Hg Hact Hasg).
    + rewrite Ra by exact Hne. now apply (Hb k t a).
Qed.

Lemma bookings_unbooked (w : World) (i : Z) : bookings w i = [] -> unbooked w i.
Proof.
  intros Hnil k t Hg Hact Hasg.
  destruct (dict_get_Some _ _ _ _ Hg) as [_ Hin].
  assert (Hf : In t (bookings w i)).
  { unfold bookings. apply filter_In. split; [exact Hin|].
    now rewrite Hact, Hasg, Z.eqb_refl. }
  rewrite Hnil in Hf. contradiction.
Qed.

Lemma evolves_popleft w w' : evolves w w' -> evolves w (AgentScheduler.popleft w').
Proof.
  intros H. apply (evolves_trans _ w'); [exact H|].
  apply evolves_same_tables; reflexivity.
Qed.

Lemma good_schedule (w : World) : good_world w -> good_world (AgentScheduler.schedule_next w).
Proof.
  intros Hgood. pose proof Hgood as [Hwf _].
  destruct (Crew.process (crew w)) eqn:Hp;
    [|unfold AgentScheduler.schedule_next; now rewrite Hp].
  rewrite schedule_next_sequential by assumption.
  pose proof (good_evolves _ _ (evolves_after_recompute w) Hgood) as G2.
  pose proof (good_evolves _ _ (evolves_popleft _ _ (evolves_after_recompute w)) Hgood)
    as Gp.
  destruct (task_queue w) as [|h q].
  { exact (good_evolves _ _ (evolves_after_promotion w) Hgood). }
  destruct (get_task (after_recompute w) h) as [task|] eqn:Hh; [|exact Gp].
  destruct (Task.state task) eqn:Hst; try exact Gp; try exact G2.
  destruct (first_idle w) as [agent|] eqn:Hf; [|exact G2].
  destruct (dict_get_Some _ _ _ _ Hh) as [Hk _]. subst h.
  destruct (first_idle_Some _ _ Hf) as [Hina Hidle].
  apply good_assign; auto.
  - rewrite Hst. discriminate.
  - change (get_agent (AgentScheduler.popleft (after_recompute w)) (Agent.aid agent))
      with (get_agent (after_recompute w) (Agent.aid agent)).
    rewrite get_agent_after_recompute, (get_agent_In w _ agent Hwf Hina eq_refl). simpl.
    destruct (promote_agent_cases w agent) as [->|[_ H]]; [reflexivity|].
    rewrite Hidle in H. discriminate.
Qed.

Lemma wf_schedule (w : World) : wf_world w -> wf_world (AgentScheduler.schedule_next w).
Proof.
  intros Hwf.
  destruct (Crew.process (crew w)) eqn:Hp;
    [|unfold AgentScheduler.schedule_next; now rewrite Hp].
  rewrite schedule_next_sequential by assumption.
  pose proof (wf_evolves _ _ (evolves_after_recompute w) Hwf) as G2.
  pose proof (wf_evolves _ _ (evolves_popleft _ _ (evolves_after_recompute w)) Hwf) as Gp.
  destruct (task_queue w) as [|h q].
  { exact (wf_evolves _ _ (evolves_after_promotion w) Hwf). }
  destruct (get_task (after_recompute w) h) as [task|]; [|exact Gp].
  destruct (Task.state task); try exact Gp; try exact G2.
  destruct (first_idle w) as [agent|]; [|exact G2].
  now apply wf_assign.
Qed.

Lemma settles_schedule (w : World) :
  wf_world w -> settles w (AgentScheduler.schedule_next w).
Proof.
  intros Hwf.
  destruct (Crew.process (crew w)) eqn:Hp.
  2:{ unfold AgentScheduler.schedule_next. rewrite Hp. apply settles_same_tasks.
      reflexivity. }
  rewrite schedule_next_sequential by assumption.
  pose proof (settles_evolves _ _ (evolves_after_recompute w)) as G2.
  pose proof (settles_evolves _ _ (evolves_popleft _ _ (evolves_after_recompute w))) as Gp.
  destruct (task_queue w) as [|h q].
  { exact (settles_evolves _ _ (evolves_after_promotion w)). }
  destruct (get_task (after_recompute w) h) as [task|] eqn:Hh; [|exact Gp].
  destruct (Task.state task) eqn:Hst; try exact Gp; try exact G2.
  destruct (first_idle w) as [agent|]; [|exact G2].
  destruct (dict_get_Some _ _ _ _ Hh) as [Hk _]. subst h.
  apply (settles_trans _ (AgentScheduler.popleft (after_recompute w))); [exact Gp|].
  apply settles_assign; [exact Hh|]. rewrite Hst. discriminate.
Qed.

Lemma prework_refl w : prework w w.
Proof. split; [apply evolves_refl|reflexivity]. Qed.

Lemma prework_trans w1 w2 w3 : prework w1 w2 -> prework w2 w3 -> prework w1 w3.
Proof.
  intros [E1 T1] [E2 T2]. split; [now apply (evolves_trans _ w2)|congruence].
Qed.

Lemma prework_charge_call (aid tid : Z) (w : World) :
  prework w (Kernel.charge_call aid tid w).
Proof. split; [apply evolves_charge_call|reflexivity]. Qed.

Lemma prework_agent_state (i : Z) (s : AgentState.t) (w : World) :
  s <> AgentState.IDLE -> prework w (modify_agent i (Agent.update_state s) w).
Proof.
  intros Hs. split; [|reflexivity].
  apply evolves_modify_agent; auto with keeps.
  intros a _. unfold agent_rel. simpl. auto.
Qed.

Section WorkInvariants.
Context `{RT : PyRuntime}.

Lemma prework_execute_tool (w : World) (aid : Z) (task_id : option Z) (tool_name : pyval)
    (kwargs : list (string * pyval)) :
  prework w (snd (ToolDispatcher.execute_tool w aid task_id tool_name kwargs)).
Proof.
  unfold ToolDispatcher.execute_tool.
  destruct (find _ kwargs) as [[k v]|]; [apply prework_refl|].
  destruct (get_agent w aid) as [agent|]; [|apply prework_refl].
  destruct (py_in_strs tool_name (Agent.tools agent)); [|apply prework_refl].
  destruct (ToolDispatcher.lookup_tool (tool_registry w) tool_name) as [tool|];
    [|apply prework_refl].
  assert (H : prework w
                (modify_agent aid (Agent.record_usage "tokens" (Tool.cost tool))
                   (modify_agent aid (Agent.record_usage "tool_calls" 1)
                      (with_monitor
                         (ResourceMonitor.record_usage "tokens" aid task_id (Tool.cost tool)
                            (ResourceMonitor.record_usage "tool_calls" aid task_id 1
                               (resource_monitor w))) w)))).
  { split; [|reflexivity].
    eapply evolves_trans; [|apply evolves_modify_agent; auto with keeps;
                             intros a _; apply agent_rel_record_usage].
    eapply evolves_trans; [|apply evolves_modify_agent; auto with keeps;
                             intros a _; apply agent_rel_record_usage].
    apply evolves_same_tables; reflexivity. }
  destruct (Tool.execute tool kwargs) as [r|[e|n e]]; exact H.
Qed.

(** The world a work step leaves: the task table untouched, or the
    completion of the task on a world whose task table is untouched. *)
Lemma simulate_agent_work_cases (oracle : Oracle) (agent : Agent.t) (task : Task.t)
    (w : World) :
  let w' := snd (Kernel.simulate_agent_work oracle agent task w) in
  prework w w'
  \/ exists w1 content,
       prework w w1 /\ w' = finished (Agent.aid agent) (Task.tid task) content w1.
Proof.
  assert (Hconclude : forall d w1, prework w w1 ->
            let w' := snd (Kernel.conclude agent task d w1) in
            prework w w'
            \/ exists w2 content,
                 prework w w2
                 /\ w' = finished (Agent.aid agent) (Task.tid task) content w2).
  { intros d w1 Hp. unfold Kernel.conclude.
    assert (Hback : prework w (modify_agent (Agent.aid agent)
                                 (Agent.update_state AgentState.RUNNING_TASK) w1)).
    { apply (prework_trans _ w1); [exact Hp|]. apply prework_agent_state. discriminate. }
    destruct (is_str "final_answer" (Kernel.response_get "action" d)); [|now left].
    destruct (Kernel.response_get "content" d) eqn:Hc; try (now left);
      right; exists w1; eexists; (split; [exact Hp|reflexivity]). }
  unfold Kernel.simulate_agent_work.
  pose proof (prework_charge_call (Agent.aid agent) (Task.tid task) w) as Pc.
  destruct (Kernel.valid_action (oracle agent task [])) as [d|]; [|now left].
  destruct (is_str "use_tool" (Kernel.response_get "action" d)); [|now apply Hconclude].
  destruct (match py_get "arguments" d with Some v => v | None => PDict [] end)
    as [| | | | | |kwargs]; try (now left).
  destruct (negb (truthy (Kernel.response_get "tool_name" d))); [now left|].
  set (wu := modify_agent (Agent.aid agent) (Agent.update_state AgentState.USING_TOOL)
               (Kernel.charge_call (Agent.aid agent) (Task.tid task) w)).
  assert (Pu : prework w wu).
  { apply (prework_trans _ _ _ Pc). apply prework_agent_state. discriminate. }
  pose proof (prework_execute_tool wu (Agent.aid agent) (Some (Task.tid task))
                (Kernel.response_get "tool_name" d) kwargs) as Px.
  destruct (ToolDispatcher.execute_tool wu (Agent.aid agent) (Some (Task.tid task))
              (Kernel.response_get "tool_name" d) kwargs) as [[tool_result|e] wx];
    cbn [snd] in Px.
  2:{ left. now apply (prework_trans _ wu). }
  assert (Pwx : prework w wx) by now apply (prework_trans _ wu).
  destruct (negb (hashable (Kernel.response_get "tool_name" d))); [now left|].
  assert (P2 : prework w (Kernel.charge_call (Agent.aid agent) (Task.tid task) wx)).
  { apply (prework_trans _ wx); [exact Pwx|apply prework_charge_call]. }
  destruct (Kernel.valid_action _) as [d2|].
  - now apply Hconclude.
  - left. apply (prework_trans _ _ _ P2). apply prework_agent_state. discriminate.
Qed.
End WorkInvariants.

Lemma add_result_keys (k : Z) (r : string) (T : TaskTable) :
  dict_keys Task.tid (TaskManager.add_result k r T) = dict_keys Task.tid T.
Proof.
  unfold TaskManager.add_result. destruct (TaskManager.get_task T k); [|reflexivity].
  apply dict_keys_modify. auto with keeps.
Qed.

Lemma evolves_add_result (w : World) (k : Z) (r : string) :
  evolves w (with_tasks (TaskManager.add_result k r (w_tasks w)) w).
Proof.
  unfold TaskManager.add_result.
  destruct (TaskManager.get_task (w_tasks w) k).
  - apply evolves_modify_task; auto with keeps. intros t0 _. unfold task_rel. simpl. tauto.
  - apply evolves_same_tables; reflexivity.
Qed.

Lemma evolves_completed (w : World) (k : Z) :
  evolves w (with_tasks (TaskManager.update_task_state k TaskState.COMPLETED (w_tasks w)) w).
Proof.
  apply evolves_update_task_state. intros t _. unfold task_rel. simpl.
  split; [reflexivity|]. split; [reflexivity|]. split; [discriminate|].
  intros _. split; discriminate.
Qed.

(** Completing the RUNNING task of an agent keeps the bindings consistent:
    by the time the agent is released, no ASSIGNED or RUNNING task is bound
    to it. *)
Lemma good_finished (w : World) (agent_aid task_tid : Z) (content : string) (t : Task.t) :
  good_world w ->
  get_task w task_tid = Some t -> active t = true ->
  Task.assigned_agent_id t = Some agent_aid ->
  good_world (finished agent_aid task_tid content w).
Proof.
  intros Hgood Hg Hact Hasg. unfold finished.
  set (wa := with_tasks (TaskManager.add_result task_tid content (w_tasks w)) w).
  set (wb := with_tasks (TaskManager.update_task_state task_tid TaskState.COMPLETED
                           (w_tasks wa)) wa).
  assert (Ea : evolves w wa) by apply evolves_add_result.
  assert (Eb : evolves wa wb) by apply evolves_completed.
  assert (Gb : good_world wb).
  { apply (good_evolves wa); [exact Eb|]. now apply (good_evolves w). }
  assert (Hdone : exists tb, get_task wb task_tid = Some tb
                             /\ Task.state tb = TaskState.COMPLETED).
  { unfold wb. rewrite get_task_with_tasks, get_task_update_task_state.
    change (TaskManager.get_task (w_tasks wa) task_tid) with (get_task wa task_tid).
    destruct Ea as (_ & _ & Et & _). specialize (Et task_tid). rewrite Hg in Et.
    destruct (get_task wa task_tid) as [ta|]; simpl in Et; [|contradiction].
    simpl. eexists. split; reflexivity. }
  destruct Hdone as (tb & Hgb & Hsb).
  destruct Hgood as [_ Hb]. destruct (Hb _ _ _ Hg Hact Hasg) as (ag & Hga & Hc & _).
  assert (Hagb : get_agent wb agent_aid = Some ag) by exact Hga.
  assert (Hu : unbooked wb agent_aid).
  { intros k t' Hg' Hact' Hasg'. destruct Gb as [_ Hbb].
    destruct (Hbb _ _ _ Hg' Hact' Hasg') as (ag' & Hga' & Hc' & _).
    rewrite Hagb in Hga'. inversion Hga'; subst ag'.
    assert (k = task_tid) by congruence. subst k.
    rewrite Hgb in Hg'. inversion Hg'; subst t'.
    unfold active in Hact'. rewrite Hsb in Hact'. discriminate. }
  pose proof (good_release wb agent_aid Gb Hu) as Gr.
  apply (good_evolves (AgentScheduler.release_agent agent_aid wb)); [|exact Gr].
  apply evolves_readiness. apply Gr.
Qed.

Lemma wf_release (w : World) (i : Z) :
  wf_world w -> wf_world (AgentScheduler.release_agent i w).
Proof.
  intros [Wt Wa]. destruct (release_agent_tables i w) as (Rt & Rk & _).
  unfold wf_world, dict_wf. now rewrite Rt, Rk.
Qed.

Lemma settled_finished (w : World) (agent_aid task_tid : Z) (content : string) :
  wf_world w ->
  wf_world (finished agent_aid task_tid content w)
  /\ settles w (finished agent_aid task_tid content w).
Proof.
  intros Hwf. unfold finished.
  set (wa := with_tasks (TaskManager.add_result task_tid content (w_tasks w)) w).
  set (wb := with_tasks (TaskManager.update_task_state task_tid TaskState.COMPLETED
                           (w_tasks wa)) wa).
  assert (Eb : evolves w wb).
  { apply (evolves_trans _ wa); [apply evolves_add_result|apply evolves_completed]. }
  assert (Wr : wf_world (AgentScheduler.release_agent agent_aid wb)).
  { apply wf_release. now apply (wf_evolves w). }
  pose proof (evolves_readiness _ Wr) as Er.
  split; [now apply (wf_evolves _ _ Er)|].
  apply (settles_trans _ wb); [now apply settles_evolves|].
  apply (settles_trans _ (AgentScheduler.release_agent agent_aid wb)).
  - apply settles_same_tasks. apply release_agent_tables.
  - now apply settles_evolves.
Qed.

Section OperationInvariants.
Context `{RT : PyRuntime}.

Lemma work_on_cases (oracle : Oracle) (w : World) (tid : Z) :
  snd (Kernel.work_on oracle w tid) = w
  \/ exists task agent,
       get_task w tid = Some task /\ Task.state task = TaskState.RUNNING
       /\ Task.assigned_agent_id task = Some (Agent.aid agent)
       /\ get_agent w (Agent.aid agent) = Some agent
       /\ snd (Kernel.work_on oracle w tid)
          = snd (Kernel.simulate_agent_work oracle agent task w).
Proof.
  unfold Kernel.work_on.
  destruct (get_task w tid) as [task|] eqn:Hg; [|now left].
  destruct (TaskState.eqb (Task.state task) TaskState.RUNNING) eqn:Hs; [|now left].
  apply task_state_eqb_eq in Hs. simpl negb. cbv iota.
  unfold get_agent_opt.
  destruct (Task.assigned_agent_id task) as [x|] eqn:Hx; [|now left].
  destruct (get_agent w x) as [agent|] eqn:Ha; [|now left].
  destruct (AgentState.eqb (Agent.state agent) AgentState.RUNNING_TASK); [|now left].
  destruct (dict_get_Some _ _ _ _ Ha) as [Hk _]. subst x.
  right. exists task, agent. repeat split; auto.
  destruct (Kernel.simulate_agent_work oracle agent task w) as [[b|e] w']; reflexivity.
Qed.

Lemma good_work_on (oracle : Oracle) (w : World) (tid : Z) :
  good_world w -> good_world (snd (Kernel.work_on oracle w tid)).
Proof.
  intros Hgood.
  destruct (work_on_cases oracle w tid) as [->|(task & agent & Hg & Hs & Hx & Ha & ->)];
    [exact Hgood|].
  destruct (dict_get_Some _ _ _ _ Hg) as [Hk _].
  destruct (simulate_agent_work_cases oracle agent task w)
    as [[He _]|(w1 & content & [He Ht] & ->)].
  - now apply (good_evolves w).
  - apply (good_finished w1 _ _ content task).
    + now apply (good_evolves w).
    + rewrite (get_task_same_tasks w w1 _ Ht), Hk. exact Hg.
    + unfold active. now rewrite Hs.
    + exact Hx.
Qed.

Lemma settled_work_on (oracle : Oracle) (w : World) (tid : Z) :
  wf_world w ->
  wf_world (snd (Kernel.work_on oracle w tid))
  /\ settles w (snd (Kernel.work_on oracle w tid)).
Proof.
  intros Hwf.
  destruct (work_on_cases oracle w tid) as [->|(task & agent & _ & _ & _ & _ & ->)].
  { split; [exact Hwf|]. apply settles_same_tasks. reflexivity. }
  destruct (simulate_agent_work_cases oracle agent task w)
    as [[He _]|(w1 & content & [He Ht] & ->)].
  - split; [now apply (wf_evolves w)|now apply settles_evolves].
  - destruct (settled_finished w1 (Agent.aid agent) (Task.tid task) content) as [W S].
    { now apply (wf_evolves w). }
    split; [exact W|]. apply (settles_trans _ w1); [now apply settles_evolves|exact S].
Qed.

Lemma good_work_loop (oracle : Oracle) (tids : list Z) (w : World) :
  good_world w -> good_world (snd (Kernel.work_loop oracle tids w)).
Proof.
  revert w. induction tids as [|tid tids IH]; intros w Hgood; [exact Hgood|].
  simpl. pose proof (good_work_on oracle w tid Hgood) as G.
  destruct (Kernel.work_on oracle w tid) as [[u|e] w']; cbn [snd] in G.
  - now apply IH.
  - exact G.
Qed.

Lemma settled_work_loop (oracle : Oracle) (tids : list Z) (w : World) :
  wf_world w ->
  wf_world (snd (Kernel.work_loop oracle tids w))
  /\ settles w (snd (Kernel.work_loop oracle tids w)).
Proof.
  revert w. induction tids as [|tid tids IH]; intros w Hwf.
  { split; [exact Hwf|]. apply settles_same_tasks. reflexivity. }
  simpl. destruct (settled_work_on oracle w tid Hwf) as [W S].
  destruct (Kernel.work_on oracle w tid) as [[u|e] w']; cbn [snd] in W, S.
  - destruct (IH w' W) as [W' S']. split; [exact W'|].
    now apply (settles_trans _ w').
  - split; assumption.
Qed.

Lemma good_apply_op (op : core_op) (w : World) :
  good_world w -> release_when_unbooked w op -> good_world (apply_op op w).
Proof.
  intros Hgood Hallowed. destruct op as [| |oracle tid|oracle|agent_id|tid s]; simpl.
  - apply (good_evolves w); [|exact Hgood]. apply evolves_readiness. apply Hgood.
  - now apply good_schedule.
  - now apply good_work_on.
  - unfold Kernel.tick_world. apply good_work_loop. now apply good_schedule.
  - apply good_release; [exact Hgood|]. now apply bookings_unbooked.
  - contradiction.
Qed.

Lemma settled_apply_op (op : core_op) (w : World) :
  wf_world w -> no_update_back op ->
  wf_world (apply_op op w) /\ settles w (apply_op op w).
Proof.
  intros Hwf Hop. destruct op as [| |oracle tid|oracle|agent_id|tid s]; simpl.
  - pose proof (evolves_readiness w Hwf) as E.
    split; [now apply (wf_evolves w)|now apply settles_evolves].
  - split; [now apply wf_schedule|now apply settles_schedule].
  - now apply settled_work_on.
  - unfold Kernel.tick_world.
    destruct (settled_work_loop oracle
                (map Task.tid
                   (Crew.get_tasks_by_state (crew (AgentScheduler.schedule_next w))
                      TaskState.RUNNING))
                (AgentScheduler.schedule_next w) (wf_schedule w Hwf)) as [W S].
    split; [exact W|].
    apply (settles_trans _ (AgentScheduler.schedule_next w)); [|exact S].
    now apply settles_schedule.
  - split; [now apply wf_release|]. apply settles_same_tasks. apply release_agent_tables.
  - destruct Hwf as [Wt Wa]. split.
    + unfold wf_world, dict_wf. wsimpl. rewrite update_task_state_keys. auto.
    + intros k. rewrite get_task_with_tasks.
      destruct (Z.eq_dec tid k) as [->|Hne].
      * rewrite get_task_update_task_state.
        change (TaskManager.get_task (w_tasks w) k) with (get_task w k).
        destruct (get_task w k); simpl; auto.
      * unfold TaskManager.update_task_state.
        destruct (TaskManager.get_task (w_tasks w) tid) as [t0|];
          [|apply option_rel_refl; auto].
        destruct (negb (TaskState.eqb (Task.state t0) s)); [|apply option_rel_refl; auto].
        rewrite get_task_modify by auto with keeps.
        assert (E : (tid =? k) = false) by now apply Z.eqb_neq.
        rewrite E. apply option_rel_refl. auto.
Qed.
End OperationInvariants.

(** *** Fresh loads *)

Lemma NoDup_snoc {A : Type} (l : list A) (x : A) :
  NoDup l -> ~ In x l -> NoDup (l ++ [x]).
Proof.
  induction l as [|y l IH]; simpl; intros Hnd Hn.
  - constructor; [tauto|constructor].
  - inversion Hnd as [|? ? Hy Hl]; subst. constructor.
    + intros Hin. apply in_app_or in Hin. destruct Hin as [Hin|[->|[]]]; tauto.
    + apply IH; tauto.
Qed.

Section FreshDict.
Context {V : Type} (key : V -> Z).

Lemma dict_put_wf (d : list V) (v : V) : dict_wf key d -> dict_wf key (dict_put key d v).
Proof.
  unfold dict_wf, dict_put, dict_keys. intros Hnd.
  destruct (existsb (fun w => key w =? key v) d) eqn:E.
  - rewrite map_map.
    rewrite (map_ext (fun w => key (if key w =? key v then v else w)) key); [exact Hnd|].
    intros w. destruct (key w =? key v) eqn:Ew; [|reflexivity].
    apply Z.eqb_eq in Ew. now symmetry.
  - rewrite map_app. simpl. apply NoDup_snoc; [exact Hnd|].
    intros Hin. apply in_map_iff in Hin. destruct Hin as (w & Hw & Hin).
    assert (Ht : existsb (fun w => key w =? key v) d = true).
    { apply existsb_exists. exists w. split; [exact Hin|]. now apply Z.eqb_eq. }
    rewrite Ht in E. discriminate.
Qed.

Lemma dict_put_In (d : list V) (v x : V) : In x (dict_put key d v) -> In x d \/ x = v.
Proof.
  unfold dict_put. destruct (existsb (fun w => key w =? key v) d).
  - intros Hin. apply in_map_iff in Hin. destruct Hin as (w & Hw & Hin).
    destruct (key w =? key v); [right; now symmetry|left; now subst].
  - intros Hin. apply in_app_or in Hin. destruct Hin as [Hin|[->|[]]]; auto.
Qed.

Lemma dict_of_list_spec (l : list V) :
  dict_wf key (dict_of_list key l) /\ forall x, In x (dict_of_list key l) -> In x l.
Proof.
  unfold dict_of_list.
  assert (H : forall acc,
            dict_wf key acc ->
            dict_wf key (fold_left (dict_put key) l acc)
            /\ forall x, In x (fold_left (dict_put key) l acc) -> In x acc \/ In x l).
  { induction l as [|v l IH]; intros acc Hacc; simpl; [auto|].
    destruct (IH (dict_put key acc v) (dict_put_wf acc v Hacc)) as [W I].
    split; [exact W|]. intros x Hx. destruct (I x Hx) as [Hin|Hin]; [|auto].
    destruct (dict_put_In acc v x Hin); auto. }
  destruct (H [] (NoDup_nil _)) as [W I]. split; [exact W|].
  intros x Hx. destruct (I x Hx) as [[]|Hin]. exact Hin.
Qed.
End FreshDict.

Lemma good_freshly_loaded (w : World) : freshly_loaded w -> good_world w.
Proof.
  intros (registry & agents & tasks & process & Ha & Ht & ->).
  destruct (dict_of_list_spec Task.tid tasks) as [Wt It].
  destruct (dict_of_list_spec Agent.aid agents) as [Wa _].
  split; [split; assumption|].
  intros k t a Hg Hact _. exfalso.
  destruct (dict_get_Some _ _ _ _ Hg) as [_ Hin].
  rewrite Forall_forall in Ht. unfold active in Hact.
  rewrite (Ht t (It t Hin)) in Hact. discriminate.
Qed.

Lemma filter_same_key_length {V : Type} (key : V -> Z) (p : V -> bool) (l : list V) :
  dict_wf key l ->
  (forall x y, In x l -> In y l -> p x = true -> p y = true -> key x = key y) ->
  (List.length (filter p l) <= 1)%nat.
Proof.
  unfold dict_wf, dict_keys. induction l as [|x l IH]; simpl; intros Hnd Hsame; [lia|].
  inversion Hnd as [|? ? Hx Hl]; subst.
  destruct (p x) eqn:Hp.
  - assert (Hempty : filter p l = []).
    { destruct (filter p l) as [|y r] eqn:Hf; [reflexivity|]. exfalso.
      assert (Hy : In y (filter p l)) by (rewrite Hf; now left).
      apply filter_In in Hy. destruct Hy as [Hy Hpy].
      apply Hx. rewrite (Hsame x y); auto. now apply in_map. }
    rewrite Hempty. simpl. lia.
  - apply IH; auto.
Qed.

Lemma good_no_double_booking (w : World) :
  good_world w -> no_double_booking w /\ holds_at_most_one w.
Proof.
  intros [[Wt Wa] Hb]. split.
  - intros aid. unfold bookings. apply (filter_same_key_length Task.tid); [exact Wt|].
    intros x y Hx Hy Px Py.
    apply andb_prop in Px, Py. destruct Px as [Ax Bx], Py as [Ay By].
    destruct (Task.assigned_agent_id x) as [ax|] eqn:Hax; [|discriminate].
    destruct (Task.assigned_agent_id y) as [ay|] eqn:Hay; [|discriminate].
    apply Z.eqb_eq in Bx, By. subst ax ay.
    destruct (Hb (Task.tid x) x aid) as (ag & Hg & Hc & _); auto.
    { now apply (dict_get_In Task.tid). }
    destruct (Hb (Task.tid y) y aid) as (ag' & Hg' & Hc' & _); auto.
    { now apply (dict_get_In Task.tid). }
    congruence.
  - intros a c _ _. apply (filter_same_key_length Task.tid); [exact Wt|].
    intros x y _ _ Px Py. apply Z.eqb_eq in Px, Py. congruence.
Qed.

(** C6, amended.  In every state reached from a freshly loaded crew by
    readiness passes, scheduling passes, work steps, ticks and the release of
    agents to which no ASSIGNED or RUNNING task is bound (as the completing
    work step releases them), at most one ASSIGNED or RUNNING task is bound
    to any agent, and the current task id of any agent names at most one
    task. *)
Theorem no_double_booking_reachable `{RT : PyRuntime} (w0 w : World) :
  freshly_loaded w0 -> reachable release_when_unbooked w0 w ->
  no_double_booking w /\ holds_at_most_one w.
Proof.
  intros Hfresh Hreach. apply good_no_double_booking.
  induction Hreach as [|w op _ IH Hallowed].
  - now apply good_freshly_loaded.
  - now apply good_apply_op.
Qed.

(** The loaded sample after a tick in which every consultation yields a
    final answer. *)
Lemma no_double_booking_reachable_witness :
  freshly_loaded sample_world
  /\ @reachable sample_runtime release_when_unbooked sample_world
       (@apply_op sample_runtime (OpTick final_answer_oracle) sample_world)
  /\ no_double_booking (@apply_op sample_runtime (OpTick final_answer_oracle) sample_world).
Proof.
  assert (Hf : freshly_loaded sample_world).
  { exists sample_registry, [Sample.researcher; Sample.calculator_agent; Sample.writer],
      [Sample.task1; Sample.task2; Sample.task3], SEQUENTIAL.
    split; [repeat constructor|]. split; [repeat constructor|reflexivity]. }
  assert (Hr : @reachable sample_runtime release_when_unbooked sample_world
                 (@apply_op sample_runtime (OpTick final_answer_oracle) sample_world)).
  { apply reach_step; [apply reach_start|exact I]. }
  split; [exact Hf|]. split; [exact Hr|].
  exact (proj1 (@no_double_booking_reachable sample_runtime sample_world _ Hf Hr)).
Defined.

(** C6 as stated fails: one agent, two tasks.  Two passes put task 0 on the
    agent, RUNNING; the agent is released; a third pass assigns task 1 to
    it.  Tasks 0 and 1 are then both bound to agent 0, RUNNING and
    ASSIGNED. *)
Lemma no_double_booking_counterexample :
  freshly_loaded solo_world
  /\ @reachable sample_runtime pass_work_release solo_world solo_double_booked
  /\ map (fun t => (Task.tid t, Task.state t)) (bookings solo_double_booked 0)
     = [(0, TaskState.RUNNING); (1, TaskState.ASSIGNED)]
  /\ ~ no_double_booking solo_double_booked.
Proof.
  split.
  { exists [], [Agent.init 0 "Worker" "Do the work." "A worker." []],
      [Task.init 0 "First task" "A result." None [];
       Task.init 1 "Second task" "A result." None []], SEQUENTIAL.
    split; [repeat constructor|]. split; [repeat constructor|reflexivity]. }
  split.
  { unfold solo_double_booked, run_ops. cbn [fold_left].
    repeat (apply reach_step; [|exact I]). apply reach_start. }
  split; [reflexivity|].
  intros H. specialize (H 0). vm_compute in H. lia.
Qed.

(** C7, amended.  Once a task is COMPLETED, no readiness pass, scheduling
    pass, work step, tick or agent release, and no state update to a state
    other than PENDING and READY, ever leaves it PENDING or READY. *)
Theorem completed_never_reverts `{RT : PyRuntime} (ops : list core_op) (w : World)
    (tid : Z) (t : Task.t) :
  wf_world w -> Forall no_update_back ops ->
  get_task w tid = Some t -> Task.state t = TaskState.COMPLETED ->
  exists t', get_task (run_ops ops w) tid = Some t'
             /\ Task.state t' <> TaskState.PENDING /\ Task.state t' <> TaskState.READY.
Proof.
  intros Hwf Hops Hg Hs.
  assert (Hset : settled t) by (unfold settled; rewrite Hs; split; discriminate).
  clear Hs. revert w t Hwf Hg Hset.
  induction Hops as [|op ops Hop _ IH]; intros w t Hwf Hg Hset.
  - exists t. split; [exact Hg|exact Hset].
  - unfold run_ops. simpl. fold (run_ops ops (apply_op op w)).
    destruct (settled_apply_op op w Hwf Hop) as [W S].
    specialize (S tid). rewrite Hg in S.
    destruct (get_task (apply_op op w) tid) as [t1|] eqn:Hg1; simpl in S; [|contradiction].
    apply (IH (apply_op op w) t1 W Hg1 (S Hset)).
Qed.

(** Task 0 of the sample, once completed, through a further tick. *)
Lemma completed_never_reverts_witness :
  wf_world sample_completed
  /\ option_map Task.state (get_task sample_completed 0) = Some TaskState.COMPLETED
  /\ exists t', get_task (@run_ops sample_runtime [OpTick final_answer_oracle]
                            sample_completed) 0 = Some t'
                /\ Task.state t' <> TaskState.PENDING
                /\ Task.state t' <> TaskState.READY.
Proof.
  assert (Hwf : wf_world sample_completed).
  { split; unfold dict_wf, dict_keys; vm_compute;
      repeat (constructor; [simpl; intuition congruence|]); constructor. }
  assert (Hg : exists t, get_task sample_completed 0 = Some t
                         /\ Task.state t = TaskState.COMPLETED).
  { eexists. split; [vm_compute; reflexivity|reflexivity]. }
  destruct Hg as (t & Hg & Hs).
  split; [exact Hwf|]. split; [now rewrite Hg; simpl; rewrite Hs|].
  apply (@completed_never_reverts sample_runtime [OpTick final_answer_oracle]
           sample_completed 0 t Hwf).
  - repeat constructor.
  - exact Hg.
  - exact Hs.
Defined.

(** C7 as stated fails: the state update is an unguarded setter.  Task 0
    of the sample is COMPLETED, and [update_task_state(0, PENDING)] makes it
    PENDING again. *)
Lemma completed_never_reverts_counterexample :
  option_map Task.state (get_task sample_completed 0) = Some TaskState.COMPLETED
  /\ option_map Task.state
       (get_task (@apply_op sample_runtime (OpUpdateState 0 TaskState.PENDING)
                    sample_completed) 0)
     = Some TaskState.PENDING.
Proof. split; vm_compute; reflexivity. Qed.

(** * Further properties of the core *)

(** ** The ledger *)

Lemma logged_app (kind : string) (l1 l2 : list ResourceMonitor.entry) :
  logged kind (l1 ++ l2) = logged kind l1 + logged kind l2.
Proof.
  induction l1 as [|[[[u a] t] n] l1 IH]; simpl; [reflexivity|].
  rewrite IH. destruct (String.eqb u kind); lia.
Qed.

Lemma record_usage_consistent (usage_type : string) (agent_id : Z) (task_id : option Z)
    (amount : Z) (m : ResourceMonitor.t) :
  ledger_consistent m ->
  ledger_consistent (ResourceMonitor.record_usage usage_type agent_id task_id amount m)
  /\ ResourceMonitor.usage_log
       (ResourceMonitor.record_usage usage_type agent_id task_id amount m)
     = (ResourceMonitor.usage_log m
        ++ if 0 <? amount then [(usage_type, agent_id, task_id, amount)] else [])%list.
Proof.
  intros (Ht & Hc & Hp). unfold ResourceMonitor.record_usage.
  destruct (amount <=? 0) eqn:E.
  - apply Z.leb_le in E. assert (H0 : (0 <? amount) = false) by (apply Z.ltb_ge; lia).
    rewrite H0, app_nil_r. repeat split; assumption.
  - apply Z.leb_gt in E. assert (H0 : (0 <? amount) = true) by (apply Z.ltb_lt; lia).
    rewrite H0. split; [|now destruct (String.eqb usage_type "tokens");
                          destruct (String.eqb usage_type "tool_calls")].
    unfold ledger_consistent.
    destruct (String.eqb usage_type "tokens") eqn:E1.
    + apply String.eqb_eq in E1. subst usage_type. simpl.
      rewrite !logged_app. simpl. repeat split; try lia.
      apply Forall_app. split; [exact Hp|]. constructor; [simpl; lia|constructor].
    + destruct (String.eqb usage_type "tool_calls") eqn:E2; simpl;
        rewrite !logged_app; simpl; rewrite E1, E2; repeat split; try lia;
        apply Forall_app; (split; [exact Hp|]); constructor; simpl; try lia; constructor.
Qed.

(** X1.  Whatever calls [record_usage] receives from a new monitor on, the
    log holds exactly the calls with a positive amount, in call order; the
    two totals are the sums of the logged [tokens] and [tool_calls] amounts
    (an entry of any other kind is logged and counted in neither), and
    [get_report] returns these sums. *)
Theorem record_usage_ledger (calls : list ResourceMonitor.entry) :
  let m := fold_left record_call calls ResourceMonitor.init in
  ResourceMonitor.usage_log m = filter (fun c => 0 <? snd c) calls
  /\ ledger_consistent m
  /\ ResourceMonitor.get_report m
     = (logged "tokens" (ResourceMonitor.usage_log m),
        logged "tool_calls" (ResourceMonitor.usage_log m)).
Proof.
  assert (H : forall m0, ledger_consistent m0 ->
            ResourceMonitor.usage_log (fold_left record_call calls m0)
            = (ResourceMonitor.usage_log m0 ++ filter (fun c => 0 <? snd c) calls)%list
            /\ ledger_consistent (fold_left record_call calls m0)).
  { induction calls as [|[[[u a] t] n] calls IH]; intros m0 H0; simpl.
    - now rewrite app_nil_r.
    - destruct (record_usage_consistent u a t n m0 H0) as [Hc Hl].
      destruct (IH _ Hc) as [IHl IHc]. split; [|exact IHc].
      rewrite IHl, Hl, <- app_assoc. now destruct (0 <? n). }
  intros m. subst m.
  destruct (H ResourceMonitor.init) as [Hl Hc].
  { repeat split; constructor. }
  split; [exact Hl|]. split; [exact Hc|].
  unfold ResourceMonitor.get_report. destruct Hc as (-> & -> & _). reflexivity.
Qed.

(** ** The tool registry *)

(** X2.  Looking a name up after a registration gives the registered tool
    under its own name and what was there before under any other name. *)
Theorem get_tool_register_tool (tool : Tool.t) (r : ToolRegistry.t) (name : string) :
  ToolRegistry.get_tool (ToolRegistry.register_tool tool r) name
  = if String.eqb (Tool.name tool) name then Some tool else ToolRegistry.get_tool r name.
Proof.
  unfold ToolRegistry.get_tool, ToolRegistry.register_tool.
  destruct (String.eqb (Tool.name tool) name) eqn:En.
  - apply String.eqb_eq in En. subst name.
    induction r as [|[k v] r IH]; simpl.
    + now rewrite String.eqb_refl.
    + destruct (String.eqb k (Tool.name tool)) eqn:Ek; simpl.
      * now rewrite String.eqb_refl.
      * destruct (existsb _ r) eqn:Ex; simpl; rewrite Ek; exact IH.
  - assert (Hne : forall k, String.eqb k (Tool.name tool) = true ->
                            String.eqb k name = false).
    { intros k Hk. apply String.eqb_eq in Hk. subst k. exact En. }
    destruct (existsb _ r) eqn:Ex.
    + clear Ex. induction r as [|[k v] r IH]; simpl; [reflexivity|].
      destruct (String.eqb k (Tool.name tool)) eqn:Ek; simpl.
      * rewrite En, (Hne k Ek). exact IH.
      * destruct (String.eqb k name); [reflexivity|exact IH].
    + clear Ex. induction r as [|[k v] r IH]; simpl.
      * now rewrite En.
      * destruct (String.eqb k name); [reflexivity|exact IH].
Qed.

Lemma list_tools_register_tool (tool : Tool.t) (r : ToolRegistry.t) :
  ToolRegistry.list_tools (ToolRegistry.register_tool tool r)
  = if str_in (Tool.name tool) (ToolRegistry.list_tools r)
    then ToolRegistry.list_tools r
    else (ToolRegistry.list_tools r ++ [Tool.name tool])%list.
Proof.
  unfold ToolRegistry.register_tool, ToolRegistry.list_tools, str_in.
  assert (Hex : existsb (fun kv => String.eqb (fst kv) (Tool.name tool)) r
                = existsb (String.eqb (Tool.name tool)) (map fst r)).
  { induction r as [|[k v] r IH]; simpl; [reflexivity|].
    now rewrite IH, String.eqb_sym. }
  rewrite Hex. destruct (existsb _ (map fst r)).
  - rewrite map_map. apply map_ext. intros [k v]. simpl.
    destruct (String.eqb k (Tool.name tool)) eqn:E; [|reflexivity].
    apply String.eqb_eq in E. now subst.
  - rewrite map_app. reflexivity.
Qed.

(** X3.  A registration keeps the registry well formed (every entry filed
    under its tool's name, no name twice); a name already registered keeps
    its place in the listing, a new name goes to the end. *)
Theorem register_tool_wf (tool : Tool.t) (r : ToolRegistry.t) :
  registry_wf r ->
  registry_wf (ToolRegistry.register_tool tool r)
  /\ (In (Tool.name tool) (ToolRegistry.list_tools r) ->
      ToolRegistry.list_tools (ToolRegistry.register_tool tool r)
      = ToolRegistry.list_tools r)
  /\ (~ In (Tool.name tool) (ToolRegistry.list_tools r) ->
      ToolRegistry.list_tools (ToolRegistry.register_tool tool r)
      = (ToolRegistry.list_tools r ++ [Tool.name tool])%list).
Proof.
  intros [Hnd Hk].
  assert (Hin : str_in (Tool.name tool) (ToolRegistry.list_tools r) = true
                <-> In (Tool.name tool) (ToolRegistry.list_tools r)).
  { unfold str_in. rewrite existsb_exists. split.
    - intros (x & Hx & E). apply String.eqb_eq in E. now subst.
    - intros H. exists (Tool.name tool). split; [exact H|apply String.eqb_refl]. }
  pose proof (list_tools_register_tool tool r) as Hl.
  split; [split|split].
  - rewrite Hl. destruct (str_in (Tool.name tool) (ToolRegistry.list_tools r)) eqn:E;
      [exact Hnd|].
    apply NoDup_snoc; [exact Hnd|]. intros H. apply Hin in H. congruence.
  - unfold ToolRegistry.register_tool.
    destruct (existsb _ r).
    + apply Forall_forall. intros kv H. apply in_map_iff in H.
      destruct H as (x & Hx & Hxin). rewrite Forall_forall in Hk.
      destruct (String.eqb (fst x) (Tool.name tool)); subst kv; [reflexivity|auto].
    + apply Forall_app. split; [exact Hk|]. constructor; [reflexivity|constructor].
  - intros H. rewrite Hl. apply Hin in H. now rewrite H.
  - intros H. rewrite Hl.
    destruct (str_in (Tool.name tool) (ToolRegistry.list_tools r)) eqn:E; [|reflexivity].
    exfalso. apply H. now apply Hin.
Qed.

Lemma register_tool_wf_witness :
  registry_wf sample_registry
  /\ ToolRegistry.list_tools (ToolRegistry.register_tool WebSearchTool sample_registry)
     = ToolRegistry.list_tools sample_registry.
Proof.
  assert (Hwf : registry_wf sample_registry).
  { split; [|repeat constructor].
    unfold ToolRegistry.list_tools. simpl. constructor; [simpl; tauto|constructor]. }
  split; [exact Hwf|].
  apply (proj1 (proj2 (register_tool_wf WebSearchTool sample_registry Hwf))).
  simpl. now left.
Defined.

(** ** The task manager *)


(** X5.  A readiness pass is idempotent: run right after another, it
    promotes nothing more. *)
Theorem check_and_update_task_readiness_idempotent (T : TaskTable) :
  dict_wf Task.tid T ->
  TaskManager.check_and_update_task_readiness
    (TaskManager.check_and_update_task_readiness T)
  = TaskManager.check_and_update_task_readiness T.
Proof.
  intros Hwf. rewrite (check_and_update_task_readiness_map T Hwf).
  rewrite check_and_update_task_readiness_map
    by (apply dict_wf_map; auto with keeps).
  rewrite map_map. apply map_ext. intros t.
  assert (Hc : forall k, completed (map (readiness_of T) T) k = completed T k).
  { intros k. unfold completed. rewrite get_task_map by auto with keeps.
    destruct (TaskManager.get_task T k) as [x|]; simpl; [|reflexivity].
    apply readiness_of_completed. }
  unfold readiness_of at 1.
  rewrite (deps_met_loop_completed T (map (readiness_of T) T) _ Hc).
  unfold readiness_of.
  destruct (TaskState.eqb (Task.state t) TaskState.PENDING) eqn:Es; simpl.
  - destruct (TaskManager.deps_met_loop T (Task.dependencies t)) eqn:Ed; simpl.
    + reflexivity.
    + now rewrite Es, Ed.
  - now rewrite Es.
Qed.

Lemma check_and_update_task_readiness_idempotent_witness :
  dict_wf Task.tid Sample.tasks_after_two
  /\ TaskManager.check_and_update_task_readiness
       (TaskManager.check_and_update_task_readiness Sample.tasks_after_two)
     = TaskManager.check_and_update_task_readiness Sample.tasks_after_two.
Proof.
  assert (Hwf : dict_wf Task.tid Sample.tasks_after_two) by nodup_keys.
  split; [exact Hwf|].
  exact (check_and_update_task_readiness_idempotent _ Hwf).
Defined.

(** ** Building the crew *)

Section DictBuild.
Context {V : Type} (key : V -> Z).

Lemma dict_get_put (d : list V) (v : V) (k : Z) :
  dict_get key (dict_put key d v) k = if key v =? k then Some v else dict_get key d k.
Proof.
  unfold dict_get, dict_put.
  destruct (existsb (fun w => key w =? key v) d) eqn:Ex.
  - destruct (key v =? k) eqn:Ek.
    + apply Z.eqb_eq in Ek. subst k.
      induction d as [|w d IH]; simpl in *; [discriminate|].
      destruct (key w =? key v) eqn:Ew; simpl.
      * now rewrite Z.eqb_refl.
      * rewrite Ew. apply IH. exact Ex.
    + clear Ex. induction d as [|w d IH]; simpl; [reflexivity|].
      destruct (key w =? key v) eqn:Ew.
      * rewrite Ek. apply Z.eqb_eq in Ew. rewrite Ew, Ek. exact IH.
      * destruct (key w =? k); [reflexivity|exact IH].
  - induction d as [|w d IH]; simpl in *.
    + reflexivity.
    + apply orb_false_elim in Ex. destruct Ex as [Ew Ex].
      destruct (key w =? k) eqn:Ewk.
      * apply Z.eqb_eq in Ewk. subst k. rewrite Z.eqb_sym, Ew. reflexivity.
      * now apply IH.
Qed.

Lemma find_snoc (p : V -> bool) (l : list V) (v : V) :
  find p (l ++ [v]) = match find p l with Some x => Some x | None => if p v then Some v else None end.
Proof.
  induction l as [|x l IH]; simpl; [reflexivity|]. destruct (p x); [reflexivity|exact IH].
Qed.

Lemma dict_get_of_list (l : list V) (k : Z) :
  dict_get key (dict_of_list key l) k = find (fun v => key v =? k) (rev l).
Proof.
  unfold dict_of_list.
  assert (H : forall acc,
            dict_get key (fold_left (dict_put key) l acc) k
            = match find (fun v => key v =? k) (rev l) with
              | Some x => Some x
              | None => dict_get key acc k
              end).
  { induction l as [|v l IH]; intros acc; simpl; [reflexivity|].
    rewrite IH, find_snoc, dict_get_put.
    destruct (find (fun v0 => key v0 =? k) (rev l)); [reflexivity|].
    now destruct (key v =? k). }
  rewrite H. now destruct (find _ (rev l)).
Qed.

Lemma dict_of_list_distinct (l : list V) :
  NoDup (map key l) -> dict_of_list key l = l.
Proof.
  unfold dict_of_list.
  assert (H : forall acc, NoDup (map key (acc ++ l)) ->
                          fold_left (dict_put key) l acc = (acc ++ l)%list).
  { induction l as [|v l IH]; intros acc Hnd; simpl.
    - now rewrite app_nil_r.
    - assert (Hput : dict_put key acc v = (acc ++ [v])%list).
      { unfold dict_put.
        destruct (existsb (fun w => key w =? key v) acc) eqn:Ex; [|reflexivity].
        exfalso. apply existsb_exists in Ex. destruct Ex as (w & Hw & E).
        apply Z.eqb_eq in E. rewrite map_app in Hnd. simpl in Hnd.
        apply NoDup_remove_2 in Hnd. apply Hnd. apply in_or_app. left.
        rewrite <- E. now apply in_map. }
      rewrite Hput, IH; rewrite <- app_assoc; [reflexivity|exact Hnd]. }
  intros Hnd. apply (H [] Hnd).
Qed.
End DictBuild.

(** X6.  The tables [Crew(agents, tasks, process)] builds have distinct
    ids; looking an id up gives the last object of the given list with that
    id; when the ids of the list are distinct the table is the list, in its
    order, and the declared order lists the same ids. *)
Theorem crew_init_tables (agents : list Agent.t) (tasks : list Task.t)
    (process : CrewProcess) :
  let c := Crew.init agents tasks process in
  dict_wf Task.tid (Crew.tasks c) /\ dict_wf Agent.aid (Crew.agents c)
  /\ (forall k, Crew.get_task c k = find (fun t => Task.tid t =? k) (rev tasks))
  /\ (forall i, Crew.get_agent c i = find (fun a => Agent.aid a =? i) (rev agents))
  /\ (NoDup (map Task.tid tasks) ->
      Crew.tasks c = tasks /\ Crew.task_order c = dict_keys Task.tid (Crew.tasks c))
  /\ (NoDup (map Agent.aid agents) -> Crew.agents c = agents).
Proof.
  intros c. subst c. unfold Crew.get_task, Crew.get_agent. simpl.
  split; [apply dict_of_list_spec|]. split; [apply dict_of_list_spec|].
  split; [intros k; apply dict_get_of_list|].
  split; [intros i; apply dict_get_of_list|]. split.
  - intros H. rewrite (dict_of_list_distinct Task.tid tasks H). auto.
  - apply dict_of_list_distinct.
Qed.

(** ** Releasing an agent *)

(** X8.  [release_agent] touches the named agent only: tasks, queue,
    ledger and every other agent are as before.  An agent that is not IDLE
    becomes IDLE without current task, its counters and tools kept; an
    unknown id or an agent already IDLE leaves the system untouched; a second
    release changes nothing more. *)
Theorem release_agent_spec (i : Z) (w : World) :
  let w' := AgentScheduler.release_agent i w in
  w_tasks w' = w_tasks w /\ task_queue w' = task_queue w
  /\ resource_monitor w' = resource_monitor w
  /\ (forall j, j <> i -> get_agent w' j = get_agent w j)
  /\ (forall a, get_agent w i = Some a -> Agent.state a <> AgentState.IDLE ->
      get_agent w' i
      = Some (Agent.mk (Agent.aid a) (Agent.role a) (Agent.goal a) (Agent.backstory a)
                (Agent.tools a) AgentState.IDLE None (Agent.resource_usage a)))
  /\ (get_agent w i = None
      \/ (exists a, get_agent w i = Some a /\ Agent.state a = AgentState.IDLE) ->
      w' = w)
  /\ AgentScheduler.release_agent i w' = w'.
Proof.
  intros w'. subst w'.
  destruct (release_agent_tables i w) as (Rt & _ & Ra).
  assert (Hnon : forall a, get_agent w i = Some a -> Agent.state a <> AgentState.IDLE ->
            AgentScheduler.release_agent i w
            = modify_agent i (fun a => Agent.set_current_task_id None
                                         (Agent.update_state AgentState.IDLE a)) w).
  { intros a Hg Hs. unfold AgentScheduler.release_agent. rewrite Hg.
    destruct (AgentState.eqb (Agent.state a) AgentState.IDLE) eqn:E; [|reflexivity].
    apply agent_state_eqb_eq in E. contradiction. }
  assert (Hidle : get_agent w i = None
                  \/ (exists a, get_agent w i = Some a
                                /\ Agent.state a = AgentState.IDLE) ->
                  AgentScheduler.release_agent i w = w).
  { intros [Hg|(a & Hg & Hs)]; unfold AgentScheduler.release_agent; rewrite Hg;
      [reflexivity|]. now rewrite Hs. }
  split; [exact Rt|]. split.
  { unfold AgentScheduler.release_agent. destruct (get_agent w i) as [a|]; [|reflexivity].
    now destruct (negb (AgentState.eqb (Agent.state a) AgentState.IDLE)). }
  split.
  { unfold AgentScheduler.release_agent. destruct (get_agent w i) as [a|]; [|reflexivity].
    now destruct (negb (AgentState.eqb (Agent.state a) AgentState.IDLE)). }
  split; [exact Ra|]. split.
  { intros a Hg Hs. rewrite (Hnon a Hg Hs).
    rewrite get_agent_modify by (now intros []). now rewrite Z.eqb_refl, Hg. }
  split; [exact Hidle|].
  destruct (get_agent w i) as [a|] eqn:Hg.
  - destruct (AgentState.eqb (Agent.state a) AgentState.IDLE) eqn:Es.
    + apply agent_state_eqb_eq in Es.
      rewrite (Hidle (or_intror (ex_intro _ a (conj eq_refl Es)))).
      apply Hidle. right. exists a. auto.
    + assert (Hs : Agent.state a <> AgentState.IDLE).
      { intros H. rewrite H in Es. discriminate. }
      rewrite (Hnon a eq_refl Hs).
      unfold AgentScheduler.release_agent at 1.
      rewrite get_agent_modify by (now intros []). rewrite Z.eqb_refl, Hg. reflexivity.
  - rewrite (Hidle (or_introl eq_refl)). apply Hidle. now left.
Qed.

(** ** A tick with nothing to do *)

(** X7.  When no task is ASSIGNED or RUNNING and the queue is empty or the
    process is HIERARCHICAL, a tick consults no oracle and changes nothing in
    the loaded system: only the tick counter moves.  A HIERARCHICAL crew
    therefore never starts, and a crew whose queue has drained is not
    scheduled again by resetting its states alone. *)
Theorem tick_stalled `{RT : PyRuntime} (oracle : Oracle) (k : Kernel.t) (w : World) :
  Kernel.loaded k = Some w -> Kernel.running k = true ->
  nothing_in_flight w ->
  task_queue w = [] \/ Crew.process (crew w) = HIERARCHICAL ->
  Kernel.tick_world oracle w = (Returned tt, w)
  /\ Kernel.tick oracle k
     = (Returned (negb (Crew.all_tasks_done (crew w))),
        Kernel.mk (Some w) (Kernel.tick_count k + 1)
          (negb (Crew.all_tasks_done (crew w)))).
Proof.
  intros Hl Hr Hnone Hq.
  assert (Hf : forall s, s = TaskState.ASSIGNED \/ s = TaskState.RUNNING ->
                 filter (fun t => TaskState.eqb (Task.state t) s) (w_tasks w) = []).
  { intros s Hs. unfold nothing_in_flight in Hnone.
    induction (w_tasks w) as [|t T IH]; [reflexivity|]. simpl.
    inversion Hnone as [|? ? Ht HT]; subst. unfold active in Ht.
    apply orb_false_elim in Ht. destruct Ht as [H1 H2].
    destruct Hs as [-> | ->]; [rewrite H1|rewrite H2]; now apply IH. }
  assert (Hs : AgentScheduler.schedule_next w = w).
  { unfold AgentScheduler.schedule_next.
    destruct (Crew.process (crew w)) eqn:Hp; [|reflexivity].
    destruct Hq as [Hq|Hq]; [|discriminate].
    unfold AgentScheduler.promote_assigned. rewrite (Hf _ (or_introl eq_refl)). simpl.
    unfold AgentScheduler.assign_head. now rewrite Hq. }
  assert (Hw : Kernel.tick_world oracle w = (Returned tt, w)).
  { unfold Kernel.tick_world, Crew.get_tasks_by_state. rewrite Hs.
    change (Crew.tasks (crew w)) with (w_tasks w).
    now rewrite (Hf _ (or_intror eq_refl)). }
  split; [exact Hw|].
  unfold Kernel.tick. rewrite Hl, Hr, Hw. simpl.
  destruct (Crew.all_tasks_done (crew w)); simpl; now rewrite ?Hr.
Qed.

Lemma tick_stalled_witness :
  Kernel.loaded (Kernel.mk (Some (with_queue [] sample_world)) 0 true)
    = Some (with_queue [] sample_world)
  /\ nothing_in_flight (with_queue [] sample_world)
  /\ @Kernel.tick sample_runtime final_answer_oracle
       (Kernel.mk (Some (with_queue [] sample_world)) 0 true)
     = (Returned true, Kernel.mk (Some (with_queue [] sample_world)) 1 true).
Proof.
  assert (Hn : nothing_in_flight (with_queue [] sample_world)) by (repeat constructor).
  split; [reflexivity|]. split; [exact Hn|].
  exact (proj2 (@tick_stalled sample_runtime final_answer_oracle
                  (Kernel.mk (Some (with_queue [] sample_world)) 0 true)
                  (with_queue [] sample_world) eq_refl eq_refl Hn (or_introl eq_refl))).
Defined.

(** ** What no operation changes *)

Lemma task_decl_refl t : same_task_declaration t t.
Proof. repeat split. Qed.

Lemma task_decl_trans a b c :
  same_task_declaration a b -> same_task_declaration b c -> same_task_declaration a c.
Proof.
  intros (H1 & H2 & H3 & H4) (G1 & G2 & G3 & G4). repeat split; congruence.
Qed.

Lemma agent_decl_refl a : same_agent_declaration a a.
Proof. repeat split. Qed.

Lemma agent_decl_trans a b c :
  same_agent_declaration a b -> same_agent_declaration b c -> same_agent_declaration a c.
Proof.
  intros (H1 & H2 & H3 & H4 & H5) (G1 & G2 & G3 & G4 & G5). repeat split; congruence.
Qed.

Lemma Forall2_refl_all {A : Type} (R : A -> A -> Prop) (l : list A) :
  (forall x, R x x) -> Forall2 R l l.
Proof. intros H. induction l; constructor; auto. Qed.

Lemma Forall2_trans_all {A : Type} (R : A -> A -> Prop) (l1 l2 l3 : list A) :
  (forall a b c, R a b -> R b c -> R a c) ->
  Forall2 R l1 l2 -> Forall2 R l2 l3 -> Forall2 R l1 l3.
Proof.
  intros HR H. revert l3. induction H; intros l3 G; inversion G; subst; constructor; eauto.
Qed.

Lemma Forall2_modify {V : Type} (key : V -> Z) (R : V -> V -> Prop) (k : Z) (f : V -> V)
    (d : list V) :
  (forall v, R v v) -> (forall v, R v (f v)) -> Forall2 R d (dict_modify key k f d).
Proof.
  intros Hr Hf. unfold dict_modify. induction d as [|v d IH]; simpl; constructor; auto.
  destruct (key v =? k); auto.
Qed.

Lemma tasks_decl_modify (k : Z) (f : Task.t -> Task.t) (T : TaskTable) :
  (forall t, same_task_declaration t (f t)) ->
  Forall2 same_task_declaration T (dict_modify Task.tid k f T).
Proof. apply Forall2_modify. apply task_decl_refl. Qed.

Lemma tasks_decl_update_task_state (k : Z) (s : TaskState.t) (T : TaskTable) :
  Forall2 same_task_declaration T (TaskManager.update_task_state k s T).
Proof.
  unfold TaskManager.update_task_state.
  destruct (TaskManager.get_task T k) as [t|];
    [|apply Forall2_refl_all, task_decl_refl].
  destruct (negb (TaskState.eqb (Task.state t) s));
    [|apply Forall2_refl_all, task_decl_refl].
  apply tasks_decl_modify. intros x. repeat split.
Qed.

Lemma tasks_decl_add_result (k : Z) (r : string) (T : TaskTable) :
  Forall2 same_task_declaration T (TaskManager.add_result k r T).
Proof.
  unfold TaskManager.add_result.
  destruct (TaskManager.get_task T k); [|apply Forall2_refl_all, task_decl_refl].
  apply tasks_decl_modify. intros x. repeat split.
Qed.

Lemma tasks_decl_build_context (T : TaskTable) (t : Task.t) :
  Forall2 same_task_declaration T (snd (TaskManager.build_context T t)).
Proof.
  rewrite build_context_modify. apply tasks_decl_modify. intros x. repeat split.
Qed.

Lemma tasks_decl_readiness (T : TaskTable) :
  Forall2 same_task_declaration T (TaskManager.check_and_update_task_readiness T).
Proof.
  unfold TaskManager.check_and_update_task_readiness.
  generalize (dict_keys Task.tid T) as ks. intros ks. revert T.
  induction ks as [|k ks IH]; intros T; simpl.
  - apply Forall2_refl_all, task_decl_refl.
  - apply (Forall2_trans_all _ _ (TaskManager.readiness_step T k)); [apply task_decl_trans| |apply IH].
    unfold TaskManager.readiness_step.
    destruct (TaskManager.get_task T k) as [t|]; [|apply Forall2_refl_all, task_decl_refl].
    destruct (TaskState.eqb (Task.state t) TaskState.PENDING);
      [|apply Forall2_refl_all, task_decl_refl].
    cbv zeta.
    match goal with
    | |- Forall2 _ _ (if ?b then _ else _) =>
        destruct b; [|apply Forall2_refl_all, task_decl_refl]
    end.
    apply tasks_decl_update_task_state.
Qed.

Lemma steady_state_change (w : World) (i : Z) (s : AgentState.t) :
  steady w (modify_agent i (Agent.update_state s) w).
Proof. apply steady_agent. intros a. repeat split. Qed.

Lemma steady_promote_step (w : World) (k : Z) : steady w (AgentScheduler.promote_step w k).
Proof.
  rewrite promote_step_unfold.
  destruct (get_task w k) as [task|]; [|apply steady_refl].
  destruct (confirming_agent w task) as [agent|]; [|apply steady_refl].
  cbv zeta.
  eapply steady_trans; [apply steady_state_change|].
  eapply steady_trans; [apply steady_tasks, tasks_decl_update_task_state|].
  apply steady_tasks, tasks_decl_build_context.
Qed.

Lemma steady_fold {K : Type} (step : World -> K -> World) (ks : list K) (w : World) :
  (forall w k, steady w (step w k)) -> steady w (fold_left step ks w).
Proof.
  intros H. revert w. induction ks as [|k ks IH]; intros w; simpl; [apply steady_refl|].
  eapply steady_trans; [apply H|apply IH].
Qed.

Lemma steady_assign (task : Task.t) (agent : Agent.t) (w : World) :
  steady w (AgentScheduler.assign_task_to_agent task agent w).
Proof.
  unfold AgentScheduler.assign_task_to_agent. cbv zeta.
  apply (steady_trans _
           (modify_task (Task.tid task) (Task.set_assigned_agent_id (Agent.aid agent)) w)).
  { apply steady_tasks, tasks_decl_modify. intros x. repeat split. }
  eapply steady_trans; [apply steady_tasks, tasks_decl_update_task_state|].
  apply steady_agent. intros a. repeat split.
Qed.

Lemma steady_readiness (w : World) :
  steady w (with_tasks (TaskManager.check_and_update_task_readiness (w_tasks w)) w).
Proof. apply steady_tasks, tasks_decl_readiness. Qed.

Lemma steady_schedule_next (w : World) : steady w (AgentScheduler.schedule_next w).
Proof.
  unfold AgentScheduler.schedule_next.
  destruct (Crew.process (crew w)); [|apply steady_refl].
  apply (steady_trans _ (AgentScheduler.promote_assigned w));
    [apply steady_fold, steady_promote_step|].
  generalize (AgentScheduler.promote_assigned w) as w1. intros w1.
  unfold AgentScheduler.assign_head.
  destruct (task_queue w1) as [|h q]; [apply steady_refl|].
  eapply steady_trans; [apply steady_readiness|].
  generalize (with_tasks (TaskManager.check_and_update_task_readiness (w_tasks w1)) w1)
    as w2. intros w2.
  destruct (get_task w2 h) as [task|]; [|apply steady_pop].
  destruct (Task.state task); try apply steady_refl; try apply steady_pop.
  destruct (AgentScheduler.get_available_agents w2) as [|agent l]; [apply steady_refl|].
  eapply steady_trans; [apply steady_pop|apply steady_assign].
Qed.

Lemma steady_release_agent (i : Z) (w : World) :
  steady w (AgentScheduler.release_agent i w).
Proof.
  unfold AgentScheduler.release_agent.
  destruct (get_agent w i) as [a|]; [|apply steady_refl].
  destruct (negb (AgentState.eqb (Agent.state a) AgentState.IDLE)); [|apply steady_refl].
  apply steady_agent. intros x. repeat split.
Qed.

Lemma steady_finished (agent_aid task_tid : Z) (content : string) (w : World) :
  steady w (finished agent_aid task_tid content w).
Proof.
  unfold finished. cbv zeta.
  eapply steady_trans; [apply steady_tasks, (tasks_decl_add_result task_tid content)|].
  eapply steady_trans;
    [apply steady_tasks, (tasks_decl_update_task_state task_tid TaskState.COMPLETED)|].
  eapply steady_trans; [apply (steady_release_agent agent_aid)|apply steady_readiness].
Qed.

Lemma steady_present (w w' : World) (i : Z) :
  steady w w' -> get_agent w i <> None -> get_agent w' i <> None.
Proof.
  intros H. induction H as [w|w1 w2 w3 _ IH1 _ IH2|w j f Hf|w T' _|w|w aid tid kind n _];
    intros Hp; auto.
  - rewrite get_agent_modify by (intros a; apply (Hf a)).
    destruct (j =? i); [|exact Hp]. destruct (get_agent w i); [discriminate|contradiction].
  - rewrite get_agent_modify by auto with keeps. rewrite get_agent_with_monitor.
    destruct (aid =? i); [|exact Hp]. destruct (get_agent w i); [discriminate|contradiction].
Qed.

Lemma steady_charge_call (aid tid : Z) (w : World) :
  get_agent w aid <> None -> steady w (Kernel.charge_call aid tid w).
Proof. intros Hp. unfold Kernel.charge_call. now apply steady_charge. Qed.

Lemma steady_execute_tool `{RT : PyRuntime} (w : World) (aid : Z) (task_id : option Z)
    (tool_name : pyval) (kwargs : list (string * pyval)) :
  steady w (snd (ToolDispatcher.execute_tool w aid task_id tool_name kwargs)).
Proof.
  unfold ToolDispatcher.execute_tool.
  destruct (find _ kwargs) as [[k v]|]; [apply steady_refl|].
  destruct (get_agent w aid) as [agent_obj|] eqn:Hg; [|apply steady_refl].
  destruct (negb (py_in_strs tool_name (Agent.tools agent_obj))); [apply steady_refl|].
  destruct (ToolDispatcher.lookup_tool (tool_registry w) tool_name) as [tool|];
    [|apply steady_refl].
  cbv zeta.
  match goal with
  | |- steady w (snd (match _ with
                      | Returned _ => (_, ?W) | Raised _ => _ end)) =>
      assert (HW : steady w W)
  end.
  { assert (Hp : get_agent w aid <> None) by (rewrite Hg; discriminate).
    pose proof (steady_charge w aid task_id "tool_calls" 1 Hp) as H1.
    eapply steady_trans; [exact H1|].
    pose proof (steady_charge _ aid task_id "tokens" (Tool.cost tool)
                  (steady_present _ _ aid H1 Hp)) as H2.
    match goal with
    | H : steady ?a ?b |- steady ?a ?c => replace c with b; [exact H|]
    end.
    apply world_ext; reflexivity. }
  destruct (Tool.execute tool kwargs) as [r|[e|n e]]; exact HW.
Qed.

Lemma steady_conclude `{RT : PyRuntime} (agent : Agent.t) (task : Task.t)
    (d : list (string * pyval)) (w : World) :
  steady w (snd (Kernel.conclude agent task d w)).
Proof.
  unfold Kernel.conclude.
  destruct (is_str "final_answer" (Kernel.response_get "action" d));
    [|apply steady_state_change].
  destruct (Kernel.response_get "content" d) eqn:E;
    try apply steady_state_change;
    apply (steady_finished (Agent.aid agent) (Task.tid task)).
Qed.

Lemma steady_simulate_agent_work `{RT : PyRuntime} (oracle : Oracle) (agent : Agent.t)
    (task : Task.t) (w : World) :
  get_agent w (Agent.aid agent) <> None ->
  steady w (snd (Kernel.simulate_agent_work oracle agent task w)).
Proof.
  intros Hp. unfold Kernel.simulate_agent_work. cbv zeta.
  pose proof (steady_charge_call (Agent.aid agent) (Task.tid task) w Hp) as H1.
  set (w1 := Kernel.charge_call (Agent.aid agent) (Task.tid task) w) in *.
  destruct (Kernel.valid_action (oracle agent task [])) as [d|]; [|exact H1].
  destruct (is_str "use_tool" (Kernel.response_get "action" d));
    [|eapply steady_trans; [exact H1|apply steady_conclude]].
  destruct (match py_get "arguments" d with Some v => v | None => PDict [] end)
    as [| | | | |l|kwargs]; try exact H1.
  destruct (negb (truthy (Kernel.response_get "tool_name" d))); [exact H1|].
  pose proof (steady_state_change w1 (Agent.aid agent) AgentState.USING_TOOL) as H2.
  set (w2 := modify_agent (Agent.aid agent) (Agent.update_state AgentState.USING_TOOL) w1)
    in *.
  pose proof (steady_execute_tool w2 (Agent.aid agent) (Some (Task.tid task))
                (Kernel.response_get "tool_name" d) kwargs) as H3.
  assert (H13 : steady w (snd (ToolDispatcher.execute_tool w2 (Agent.aid agent)
                                 (Some (Task.tid task))
                                 (Kernel.response_get "tool_name" d) kwargs))).
  { eapply steady_trans; [exact H1|]. eapply steady_trans; [exact H2|exact H3]. }
  destruct (ToolDispatcher.execute_tool w2 (Agent.aid agent) (Some (Task.tid task))
              (Kernel.response_get "tool_name" d) kwargs) as [[r|e] w3];
    cbn [snd] in H13 |- *; [|exact H13].
  destruct (negb (hashable (Kernel.response_get "tool_name" d))); [exact H13|].
  pose proof (steady_charge_call (Agent.aid agent) (Task.tid task) w3
                (steady_present _ _ _ H13 Hp)) as H4.
  eapply steady_trans; [exact H13|]. eapply steady_trans; [exact H4|].
  destruct (Kernel.valid_action _) as [d2|];
    [apply steady_conclude|apply steady_state_change].
Qed.

Lemma steady_work_on `{RT : PyRuntime} (oracle : Oracle) (w : World) (tid : Z) :
  steady w (snd (Kernel.work_on oracle w tid)).
Proof.
  destruct (work_on_cases oracle w tid) as [->|(task & agent & _ & _ & _ & Hg & ->)];
    [apply steady_refl|].
  apply steady_simulate_agent_work. rewrite Hg. discriminate.
Qed.

Lemma steady_work_loop `{RT : PyRuntime} (oracle : Oracle) (tids : list Z) (w : World) :
  steady w (snd (Kernel.work_loop oracle tids w)).
Proof.
  revert w. induction tids as [|tid rest IH]; intros w; simpl; [apply steady_refl|].
  pose proof (steady_work_on oracle w tid) as H1.
  destruct (Kernel.work_on oracle w tid) as [[u|e] w']; cbn [snd] in H1 |- *;
    [|exact H1].
  eapply steady_trans; [exact H1|apply IH].
Qed.

Lemma steady_tick_world `{RT : PyRuntime} (oracle : Oracle) (w : World) :
  steady w (snd (Kernel.tick_world oracle w)).
Proof.
  unfold Kernel.tick_world. cbv zeta.
  eapply steady_trans; [apply steady_schedule_next|apply steady_work_loop].
Qed.

Lemma steady_apply_op `{RT : PyRuntime} (op : core_op) (w : World) :
  steady w (apply_op op w).
Proof.
  destruct op as [| |oracle tid|oracle|i|tid s]; simpl.
  - apply steady_readiness.
  - apply steady_schedule_next.
  - apply steady_work_on.
  - apply steady_tick_world.
  - apply steady_release_agent.
  - apply steady_tasks, tasks_decl_update_task_state.
Qed.

Lemma steady_run_ops `{RT : PyRuntime} (ops : list core_op) (w : World) :
  steady w (run_ops ops w).
Proof.
  unfold run_ops. apply steady_fold. intros w' op. apply steady_apply_op.
Qed.

Lemma steady_declarations (w w' : World) : steady w w' -> same_declarations w w'.
Proof.
  assert (Hrefl : forall w, same_declarations w w).
  { intros x. repeat split;
      [apply Forall2_refl_all, task_decl_refl|apply Forall2_refl_all, agent_decl_refl]. }
  intros H. induction H as [w|w1 w2 w3 _ IH1 _ IH2|w j f Hf|w T' HT|w|w aid tid kind n _].
  - apply Hrefl.
  - destruct IH1 as (A1 & A2 & A3 & A4 & A5), IH2 as (B1 & B2 & B3 & B4 & B5).
    repeat split; try congruence.
    + apply (Forall2_trans_all _ _ _ _ task_decl_trans A1 B1).
    + apply (Forall2_trans_all _ _ _ _ agent_decl_trans A2 B2).
  - repeat split; [apply Forall2_refl_all, task_decl_refl|].
    apply Forall2_modify; [apply agent_decl_refl|intros a; apply (Hf a)].
  - repeat split; [exact HT|apply Forall2_refl_all, agent_decl_refl].
  - repeat split;
      [apply Forall2_refl_all, task_decl_refl|apply Forall2_refl_all, agent_decl_refl].
  - repeat split; [apply Forall2_refl_all, task_decl_refl|].
    apply Forall2_modify; [apply agent_decl_refl|].
    intros a. unfold Agent.record_usage.
    destruct (n <=? 0); [apply agent_decl_refl|].
    destruct (String.eqb kind "tokens"); [repeat split|].
    destruct (String.eqb kind "tool_calls"); [repeat split|apply agent_decl_refl].
Qed.

Lemma steady_queue (w w' : World) : steady w w' -> is_suffix (task_queue w') (task_queue w).
Proof.
  intros H. induction H as [w|w1 w2 w3 _ IH1 _ IH2|w j f Hf|w T' HT|w|w aid tid kind n _];
    try (exists []; reflexivity).
  - destruct IH1 as [f1 E1], IH2 as [f2 E2]. exists (f1 ++ f2)%list.
    rewrite E1, E2. now rewrite app_assoc.
  - unfold AgentScheduler.popleft. wsimpl. destruct (task_queue w) as [|h q].
    + exists []. reflexivity.
    + exists [h]. reflexivity.
Qed.

Lemma steady_ledger (w w' : World) :
  steady w w' -> ledger_extends (resource_monitor w) (resource_monitor w').
Proof.
  intros H. induction H as [w|w1 w2 w3 _ IH1 _ IH2|w j f Hf|w T' HT|w|w aid tid kind n _];
    try (exists []; reflexivity).
  - destruct IH1 as [c1 E1], IH2 as [c2 E2]. exists (c1 ++ c2)%list.
    rewrite E2, E1. now rewrite fold_left_app.
  - exists [(kind, aid, tid, n)]. reflexivity.
Qed.

Section Sums.
Context {V : Type} (key : V -> Z) (g : V -> Z).

Lemma sum_of_modify_same (k : Z) (f : V -> V) (d : list V) :
  (forall v, g (f v) = g v) -> sum_of g (dict_modify key k f d) = sum_of g d.
Proof.
  intros Hf. unfold dict_modify. induction d as [|v d IH]; simpl; [reflexivity|].
  rewrite IH. destruct (key v =? k); [now rewrite Hf|reflexivity].
Qed.

Lemma sum_of_modify (k : Z) (f : V -> V) (d : list V) (v : V) :
  dict_wf key d -> dict_get key d k = Some v ->
  sum_of g (dict_modify key k f d) = sum_of g d - g v + g (f v).
Proof.
  unfold dict_wf, dict_keys, dict_get, dict_modify.
  induction d as [|x d IH]; simpl; intros Hnd Hg; [discriminate|].
  inversion Hnd as [|? ? Hnotin Hnd']; subst.
  destruct (key x =? k) eqn:E.
  - injection Hg as ->. apply Z.eqb_eq in E. subst k.
    change (map (fun v0 => if key v0 =? key v then f v0 else v0) d)
      with (dict_modify key (key v) f d).
    rewrite (dict_modify_absent key (key v) f d Hnotin). fold (sum_of g d). lia.
  - fold (sum_of g d) in *. rewrite (IH Hnd' Hg). lia.
Qed.
End Sums.

Lemma steady_balance (w w' : World) :
  steady w w' -> dict_wf Agent.aid (w_agents w) ->
  dict_wf Agent.aid (w_agents w')
  /\ ResourceMonitor.total_tokens_used (resource_monitor w') - agents_tokens (w_agents w')
     = ResourceMonitor.total_tokens_used (resource_monitor w) - agents_tokens (w_agents w)
  /\ ResourceMonitor.total_tool_calls (resource_monitor w') - agents_tool_calls (w_agents w')
     = ResourceMonitor.total_tool_calls (resource_monitor w) - agents_tool_calls (w_agents w).
Proof.
  intros H. induction H as [w|w1 w2 w3 _ IH1 _ IH2|w j f Hf|w T' HT|w|w aid tid kind n Hp];
    intros Hwf; try (repeat split; [exact Hwf]).
  - destruct (IH1 Hwf) as (W1 & A1 & B1). destruct (IH2 W1) as (W2 & A2 & B2).
    repeat split; [exact W2|lia|lia].
  - wsimpl. split; [apply dict_wf_modify; [intros a; apply (Hf a)|exact Hwf]|].
    change agents_tokens with (sum_of (fun a => Agent.tokens (Agent.resource_usage a))).
    change agents_tool_calls
      with (sum_of (fun a => Agent.tool_calls (Agent.resource_usage a))).
    rewrite (sum_of_modify_same Agent.aid (fun a => Agent.tokens (Agent.resource_usage a)))
      by (intros a; now rewrite (proj2 (Hf a))).
    rewrite (sum_of_modify_same Agent.aid
               (fun a => Agent.tool_calls (Agent.resource_usage a)))
      by (intros a; now rewrite (proj2 (Hf a))).
    split; reflexivity.
  - wsimpl. split; [apply dict_wf_modify; [auto with keeps|exact Hwf]|].
    destruct (get_agent w aid) as [a|] eqn:Hg; [|contradiction].
    change agents_tokens with (sum_of (fun a => Agent.tokens (Agent.resource_usage a))).
    change agents_tool_calls
      with (sum_of (fun a => Agent.tool_calls (Agent.resource_usage a))).
    rewrite (sum_of_modify Agent.aid (fun a => Agent.tokens (Agent.resource_usage a))
               aid _ _ a Hwf Hg).
    rewrite (sum_of_modify Agent.aid (fun a => Agent.tool_calls (Agent.resource_usage a))
               aid _ _ a Hwf Hg).
    unfold sum_of, Agent.record_usage, ResourceMonitor.record_usage.
    destruct (n <=? 0); [split; lia|].
    destruct (String.eqb kind "tokens"); [simpl; split; lia|].
    destruct (String.eqb kind "tool_calls"); simpl; split; lia.
Qed.

(** X9.  Whatever operations are issued, the scheduler's queue only loses
    entries from its front: the queue afterwards is what is left of the queue
    before.  Nothing is ever put back or appended. *)
Theorem queue_only_shrinks `{RT : PyRuntime} (ops : list core_op) (w : World) :
  is_suffix (task_queue (run_ops ops w)) (task_queue w).
Proof. apply steady_queue, steady_run_ops. Qed.

(** X10.  No operation of the core creates, removes or reorders a task or an
    agent, or changes an id, a description, an expected output, a dependency
    list, a role, a goal, a backstory or a tool allowlist; the process, the
    declared task order and the tool registry stay as loaded. *)
Theorem declarations_never_change `{RT : PyRuntime} (ops : list core_op) (w : World) :
  same_declarations w (run_ops ops w).
Proof. apply steady_declarations, steady_run_ops. Qed.

Lemma ledger_extends_consistent (calls : list ResourceMonitor.entry) (m : ResourceMonitor.t) :
  ledger_consistent m ->
  let m' := fold_left record_call calls m in
  ledger_consistent m'
  /\ (exists more, ResourceMonitor.usage_log m' = (ResourceMonitor.usage_log m ++ more)%list)
  /\ ResourceMonitor.total_tokens_used m <= ResourceMonitor.total_tokens_used m'
  /\ ResourceMonitor.total_tool_calls m <= ResourceMonitor.total_tool_calls m'.
Proof.
  revert m. induction calls as [|[[[u a] t] n] calls IH]; intros m Hc; simpl.
  - repeat split; try apply Hc; try lia. exists []. now rewrite app_nil_r.
  - destruct (record_usage_consistent u a t n m Hc) as [Hc1 Hl1].
    destruct (IH _ Hc1) as (Hc2 & [more Hl2] & Ht & Hk).
    split; [exact Hc2|]. split.
    + eexists. rewrite Hl2, Hl1, <- app_assoc. reflexivity.
    + assert (Hstep : ResourceMonitor.total_tokens_used m
                      <= ResourceMonitor.total_tokens_used
                           (ResourceMonitor.record_usage u a t n m)
                      /\ ResourceMonitor.total_tool_calls m
                         <= ResourceMonitor.total_tool_calls
                              (ResourceMonitor.record_usage u a t n m)).
      { unfold ResourceMonitor.record_usage.
        destruct (n <=? 0) eqn:E; [lia|]. apply Z.leb_gt in E.
        destruct (String.eqb u "tokens"); [simpl; lia|].
        destruct (String.eqb u "tool_calls"); simpl; lia. }
      lia.
Qed.

(** X11.  The resource ledger is append-only under every operation of the
    core: a consistent ledger (totals equal to the sums of its log, logged
    amounts positive) stays consistent, the log before is an initial part of
    the log after, and neither total ever decreases. *)
Theorem ledger_append_only `{RT : PyRuntime} (ops : list core_op) (w : World) :
  ledger_consistent (resource_monitor w) ->
  let m := resource_monitor w in
  let m' := resource_monitor (run_ops ops w) in
  ledger_consistent m'
  /\ (exists more, ResourceMonitor.usage_log m' = (ResourceMonitor.usage_log m ++ more)%list)
  /\ ResourceMonitor.total_tokens_used m <= ResourceMonitor.total_tokens_used m'
  /\ ResourceMonitor.total_tool_calls m <= ResourceMonitor.total_tool_calls m'.
Proof.
  intros Hc. cbv zeta.
  destruct (steady_ledger _ _ (steady_run_ops ops w)) as [calls ->].
  now apply ledger_extends_consistent.
Qed.

Lemma ledger_append_only_witness :
  ledger_consistent (resource_monitor sample_world)
  /\ ledger_consistent
       (resource_monitor
          (@run_ops sample_runtime
             [OpSchedule; OpSchedule; OpWork final_answer_oracle 0] sample_world)).
Proof.
  assert (H : ledger_consistent (resource_monitor sample_world)).
  { repeat split. constructor. }
  split; [exact H|].
  exact (proj1 (@ledger_append_only sample_runtime
                  [OpSchedule; OpSchedule; OpWork final_answer_oracle 0] sample_world H)).
Defined.

Lemma loaded_at_zero_accounts (w : World) :
  loaded_at_zero w -> dict_wf Agent.aid (w_agents w) /\ accounts_agree w.
Proof.
  intros (registry & c & Hz & Hwf & ->). split; [exact Hwf|].
  unfold accounts_agree, Kernel.load_world.
  split; [repeat split; constructor|].
  change (w_agents (mk_world c (AgentScheduler.init_queue (Crew.process c) (Crew.task_order c))
                      ResourceMonitor.init registry)) with (Crew.agents c).
  unfold agents_tokens, agents_tool_calls. simpl.
  induction Hz as [|a l Ha _ IH]; simpl; [split; reflexivity|].
  inversion Hwf as [|? ? _ Hwf']; subst.
  destruct (IH Hwf') as [<- <-]. rewrite Ha. split; reflexivity.
Qed.

(** X12.  Every charge is booked twice, in the ledger and in the counters of
    an agent of the crew: from a load of agents whose counters are at zero
    (or from any state where the accounts agree), after any operations the
    ledger's token total is the sum of the agents' token counters and its
    tool-call total the sum of their tool-call counters. *)
Theorem accounts_agree_kept `{RT : PyRuntime} (ops : list core_op) (w : World) :
  loaded_at_zero w \/ (dict_wf Agent.aid (w_agents w) /\ accounts_agree w) ->
  accounts_agree (run_ops ops w).
Proof.
  intros H.
  assert (Hw : dict_wf Agent.aid (w_agents w) /\ accounts_agree w).
  { destruct H as [H|H]; [now apply loaded_at_zero_accounts|exact H]. }
  destruct Hw as [Hwf (Hc & Ht & Hk)].
  pose proof (steady_run_ops ops w) as Hs.
  destruct (steady_balance _ _ Hs Hwf) as (_ & Bt & Bk).
  destruct (steady_ledger _ _ Hs) as [calls E].
  split; [|split; lia].
  rewrite E. now apply ledger_extends_consistent.
Qed.

Lemma accounts_agree_kept_witness :
  loaded_at_zero sample_world
  /\ accounts_agree
       (@run_ops sample_runtime
          [OpTick final_answer_oracle; OpTick final_answer_oracle; OpTick final_answer_oracle]
          sample_world).
Proof.
  assert (H : loaded_at_zero sample_world).
  { exists sample_registry, Sample.crew. split; [repeat constructor|].
    split; [|reflexivity]. unfold dict_wf. vm_compute. nodup_keys. }
  split; [exact H|].
  exact (@accounts_agree_kept sample_runtime
           [OpTick final_answer_oracle; OpTick final_answer_oracle; OpTick final_answer_oracle]
           sample_world (or_introl H)).
Defined.

(** ** A work step that ends in a final answer *)

Lemma deps_met_loop_forallb (T : TaskTable) (deps : list Z) :
  TaskManager.deps_met_loop T deps = forallb (completed T) deps.
Proof.
  induction deps as [|d deps IH]; simpl; [reflexivity|]. unfold completed at 1.
  destruct (TaskManager.get_task T d) as [t|]; [|reflexivity].
  destruct (TaskState.eqb (Task.state t) TaskState.COMPLETED); simpl; [exact IH|reflexivity].
Qed.

Lemma get_task_update_task_state_other (T : TaskTable) (k k' : Z) (s : TaskState.t) :
  k <> k' ->
  TaskManager.get_task (TaskManager.update_task_state k s T) k' = TaskManager.get_task T k'.
Proof.
  intros Hne. unfold TaskManager.update_task_state.
  destruct (TaskManager.get_task T k) as [t|]; [|reflexivity].
  destruct (negb (TaskState.eqb (Task.state t) s)); [|reflexivity].
  rewrite get_task_modify by auto with keeps.
  assert (E : (k =? k') = false) by (now apply Z.eqb_neq). now rewrite E.
Qed.

(** The task table after [add_result] and the move to COMPLETED. *)
Lemma get_task_completed_with (T : TaskTable) (k : Z) (r : string) (task : Task.t) :
  TaskManager.get_task T k = Some task ->
  forall k',
    TaskManager.get_task
      (TaskManager.update_task_state k TaskState.COMPLETED (TaskManager.add_result k r T)) k'
    = if k =? k'
      then Some (Task.update_state TaskState.COMPLETED (Task.add_result r task))
      else TaskManager.get_task T k'.
Proof.
  intros Hg k'. destruct (k =? k') eqn:E.
  - apply Z.eqb_eq in E. subst k'. rewrite get_task_update_task_state.
    unfold TaskManager.add_result. rewrite Hg.
    rewrite get_task_modify by auto with keeps. now rewrite Z.eqb_refl, Hg.
  - apply Z.eqb_neq in E. rewrite get_task_update_task_state_other by exact E.
    unfold TaskManager.add_result. rewrite Hg.
    rewrite get_task_modify by auto with keeps.
    assert (E' : (k =? k') = false) by (now apply Z.eqb_neq). now rewrite E'.
Qed.

Lemma finished_spec (w : World) (i : Z) (agent : Agent.t) (task : Task.t) (r : string) :
  dict_wf Task.tid (w_tasks w) ->
  get_task w (Task.tid task) = Some task ->
  get_agent w i = Some agent ->
  Agent.state agent <> AgentState.IDLE ->
  let w' := finished i (Task.tid task) r w in
  get_task w' (Task.tid task)
  = Some (Task.update_state TaskState.COMPLETED (Task.add_result r task))
  /\ (forall k t, k <> Task.tid task -> get_task w k = Some t ->
      get_task w' k = Some (readied_by (Task.tid task) (w_tasks w) t))
  /\ get_agent w' i
     = Some (Agent.set_current_task_id None (Agent.update_state AgentState.IDLE agent))
  /\ (forall j, j <> i -> get_agent w' j = get_agent w j)
  /\ task_queue w' = task_queue w
  /\ resource_monitor w' = resource_monitor w.
Proof.
  intros Hwf Hg Ha Hs. cbv zeta.
  pose (Tb := TaskManager.update_task_state (Task.tid task) TaskState.COMPLETED
                (TaskManager.add_result (Task.tid task) r (w_tasks w))).
  pose (wb := with_tasks Tb
                (with_tasks (TaskManager.add_result (Task.tid task) r (w_tasks w)) w)).
  change (finished i (Task.tid task) r w)
    with (with_tasks (TaskManager.check_and_update_task_readiness
                        (w_tasks (AgentScheduler.release_agent i wb)))
            (AgentScheduler.release_agent i wb)).
  assert (HTb : forall k', TaskManager.get_task Tb k'
                  = if Task.tid task =? k'
                    then Some (Task.update_state TaskState.COMPLETED (Task.add_result r task))
                    else TaskManager.get_task (w_tasks w) k').
  { apply get_task_completed_with. exact Hg. }
  assert (Hwfb : dict_wf Task.tid Tb).
  { unfold dict_wf, Tb. now rewrite update_task_state_keys, add_result_keys. }
  assert (Hc : forall d, completed Tb d = (d =? Task.tid task) || completed (w_tasks w) d).
  { intros d. unfold completed. rewrite HTb. rewrite (Z.eqb_sym d).
    destruct (Task.tid task =? d); reflexivity. }
  destruct (release_agent_tables i wb) as (Rt & _ & Ra).
  assert (HR : w_tasks (AgentScheduler.release_agent i wb) = Tb)
    by (rewrite Rt; reflexivity).
  rewrite HR. rewrite check_and_update_task_readiness_map by exact Hwfb.
  split; [|split; [|split; [|split; [|split]]]].
  - rewrite get_task_with_tasks, get_task_map by apply keeps_tid_readiness_of.
    rewrite HTb, Z.eqb_refl. reflexivity.
  - intros k t Hne Hk.
    rewrite get_task_with_tasks, get_task_map by apply keeps_tid_readiness_of.
    rewrite HTb. assert (E : (Task.tid task =? k) = false) by (apply Z.eqb_neq; congruence).
    rewrite E. change (TaskManager.get_task (w_tasks w) k) with (get_task w k). rewrite Hk.
    simpl. f_equal. unfold readiness_of, readied_by.
    rewrite deps_met_loop_forallb.
    assert (Ef : forallb (completed Tb) (Task.dependencies t)
                 = forallb (fun d => (d =? Task.tid task) || completed (w_tasks w) d)
                     (Task.dependencies t)).
    { induction (Task.dependencies t) as [|d ds IH]; simpl; [reflexivity|].
      now rewrite Hc, IH. }
    now rewrite Ef.
  - change (get_agent (AgentScheduler.release_agent i wb) i
            = Some (Agent.set_current_task_id None
                      (Agent.update_state AgentState.IDLE agent))).
    unfold AgentScheduler.release_agent.
    change (get_agent wb i) with (get_agent w i).
    rewrite Ha.
    destruct (AgentState.eqb (Agent.state agent) AgentState.IDLE) eqn:E;
      [apply agent_state_eqb_eq in E; contradiction|]. simpl negb. cbv iota.
    rewrite get_agent_modify by (now intros []).
    change (get_agent wb i) with (get_agent w i).
    now rewrite Z.eqb_refl, Ha.
  - intros j Hj.
    change (get_agent (AgentScheduler.release_agent i wb) j = get_agent wb j).
    now apply Ra.
  - unfold AgentScheduler.release_agent.
    destruct (get_agent wb i) as [a|]; [|reflexivity].
    destruct (negb (AgentState.eqb (Agent.state a) AgentState.IDLE)); reflexivity.
  - unfold AgentScheduler.release_agent.
    destruct (get_agent wb i) as [a|]; [|reflexivity].
    destruct (negb (AgentState.eqb (Agent.state a) AgentState.IDLE)); reflexivity.
Qed.

Lemma conclude_final `{RT : PyRuntime} (agent : Agent.t) (task : Task.t)
    (r : option pyval) (c : pyval) (w : World) :
  final_decision r c ->
  exists d, Kernel.valid_action r = Some d
    /\ is_str "use_tool" (Kernel.response_get "action" d) = false
    /\ Kernel.conclude agent task d w
       = (Returned true, finished (Agent.aid agent) (Task.tid task) (py_str c) w).
Proof.
  intros (d & -> & Hact & Hcon & Hc). exists d.
  split; [exact (valid_action_Some d _ Hact)|].
  rewrite (response_get_Some _ _ _ Hact). split; [reflexivity|].
  unfold Kernel.conclude. rewrite (response_get_Some _ _ _ Hact).
  rewrite (response_get_Some _ _ _ Hcon). simpl is_str. cbv iota.
  destruct c; [contradiction| | | | | |]; reflexivity.
Qed.




(** ** The run loop *)

Lemma run_loop_spec `{RT : PyRuntime} (oracles : Z -> Oracle) (max_ticks : Z) (fuel : nat) :
  forall (w : World) (tc : Z),
    max_ticks - tc <= Z.of_nat fuel ->
    let res := Kernel.run_loop oracles fuel max_ticks (Kernel.mk (Some w) tc true) in
    exists n : nat,
      Kernel.tick_count (snd res) = tc + Z.of_nat n
      /\ Z.of_nat n <= Z.max 0 (max_ticks - tc)
      /\ Kernel.loaded (snd res) = Some (run_ops (ticks_from oracles tc n) w)
      /\ (fst res = Returned tt -> Kernel.tick_count (snd res) < max_ticks ->
          Crew.all_tasks_done (crew (run_ops (ticks_from oracles tc n) w)) = true).
Proof.
  induction fuel as [|fuel IH]; intros w tc Hfuel; cbv zeta.
  - exists O. simpl in *. rewrite Z.add_0_r. repeat split; try lia.
  - cbn [Kernel.run_loop Kernel.tick_count].
    destruct (tc <? max_ticks) eqn:Elt.
    2:{ exists O. simpl. rewrite Z.add_0_r. apply Z.ltb_ge in Elt.
        repeat split; try lia. }
    apply Z.ltb_lt in Elt.
    unfold Kernel.tick. cbn [Kernel.loaded Kernel.running Kernel.tick_count negb].
    destruct (Kernel.tick_world (oracles tc) w) as [[u|e] w1] eqn:Etw.
    + assert (Ew1 : run_ops [OpTick (oracles tc)] w = w1).
      { unfold run_ops. simpl. now rewrite Etw. }
      destruct (Crew.all_tasks_done (crew w1)) eqn:Edone.
      * exists 1%nat. cbn [fst snd Kernel.tick_count Kernel.loaded ticks_from].
        rewrite Ew1. repeat split; try lia. intros _ _. exact Edone.
      * assert (Hfuel' : max_ticks - (tc + 1) <= Z.of_nat fuel) by lia.
        destruct (IH w1 (tc + 1) Hfuel') as (n & Htc & Hn & Hl & Hd).
        exists (S n). cbn [ticks_from].
        change (run_ops (OpTick (oracles tc) :: ticks_from oracles (tc + 1) n) w)
          with (run_ops (ticks_from oracles (tc + 1) n)
                  (apply_op (OpTick (oracles tc)) w)).
        assert (Ea : apply_op (OpTick (oracles tc)) w = w1) by (simpl; now rewrite Etw).
        rewrite Ea. split; [rewrite Htc; lia|]. split; [lia|]. split; [exact Hl|exact Hd].
    + exists 1%nat. cbn [fst snd Kernel.tick_count Kernel.loaded ticks_from].
      assert (Ew1 : run_ops [OpTick (oracles tc)] w = w1).
      { unfold run_ops. simpl. now rewrite Etw. }
      rewrite Ew1. repeat split; try lia. discriminate.
Qed.

(** X15.  [run] on a loaded kernel performs ticks one after the other, as
    many as the tick counter advances and never more than the counter is
    short of [max_ticks]; the system it leaves is the loaded one after these
    ticks.  The running flag is cleared at the end, also when a tick raised;
    when the run returns before the counter reached [max_ticks], every task
    is done.  A kernel whose counter already is at [max_ticks] is not ticked
    at all. *)
Theorem run_spec `{RT : PyRuntime} (oracles : Z -> Oracle) (max_ticks : Z) (k : Kernel.t)
    (w : World) :
  Kernel.loaded k = Some w ->
  let res := Kernel.run oracles max_ticks k in
  Kernel.running (snd res) = false
  /\ exists n : nat,
       Kernel.tick_count (snd res) = Kernel.tick_count k + Z.of_nat n
       /\ Z.of_nat n <= Z.max 0 (max_ticks - Kernel.tick_count k)
       /\ Kernel.loaded (snd res)
          = Some (run_ops (ticks_from oracles (Kernel.tick_count k) n) w)
       /\ (fst res = Returned tt -> Kernel.tick_count (snd res) < max_ticks ->
           Crew.all_tasks_done
             (crew (run_ops (ticks_from oracles (Kernel.tick_count k) n) w)) = true).
Proof.
  intros Hl. cbv zeta. unfold Kernel.run. rewrite Hl.
  assert (Hfuel : max_ticks - Kernel.tick_count k
                  <= Z.of_nat (Z.to_nat (max_ticks - Kernel.tick_count k))) by lia.
  pose proof (run_loop_spec oracles max_ticks _ w (Kernel.tick_count k) Hfuel) as H.
  cbv zeta in H.
  destruct (Kernel.run_loop oracles (Z.to_nat (max_ticks - Kernel.tick_count k)) max_ticks
              (Kernel.mk (Some w) (Kernel.tick_count k) true)) as [r k'].
  cbn [fst snd Kernel.running Kernel.tick_count Kernel.loaded] in *.
  split; [reflexivity|exact H].
Qed.

Lemma run_spec_witness :
  Kernel.loaded sample_kernel = Some sample_world
  /\ Kernel.running
       (snd (@Kernel.run sample_runtime (fun _ => final_answer_oracle) 50 sample_kernel))
     = false.
Proof.
  split; [reflexivity|].
  exact (proj1 (@run_spec sample_runtime (fun _ => final_answer_oracle) 50 sample_kernel
                  sample_world eq_refl)).
Defined.

(** ** A task left between the tool call and the second decision *)

Lemma wf_agents_steady (w w' : World) :
  steady w w' -> dict_wf Agent.aid (w_agents w) -> dict_wf Agent.aid (w_agents w').
Proof. intros Hs Hwf. exact (proj1 (steady_balance w w' Hs Hwf)). Qed.

Section Stranded.
Variables tid aid : Z.

Lemma untouched_refl (w : World) : untouched tid aid w w.
Proof. split; reflexivity. Qed.

Lemma untouched_trans (w1 w2 w3 : World) :
  untouched tid aid w1 w2 -> untouched tid aid w2 w3 -> untouched tid aid w1 w3.
Proof. intros [A1 A2] [B1 B2]. split; congruence. Qed.

Lemma stranded_untouched (w w' : World) :
  stranded tid aid w -> untouched tid aid w w' -> stranded tid aid w'.
Proof.
  intros (t & a & H1 & H2 & H3 & H4 & H5) [U1 U2]. exists t, a.
  rewrite U1, U2. auto.
Qed.

Lemma untouched_agent (w : World) (i : Z) (f : Agent.t -> Agent.t) :
  i <> aid -> keeps_key Agent.aid f -> untouched tid aid w (modify_agent i f w).
Proof.
  intros Hne Hf. split; [reflexivity|]. rewrite get_agent_modify by exact Hf.
  assert (E : (i =? aid) = false) by (now apply Z.eqb_neq). now rewrite E.
Qed.

Lemma untouched_tasks (w : World) (T' : TaskTable) :
  TaskManager.get_task T' tid = get_task w tid -> untouched tid aid w (with_tasks T' w).
Proof. intros H. split; [exact H|reflexivity]. Qed.

Lemma get_task_modify_other (T : TaskTable) (k : Z) (f : Task.t -> Task.t) :
  k <> tid -> keeps_key Task.tid f ->
  TaskManager.get_task (dict_modify Task.tid k f T) tid = TaskManager.get_task T tid.
Proof.
  intros Hne Hf. rewrite get_task_modify by exact Hf.
  assert (E : (k =? tid) = false) by (now apply Z.eqb_neq). now rewrite E.
Qed.

Lemma get_task_add_result_other (T : TaskTable) (k : Z) (r : string) :
  k <> tid ->
  TaskManager.get_task (TaskManager.add_result k r T) tid = TaskManager.get_task T tid.
Proof.
  intros Hne. unfold TaskManager.add_result.
  destruct (TaskManager.get_task T k); [|reflexivity].
  apply get_task_modify_other; auto with keeps.
Qed.

Lemma get_task_readiness_kept (T : TaskTable) (t : Task.t) :
  TaskManager.get_task T tid = Some t -> Task.state t <> TaskState.PENDING ->
  TaskManager.get_task (TaskManager.check_and_update_task_readiness T) tid = Some t.
Proof.
  intros Hg Hs. unfold TaskManager.check_and_update_task_readiness.
  generalize (dict_keys Task.tid T) as ks. intros ks. revert T Hg.
  induction ks as [|k ks IH]; intros T Hg; simpl; [exact Hg|].
  apply IH. unfold TaskManager.readiness_step.
  destruct (TaskManager.get_task T k) as [task|] eqn:Hk; [|exact Hg].
  destruct (TaskState.eqb (Task.state task) TaskState.PENDING) eqn:Ep; [|exact Hg].
  cbv zeta.
  match goal with
  | |- TaskManager.get_task (if ?b then _ else _) _ = _ => destruct b; [|exact Hg]
  end.
  rewrite get_task_update_task_state_other; [exact Hg|].
  intros E. destruct (dict_get_Some _ _ _ _ Hk) as [Hkey _].
  assert (Ek : k = tid) by congruence. rewrite Ek in Hk.
  apply task_state_eqb_eq in Ep.
  rewrite Hg in Hk. injection Hk as <-.
  contradiction.
Qed.

Lemma untouched_readiness (w : World) :
  stranded tid aid w ->
  untouched tid aid w
    (with_tasks (TaskManager.check_and_update_task_readiness (w_tasks w)) w).
Proof.
  intros (t & a & H1 & H2 & _). apply untouched_tasks. rewrite H1.
  apply get_task_readiness_kept; [exact H1|]. rewrite H2. discriminate.
Qed.

(** An agent found in another state than USING_TOOL is not [aid]. *)
Lemma other_agent (w : World) (agent : Agent.t) :
  stranded tid aid w -> get_agent w (Agent.aid agent) = Some agent ->
  Agent.state agent <> AgentState.USING_TOOL -> Agent.aid agent <> aid.
Proof.
  intros (t & a & _ & _ & _ & H4 & H5) Hg Hs E. rewrite E in Hg.
  rewrite H4 in Hg. injection Hg as <-. contradiction.
Qed.

(** A task found in another state than RUNNING is not [tid]. *)
Lemma other_task (w : World) (k : Z) (task : Task.t) :
  stranded tid aid w -> get_task w k = Some task ->
  Task.state task <> TaskState.RUNNING -> Task.tid task <> tid.
Proof.
  intros (t & a & H1 & H2 & _) Hg Hs E.
  destruct (dict_get_Some _ _ _ _ Hg) as [Hk _].
  assert (Ek : k = tid) by congruence. rewrite Ek in Hg. rewrite H1 in Hg.
  injection Hg as <-. contradiction.
Qed.

Lemma untouched_promote_step (w : World) (k : Z) :
  stranded tid aid w -> untouched tid aid w (AgentScheduler.promote_step w k).
Proof.
  intros Hst. rewrite promote_step_unfold.
  destruct (get_task w k) as [task|] eqn:Hk; [|apply untouched_refl].
  destruct (confirming_agent w task) as [agent|] eqn:Hc; [|apply untouched_refl].
  destruct (confirming_agent_Some _ _ _ Hc) as (Hasg & Hga & Hsa & _).
  assert (Hna : Agent.aid agent <> aid).
  { apply (other_agent w agent Hst Hga). rewrite Hsa. discriminate. }
  assert (Hnt : Task.tid task <> tid).
  { intros E. destruct Hst as (t & a & H1 & _ & H3 & _).
    destruct (dict_get_Some _ _ _ _ Hk) as [Hkey _].
    assert (Ek : k = tid) by congruence. rewrite Ek in Hk. rewrite H1 in Hk.
    injection Hk as <-.
    rewrite H3 in Hasg. injection Hasg as E'. now apply Hna. }
  cbv zeta.
  apply (untouched_trans _
           (modify_agent (Agent.aid agent) (Agent.update_state AgentState.RUNNING_TASK) w)).
  { apply untouched_agent; auto with keeps. }
  generalize (modify_agent (Agent.aid agent) (Agent.update_state AgentState.RUNNING_TASK) w)
    as w1.
  intros w1.
  apply (untouched_trans _
           (with_tasks (TaskManager.update_task_state (Task.tid task) TaskState.RUNNING
                          (w_tasks w1)) w1)).
  { apply untouched_tasks. apply get_task_update_task_state_other. exact Hnt. }
  generalize (with_tasks (TaskManager.update_task_state (Task.tid task) TaskState.RUNNING
                            (w_tasks w1)) w1) as w2.
  intros w2. apply untouched_tasks. rewrite build_context_modify.
  apply get_task_modify_other; auto with keeps.
Qed.

Lemma untouched_promote_assigned (w : World) :
  stranded tid aid w -> untouched tid aid w (AgentScheduler.promote_assigned w).
Proof.
  unfold AgentScheduler.promote_assigned. cbv zeta.
  generalize (map Task.tid
                (filter (fun t => TaskState.eqb (Task.state t) TaskState.ASSIGNED)
                   (w_tasks w))) as ks.
  intros ks. revert w. induction ks as [|k ks IH]; intros w Hst; simpl;
    [apply untouched_refl|].
  pose proof (untouched_promote_step w k Hst) as H1.
  eapply untouched_trans; [exact H1|]. apply IH. now apply (stranded_untouched w).
Qed.

Lemma untouched_assign (task : Task.t) (agent : Agent.t) (w : World) :
  Task.tid task <> tid -> Agent.aid agent <> aid ->
  untouched tid aid w (AgentScheduler.assign_task_to_agent task agent w).
Proof.
  intros Hnt Hna. unfold AgentScheduler.assign_task_to_agent. cbv zeta.
  apply (untouched_trans _
           (modify_task (Task.tid task) (Task.set_assigned_agent_id (Agent.aid agent)) w)).
  { apply untouched_tasks. apply get_task_modify_other; auto with keeps. }
  generalize (modify_task (Task.tid task) (Task.set_assigned_agent_id (Agent.aid agent)) w)
    as w1.
  intros w1.
  apply (untouched_trans _
           (with_tasks (TaskManager.update_task_state (Task.tid task) TaskState.ASSIGNED
                          (w_tasks w1)) w1)).
  { apply untouched_tasks. apply get_task_update_task_state_other. exact Hnt. }
  apply untouched_agent; auto with keeps.
Qed.

Lemma untouched_assign_head (w : World) :
  stranded tid aid w -> dict_wf Agent.aid (w_agents w) ->
  untouched tid aid w (AgentScheduler.assign_head w).
Proof.
  intros Hst Hwf. unfold AgentScheduler.assign_head.
  destruct (task_queue w) as [|h q]; [apply untouched_refl|]. cbv zeta.
  pose proof (untouched_readiness w Hst) as H1.
  pose proof (stranded_untouched _ _ Hst H1) as Hst1.
  assert (Hwf1 : dict_wf Agent.aid
                   (w_agents (with_tasks (TaskManager.check_and_update_task_readiness
                                            (w_tasks w)) w))) by exact Hwf.
  revert H1 Hst1 Hwf1.
  generalize (with_tasks (TaskManager.check_and_update_task_readiness (w_tasks w)) w) as w1.
  intros w1 H1 Hst1 Hwf1.
  assert (Hpop : untouched tid aid w (AgentScheduler.popleft w1)).
  { eapply untouched_trans; [exact H1|]. split; reflexivity. }
  destruct (get_task w1 h) as [task|] eqn:Hh; [|exact Hpop].
  destruct (Task.state task) eqn:Hs; try exact H1; try exact Hpop.
  destruct (AgentScheduler.get_available_agents w1) as [|agent l] eqn:Hav; [exact H1|].
  eapply untouched_trans; [exact Hpop|].
  apply untouched_assign.
  - apply (other_task w1 h task Hst1 Hh). rewrite Hs. discriminate.
  - assert (Hin : In agent (AgentScheduler.get_available_agents w1))
      by (rewrite Hav; now left).
    unfold AgentScheduler.get_available_agents in Hin. apply filter_In in Hin.
    destruct Hin as [Hin Hidle]. apply agent_state_eqb_eq in Hidle.
    apply (other_agent w1 agent Hst1).
    + unfold get_agent, Crew.get_agent. now apply dict_get_In.
    + rewrite Hidle. discriminate.
Qed.

Lemma untouched_schedule_next (w : World) :
  stranded tid aid w -> dict_wf Agent.aid (w_agents w) ->
  untouched tid aid w (AgentScheduler.schedule_next w).
Proof.
  intros Hst Hwf. unfold AgentScheduler.schedule_next.
  destruct (Crew.process (crew w)); [|apply untouched_refl].
  pose proof (untouched_promote_assigned w Hst) as H1.
  eapply untouched_trans; [exact H1|].
  apply untouched_assign_head; [now apply (stranded_untouched w)|].
  apply (wf_agents_steady w); [|exact Hwf].
  apply (steady_fold AgentScheduler.promote_step), steady_promote_step.
Qed.

Lemma untouched_charge_call (i k : Z) (w : World) :
  i <> aid -> untouched tid aid w (Kernel.charge_call i k w).
Proof.
  intros Hne. unfold Kernel.charge_call. cbv zeta.
  apply untouched_trans
    with (w2 := with_monitor (ResourceMonitor.record_usage "tokens" i (Some k)
                                Kernel.call_cost (resource_monitor w)) w);
    [split; reflexivity|apply untouched_agent; auto with keeps].
Qed.

Lemma untouched_execute_tool `{RT : PyRuntime} (w : World) (i : Z) (task_id : option Z)
    (tool_name : pyval) (kwargs : list (string * pyval)) :
  i <> aid ->
  untouched tid aid w (snd (ToolDispatcher.execute_tool w i task_id tool_name kwargs)).
Proof.
  intros Hne. unfold ToolDispatcher.execute_tool.
  destruct (find _ kwargs) as [[k v]|]; [apply untouched_refl|].
  destruct (get_agent w i) as [agent_obj|]; [|apply untouched_refl].
  destruct (negb (py_in_strs tool_name (Agent.tools agent_obj))); [apply untouched_refl|].
  destruct (ToolDispatcher.lookup_tool (tool_registry w) tool_name) as [tool|];
    [|apply untouched_refl].
  cbv zeta.
  match goal with
  | |- untouched _ _ w (snd (match _ with
                             | Returned _ => (_, ?W) | Raised _ => _ end)) =>
      assert (HW : untouched tid aid w W)
  end.
  { split; [reflexivity|].
    rewrite !get_agent_modify by auto with keeps.
    assert (E : (i =? aid) = false) by (now apply Z.eqb_neq). now rewrite E. }
  destruct (Tool.execute tool kwargs) as [r|[e|n e]]; exact HW.
Qed.

Lemma untouched_release_agent (i : Z) (w : World) :
  i <> aid -> untouched tid aid w (AgentScheduler.release_agent i w).
Proof.
  intros Hne. unfold AgentScheduler.release_agent.
  destruct (get_agent w i) as [a|]; [|apply untouched_refl].
  destruct (negb (AgentState.eqb (Agent.state a) AgentState.IDLE)); [|apply untouched_refl].
  apply untouched_agent; [exact Hne|now intros []].
Qed.

Lemma untouched_finished (i k : Z) (r : string) (w : World) :
  i <> aid -> k <> tid -> stranded tid aid w ->
  untouched tid aid w (finished i k r w).
Proof.
  intros Hna Hnt Hst. unfold finished. cbv zeta.
  pose proof (untouched_tasks w (TaskManager.add_result k r (w_tasks w))
                (get_task_add_result_other _ k r Hnt)) as H1.
  eapply untouched_trans; [exact H1|].
  pose proof (stranded_untouched _ _ Hst H1) as Hst1. revert Hst1.
  generalize (with_tasks (TaskManager.add_result k r (w_tasks w)) w) as w1.
  intros w1 Hst1.
  pose proof (untouched_tasks w1
                (TaskManager.update_task_state k TaskState.COMPLETED (w_tasks w1))
                (get_task_update_task_state_other _ k tid _ Hnt)) as H2.
  eapply untouched_trans; [exact H2|].
  pose proof (stranded_untouched _ _ Hst1 H2) as Hst2. revert Hst2.
  generalize (with_tasks (TaskManager.update_task_state k TaskState.COMPLETED (w_tasks w1))
                w1) as w2.
  intros w2 Hst2.
  pose proof (untouched_release_agent i w2 Hna) as H3.
  eapply untouched_trans; [exact H3|].
  apply untouched_readiness. now apply (stranded_untouched w2).
Qed.

Lemma untouched_conclude `{RT : PyRuntime} (agent : Agent.t) (task : Task.t)
    (d : list (string * pyval)) (w : World) :
  Agent.aid agent <> aid -> Task.tid task <> tid -> stranded tid aid w ->
  untouched tid aid w (snd (Kernel.conclude agent task d w)).
Proof.
  intros Hna Hnt Hst. unfold Kernel.conclude.
  destruct (is_str "final_answer" (Kernel.response_get "action" d));
    [|apply untouched_agent; auto with keeps].
  destruct (Kernel.response_get "content" d) eqn:E;
    try (apply untouched_agent; auto with keeps);
    apply (untouched_finished (Agent.aid agent) (Task.tid task) _ w Hna Hnt Hst).
Qed.

Lemma untouched_simulate_agent_work `{RT : PyRuntime} (oracle : Oracle) (agent : Agent.t)
    (task : Task.t) (w : World) :
  Agent.aid agent <> aid -> Task.tid task <> tid -> stranded tid aid w ->
  untouched tid aid w (snd (Kernel.simulate_agent_work oracle agent task w)).
Proof.
  intros Hna Hnt Hst. unfold Kernel.simulate_agent_work. cbv zeta.
  pose proof (untouched_charge_call (Agent.aid agent) (Task.tid task) w Hna) as H1.
  pose proof (stranded_untouched _ _ Hst H1) as S1.
  set (w1 := Kernel.charge_call (Agent.aid agent) (Task.tid task) w) in *.
  destruct (Kernel.valid_action (oracle agent task [])) as [d|]; [|exact H1].
  destruct (is_str "use_tool" (Kernel.response_get "action" d));
    [|eapply untouched_trans; [exact H1|now apply untouched_conclude]].
  destruct (match py_get "arguments" d with Some v => v | None => PDict [] end)
    as [| | | | |l|kwargs]; try exact H1.
  destruct (negb (truthy (Kernel.response_get "tool_name" d))); [exact H1|].
  assert (H2 : untouched tid aid w
                 (modify_agent (Agent.aid agent)
                    (Agent.update_state AgentState.USING_TOOL) w1)).
  { eapply untouched_trans; [exact H1|apply untouched_agent; auto with keeps]. }
  set (w2 := modify_agent (Agent.aid agent) (Agent.update_state AgentState.USING_TOOL) w1)
    in *.
  assert (H3 : untouched tid aid w
                 (snd (ToolDispatcher.execute_tool w2 (Agent.aid agent)
                         (Some (Task.tid task))
                         (Kernel.response_get "tool_name" d) kwargs))).
  { eapply untouched_trans; [exact H2|now apply untouched_execute_tool]. }
  destruct (ToolDispatcher.execute_tool w2 (Agent.aid agent) (Some (Task.tid task))
              (Kernel.response_get "tool_name" d) kwargs) as [[r|e] w3];
    cbn [snd] in H3 |- *; [|exact H3].
  destruct (negb (hashable (Kernel.response_get "tool_name" d))); [exact H3|].
  assert (H4 : untouched tid aid w
                 (Kernel.charge_call (Agent.aid agent) (Task.tid task) w3)).
  { eapply untouched_trans; [exact H3|now apply untouched_charge_call]. }
  set (w4 := Kernel.charge_call (Agent.aid agent) (Task.tid task) w3) in *.
  eapply untouched_trans; [exact H4|].
  destruct (Kernel.valid_action _) as [d2|].
  - apply untouched_conclude; auto. now apply (stranded_untouched w).
  - apply untouched_agent; auto with keeps.
Qed.

Lemma untouched_work_on `{RT : PyRuntime} (oracle : Oracle) (w : World) (k : Z) :
  stranded tid aid w -> untouched tid aid w (snd (Kernel.work_on oracle w k)).
Proof.
  intros Hst. unfold Kernel.work_on.
  destruct (get_task w k) as [task|] eqn:Hk; [|apply untouched_refl].
  destruct (negb (TaskState.eqb (Task.state task) TaskState.RUNNING));
    [apply untouched_refl|].
  destruct (Task.assigned_agent_id task) as [x|] eqn:Hx; [|apply untouched_refl].
  cbn [get_agent_opt].
  destruct (get_agent w x) as [agent|] eqn:Hg; [|apply untouched_refl].
  destruct (AgentState.eqb (Agent.state agent) AgentState.RUNNING_TASK) eqn:Hs;
    [|apply untouched_refl].
  apply agent_state_eqb_eq in Hs.
  destruct (dict_get_Some _ _ _ _ Hg) as [Hkey _].
  assert (Hga : get_agent w (Agent.aid agent) = Some agent) by (now rewrite Hkey).
  assert (Hna : Agent.aid agent <> aid).
  { apply (other_agent w agent Hst Hga). rewrite Hs. discriminate. }
  assert (Hnt : Task.tid task <> tid).
  { intros E. destruct Hst as (t & a & H1 & _ & H3 & _).
    destruct (dict_get_Some _ _ _ _ Hk) as [Hkt _].
    assert (Ek : k = tid) by congruence. rewrite Ek in Hk. rewrite H1 in Hk.
    injection Hk as <-.
    rewrite H3 in Hx. injection Hx as <-. now apply Hna. }
  pose proof (untouched_simulate_agent_work oracle agent task w Hna Hnt Hst) as H.
  destruct (Kernel.simulate_agent_work oracle agent task w) as [[b|e] w']; exact H.
Qed.

Lemma untouched_work_loop `{RT : PyRuntime} (oracle : Oracle) (tids : list Z) (w : World) :
  stranded tid aid w -> untouched tid aid w (snd (Kernel.work_loop oracle tids w)).
Proof.
  revert w. induction tids as [|k rest IH]; intros w Hst; simpl; [apply untouched_refl|].
  pose proof (untouched_work_on oracle w k Hst) as H1.
  destruct (Kernel.work_on oracle w k) as [[u|e] w']; cbn [snd] in H1 |- *; [|exact H1].
  eapply untouched_trans; [exact H1|]. apply IH. now apply (stranded_untouched w).
Qed.

Lemma untouched_apply_op `{RT : PyRuntime} (op : core_op) (w : World) :
  passes_and_work op -> stranded tid aid w -> dict_wf Agent.aid (w_agents w) ->
  untouched tid aid w (apply_op op w).
Proof.
  intros Hop Hst Hwf. destruct op as [| |oracle k|oracle|i|k s]; simpl in *;
    try contradiction.
  - now apply untouched_readiness.
  - now apply untouched_schedule_next.
  - now apply untouched_work_on.
  - unfold Kernel.tick_world. cbv zeta.
    pose proof (untouched_schedule_next w Hst Hwf) as H1.
    eapply untouched_trans; [exact H1|].
    apply untouched_work_loop. now apply (stranded_untouched w).
Qed.

Lemma stranded_run_ops `{RT : PyRuntime} (ops : list core_op) (w : World) :
  Forall passes_and_work ops -> stranded tid aid w -> dict_wf Agent.aid (w_agents w) ->
  untouched tid aid w (run_ops ops w).
Proof.
  intros Hops. revert w. induction Hops as [|op ops Hop _ IH]; intros w Hst Hwf;
    [apply untouched_refl|].
  change (run_ops (op :: ops) w) with (run_ops ops (apply_op op w)).
  pose proof (untouched_apply_op op w Hop Hst Hwf) as H1.
  eapply untouched_trans; [exact H1|].
  apply IH; [now apply (stranded_untouched w)|].
  apply (wf_agents_steady w); [apply steady_apply_op|exact Hwf].
Qed.

Lemma stranded_not_done (w : World) :
  stranded tid aid w -> Crew.all_tasks_done (crew w) = false.
Proof.
  intros (t & a & H1 & H2 & _). destruct (dict_get_Some _ _ _ _ H1) as [_ Hin].
  unfold Crew.all_tasks_done.
  destruct (forallb _ (Crew.tasks (crew w))) eqn:E; [|reflexivity].
  rewrite forallb_forall in E. specialize (E t Hin). rewrite H2 in E. discriminate.
Qed.
End Stranded.

Lemma ticks_from_passes (oracles : Z -> Oracle) (n : nat) :
  forall start, Forall passes_and_work (ticks_from oracles start n).
Proof. induction n as [|n IH]; intros start; simpl; constructor; [exact I|apply IH]. Qed.

Lemma execute_tool_raised `{RT : PyRuntime} (w : World) (aid : Z) (task_id : option Z)
    (tool_name : pyval) (kwargs : list (string * pyval)) (e : exn) :
  fst (ToolDispatcher.execute_tool w aid task_id tool_name kwargs) = Raised e ->
  (exists msg, e = TypeError msg) /\ ~ binds kwargs.
Proof.
  unfold ToolDispatcher.execute_tool.
  destruct (find _ kwargs) as [[k v]|] eqn:Hf.
  - cbn [fst]. intros [= <-]. split; [eexists; reflexivity|].
    intros Hb. rewrite (binds_find kwargs Hb) in Hf. discriminate.
  - destruct (get_agent w aid) as [agent|]; [|discriminate].
    destruct (negb (py_in_strs tool_name (Agent.tools agent))); [discriminate|].
    destruct (ToolDispatcher.lookup_tool (tool_registry w) tool_name) as [tool|];
      [|discriminate].
    cbv zeta. destruct (Tool.execute tool kwargs) as [r|[m|n m]]; discriminate.
Qed.

Lemma execute_tool_unbound `{RT : PyRuntime} (w : World) (aid : Z) (task_id : option Z)
    (tool_name : pyval) (kwargs : list (string * pyval)) (s : string) :
  fst (ToolDispatcher.execute_tool w aid task_id tool_name kwargs) = Returned s ->
  binds kwargs.
Proof.
  unfold ToolDispatcher.execute_tool.
  destruct (find _ kwargs) as [[k v]|] eqn:Hf; [discriminate|]. intros _.
  intros k v Hin Hk. pose proof (find_none _ _ Hf (k, v) Hin) as Hn. cbn [fst] in Hn.
  assert (Ht : str_in k ToolDispatcher.parameter_names = true).
  { unfold str_in. apply existsb_exists. exists k. split; [exact Hk|apply String.eqb_refl]. }
  rewrite Ht in Hn. discriminate.
Qed.

(** X14.  A work step whose tool request cannot be bound (a keyword argument
    named like a parameter of [execute_tool]) or names the tool by an
    unhashable value raises [TypeError] out of the work step.  The task table
    and the queue are as before, the task is still RUNNING, and its agent is
    left in USING_TOOL; every later work step on this task, under whatever
    oracle, does nothing. *)
Theorem work_step_fault `{RT : PyRuntime} (oracle : Oracle) (w : World) (tid aid : Z)
    (task : Task.t) (agent : Agent.t) (tool_name : pyval) (kwargs : list (string * pyval)) :
  get_task w tid = Some task -> Task.state task = TaskState.RUNNING ->
  Task.assigned_agent_id task = Some aid ->
  get_agent w aid = Some agent -> Agent.state agent = AgentState.RUNNING_TASK ->
  use_tool_decision (oracle agent task []) tool_name kwargs ->
  ~ binds kwargs \/ hashable tool_name = false ->
  let res := Kernel.work_on oracle w tid in
  (exists msg, fst res = Raised (TypeError msg))
  /\ w_tasks (snd res) = w_tasks w
  /\ task_queue (snd res) = task_queue w
  /\ stranded tid aid (snd res)
  /\ forall oracle', Kernel.work_on oracle' (snd res) tid = (Returned tt, snd res).
Proof.
  intros Hg Hs Hasg Ha Hsa (d & Hr & Hact & Hname & Htruthy & Hargs) Hbad.
  destruct (dict_get_Some _ _ _ _ Ha) as [Hkey _]. subst aid.
  assert (Hend : forall (e : exn) (w3 : World),
            (exists msg, e = TypeError msg) ->
            w_tasks w3 = w_tasks w -> task_queue w3 = task_queue w ->
            (exists a3, get_agent w3 (Agent.aid agent) = Some a3
                        /\ Agent.state a3 = AgentState.USING_TOOL) ->
            (exists msg, fst (@Raised unit e, w3) = Raised (TypeError msg))
            /\ w_tasks (snd (@Raised unit e, w3)) = w_tasks w
            /\ task_queue (snd (@Raised unit e, w3)) = task_queue w
            /\ stranded tid (Agent.aid agent) (snd (@Raised unit e, w3))
            /\ forall oracle',
                 Kernel.work_on oracle' (snd (@Raised unit e, w3)) tid
                 = (Returned tt, snd (@Raised unit e, w3))).
  { intros e w3 [msg ->] Ht Hq (a3 & Ha3 & Hs3). cbn [fst snd].
    assert (Hg3 : get_task w3 tid = Some task)
      by (now rewrite (get_task_same_tasks w w3 _ Ht)).
    split; [eexists; reflexivity|]. split; [exact Ht|]. split; [exact Hq|]. split.
    - exists task, a3. auto.
    - intros oracle'. unfold Kernel.work_on. rewrite Hg3, Hs. simpl negb. cbv iota.
      rewrite Hasg. cbn [get_agent_opt]. rewrite Ha3, Hs3. reflexivity. }
  cbv zeta. unfold Kernel.work_on. rewrite Hg, Hs. simpl negb. cbv iota.
  rewrite Hasg. cbn [get_agent_opt]. rewrite Ha, Hsa. simpl AgentState.eqb. cbv iota.
  unfold Kernel.simulate_agent_work. cbv zeta. rewrite Hr.
  rewrite (valid_action_Some d _ Hact), (response_get_Some _ _ _ Hact), Hname.
  simpl is_str. cbv iota.
  assert (Eargs : match py_get "arguments" d with Some v => v | None => PDict [] end
                  = PDict kwargs).
  { destruct Hargs as [->|[-> ->]]; reflexivity. }
  rewrite Eargs, Htruthy. simpl negb. cbv iota.
  destruct (charge_call_tables (Agent.aid agent) (Task.tid task) w) as (T1 & Q1 & _ & A1).
  specialize (A1 (Agent.aid agent)). rewrite Z.eqb_refl, Ha in A1. simpl in A1.
  revert T1 Q1 A1.
  generalize (Kernel.charge_call (Agent.aid agent) (Task.tid task) w) as w1.
  intros w1 T1 Q1 A1.
  assert (A2 : get_agent (modify_agent (Agent.aid agent)
                            (Agent.update_state AgentState.USING_TOOL) w1) (Agent.aid agent)
               = Some (Agent.update_state AgentState.USING_TOOL
                         (Agent.record_usage "tokens" Kernel.call_cost agent))).
  { rewrite get_agent_modify by auto with keeps. now rewrite Z.eqb_refl, A1. }
  assert (T2 : w_tasks (modify_agent (Agent.aid agent)
                          (Agent.update_state AgentState.USING_TOOL) w1) = w_tasks w)
    by exact T1.
  assert (Q2 : task_queue (modify_agent (Agent.aid agent)
                             (Agent.update_state AgentState.USING_TOOL) w1) = task_queue w)
    by exact Q1.
  revert A2 T2 Q2.
  generalize (modify_agent (Agent.aid agent) (Agent.update_state AgentState.USING_TOOL) w1)
    as w2.
  intros w2 A2 T2 Q2.
  destruct (execute_tool_tables w2 (Agent.aid agent) (Some (Task.tid task)) tool_name kwargs)
    as (T3 & Q3 & _ & A3).
  destruct (A3 (Agent.aid agent) _ A2) as (a3 & Ha3 & Hs3 & _).
  pose proof (execute_tool_raised w2 (Agent.aid agent) (Some (Task.tid task))
                tool_name kwargs) as Hraised.
  pose proof (execute_tool_unbound w2 (Agent.aid agent) (Some (Task.tid task))
                tool_name kwargs) as Hbound.
  destruct (ToolDispatcher.execute_tool w2 (Agent.aid agent) (Some (Task.tid task))
              tool_name kwargs) as [[s|e] w3]; cbn [fst snd] in *.
  - destruct Hbad as [Hnb|Hh]; [exfalso; apply Hnb; now apply (Hbound s)|].
    rewrite Hh. simpl negb. cbv iota.
    apply (Hend _ w3); [eexists; reflexivity|congruence|congruence|].
    exists a3. split; [exact Ha3|exact Hs3].
  - apply (Hend e w3); [exact (proj1 (Hraised e eq_refl))|congruence|congruence|].
    exists a3. split; [exact Ha3|exact Hs3].
Qed.

Lemma work_step_fault_witness :
  get_task sample_running 0
  = Some (Task.add_context (Some "")
            (Task.update_state TaskState.RUNNING
               (Task.update_state TaskState.ASSIGNED
                  (Task.set_assigned_agent_id 0 Sample.task1))))
  /\ ~ binds [("query", PStr "ai"); ("tool_name", PStr "web_search")]
  /\ stranded 0 0 sample_faulted.
Proof.
  assert (Hnb : ~ binds [("query", PStr "ai"); ("tool_name", PStr "web_search")]).
  { intros Hb. apply (Hb "tool_name" (PStr "web_search")); [right; now left|].
    right. right. right. now left. }
  split; [vm_compute; reflexivity|]. split; [exact Hnb|].
  refine (proj1 (proj2 (proj2 (proj2
    (@work_step_fault sample_runtime clash_oracle sample_running 0 0
       (Task.add_context (Some "")
          (Task.update_state TaskState.RUNNING
             (Task.update_state TaskState.ASSIGNED
                (Task.set_assigned_agent_id 0 Sample.task1))))
       (Agent.update_state AgentState.RUNNING_TASK (Agent.assign_task 0 Sample.researcher))
       (PStr "web_search") [("query", PStr "ai"); ("tool_name", PStr "web_search")]
       _ _ _ _ _ _ (or_introl Hnb)))))).
  - vm_compute. reflexivity.
  - reflexivity.
  - reflexivity.
  - vm_compute. reflexivity.
  - reflexivity.
  - eexists. split; [reflexivity|]. split; [reflexivity|]. split; [reflexivity|].
    split; [reflexivity|]. left. reflexivity.
Defined.

(** X16.  A RUNNING task whose agent is in USING_TOOL never makes progress:
    under readiness passes, scheduling passes, work steps and ticks, whatever
    the oracles answer, the task and its agent stay exactly as they are, so
    the crew is never done; a run started from there returns normally only
    with the tick counter at [max_ticks]. *)
Theorem stranded_forever `{RT : PyRuntime} (tid aid : Z) (ops : list core_op) (w : World) :
  stranded tid aid w -> dict_wf Agent.aid (w_agents w) ->
  Forall passes_and_work ops ->
  untouched tid aid w (run_ops ops w)
  /\ stranded tid aid (run_ops ops w)
  /\ Crew.all_tasks_done (crew (run_ops ops w)) = false
  /\ forall (oracles : Z -> Oracle) (max_ticks tc : Z) (flag : bool),
       let res := Kernel.run oracles max_ticks (Kernel.mk (Some w) tc flag) in
       fst res = Returned tt -> max_ticks <= Kernel.tick_count (snd res).
Proof.
  intros Hst Hwf Hops.
  pose proof (stranded_run_ops tid aid ops w Hops Hst Hwf) as Hu.
  pose proof (stranded_untouched tid aid _ _ Hst Hu) as Hst'.
  split; [exact Hu|]. split; [exact Hst'|].
  split; [now apply (stranded_not_done tid aid)|].
  intros oracles max_ticks tc flag. cbv zeta. unfold Kernel.run.
  cbn [Kernel.loaded Kernel.tick_count].
  assert (Hfuel : max_ticks - tc <= Z.of_nat (Z.to_nat (max_ticks - tc))) by lia.
  pose proof (run_loop_spec oracles max_ticks _ w tc Hfuel) as H. cbv zeta in H.
  destruct (Kernel.run_loop oracles (Z.to_nat (max_ticks - tc)) max_ticks
              (Kernel.mk (Some w) tc true)) as [r k'].
  cbn [fst snd Kernel.tick_count] in *.
  destruct H as (n & _ & _ & _ & Hdone). intros Hr.
  destruct (Z.lt_ge_cases (Kernel.tick_count k') max_ticks) as [Hlt|Hge]; [|lia].
  exfalso. specialize (Hdone Hr Hlt).
  pose proof (stranded_run_ops tid aid _ w (ticks_from_passes oracles n tc) Hst Hwf) as Hu2.
  pose proof (stranded_not_done tid aid _ (stranded_untouched tid aid _ _ Hst Hu2)) as Hnd.
  rewrite Hnd in Hdone. discriminate.
Qed.

Lemma stranded_forever_witness :
  stranded 0 0 sample_faulted
  /\ Crew.all_tasks_done
       (crew (@run_ops sample_runtime
                [OpTick final_answer_oracle; OpTick final_answer_oracle] sample_faulted))
     = false.
Proof.
  assert (Hst : stranded 0 0 sample_faulted).
  { eexists. eexists. split; [vm_compute; reflexivity|]. split; [reflexivity|].
    split; [reflexivity|]. split; [vm_compute; reflexivity|reflexivity]. }
  assert (Hwf : dict_wf Agent.aid (w_agents sample_faulted)).
  { unfold dict_wf. vm_compute. nodup_keys. }
  split; [exact Hst|].
  refine (proj1 (proj2 (proj2
    (@stranded_forever sample_runtime 0 0
       [OpTick final_answer_oracle; OpTick final_answer_oracle] sample_faulted
       Hst Hwf _)))).
  repeat constructor.
Defined.

(** ** The life of a task *)

Lemma forward_refl (s : TaskState.t) : forward s s.
Proof. now left. Qed.

Lemma forward_trans (a b c : TaskState.t) : forward a b -> forward b c -> forward a c.
Proof.
  unfold forward. intros [->|[H1 H2]] [->|[G1 G2]]; auto. right. lia.
Qed.

Lemma advances_refl (w : World) : advances w w.
Proof. intros k. apply option_rel_refl. intros t. apply forward_refl. Qed.

Lemma advances_trans (w1 w2 w3 : World) : advances w1 w2 -> advances w2 w3 -> advances w1 w3.
Proof.
  intros H G k. apply (option_rel_trans _ _ (get_task w2 k)); auto.
  intros a b c. apply forward_trans.
Qed.

Lemma advances_same_tasks (w w' : World) : w_tasks w' = w_tasks w -> advances w w'.
Proof.
  intros H k. rewrite (get_task_same_tasks w w' k H). apply option_rel_refl.
  intros t. apply forward_refl.
Qed.

Lemma advances_map (w w' : World) (g : Task.t -> Task.t) :
  w_tasks w' = map g (w_tasks w) -> keeps_key Task.tid g ->
  (forall t, forward (Task.state t) (Task.state (g t))) -> advances w w'.
Proof.
  intros Ht Hk Hf k.
  assert (E : get_task w' k = option_map g (get_task w k)).
  { unfold get_task, Crew.get_task. unfold w_tasks in Ht. rewrite Ht.
    apply (get_task_map g _ k Hk). }
  rewrite E. destruct (get_task w k); simpl; auto.
Qed.

Lemma forward_promote_task (w : World) (t : Task.t) :
  forward (Task.state t) (Task.state (promote_task w t)).
Proof.
  destruct (promote_task_cases w t) as [[-> _]|(Hs & a & _ & ->)]; [apply forward_refl|].
  simpl. rewrite Hs. right. simpl. lia.
Qed.

Lemma forward_readiness_of (T : TaskTable) (t : Task.t) :
  forward (Task.state t) (Task.state (readiness_of T t)).
Proof.
  unfold readiness_of.
  destruct (TaskState.eqb (Task.state t) TaskState.PENDING) eqn:E; [|apply forward_refl].
  apply task_state_eqb_eq in E.
  destruct (TaskManager.deps_met_loop T (Task.dependencies t)); simpl;
    [|apply forward_refl].
  rewrite E. right. simpl. lia.
Qed.

Lemma advances_readiness (w : World) :
  wf_world w ->
  advances w (with_tasks (TaskManager.check_and_update_task_readiness (w_tasks w)) w).
Proof.
  intros [Hwf _]. apply (advances_map _ _ (readiness_of (w_tasks w))).
  - wsimpl. now apply check_and_update_task_readiness_map.
  - apply keeps_tid_readiness_of.
  - apply forward_readiness_of.
Qed.

Lemma advances_assign (w : World) (task : Task.t) (agent : Agent.t) :
  get_task w (Task.tid task) = Some task -> Task.state task = TaskState.READY ->
  advances w (AgentScheduler.assign_task_to_agent task agent w).
Proof.
  intros Hg Hs k.
  destruct (assign_task_to_agent_spec task agent w Hg) as (Ht & _).
  { rewrite Hs. discriminate. }
  rewrite Ht. destruct (Task.tid task =? k) eqn:E.
  - apply Z.eqb_eq in E. subst k. rewrite Hg. simpl. rewrite Hs. right. simpl. lia.
  - apply option_rel_refl. intros t. apply forward_refl.
Qed.

Lemma advances_schedule (w : World) :
  wf_world w -> advances w (AgentScheduler.schedule_next w).
Proof.
  intros Hwf.
  destruct (Crew.process (crew w)) eqn:Hp.
  2:{ unfold AgentScheduler.schedule_next. rewrite Hp. apply advances_refl. }
  rewrite schedule_next_sequential by assumption.
  assert (G1 : advances w (after_promotion w)).
  { apply (advances_map _ _ (promote_task w)); [reflexivity|auto with keeps|].
    apply forward_promote_task. }
  assert (G2 : advances w (after_recompute w)).
  { apply (advances_map _ _ (recomputed_task w)); [reflexivity|auto with keeps|].
    intros t. unfold recomputed_task.
    apply (forward_trans _ (Task.state (promote_task w t)));
      [apply forward_promote_task|apply forward_readiness_of]. }
  assert (Gp : advances w (AgentScheduler.popleft (after_recompute w))).
  { apply (advances_trans _ (after_recompute w)); [exact G2|].
    apply advances_same_tasks. reflexivity. }
  destruct (task_queue w) as [|h q]; [exact G1|].
  destruct (get_task (after_recompute w) h) as [task|] eqn:Hh; [|exact Gp].
  destruct (Task.state task) eqn:Hst; try exact Gp; try exact G2.
  destruct (first_idle w) as [agent|]; [|exact G2].
  destruct (dict_get_Some _ _ _ _ Hh) as [Hk _]. subst h.
  apply (advances_trans _ (AgentScheduler.popleft (after_recompute w))); [exact Gp|].
  apply advances_assign; [exact Hh|exact Hst].
Qed.

Lemma advances_finished (w : World) (i k : Z) (r : string) :
  wf_world w ->
  (forall t, get_task w k = Some t -> Task.state t = TaskState.RUNNING) ->
  advances w (finished i k r w).
Proof.
  intros Hwf Hrun. unfold finished. cbv zeta.
  set (wa := with_tasks (TaskManager.add_result k r (w_tasks w)) w).
  set (wb := with_tasks (TaskManager.update_task_state k TaskState.COMPLETED (w_tasks wa))
               wa).
  assert (Eb : evolves w wb).
  { apply (evolves_trans _ wa); [apply evolves_add_result|apply evolves_completed]. }
  assert (Wr : wf_world (AgentScheduler.release_agent i wb)).
  { apply wf_release. now apply (wf_evolves w). }
  assert (Ab : advances w wb).
  { intros j. unfold wb, wa. rewrite get_task_with_tasks. wsimpl.
    destruct (get_task w k) as [t|] eqn:Hk.
    - rewrite (get_task_completed_with (w_tasks w) k r t Hk j).
      destruct (k =? j) eqn:E.
      + apply Z.eqb_eq in E. subst j. rewrite Hk. simpl.
        rewrite (Hrun t eq_refl). right. simpl. lia.
      + apply option_rel_refl. intros x. apply forward_refl.
    - assert (E1 : TaskManager.add_result k r (w_tasks w) = w_tasks w).
      { unfold TaskManager.add_result.
        change (TaskManager.get_task (w_tasks w) k) with (get_task w k).
        now rewrite Hk. }
      rewrite E1.
      assert (E2 : TaskManager.update_task_state k TaskState.COMPLETED (w_tasks w)
                   = w_tasks w).
      { unfold TaskManager.update_task_state.
        change (TaskManager.get_task (w_tasks w) k) with (get_task w k).
        now rewrite Hk. }
      rewrite E2. apply option_rel_refl. intros x. apply forward_refl. }
  apply (advances_trans _ wb); [exact Ab|].
  apply (advances_trans _ (AgentScheduler.release_agent i wb)).
  - apply advances_same_tasks. apply release_agent_tables.
  - now apply advances_readiness.
Qed.

Section Lifecycle.
Context `{RT : PyRuntime}.

Lemma advances_work_on (oracle : Oracle) (w : World) (tid : Z) :
  wf_world w -> advances w (snd (Kernel.work_on oracle w tid)).
Proof.
  intros Hwf.
  destruct (work_on_cases oracle w tid) as [->|(task & agent & Hg & Hs & _ & _ & ->)];
    [apply advances_refl|].
  destruct (dict_get_Some _ _ _ _ Hg) as [Hk _].
  destruct (simulate_agent_work_cases oracle agent task w)
    as [[_ Ht]|(w1 & content & [He Ht] & ->)].
  - now apply advances_same_tasks.
  - apply (advances_trans _ w1); [now apply advances_same_tasks|].
    apply advances_finished; [now apply (wf_evolves w)|].
    intros t Ht1. rewrite (get_task_same_tasks w w1 _ Ht), Hk, Hg in Ht1.
    injection Ht1 as <-. exact Hs.
Qed.

Lemma advances_work_loop (oracle : Oracle) (tids : list Z) (w : World) :
  wf_world w -> advances w (snd (Kernel.work_loop oracle tids w)).
Proof.
  revert w. induction tids as [|tid tids IH]; intros w Hwf; [apply advances_refl|].
  simpl. pose proof (advances_work_on oracle w tid Hwf) as A.
  destruct (settled_work_on oracle w tid Hwf) as [W _].
  destruct (Kernel.work_on oracle w tid) as [[u|e] w']; cbn [snd] in A, W |- *;
    [|exact A].
  apply (advances_trans _ w'); [exact A|now apply IH].
Qed.

Lemma advances_apply_op (op : core_op) (w : World) :
  wf_world w -> not_update op ->
  wf_world (apply_op op w) /\ advances w (apply_op op w).
Proof.
  intros Hwf Hop.
  assert (Hnb : no_update_back op) by (destruct op; simpl in *; auto; contradiction).
  split; [exact (proj1 (settled_apply_op op w Hwf Hnb))|].
  destruct op as [| |oracle tid|oracle|agent_id|tid s]; simpl in *.
  - now apply advances_readiness.
  - now apply advances_schedule.
  - now apply advances_work_on.
  - unfold Kernel.tick_world. cbv zeta.
    apply (advances_trans _ (AgentScheduler.schedule_next w));
      [now apply advances_schedule|].
    apply advances_work_loop. now apply wf_schedule.
  - apply advances_same_tasks. apply release_agent_tables.
  - contradiction.
Qed.
End Lifecycle.

(** X17.  Under every operation but a direct state update, each task only
    moves forward along PENDING, READY, ASSIGNED, RUNNING, COMPLETED: after
    any sequence of readiness passes, scheduling passes, work steps, ticks
    and releases every task is in the state it had or in a later one of the
    chain.  No task ever enters FAILED or WAITING_CONTEXT, and a task in one
    of these two states never leaves it. *)
Theorem lifecycle_forward `{RT : PyRuntime} (ops : list core_op) (w : World) :
  wf_world w -> Forall not_update ops ->
  advances w (run_ops ops w)
  /\ forall k t t', get_task w k = Some t -> get_task (run_ops ops w) k = Some t' ->
       (Task.state t' = TaskState.FAILED \/ Task.state t' = TaskState.WAITING_CONTEXT
        \/ Task.state t = TaskState.FAILED \/ Task.state t = TaskState.WAITING_CONTEXT) ->
       Task.state t' = Task.state t.
Proof.
  intros Hwf Hops.
  assert (Ha : advances w (run_ops ops w)).
  { revert w Hwf. induction Hops as [|op ops Hop _ IH]; intros w Hwf;
      [apply advances_refl|].
    change (run_ops (op :: ops) w) with (run_ops ops (apply_op op w)).
    destruct (advances_apply_op op w Hwf Hop) as [W A].
    apply (advances_trans _ (apply_op op w)); [exact A|now apply IH]. }
  split; [exact Ha|].
  intros k t t' Hg Hg' Hout. specialize (Ha k). rewrite Hg, Hg' in Ha. simpl in Ha.
  destruct Ha as [E|[H1 H2]]; [exact E|]. exfalso.
  destruct Hout as [E|[E|[E|E]]]; rewrite E in *; simpl in *; lia.
Qed.

Lemma lifecycle_forward_witness :
  wf_world sample_world
  /\ advances sample_world
       (@run_ops sample_runtime
          [OpTick final_answer_oracle; OpRelease 0; OpTick final_answer_oracle]
          sample_world).
Proof.
  assert (Hwf : wf_world sample_world).
  { split; unfold dict_wf; vm_compute; nodup_keys. }
  split; [exact Hwf|].
  refine (proj1 (@lifecycle_forward sample_runtime
                   [OpTick final_answer_oracle; OpRelease 0; OpTick final_answer_oracle]
                   sample_world Hwf _)).
  repeat constructor.
Defined.

(** ** Tasks outside the queue *)

Lemma waiting_same_tasks (w w' : World) (k : Z) :
  w_tasks w' = w_tasks w -> waiting w k -> waiting w' k.
Proof.
  intros H (t & Hg & Hs). exists t. now rewrite (get_task_same_tasks w w' k H).
Qed.

Lemma waiting_map (w w' : World) (g : Task.t -> Task.t) (k : Z) :
  w_tasks w' = map g (w_tasks w) -> keeps_key Task.tid g ->
  (forall t, Task.state t = TaskState.PENDING \/ Task.state t = TaskState.READY ->
             Task.state (g t) = TaskState.PENDING \/ Task.state (g t) = TaskState.READY) ->
  waiting w k -> waiting w' k.
Proof.
  intros Ht Hk Hlow (t & Hg & Hs). exists (g t). split; [|now apply Hlow].
  unfold get_task, Crew.get_task. unfold w_tasks in Ht. rewrite Ht.
  change (TaskManager.get_task (map g (Crew.tasks (crew w))) k = Some (g t)).
  rewrite (get_task_map g _ k Hk).
  change (TaskManager.get_task (Crew.tasks (crew w)) k) with (get_task w k).
  now rewrite Hg.
Qed.

Lemma low_readiness_of (T : TaskTable) (t : Task.t) :
  Task.state t = TaskState.PENDING \/ Task.state t = TaskState.READY ->
  Task.state (readiness_of T t) = TaskState.PENDING
  \/ Task.state (readiness_of T t) = TaskState.READY.
Proof.
  intros Hs. unfold readiness_of.
  destruct (TaskState.eqb (Task.state t) TaskState.PENDING
            && TaskManager.deps_met_loop T (Task.dependencies t)); [now right|exact Hs].
Qed.

Lemma low_promote_task (w : World) (t : Task.t) :
  Task.state t = TaskState.PENDING \/ Task.state t = TaskState.READY ->
  promote_task w t = t.
Proof.
  intros Hs. destruct (promote_task_cases w t) as [[E _]|(Ha & _)]; [exact E|].
  rewrite Ha in Hs. destruct Hs; discriminate.
Qed.

Lemma waiting_readiness (w : World) (k : Z) :
  wf_world w -> waiting w k ->
  waiting (with_tasks (TaskManager.check_and_update_task_readiness (w_tasks w)) w) k.
Proof.
  intros [Hwf _]. apply (waiting_map _ _ (readiness_of (w_tasks w))).
  - wsimpl. now apply check_and_update_task_readiness_map.
  - apply keeps_tid_readiness_of.
  - apply low_readiness_of.
Qed.

Lemma waiting_schedule (w : World) (k : Z) :
  wf_world w -> ~ In k (task_queue w) -> waiting w k ->
  waiting (AgentScheduler.schedule_next w) k.
Proof.
  intros Hwf Hq Hw.
  destruct (Crew.process (crew w)) eqn:Hp.
  2:{ unfold AgentScheduler.schedule_next. now rewrite Hp. }
  rewrite schedule_next_sequential by assumption.
  assert (G1 : waiting (after_promotion w) k).
  { apply (waiting_map w _ (promote_task w)); [reflexivity|auto with keeps| |exact Hw].
    intros t Hs. now rewrite (low_promote_task w t Hs). }
  assert (G2 : waiting (after_recompute w) k).
  { apply (waiting_map w _ (recomputed_task w)); [reflexivity|auto with keeps| |exact Hw].
    intros t Hs. unfold recomputed_task. rewrite (low_promote_task w t Hs).
    now apply low_readiness_of. }
  assert (Gp : waiting (AgentScheduler.popleft (after_recompute w)) k).
  { apply (waiting_same_tasks (after_recompute w)); [reflexivity|exact G2]. }
  destruct (task_queue w) as [|h q]; [exact G1|].
  destruct (get_task (after_recompute w) h) as [task|] eqn:Hh; [|exact Gp].
  destruct (Task.state task) eqn:Hst; try exact Gp; try exact G2.
  destruct (first_idle w) as [agent|]; [|exact G2].
  destruct (dict_get_Some _ _ _ _ Hh) as [Hk _]. subst h.
  destruct (assign_task_to_agent_spec task agent
              (AgentScheduler.popleft (after_recompute w)) Hh) as (Ht & _).
  { rewrite Hst. discriminate. }
  destruct Gp as (t & Hg & Hs). exists t. split; [|exact Hs].
  rewrite Ht. assert (E : (Task.tid task =? k) = false).
  { apply Z.eqb_neq. intros E. apply Hq. left. exact E. }
  now rewrite E.
Qed.

Lemma waiting_finished (w : World) (i j k : Z) (r : string) :
  wf_world w ->
  (forall t, get_task w j = Some t -> Task.state t = TaskState.RUNNING) ->
  waiting w k -> waiting (finished i j r w) k.
Proof.
  intros Hwf Hrun (t & Hg & Hs). unfold finished. cbv zeta.
  set (wa := with_tasks (TaskManager.add_result j r (w_tasks w)) w).
  set (wb := with_tasks (TaskManager.update_task_state j TaskState.COMPLETED (w_tasks wa))
               wa).
  assert (Eb : evolves w wb).
  { apply (evolves_trans _ wa); [apply evolves_add_result|apply evolves_completed]. }
  assert (Wr : wf_world (AgentScheduler.release_agent i wb)).
  { apply wf_release. now apply (wf_evolves w). }
  assert (Hne : j <> k).
  { intros E. subst j. rewrite (Hrun t Hg) in Hs. destruct Hs; discriminate. }
  assert (Hb : waiting wb k).
  { exists t. split; [|exact Hs]. unfold wb, wa. rewrite get_task_with_tasks. wsimpl.
    rewrite get_task_update_task_state_other by exact Hne.
    rewrite (get_task_add_result_other k _ j r Hne). exact Hg. }
  apply waiting_readiness; [exact Wr|].
  apply (waiting_same_tasks wb); [apply release_agent_tables|exact Hb].
Qed.

Section Waiting.
Context `{RT : PyRuntime}.

Lemma waiting_work_on (oracle : Oracle) (w : World) (tid k : Z) :
  wf_world w -> waiting w k -> waiting (snd (Kernel.work_on oracle w tid)) k.
Proof.
  intros Hwf Hw.
  destruct (work_on_cases oracle w tid) as [->|(task & agent & Hg & Hs & _ & _ & ->)];
    [exact Hw|].
  destruct (dict_get_Some _ _ _ _ Hg) as [Hk _].
  destruct (simulate_agent_work_cases oracle agent task w)
    as [[_ Ht]|(w1 & content & [He Ht] & ->)].
  - now apply (waiting_same_tasks w).
  - apply waiting_finished; [now apply (wf_evolves w)| |now apply (waiting_same_tasks w)].
    intros t Ht1. rewrite (get_task_same_tasks w w1 _ Ht), Hk, Hg in Ht1.
    injection Ht1 as <-. exact Hs.
Qed.

Lemma waiting_work_loop (oracle : Oracle) (tids : list Z) (w : World) (k : Z) :
  wf_world w -> waiting w k -> waiting (snd (Kernel.work_loop oracle tids w)) k.
Proof.
  revert w. induction tids as [|tid tids IH]; intros w Hwf Hw; [exact Hw|].
  simpl. pose proof (waiting_work_on oracle w tid k Hwf Hw) as A.
  destruct (settled_work_on oracle w tid Hwf) as [W _].
  destruct (Kernel.work_on oracle w tid) as [[u|e] w']; cbn [snd] in A, W |- *;
    [|exact A].
  now apply IH.
Qed.

Lemma waiting_apply_op (op : core_op) (w : World) (k : Z) :
  wf_world w -> not_update op -> ~ In k (task_queue w) -> waiting w k ->
  wf_world (apply_op op w) /\ ~ In k (task_queue (apply_op op w))
  /\ waiting (apply_op op w) k.
Proof.
  intros Hwf Hop Hq Hw.
  assert (Hnb : no_update_back op) by (destruct op; simpl in *; auto; contradiction).
  split; [exact (proj1 (settled_apply_op op w Hwf Hnb))|]. split.
  { destruct (steady_queue _ _ (steady_apply_op op w)) as [front E].
    intros Hin. apply Hq. rewrite E. apply in_or_app. now right. }
  destruct op as [| |oracle tid|oracle|agent_id|tid s]; simpl in *.
  - now apply waiting_readiness.
  - now apply waiting_schedule.
  - now apply waiting_work_on.
  - unfold Kernel.tick_world. cbv zeta.
    apply waiting_work_loop; [now apply wf_schedule|now apply waiting_schedule].
  - apply (waiting_same_tasks w); [apply release_agent_tables|exact Hw].
  - contradiction.
Qed.
End Waiting.

(** X18.  Only the queue hands out tasks: a PENDING or READY task whose id is
    not in the scheduler's queue is never assigned.  After any sequence of
    readiness passes, scheduling passes, work steps, ticks and releases it
    is still PENDING or READY and still outside the queue.  So a
    HIERARCHICAL crew, whose queue is empty from the load, starts no task,
    and [reset_states], which does not refill the queue, does not make a
    finished crew run again. *)
Theorem unqueued_never_assigned `{RT : PyRuntime} (ops : list core_op) (w : World) (k : Z) :
  wf_world w -> Forall not_update ops ->
  ~ In k (task_queue w) -> waiting w k ->
  waiting (run_ops ops w) k /\ ~ In k (task_queue (run_ops ops w))
  /\ Crew.all_tasks_done (crew (run_ops ops w)) = false.
Proof.
  intros Hwf Hops. revert w Hwf.
  assert (Hnd : forall w, waiting w k -> Crew.all_tasks_done (crew w) = false).
  { intros w (t & Hg & Hs). destruct (dict_get_Some _ _ _ _ Hg) as [_ Hin].
    unfold Crew.all_tasks_done.
    destruct (forallb _ (Crew.tasks (crew w))) eqn:E; [|reflexivity].
    rewrite forallb_forall in E. specialize (E t Hin).
    destruct Hs as [Hs|Hs]; rewrite Hs in E; discriminate. }
  induction Hops as [|op ops Hop _ IH]; intros w Hwf Hq Hw.
  - split; [exact Hw|]. split; [exact Hq|now apply Hnd].
  - change (run_ops (op :: ops) w) with (run_ops ops (apply_op op w)).
    destruct (waiting_apply_op op w k Hwf Hop Hq Hw) as (W & Q & A).
    now apply IH.
Qed.

Lemma unqueued_never_assigned_witness :
  wf_world (with_queue [] sample_world)
  /\ waiting (@run_ops sample_runtime [OpTick final_answer_oracle; OpTick final_answer_oracle]
                (with_queue [] sample_world)) 0.
Proof.
  assert (Hwf : wf_world (with_queue [] sample_world)).
  { split; unfold dict_wf; vm_compute; nodup_keys. }
  split; [exact Hwf|].
  refine (proj1 (@unqueued_never_assigned sample_runtime
                   [OpTick final_answer_oracle; OpTick final_answer_oracle]
                   (with_queue [] sample_world) 0 Hwf _ _ _)).
  - repeat constructor.
  - intros [].
  - eexists. split; [vm_compute; reflexivity|]. left. reflexivity.
Defined.

(** ** A whole run *)

Lemma ticks_keep_good `{RT : PyRuntime} (oracles : Z -> Oracle) (n : nat) :
  forall (start : Z) (w : World),
    good_world w ->
    good_world (run_ops (ticks_from oracles start n) w)
    /\ advances w (run_ops (ticks_from oracles start n) w).
Proof.
  induction n as [|n IH]; intros start w Hgood.
  - split; [exact Hgood|apply advances_refl].
  - cbn [ticks_from].
    change (run_ops (OpTick (oracles start) :: ticks_from oracles (start + 1) n) w)
      with (run_ops (ticks_from oracles (start + 1) n) (apply_op (OpTick (oracles start)) w)).
    pose proof (good_apply_op (OpTick (oracles start)) w Hgood I) as G1.
    destruct (advances_apply_op (OpTick (oracles start)) w (proj1 Hgood) I) as [_ A1].
    destruct (IH (start + 1) _ G1) as [G2 A2].
    split; [exact G2|]. now apply (advances_trans _ (apply_op (OpTick (oracles start)) w)).
Qed.

(** X19.  Loading a crew of fresh agents and tasks and running it, whatever
    the oracles answer and whether or not a tick raises: the kernel ends
    stopped with the crew still loaded and at most [max_ticks] ticks
    counted; no agent is booked twice; the ledger's totals are those of the
    agents' counters; the declarations are those loaded; and every task is
    in the state PENDING or in a later state of its chain. *)
Theorem run_after_load `{RT : PyRuntime} (oracles : Z -> Oracle) (max_ticks : Z)
    (registry : ToolRegistry.t) (agents : list Agent.t) (tasks : list Task.t)
    (process : CrewProcess) (k : Kernel.t) :
  Forall (fun a => Agent.state a = AgentState.IDLE /\ Agent.current_task_id a = None
                   /\ Agent.resource_usage a = Agent.mk_usage 0 0) agents ->
  Forall (fun t => Task.state t = TaskState.PENDING) tasks ->
  let w0 := Kernel.load_world registry (Crew.init agents tasks process) in
  let res := Kernel.run oracles max_ticks
               (Kernel.load_crew registry (Crew.init agents tasks process) k) in
  Kernel.running (snd res) = false
  /\ 0 <= Kernel.tick_count (snd res) <= Z.max 0 max_ticks
  /\ exists w', Kernel.loaded (snd res) = Some w'
       /\ no_double_booking w' /\ holds_at_most_one w'
       /\ accounts_agree w'
       /\ same_declarations w0 w'
       /\ advances w0 w'.
Proof.
  intros Ha Ht. cbv zeta.
  set (w0 := Kernel.load_world registry (Crew.init agents tasks process)).
  assert (Hfresh : freshly_loaded w0).
  { exists registry, agents, tasks, process. split; [|split; [exact Ht|reflexivity]].
    apply (Forall_impl _ (fun a H => conj (proj1 H) (proj1 (proj2 H))) Ha). }
  pose proof (good_freshly_loaded w0 Hfresh) as Hgood.
  assert (Hzero : loaded_at_zero w0).
  { exists registry, (Crew.init agents tasks process).
    split; [|split; [exact (proj2 (proj1 Hgood))|reflexivity]].
    destruct (dict_of_list_spec Agent.aid agents) as [_ Hin].
    apply Forall_forall. intros a Hia. rewrite Forall_forall in Ha.
    exact (proj2 (proj2 (Ha a (Hin a Hia)))). }
  destruct (loaded_at_zero_accounts w0 Hzero) as [Hwfa (Hc & Htok & Hcalls)].
  unfold Kernel.run, Kernel.load_crew. cbn [Kernel.loaded Kernel.tick_count]. fold w0.
  assert (Hfuel : max_ticks - 0 <= Z.of_nat (Z.to_nat (max_ticks - 0))) by lia.
  pose proof (run_loop_spec oracles max_ticks _ w0 0 Hfuel) as H. cbv zeta in H.
  destruct (Kernel.run_loop oracles (Z.to_nat (max_ticks - 0)) max_ticks
              (Kernel.mk (Some w0) 0 true)) as [r k'].
  cbn [fst snd Kernel.running Kernel.tick_count Kernel.loaded] in *.
  destruct H as (n & Htc & Hn & Hl & _).
  split; [reflexivity|]. split; [lia|].
  exists (run_ops (ticks_from oracles 0 n) w0). split; [exact Hl|].
  destruct (ticks_keep_good oracles n 0 w0 Hgood) as [G A].
  destruct (good_no_double_booking _ G) as [N1 N2].
  pose proof (steady_run_ops (ticks_from oracles 0 n) w0) as Hs.
  destruct (steady_balance _ _ Hs Hwfa) as (_ & Bt & Bk).
  destruct (steady_ledger _ _ Hs) as [calls E].
  split; [exact N1|]. split; [exact N2|]. split.
  - split; [rewrite E; now apply ledger_extends_consistent|split; lia].
  - split; [now apply steady_declarations|exact A].
Qed.

Lemma run_after_load_witness :
  Forall (fun t => Task.state t = TaskState.PENDING)
    [Sample.task1; Sample.task2; Sample.task3]
  /\ Kernel.running
       (snd (@Kernel.run sample_runtime (fun _ => final_answer_oracle) 50
               (Kernel.load_crew sample_registry
                  (Crew.init [Sample.researcher; Sample.calculator_agent; Sample.writer]
                     [Sample.task1; Sample.task2; Sample.task3] SEQUENTIAL)
                  Kernel.init))) = false.
Proof.
  assert (Ht : Forall (fun t => Task.state t = TaskState.PENDING)
                 [Sample.task1; Sample.task2; Sample.task3]) by (repeat constructor).
  split; [exact Ht|].
  refine (proj1 (@run_after_load sample_runtime (fun _ => final_answer_oracle) 50
                   sample_registry
                   [Sample.researcher; Sample.calculator_agent; Sample.writer]
                   [Sample.task1; Sample.task2; Sample.task3] SEQUENTIAL Kernel.init
                   _ Ht)).
  repeat constructor.
Defined.

(** ** The laws above on the sample *)


Lemma crew_init_tables_witness :
  NoDup (map Task.tid [Sample.task1; Sample.task2; Sample.task3])
  /\ Crew.tasks (Crew.init [] [Sample.task1; Sample.task2; Sample.task3] SEQUENTIAL)
     = [Sample.task1; Sample.task2; Sample.task3].
Proof.
  assert (H : NoDup (map Task.tid [Sample.task1; Sample.task2; Sample.task3])).
  { vm_compute. nodup_keys. }
  split; [exact H|].
  exact (proj1 (proj1 (proj2 (proj2 (proj2 (proj2
           (crew_init_tables [] [Sample.task1; Sample.task2; Sample.task3] SEQUENTIAL)))))
           H)).
Defined.

Lemma release_agent_spec_witness :
  get_agent sample_running 0
  = Some (Agent.update_state AgentState.RUNNING_TASK (Agent.assign_task 0 Sample.researcher))
  /\ option_map Agent.state (get_agent (AgentScheduler.release_agent 0 sample_running) 0)
     = Some AgentState.IDLE.
Proof.
  assert (Hg : get_agent sample_running 0
               = Some (Agent.update_state AgentState.RUNNING_TASK
                         (Agent.assign_task 0 Sample.researcher)))
    by (vm_compute; reflexivity).
  split; [exact Hg|].
  rewrite (proj1 (proj2 (proj2 (proj2 (proj2 (release_agent_spec 0 sample_running)))))
             _ Hg ltac:(discriminate)).
  reflexivity.
Defined.

(** ** Idle agents and current tasks *)

Lemma coherent_modify_all (i : Z) (f : Agent.t -> Agent.t) (A : AgentTable) :
  (forall a, agent_coherent a -> agent_coherent (f a)) ->
  Forall agent_coherent A -> Forall agent_coherent (dict_modify Agent.aid i f A).
Proof.
  intros Hf H. unfold dict_modify. induction H as [|a A Ha _ IH]; simpl; constructor; auto.
  destruct (Agent.aid a =? i); auto.
Qed.

Lemma coherent_map (g : Agent.t -> Agent.t) (A : AgentTable) :
  (forall a, agent_coherent a -> agent_coherent (g a)) ->
  Forall agent_coherent A -> Forall agent_coherent (map g A).
Proof. intros Hg H. induction H; simpl; constructor; auto. Qed.

Lemma coherent_record_usage (u : string) (n : Z) (a : Agent.t) :
  agent_coherent a -> agent_coherent (Agent.record_usage u n a).
Proof.
  destruct (record_usage_binding u n a) as [Hs Hc]. unfold agent_coherent.
  now rewrite Hs, Hc.
Qed.

Lemma coherent_released (a : Agent.t) :
  agent_coherent (Agent.set_current_task_id None (Agent.update_state AgentState.IDLE a)).
Proof. unfold agent_coherent. simpl. tauto. Qed.

Lemma coherent_assign_task (k : Z) (a : Agent.t) : agent_coherent (Agent.assign_task k a).
Proof. unfold agent_coherent. simpl. split; discriminate. Qed.

Lemma coherent_release_agent (i : Z) (w : World) :
  agents_coherent w -> agents_coherent (AgentScheduler.release_agent i w).
Proof.
  intros H. unfold AgentScheduler.release_agent.
  destruct (get_agent w i) as [a|]; [|exact H].
  destruct (negb (AgentState.eqb (Agent.state a) AgentState.IDLE)); [|exact H].
  apply coherent_modify_all; [|exact H]. intros x _. apply coherent_released.
Qed.

Lemma coherent_finished (i k : Z) (r : string) (w : World) :
  agents_coherent w -> agents_coherent (finished i k r w).
Proof.
  intros H. unfold finished. cbv zeta.
  change (agents_coherent
            (AgentScheduler.release_agent i
               (with_tasks
                  (TaskManager.update_task_state k TaskState.COMPLETED
                     (TaskManager.add_result k r (w_tasks w)))
                  (with_tasks (TaskManager.add_result k r (w_tasks w)) w)))).
  apply coherent_release_agent. exact H.
Qed.

Lemma coherent_schedule (w : World) :
  wf_world w -> agents_coherent w -> agents_coherent (AgentScheduler.schedule_next w).
Proof.
  intros Hwf H.
  destruct (Crew.process (crew w)) eqn:Hp.
  2:{ unfold AgentScheduler.schedule_next. now rewrite Hp. }
  rewrite schedule_next_sequential by assumption.
  assert (G : Forall agent_coherent (map (promote_agent w) (w_agents w))).
  { apply coherent_map; [|exact H]. intros a Ha.
    destruct (promote_agent_cases w a) as [->|[-> Hs]]; [exact Ha|].
    unfold agent_coherent in *. simpl. rewrite Hs in Ha.
    split; [discriminate|]. intros E. apply Ha in E. discriminate. }
  destruct (task_queue w) as [|h q]; [exact G|].
  destruct (get_task (after_recompute w) h) as [task|]; [|exact G].
  destruct (Task.state task); try exact G.
  destruct (first_idle w) as [agent|]; [|exact G].
  unfold AgentScheduler.assign_task_to_agent, agents_coherent. cbv zeta.
  apply coherent_modify_all; [|exact G]. intros a _. apply coherent_assign_task.
Qed.

Section AtWork.
Context `{RT : PyRuntime}.
Variables i c : Z.

Lemma at_work_modify (f : Agent.t -> Agent.t) (w : World) :
  keeps_key Agent.aid f ->
  (forall a, Agent.aid a = i ->
             Agent.current_task_id (f a) = Agent.current_task_id a
             /\ (Agent.state (f a) = Agent.state a
                 \/ Agent.state (f a) <> AgentState.IDLE)) ->
  at_work i c w -> at_work i c (modify_agent i f w).
Proof.
  intros Hk Hf (Hwf & Hcoh & a & Hg & Hc).
  destruct (dict_get_Some _ _ _ _ Hg) as [Hkey _].
  split; [now apply dict_wf_modify|]. split.
  - unfold agents_coherent, modify_agent. wsimpl. unfold dict_modify.
    apply Forall_forall. intros x Hin. apply in_map_iff in Hin.
    destruct Hin as (y & <- & Hy).
    unfold agents_coherent in Hcoh. rewrite Forall_forall in Hcoh.
    pose proof (Hcoh y Hy) as Cy.
    destruct (Agent.aid y =? i) eqn:E; [|exact Cy].
    apply Z.eqb_eq in E.
    assert (Ey : y = a).
    { pose proof (dict_get_In Agent.aid _ y Hwf Hy) as Hgy.
      rewrite E in Hgy. unfold get_agent, Crew.get_agent in Hg.
      change (Crew.agents (crew w)) with (w_agents w) in Hg. congruence. }
    subst y. destruct (Hf a Hkey) as [Hcur Hst]. unfold agent_coherent in *.
    rewrite Hcur, Hc. split; [|discriminate]. intros Hidle. exfalso.
    destruct Hst as [Hst|Hst]; [|contradiction].
    rewrite Hst in Hidle. apply Cy in Hidle. congruence.
  - exists (f a). rewrite get_agent_modify by exact Hk. rewrite Z.eqb_refl, Hg.
    split; [reflexivity|]. now rewrite (proj1 (Hf a Hkey)).
Qed.

Lemma at_work_record_usage (u : string) (n : Z) (w : World) :
  at_work i c w -> at_work i c (modify_agent i (Agent.record_usage u n) w).
Proof.
  apply at_work_modify; [auto with keeps|]. intros a _.
  destruct (record_usage_binding u n a) as [Hs Hc]. split; [exact Hc|now left].
Qed.

Lemma at_work_state (s : AgentState.t) (w : World) :
  s <> AgentState.IDLE ->
  at_work i c w -> at_work i c (modify_agent i (Agent.update_state s) w).
Proof.
  intros Hs. apply at_work_modify; [auto with keeps|]. intros a _.
  split; [reflexivity|now right].
Qed.

Lemma at_work_same_agents (w w' : World) :
  w_agents w' = w_agents w -> at_work i c w -> at_work i c w'.
Proof.
  intros E (Hwf & Hcoh & a & Hg & Hc). unfold at_work, agents_coherent.
  unfold get_agent, Crew.get_agent in *.
  change (Crew.agents (crew w')) with (w_agents w').
  change (Crew.agents (crew w)) with (w_agents w) in Hg.
  rewrite E. eauto.
Qed.

Lemma at_work_charge_call (k : Z) (w : World) :
  at_work i c w -> at_work i c (Kernel.charge_call i k w).
Proof.
  intros H. unfold Kernel.charge_call. cbv zeta.
  apply at_work_record_usage. now apply (at_work_same_agents w).
Qed.

Lemma at_work_execute_tool (w : World) (task_id : option Z) (tool_name : pyval)
    (kwargs : list (string * pyval)) :
  at_work i c w ->
  at_work i c (snd (ToolDispatcher.execute_tool w i task_id tool_name kwargs)).
Proof.
  intros H. unfold ToolDispatcher.execute_tool.
  destruct (find _ kwargs) as [[k v]|]; [exact H|].
  destruct (get_agent w i) as [agent_obj|]; [|exact H].
  destruct (negb (py_in_strs tool_name (Agent.tools agent_obj))); [exact H|].
  destruct (ToolDispatcher.lookup_tool (tool_registry w) tool_name) as [tool|]; [|exact H].
  cbv zeta.
  match goal with
  | |- at_work _ _ (snd (match _ with
                         | Returned _ => (_, ?W) | Raised _ => _ end)) =>
      assert (HW : at_work i c W)
  end.
  { apply at_work_record_usage, at_work_record_usage.
    now apply (at_work_same_agents w). }
  destruct (Tool.execute tool kwargs) as [r|[e|n e]]; exact HW.
Qed.

Lemma coherent_conclude (agent : Agent.t) (task : Task.t) (d : list (string * pyval))
    (w : World) :
  Agent.aid agent = i -> at_work i c w ->
  agents_coherent (snd (Kernel.conclude agent task d w)).
Proof.
  intros Hi H. unfold Kernel.conclude. rewrite Hi.
  assert (Hback : agents_coherent
                    (modify_agent i (Agent.update_state AgentState.RUNNING_TASK) w)).
  { apply (at_work_state AgentState.RUNNING_TASK w); [discriminate|exact H]. }
  destruct (is_str "final_answer" (Kernel.response_get "action" d)); [|exact Hback].
  destruct (Kernel.response_get "content" d) eqn:E; try exact Hback;
    apply (coherent_finished i (Task.tid task)); apply H.
Qed.

Lemma coherent_simulate_agent_work (oracle : Oracle) (agent : Agent.t) (task : Task.t)
    (w : World) :
  Agent.aid agent = i -> at_work i c w ->
  agents_coherent (snd (Kernel.simulate_agent_work oracle agent task w)).
Proof.
  intros Hi H. unfold Kernel.simulate_agent_work. cbv zeta. rewrite Hi.
  pose proof (at_work_charge_call (Task.tid task) w H) as H1.
  set (w1 := Kernel.charge_call i (Task.tid task) w) in *.
  destruct (Kernel.valid_action (oracle agent task [])) as [d|]; [|apply H1].
  destruct (is_str "use_tool" (Kernel.response_get "action" d)).
  2:{ pose proof (coherent_conclude agent task d w1 Hi H1) as Hc. exact Hc. }
  destruct (match py_get "arguments" d with Some v => v | None => PDict [] end)
    as [| | | | |l|kwargs]; try apply H1.
  destruct (negb (truthy (Kernel.response_get "tool_name" d))); [apply H1|].
  pose proof (at_work_state AgentState.USING_TOOL w1 ltac:(discriminate) H1) as H2.
  set (w2 := modify_agent i (Agent.update_state AgentState.USING_TOOL) w1) in *.
  pose proof (at_work_execute_tool w2 (Some (Task.tid task))
                (Kernel.response_get "tool_name" d) kwargs H2) as H3.
  destruct (ToolDispatcher.execute_tool w2 i (Some (Task.tid task))
              (Kernel.response_get "tool_name" d) kwargs) as [[r|e] w3];
    cbn [snd] in H3 |- *; [|apply H3].
  destruct (negb (hashable (Kernel.response_get "tool_name" d))); [apply H3|].
  pose proof (at_work_charge_call (Task.tid task) w3 H3) as H4.
  set (w4 := Kernel.charge_call i (Task.tid task) w3) in *.
  destruct (Kernel.valid_action _) as [d2|].
  - exact (coherent_conclude agent task d2 w4 Hi H4).
  - apply (at_work_state AgentState.RUNNING_TASK w4); [discriminate|exact H4].
Qed.
End AtWork.

Section Coherence.
Context `{RT : PyRuntime}.

Lemma coherent_work_on (oracle : Oracle) (w : World) (tid : Z) :
  wf_world w -> agents_coherent w ->
  agents_coherent (snd (Kernel.work_on oracle w tid)).
Proof.
  intros Hwf Hcoh. unfold Kernel.work_on.
  destruct (get_task w tid) as [task|]; [|exact Hcoh].
  destruct (negb (TaskState.eqb (Task.state task) TaskState.RUNNING)); [exact Hcoh|].
  destruct (Task.assigned_agent_id task) as [x|]; [|exact Hcoh].
  cbn [get_agent_opt].
  destruct (get_agent w x) as [agent|] eqn:Hg; [|exact Hcoh].
  destruct (AgentState.eqb (Agent.state agent) AgentState.RUNNING_TASK) eqn:Hs;
    [|exact Hcoh].
  apply agent_state_eqb_eq in Hs.
  destruct (dict_get_Some _ _ _ _ Hg) as [Hkey Hin].
  assert (Hca : agent_coherent agent).
  { unfold agents_coherent in Hcoh. rewrite Forall_forall in Hcoh. now apply Hcoh. }
  destruct (Agent.current_task_id agent) as [c|] eqn:Hc.
  2:{ exfalso. apply Hca in Hc. rewrite Hs in Hc. discriminate. }
  assert (Hat : at_work x c w).
  { split; [apply Hwf|]. split; [exact Hcoh|]. exists agent. auto. }
  pose proof (coherent_simulate_agent_work x c oracle agent task w Hkey Hat) as H.
  destruct (Kernel.simulate_agent_work oracle agent task w) as [[b|e] w']; exact H.
Qed.

Lemma coherent_work_loop (oracle : Oracle) (tids : list Z) (w : World) :
  wf_world w -> agents_coherent w ->
  agents_coherent (snd (Kernel.work_loop oracle tids w)).
Proof.
  revert w. induction tids as [|tid tids IH]; intros w Hwf Hcoh; [exact Hcoh|].
  simpl. pose proof (coherent_work_on oracle w tid Hwf Hcoh) as A.
  destruct (settled_work_on oracle w tid Hwf) as [W _].
  destruct (Kernel.work_on oracle w tid) as [[u|e] w']; cbn [snd] in A, W |- *;
    [|exact A].
  now apply IH.
Qed.

Lemma coherent_apply_op (op : core_op) (w : World) :
  wf_world w -> agents_coherent w ->
  wf_world (apply_op op w) /\ agents_coherent (apply_op op w).
Proof.
  intros Hwf Hcoh. split.
  - destruct op as [| |oracle tid|oracle|agent_id|tid s];
      [exact (proj1 (settled_apply_op OpReadiness w Hwf I))
      |exact (proj1 (settled_apply_op OpSchedule w Hwf I))
      |exact (proj1 (settled_apply_op (OpWork oracle tid) w Hwf I))
      |exact (proj1 (settled_apply_op (OpTick oracle) w Hwf I))
      |exact (proj1 (settled_apply_op (OpRelease agent_id) w Hwf I))|].
    destruct Hwf as [Wt Wa]. split; [|exact Wa]. simpl. unfold dict_wf. wsimpl.
    now rewrite update_task_state_keys.
  - destruct op as [| |oracle tid|oracle|agent_id|tid s]; simpl.
    + exact Hcoh.
    + now apply coherent_schedule.
    + now apply coherent_work_on.
    + unfold Kernel.tick_world. cbv zeta.
      apply coherent_work_loop; [now apply wf_schedule|now apply coherent_schedule].
    + now apply coherent_release_agent.
    + exact Hcoh.
Qed.
End Coherence.

(** X20.  An agent is IDLE exactly when it has no current task.  This holds
    at the load of fresh agents and is kept by every operation of the core:
    readiness and scheduling passes, work steps (whatever the oracle answers
    and also when the step raises), ticks, releases and state updates. *)
Theorem idle_iff_no_current_task `{RT : PyRuntime} (ops : list core_op) (w : World) :
  wf_world w -> agents_coherent w ->
  agents_coherent (run_ops ops w)
  /\ forall i a, get_agent (run_ops ops w) i = Some a ->
       (Agent.state a = AgentState.IDLE <-> Agent.current_task_id a = None).
Proof.
  intros Hwf Hcoh.
  assert (H : agents_coherent (run_ops ops w)).
  { revert w Hwf Hcoh. induction ops as [|op ops IH]; intros w Hwf Hcoh; [exact Hcoh|].
    change (run_ops (op :: ops) w) with (run_ops ops (apply_op op w)).
    destruct (coherent_apply_op op w Hwf Hcoh) as [W C]. now apply IH. }
  split; [exact H|]. intros i a Hg.
  destruct (dict_get_Some _ _ _ _ Hg) as [_ Hin].
  unfold agents_coherent in H. rewrite Forall_forall in H. exact (H a Hin).
Qed.

Lemma idle_iff_no_current_task_witness :
  wf_world sample_world
  /\ agents_coherent
       (@run_ops sample_runtime [OpTick clash_oracle; OpTick clash_oracle; OpRelease 0]
          sample_world).
Proof.
  assert (Hwf : wf_world sample_world).
  { split; unfold dict_wf; vm_compute; nodup_keys. }
  split; [exact Hwf|].
  refine (proj1 (@idle_iff_no_current_task sample_runtime
                   [OpTick clash_oracle; OpTick clash_oracle; OpRelease 0]
                   sample_world Hwf _)).
  repeat constructor; simpl; try discriminate; reflexivity.
Defined.

(** ** A tick under a cooperative oracle *)

Lemma readied_by_settled (done : Z) (T : TaskTable) (t : Task.t) :
  Task.state t <> TaskState.PENDING -> readied_by done T t = t.
Proof.
  intros Hs. unfold readied_by.
  destruct (TaskState.eqb (Task.state t) TaskState.PENDING) eqn:E; [|reflexivity].
  apply task_state_eqb_eq in E. contradiction.
Qed.

Section Cooperative.
Context `{RT : PyRuntime}.
Variable oracle : Oracle.
Hypothesis Hcoop : cooperative oracle.

Lemma simulate_agent_work_cooperative (agent : Agent.t) (task : Task.t) (w : World) :
  exists c,
    Kernel.simulate_agent_work oracle agent task w
    = (Returned true,
       finished (Agent.aid agent) (Task.tid task) (py_str c)
         (Kernel.charge_call (Agent.aid agent) (Task.tid task) w)).
Proof.
  destruct (Hcoop agent task) as [c Hfin]. exists c.
  unfold Kernel.simulate_agent_work. cbv zeta.
  destruct (conclude_final agent task _ c
              (Kernel.charge_call (Agent.aid agent) (Task.tid task) w) Hfin)
    as (d & -> & -> & ->).
  reflexivity.
Qed.

(** A work step of the loop: nothing for a task that is not workable, the
    completion for one that is. *)
Lemma work_on_cooperative (w : World) (k : Z) :
  ((forall i, ~ workable w k i) /\ Kernel.work_on oracle w k = (Returned tt, w))
  \/ exists t a c,
       get_task w k = Some t /\ Task.state t = TaskState.RUNNING
       /\ Task.assigned_agent_id t = Some (Agent.aid a)
       /\ get_agent w (Agent.aid a) = Some a
       /\ Agent.state a = AgentState.RUNNING_TASK
       /\ Kernel.work_on oracle w k
          = (Returned tt,
             finished (Agent.aid a) (Task.tid t) (py_str c)
               (Kernel.charge_call (Agent.aid a) (Task.tid t) w)).
Proof.
  unfold Kernel.work_on.
  destruct (get_task w k) as [t|] eqn:Hg.
  2:{ left. split; [|reflexivity]. intros i (t & a & H & _). congruence. }
  destruct (TaskState.eqb (Task.state t) TaskState.RUNNING) eqn:Hs; simpl negb; cbv iota.
  2:{ left. split; [|reflexivity]. intros i (t' & a & H & Hr & _).
      assert (t' = t) by congruence. subst t'. rewrite Hr in Hs. discriminate. }
  apply task_state_eqb_eq in Hs.
  destruct (Task.assigned_agent_id t) as [x|] eqn:Hx; cbn [get_agent_opt].
  2:{ left. split; [|reflexivity]. intros i (t' & a & H & _ & Hi & _).
      assert (t' = t) by congruence. subst t'. congruence. }
  destruct (get_agent w x) as [a|] eqn:Ha.
  2:{ left. split; [|reflexivity]. intros i (t' & a & H & _ & Hi & Hga & _).
      assert (t' = t) by congruence. subst t'. congruence. }
  destruct (AgentState.eqb (Agent.state a) AgentState.RUNNING_TASK) eqn:Hsa.
  2:{ left. split; [|reflexivity]. intros i (t' & a' & H & _ & Hi & Hga & Hst).
      assert (t' = t) by congruence. subst t'.
      assert (i = x) by congruence. subst i.
      assert (a' = a) by congruence. subst a'. rewrite Hst in Hsa. discriminate. }
  apply agent_state_eqb_eq in Hsa.
  destruct (dict_get_Some _ _ _ _ Ha) as [Hkey _].
  right. destruct (simulate_agent_work_cooperative a t w) as [c ->].
  exists t, a, c. rewrite Hkey. repeat split; assumption.
Qed.

Lemma work_loop_cooperative (tids : list Z) :
  forall w, good_world w -> NoDup tids ->
    fst (Kernel.work_loop oracle tids w) = Returned tt
    /\ (forall k i, In k tids -> workable w k i ->
        completed_with_result (snd (Kernel.work_loop oracle tids w)) k
        /\ freed (snd (Kernel.work_loop oracle tids w)) i)
    /\ (forall k, completed_with_result w k ->
        completed_with_result (snd (Kernel.work_loop oracle tids w)) k)
    /\ (forall i, freed w i -> freed (snd (Kernel.work_loop oracle tids w)) i).
Proof.
  induction tids as [|k rest IH]; intros w Hgood Hnd.
  { simpl. split; [reflexivity|]. split; [intros k i []|]. split; auto. }
  inversion Hnd as [|? ? Hnotin Hnd']; subst.
  pose proof (good_work_on oracle w k Hgood) as Hgood2.
  cbn [Kernel.work_loop].
  destruct (work_on_cooperative w k)
    as [[Hnw ->]|(t & a & c & Hg & Hs & Hx & Ha & Hsa & Hw)].
  - destruct (IH w Hgood Hnd') as (I1 & I2 & I3 & I4).
    split; [exact I1|]. split; [|split; assumption].
    intros k' i [<-|Hin] Hwk; [exfalso; exact (Hnw i Hwk)|]. now apply I2.
  - rewrite Hw in Hgood2 |- *. cbn [snd] in Hgood2.
    destruct (dict_get_Some _ _ _ _ Hg) as [Hk _].
    set (w1 := Kernel.charge_call (Agent.aid a) (Task.tid t) w) in *.
    set (w2 := finished (Agent.aid a) (Task.tid t) (py_str c) w1) in *.
    destruct (charge_call_tables (Agent.aid a) (Task.tid t) w) as (T1 & _ & _ & A1).
    fold w1 in T1, A1.
    assert (Hg1 : get_task w1 (Task.tid t) = Some t).
    { rewrite (get_task_same_tasks w w1 _ T1), Hk. exact Hg. }
    assert (Ha1 : get_agent w1 (Agent.aid a)
                  = Some (Agent.record_usage "tokens" Kernel.call_cost a)).
    { rewrite A1, Z.eqb_refl, Ha. reflexivity. }
    assert (Hwf1 : dict_wf Task.tid (w_tasks w1)).
    { rewrite T1. apply Hgood. }
    destruct (finished_spec w1 (Agent.aid a) _ t (py_str c) Hwf1 Hg1 Ha1)
      as (F1 & F2 & F3 & F4 & _).
    { rewrite (proj1 (record_usage_binding _ _ a)), Hsa. discriminate. }
    fold w2 in F1, F2, F3, F4.
    assert (Hother : forall j, j <> Agent.aid a -> get_agent w2 j = get_agent w j).
    { intros j Hj. rewrite (F4 j Hj), A1.
      assert (E : (Agent.aid a =? j) = false) by (apply Z.eqb_neq; congruence).
      now rewrite E. }
    assert (Hkeep : forall k' t', k' <> Task.tid t -> get_task w k' = Some t' ->
              Task.state t' <> TaskState.PENDING -> get_task w2 k' = Some t').
    { intros k' t' Hne Hg' Hs'. rewrite (F2 k' t' Hne).
      - now rewrite readied_by_settled.
      - now rewrite (get_task_same_tasks w w1 _ T1). }
    assert (Hdone : completed_with_result w2 k /\ freed w2 (Agent.aid a)).
    { split.
      - exists (Task.update_state TaskState.COMPLETED (Task.add_result (py_str c) t)).
        rewrite <- Hk. split; [exact F1|]. split; [reflexivity|discriminate].
      - eexists. split; [exact F3|]. split; reflexivity. }
    destruct (IH w2 Hgood2 Hnd') as (I1 & I2 & I3 & I4).
    split; [exact I1|]. split; [|split; [|]].
    + intros k' i [<-|Hin] (t' & a' & Hg' & Hs' & Hx' & Ha' & Hsa').
      * rewrite Hg in Hg'. injection Hg' as <-.
        assert (i = Agent.aid a) by congruence. subst i.
        split; [apply I3, Hdone|apply I4, Hdone].
      * assert (Hne : k' <> Task.tid t).
        { rewrite Hk. intros ->. contradiction. }
        apply I2; [exact Hin|]. exists t', a'.
        assert (Hni : i <> Agent.aid a).
        { intros ->. destruct Hgood as [_ Hb].
          destruct (Hb k t (Agent.aid a) Hg) as (ag & Hag & Hc & _); auto.
          { unfold active. rewrite Hs. reflexivity. }
          destruct (Hb k' t' (Agent.aid a) Hg') as (ag' & Hag' & Hc' & _); auto.
          { unfold active. rewrite Hs'. reflexivity. }
          rewrite Hag in Hag'. injection Hag' as <-. rewrite Hc in Hc'.
          injection Hc' as E. apply Hne. rewrite Hk. now symmetry. }
        split; [apply Hkeep; auto; rewrite Hs'; discriminate|].
        split; [exact Hs'|]. split; [exact Hx'|].
        split; [now rewrite Hother|exact Hsa'].
    + intros k0 (t0 & Hg0 & Hs0 & Hr0). apply I3.
      assert (Hne : k0 <> Task.tid t).
      { rewrite Hk. intros ->. rewrite Hg in Hg0. injection Hg0 as <-.
        rewrite Hs in Hs0. discriminate. }
      exists t0. split; [|auto]. apply Hkeep; auto. rewrite Hs0. discriminate.
    + intros i0 (a0 & Ha0 & Hs0 & Hc0). apply I4. exists a0.
      rewrite Hother; [auto|]. intros ->. rewrite Ha in Ha0. injection Ha0 as <-.
      rewrite Hsa in Hs0. discriminate.
Qed.
End Cooperative.

(** X21.  Under an oracle that answers every consultation with a final
    answer, one tick never raises and completes every task that is RUNNING
    on an agent in RUNNING_TASK once the scheduling pass of the tick is over:
    at the end of the tick each such task is COMPLETED with a result and its
    agent is IDLE without current task.  What was completed before the work
    phase stays completed. *)
Theorem tick_completes_running `{RT : PyRuntime} (oracle : Oracle) (w : World) :
  good_world w -> cooperative oracle ->
  let scheduled := AgentScheduler.schedule_next w in
  let res := Kernel.tick_world oracle w in
  fst res = Returned tt
  /\ (forall k i, workable scheduled k i ->
      completed_with_result (snd res) k /\ freed (snd res) i)
  /\ (forall k, completed_with_result scheduled k -> completed_with_result (snd res) k).
Proof.
  intros Hgood Hcoop. cbv zeta. unfold Kernel.tick_world. cbv zeta.
  pose proof (good_schedule w Hgood) as Hg1.
  set (w1 := AgentScheduler.schedule_next w) in *.
  assert (Hnd : NoDup (map Task.tid (Crew.get_tasks_by_state (crew w1) TaskState.RUNNING))).
  { unfold Crew.get_tasks_by_state. apply NoDup_map_filter. apply Hg1. }
  destruct (work_loop_cooperative oracle Hcoop _ w1 Hg1 Hnd) as (I1 & I2 & I3 & _).
  split; [exact I1|]. split; [|exact I3].
  intros k i Hw. apply I2; [|exact Hw].
  destruct Hw as (t & a & Hg & Hs & _).
  destruct (dict_get_Some _ _ _ _ Hg) as [Hk Hin]. rewrite <- Hk.
  apply in_map. unfold Crew.get_tasks_by_state. apply filter_In. split; [exact Hin|].
  rewrite Hs. reflexivity.
Qed.

Lemma tick_completes_running_witness :
  good_world (AgentScheduler.schedule_next sample_world)
  /\ completed_with_result
       (snd (@Kernel.tick_world sample_runtime final_answer_oracle
               (AgentScheduler.schedule_next sample_world))) 0.
Proof.
  assert (Hfresh : freshly_loaded sample_world).
  { exists sample_registry,
      [Sample.researcher; Sample.calculator_agent; Sample.writer],
      [Sample.task1; Sample.task2; Sample.task3], SEQUENTIAL.
    split; [repeat constructor|]. split; [repeat constructor|reflexivity]. }
  assert (Hgood : good_world (AgentScheduler.schedule_next sample_world)).
  { apply good_schedule. now apply good_freshly_loaded. }
  assert (Hcoop : cooperative final_answer_oracle).
  { intros a t. exists (PStr "done"). eexists. split; [reflexivity|].
    split; [reflexivity|]. split; [reflexivity|discriminate]. }
  split; [exact Hgood|].
  refine (proj1 (proj1 (proj2
    (@tick_completes_running sample_runtime final_answer_oracle
       (AgentScheduler.schedule_next sample_world) Hgood Hcoop)) 0 0 _)).
  eexists. eexists. split; [vm_compute; reflexivity|]. split; [reflexivity|].
  split; [reflexivity|]. split; [vm_compute; reflexivity|reflexivity].
Defined.

(** ** Work goes on *)

Lemma declarations_lookup (T T' : TaskTable) (k : Z) :
  Forall2 same_task_declaration T T' ->
  option_rel same_task_declaration (TaskManager.get_task T k) (TaskManager.get_task T' k).
Proof.
  intros H. unfold TaskManager.get_task, dict_get.
  induction H as [|t t' T T' Htt _ IH]; simpl; [exact I|].
  destruct Htt as (E & Hrest). rewrite E.
  destruct (Task.tid t =? k); [|exact IH]. simpl. split; [exact E|exact Hrest].
Qed.

Lemma same_shape_steady (w w' : World) : steady w w' -> same_shape w w'.
Proof.
  intros Hs k. destruct (steady_declarations _ _ Hs) as (Ht & _).
  pose proof (declarations_lookup _ _ k Ht) as H.
  change (TaskManager.get_task (w_tasks w) k) with (get_task w k) in H.
  change (TaskManager.get_task (w_tasks w') k) with (get_task w' k) in H.
  destruct (get_task w k), (get_task w' k); simpl in *; auto. apply H.
Qed.

Lemma deps_in_order_shape (w w' : World) (q : list Z) :
  same_shape w w' -> deps_in_order w q -> deps_in_order w' q.
Proof.
  intros Hs. induction q as [|k rest IH]; simpl; [auto|].
  intros [Hk Hrest]. split; [|now apply IH].
  intros t' d Hg' Hd. pose proof (Hs k) as Sk. rewrite Hg' in Sk.
  destruct (get_task w k) as [t|] eqn:Hg; simpl in Sk; [|contradiction].
  rewrite Sk in Hd. destruct (Hk t d eq_refl Hd) as [[td Htd] Hn]. split; [|exact Hn].
  pose proof (Hs d) as Sd. rewrite Htd in Sd.
  destruct (get_task w' d) as [td'|]; simpl in Sd; [eauto|contradiction].
Qed.

Lemma deps_in_order_tl (w : World) (q : list Z) :
  deps_in_order w q -> deps_in_order w (tl q).
Proof. destruct q as [|k rest]; simpl; [auto|]. now intros [_ H]. Qed.

Lemma agents_nonempty_steady (w w' : World) :
  steady w w' -> w_agents w <> [] -> w_agents w' <> [].
Proof.
  intros Hs Hne. destruct (steady_declarations _ _ Hs) as (_ & Ha & _).
  inversion Ha as [|a a' A A' _ _ E1 E2]; [congruence|discriminate].
Qed.

Lemma process_steady (w w' : World) :
  steady w w' -> Crew.process (crew w') = Crew.process (crew w).
Proof. intros Hs. apply (steady_declarations _ _ Hs). Qed.

Lemma rank_advances (w w' : World) :
  advances w w' ->
  (forall k t, get_task w k = Some t -> rank (Task.state t) <= 4) ->
  forall k t', get_task w' k = Some t' -> rank (Task.state t') <= 4.
Proof.
  intros Ha H k t' Hg'. specialize (Ha k). rewrite Hg' in Ha.
  destruct (get_task w k) as [t|] eqn:Hg; simpl in Ha; [|contradiction].
  destruct Ha as [->|[_ Hle]]; [now apply (H k)|exact Hle].
Qed.

Lemma NoDup_suffix {A : Type} (l' l : list A) : is_suffix l' l -> NoDup l -> NoDup l'.
Proof.
  intros [front ->]. induction front as [|x front IH]; simpl; [auto|].
  intros H. inversion H; auto.
Qed.

Lemma readied_by_cases (done : Z) (T : TaskTable) (t : Task.t) :
  readied_by done T t = t
  \/ (Task.state t = TaskState.PENDING
      /\ readied_by done T t = Task.update_state TaskState.READY t).
Proof.
  unfold readied_by.
  destruct (TaskState.eqb (Task.state t) TaskState.PENDING) eqn:E; [|now left].
  apply task_state_eqb_eq in E.
  destruct (forallb _ (Task.dependencies t)); simpl; [right|left]; auto.
Qed.

Lemma live_completion (w : World) (t : Task.t) (a : Agent.t) (r : string) :
  live w ->
  get_task w (Task.tid t) = Some t -> Task.state t = TaskState.RUNNING ->
  Task.assigned_agent_id t = Some (Agent.aid a) ->
  get_agent w (Agent.aid a) = Some a -> Agent.state a = AgentState.RUNNING_TASK ->
  live (finished (Agent.aid a) (Task.tid t) r
          (Kernel.charge_call (Agent.aid a) (Task.tid t) w)).
Proof.
  intros (Hwf & Hp & Hne & Hrank & Hb3 & Hb4 & Hnd & Hq & Hord) Hg Hs Hx Ha Hsa.
  set (w1 := Kernel.charge_call (Agent.aid a) (Task.tid t) w).
  set (w2 := finished (Agent.aid a) (Task.tid t) r w1).
  destruct (charge_call_tables (Agent.aid a) (Task.tid t) w) as (T1 & Q1 & _ & A1).
  fold w1 in T1, Q1, A1.
  assert (Hst : steady w w2).
  { apply (steady_trans _ w1).
    - apply steady_charge_call. rewrite Ha. discriminate.
    - apply steady_finished. }
  assert (Hwf1 : wf_world w1).
  { apply (wf_evolves w); [apply evolves_charge_call|exact Hwf]. }
  assert (Hg1 : get_task w1 (Task.tid t) = Some t).
  { now rewrite (get_task_same_tasks w w1 _ T1). }
  assert (Ha1 : get_agent w1 (Agent.aid a)
                = Some (Agent.record_usage "tokens" Kernel.call_cost a)).
  { rewrite A1, Z.eqb_refl, Ha. reflexivity. }
  destruct (finished_spec w1 (Agent.aid a) _ t r (proj1 Hwf1) Hg1 Ha1)
    as (F1 & F2 & F3 & F4 & F5 & _).
  { rewrite (proj1 (record_usage_binding _ _ a)), Hsa. discriminate. }
  fold w2 in F1, F2, F3, F4, F5.
  assert (Hwf2 : wf_world w2).
  { apply (settled_finished w1 (Agent.aid a) (Task.tid t) r Hwf1). }
  assert (Hadv : advances w w2).
  { apply (advances_trans _ w1); [now apply advances_same_tasks|].
    apply advances_finished; [exact Hwf1|]. intros x Hx1. rewrite Hg1 in Hx1.
    injection Hx1 as <-. exact Hs. }
  pose proof (same_shape_steady _ _ Hst) as Hshape.
  (* the tables of [w2], seen from [w] *)
  assert (Htask : forall k t2, k <> Task.tid t -> get_task w2 k = Some t2 ->
            exists t0, get_task w k = Some t0
                       /\ t2 = readied_by (Task.tid t) (w_tasks w) t0).
  { intros k t2 Hk Hg2. pose proof (Hshape k) as Sk. rewrite Hg2 in Sk.
    destruct (get_task w k) as [t0|] eqn:Hg0; simpl in Sk; [|contradiction].
    exists t0. split; [reflexivity|].
    rewrite (F2 k t0 Hk) in Hg2; [|now rewrite (get_task_same_tasks w w1 _ T1)].
    rewrite T1 in Hg2. congruence. }
  assert (Htask' : forall k t0, k <> Task.tid t -> get_task w k = Some t0 ->
            get_task w2 k = Some (readied_by (Task.tid t) (w_tasks w) t0)).
  { intros k t0 Hk Hg0. rewrite (F2 k t0 Hk); [now rewrite T1|].
    now rewrite (get_task_same_tasks w w1 _ T1). }
  assert (Hagent : forall j, j <> Agent.aid a -> get_agent w2 j = get_agent w j).
  { intros j Hj. rewrite (F4 j Hj), A1.
    assert (E : (Agent.aid a =? j) = false) by (apply Z.eqb_neq; congruence).
    now rewrite E. }
  (* the agent of [t] has [t] as its current task *)
  assert (Hcur : Agent.current_task_id a = Some (Task.tid t)).
  { destruct (Hb3 _ t Hg) as (i0 & a0 & Hi0 & Ha0 & Hc0 & _).
    { unfold active. rewrite Hs. reflexivity. }
    assert (i0 = Agent.aid a) by congruence. subst i0. congruence. }
  split; [exact Hwf2|]. split; [now rewrite (process_steady _ _ Hst)|].
  split; [now apply (agents_nonempty_steady w)|].
  split; [now apply (rank_advances w)|]. split; [|split; [|split; [|split]]].
  - (* tasks in flight *)
    intros k t2 Hg2 Hact.
    assert (Hk : k <> Task.tid t).
    { intros ->. rewrite F1 in Hg2. injection Hg2 as <-. discriminate. }
    destruct (Htask k t2 Hk Hg2) as (t0 & Hg0 & ->).
    destruct (readied_by_cases (Task.tid t) (w_tasks w) t0) as [E|[_ E]];
      rewrite E in *; [|discriminate].
    destruct (Hb3 k t0 Hg0 Hact) as (i0 & a0 & Hi0 & Ha0 & Hc0 & Hst0).
    exists i0, a0. split; [exact Hi0|]. split; [|split; assumption].
    rewrite Hagent; [exact Ha0|]. intros ->.
    assert (a0 = a) by congruence. subst a0.
    destruct (dict_get_Some _ _ _ _ Hg0) as [Hk0 _]. apply Hk. congruence.
  - (* busy agents *)
    intros j a2 Ha2 Hbusy.
    assert (Hj : j <> Agent.aid a).
    { intros ->. rewrite F3 in Ha2. injection Ha2 as <-. now apply Hbusy. }
    rewrite (Hagent j Hj) in Ha2.
    destruct (Hb4 j a2 Ha2 Hbusy) as (k0 & t0 & Hc0 & Hg0 & Hact0 & Hx0).
    destruct (dict_get_Some _ _ _ _ Ha2) as [Hkey _].
    assert (Hk0 : k0 <> Task.tid t).
    { intros ->. rewrite Hg in Hg0. injection Hg0 as <-. apply Hj. congruence. }
    exists k0, t0. split; [exact Hc0|]. split; [|split; assumption].
    rewrite (Htask' k0 t0 Hk0 Hg0).
    destruct (readied_by_cases (Task.tid t) (w_tasks w) t0) as [->|[Hpend _]];
      [reflexivity|].
    unfold active in Hact0. rewrite Hpend in Hact0. discriminate.
  - rewrite F5, Q1. exact Hnd.
  - intros k. rewrite F5, Q1, Hq. split.
    + intros (t0 & Hg0 & Hlow).
      assert (Hk : k <> Task.tid t).
      { intros ->. rewrite Hg in Hg0. injection Hg0 as <-. rewrite Hs in Hlow.
        destruct Hlow; discriminate. }
      exists (readied_by (Task.tid t) (w_tasks w) t0). split; [now apply Htask'|].
      destruct (readied_by_cases (Task.tid t) (w_tasks w) t0) as [->|[_ ->]];
        [exact Hlow|now right].
    + intros (t2 & Hg2 & Hlow).
      assert (Hk : k <> Task.tid t).
      { intros ->. rewrite F1 in Hg2. injection Hg2 as <-. destruct Hlow; discriminate. }
      destruct (Htask k t2 Hk Hg2) as (t0 & Hg0 & ->). exists t0. split; [exact Hg0|].
      destruct (readied_by_cases (Task.tid t) (w_tasks w) t0) as [E|[Hpend _]];
        [now rewrite E in Hlow|now left].
  - rewrite F5, Q1. now apply (deps_in_order_shape w).
Qed.

Lemma live_work_on `{RT : PyRuntime} (oracle : Oracle) (w : World) (k : Z) :
  cooperative oracle -> live w -> live (snd (Kernel.work_on oracle w k)).
Proof.
  intros Hcoop Hlive.
  destruct (work_on_cooperative oracle Hcoop w k)
    as [[_ ->]|(t & a & c & Hg & Hs & Hx & Ha & Hsa & ->)]; [exact Hlive|].
  cbn [snd]. destruct (dict_get_Some _ _ _ _ Hg) as [Hk _].
  apply live_completion; auto. now rewrite Hk.
Qed.

Lemma live_work_loop `{RT : PyRuntime} (oracle : Oracle) (tids : list Z) (w : World) :
  cooperative oracle -> live w -> live (snd (Kernel.work_loop oracle tids w)).
Proof.
  intros Hcoop. revert w. induction tids as [|k rest IH]; intros w Hlive; [exact Hlive|].
  simpl. pose proof (live_work_on oracle w k Hcoop Hlive) as H.
  destruct (Kernel.work_on oracle w k) as [[u|e] w']; cbn [snd] in H |- *; [|exact H].
  now apply IH.
Qed.

Lemma confirming_agent_intro (w : World) (t : Task.t) (i : Z) (a : Agent.t) :
  Task.assigned_agent_id t = Some i -> get_agent w i = Some a ->
  Agent.current_task_id a = Some (Task.tid t) ->
  Agent.state a = AgentState.ASSIGNED ->
  confirming_agent w t = Some a.
Proof.
  intros Hx Ha Hc Hs. unfold confirming_agent. rewrite Hx. cbn [get_agent_opt].
  rewrite Ha, Hc, Z.eqb_refl, Hs. reflexivity.
Qed.

Lemma active_cases (t : Task.t) :
  active t = true ->
  Task.state t = TaskState.ASSIGNED \/ Task.state t = TaskState.RUNNING.
Proof. unfold active. destruct (Task.state t); simpl; auto; discriminate. Qed.

Lemma promote_task_live (w : World) (k : Z) (t : Task.t) :
  live w -> get_task w k = Some t ->
  (Task.state t = TaskState.ASSIGNED
   /\ promote_task w t
      = Task.add_context (context_for (w_tasks w) t)
          (Task.update_state TaskState.RUNNING t))
  \/ (Task.state t <> TaskState.ASSIGNED /\ promote_task w t = t).
Proof.
  intros (_ & _ & _ & _ & Hb3 & _) Hg.
  destruct (promote_task_cases w t) as [[E [Hs|Hn]]|(Hs & a & _ & E)].
  - now right.
  - destruct (TaskState.eqb (Task.state t) TaskState.ASSIGNED) eqn:Es.
    + apply task_state_eqb_eq in Es. exfalso.
      destruct (Hb3 k t Hg) as (i & a & Hx & Ha & Hc & [[_ Hsa]|[Hr _]]).
      { unfold active. rewrite Es. reflexivity. }
      * rewrite (confirming_agent_intro w t i a Hx Ha Hc Hsa) in Hn. discriminate.
      * rewrite Es in Hr. discriminate.
    + right. split; [|exact E]. intros H. rewrite H in Es. discriminate.
  - now left.
Qed.

Lemma promote_agent_live (w : World) (i : Z) (a : Agent.t) :
  live w -> get_agent w i = Some a ->
  (Agent.state a = AgentState.ASSIGNED
   /\ promote_agent w a = Agent.update_state AgentState.RUNNING_TASK a)
  \/ (Agent.state a <> AgentState.ASSIGNED /\ promote_agent w a = a).
Proof.
  intros (_ & _ & _ & _ & Hb3 & Hb4 & _) Ha.
  destruct (AgentState.eqb (Agent.state a) AgentState.ASSIGNED) eqn:Es.
  - apply agent_state_eqb_eq in Es. left. split; [exact Es|].
    destruct (dict_get_Some _ _ _ _ Ha) as [Hkey _].
    destruct (Hb4 i a Ha) as (k0 & t0 & Hc0 & Hg0 & Hact0 & Hx0).
    { rewrite Es. discriminate. }
    assert (Hs0 : Task.state t0 = TaskState.ASSIGNED).
    { destruct (active_cases t0 Hact0) as [H|H]; [exact H|]. exfalso.
      destruct (Hb3 k0 t0 Hg0 Hact0) as (i1 & a1 & Hx1 & Ha1 & _ & [[Hr _]|[_ Hsa1]]).
      - rewrite H in Hr. discriminate.
      - assert (i1 = i) by congruence. subst i1.
        assert (a1 = a) by congruence. subst a1. rewrite Es in Hsa1. discriminate. }
    unfold promote_agent. rewrite Es, Hc0, Hg0, Hs0, Hx0, Z.eqb_refl. reflexivity.
  - right. split; [intros H; rewrite H in Es; discriminate|].
    unfold promote_agent. now rewrite Es.
Qed.

(** The promotion phase, with or without the readiness pass that follows
    it: [g] is what the phase makes of a task. *)
Lemma live_phase (w : World) (g : Task.t -> Task.t) :
  live w ->
  keeps_key Task.tid g ->
  (forall t, Task.assigned_agent_id (g t) = Task.assigned_agent_id t) ->
  (forall t, Task.dependencies (g t) = Task.dependencies t) ->
  (forall k t, get_task w k = Some t -> Task.state t = TaskState.ASSIGNED ->
     Task.state (g t) = TaskState.RUNNING) ->
  (forall t, Task.state t <> TaskState.ASSIGNED -> Task.state t <> TaskState.PENDING ->
     Task.state (g t) = Task.state t) ->
  (forall t, Task.state t = TaskState.PENDING ->
     Task.state (g t) = TaskState.PENDING \/ Task.state (g t) = TaskState.READY) ->
  live (with_agents (map (promote_agent w) (w_agents w))
          (with_tasks (map g (w_tasks w)) w)).
Proof.
  intros Hlive Hk Hx Hd Hasg Hsame Hpend.
  pose proof Hlive as (Hwf & Hp & Hne & Hrank & Hb3 & Hb4 & Hnd & Hq & Hord).
  set (w' := with_agents (map (promote_agent w) (w_agents w))
               (with_tasks (map g (w_tasks w)) w)).
  assert (Ht : forall k, get_task w' k = option_map g (get_task w k)).
  { intros k. unfold w', get_task, Crew.get_task. wsimpl.
    apply (dict_get_map Task.tid g _ k Hk). }
  assert (Ha : forall i, get_agent w' i = option_map (promote_agent w) (get_agent w i)).
  { intros i. unfold w', get_agent, Crew.get_agent. wsimpl.
    apply (dict_get_map Agent.aid (promote_agent w) _ i (keeps_aid_promote_agent w)). }
  assert (Hinv : forall k t', get_task w' k = Some t' ->
            exists t, get_task w k = Some t /\ t' = g t).
  { intros k t' H. rewrite Ht in H. destruct (get_task w k) as [t|]; [|discriminate].
    injection H as <-. eauto. }
  assert (Hstate : forall k t, get_task w k = Some t ->
            (Task.state t = TaskState.ASSIGNED /\ Task.state (g t) = TaskState.RUNNING)
            \/ (Task.state t = TaskState.PENDING
                /\ (Task.state (g t) = TaskState.PENDING
                    \/ Task.state (g t) = TaskState.READY))
            \/ (Task.state t <> TaskState.ASSIGNED /\ Task.state t <> TaskState.PENDING
                /\ Task.state (g t) = Task.state t)).
  { intros k t Hg. destruct (Task.state t) eqn:Es.
    - right. left. split; [reflexivity|]. now apply Hpend.
    - right. right. split; [discriminate|]. split; [discriminate|].
      rewrite <- Es. apply Hsame; rewrite Es; discriminate.
    - left. split; [reflexivity|]. now apply (Hasg k).
    - right. right. split; [discriminate|]. split; [discriminate|].
      rewrite <- Es. apply Hsame; rewrite Es; discriminate.
    - right. right. split; [discriminate|]. split; [discriminate|].
      rewrite <- Es. apply Hsame; rewrite Es; discriminate.
    - right. right. split; [discriminate|]. split; [discriminate|].
      rewrite <- Es. apply Hsame; rewrite Es; discriminate.
    - right. right. split; [discriminate|]. split; [discriminate|].
      rewrite <- Es. apply Hsame; rewrite Es; discriminate. }
  split.
  { destruct Hwf as [Wt Wa]. split; unfold w'; wsimpl.
    - now apply dict_wf_map.
    - apply dict_wf_map; [apply keeps_aid_promote_agent|exact Wa]. }
  split; [exact Hp|]. split.
  { unfold w'. wsimpl. destruct (w_agents w); [congruence|discriminate]. }
  split.
  { intros k t' Hg'. destruct (Hinv k t' Hg') as (t & Hg & ->).
    pose proof (Hrank k t Hg) as Hr.
    destruct (Hstate k t Hg) as [[_ E]|[[_ [E|E]]|(_ & _ & E)]]; rewrite E; simpl; lia. }
  split.
  { (* tasks in flight *)
    intros k t' Hg' Hact. destruct (Hinv k t' Hg') as (t & Hg & ->).
    assert (Hact0 : active t = true).
    { destruct (Hstate k t Hg) as [[E _]|[[_ [E|E]]|(_ & _ & E)]].
      - unfold active. rewrite E. reflexivity.
      - unfold active in Hact. rewrite E in Hact. discriminate.
      - unfold active in Hact. rewrite E in Hact. discriminate.
      - unfold active in *. now rewrite E in Hact. }
    destruct (Hb3 k t Hg Hact0) as (i & a & Hxi & Hai & Hc & Hst).
    exists i, (promote_agent w a). rewrite Hx, Hk, Ha, Hai, promote_agent_current.
    split; [exact Hxi|]. split; [reflexivity|]. split; [exact Hc|]. right.
    destruct Hst as [[Hs Hsa]|[Hs Hsa]].
    - split; [now apply (Hasg k)|].
      destruct (promote_agent_live w i a Hlive Hai) as [[_ ->]|[Hn _]];
        [reflexivity|contradiction].
    - split; [rewrite Hsame; [exact Hs|rewrite Hs; discriminate|rewrite Hs; discriminate]|].
      destruct (promote_agent_live w i a Hlive Hai) as [[E _]|[_ ->]];
        [rewrite Hsa in E; discriminate|exact Hsa]. }
  split.
  { (* busy agents *)
    intros i a' Ha' Hbusy. rewrite Ha in Ha'.
    destruct (get_agent w i) as [a|] eqn:Hai; [|discriminate]. injection Ha' as <-.
    assert (Hbusy0 : Agent.state a <> AgentState.IDLE).
    { intros E. destruct (promote_agent_live w i a Hlive Hai) as [[E' _]|[_ E']].
      - rewrite E in E'. discriminate.
      - rewrite E' in Hbusy. contradiction. }
    destruct (Hb4 i a Hai Hbusy0) as (k0 & t0 & Hc0 & Hg0 & Hact0 & Hx0).
    exists k0, (g t0). rewrite promote_agent_current, Ht, Hg0, Hx, keeps_aid_promote_agent.
    split; [exact Hc0|]. split; [reflexivity|]. split; [|exact Hx0].
    destruct (active_cases t0 Hact0) as [E|E].
    - unfold active. rewrite (Hasg k0 t0 Hg0 E). reflexivity.
    - unfold active. rewrite Hsame; rewrite E; try discriminate. reflexivity. }
  split; [exact Hnd|]. split.
  { intros k. change (task_queue w') with (task_queue w). rewrite Hq. split.
    - intros (t & Hg & Hlow). exists (g t). rewrite Ht, Hg. split; [reflexivity|].
      destruct Hlow as [E|E]; [now apply Hpend|].
      right. rewrite Hsame; rewrite E; try discriminate. reflexivity.
    - intros (t' & Hg' & Hlow). destruct (Hinv k t' Hg') as (t & Hg & ->).
      exists t. split; [exact Hg|].
      destruct (Hstate k t Hg) as [[_ E]|[[E _]|(_ & _ & E)]].
      + rewrite E in Hlow. destruct Hlow; discriminate.
      + now left.
      + now rewrite E in Hlow. }
  change (task_queue w') with (task_queue w).
  apply (deps_in_order_shape w); [|exact Hord].
  intros k. rewrite Ht. destruct (get_task w k); simpl; auto.
Qed.

Lemma promote_task_fields (w : World) (t : Task.t) :
  Task.assigned_agent_id (promote_task w t) = Task.assigned_agent_id t
  /\ Task.dependencies (promote_task w t) = Task.dependencies t.
Proof.
  destruct (promote_task_cases w t) as [[-> _]|(_ & a & _ & ->)]; split; reflexivity.
Qed.

Lemma readiness_of_fields (T : TaskTable) (t : Task.t) :
  Task.assigned_agent_id (readiness_of T t) = Task.assigned_agent_id t
  /\ Task.dependencies (readiness_of T t) = Task.dependencies t.
Proof.
  unfold readiness_of.
  destruct (TaskState.eqb (Task.state t) TaskState.PENDING
            && TaskManager.deps_met_loop T (Task.dependencies t)); split; reflexivity.
Qed.

Lemma readiness_of_settled (T : TaskTable) (t : Task.t) :
  Task.state t <> TaskState.PENDING -> readiness_of T t = t.
Proof.
  intros Hs. unfold readiness_of.
  destruct (TaskState.eqb (Task.state t) TaskState.PENDING) eqn:E; [|reflexivity].
  apply task_state_eqb_eq in E. contradiction.
Qed.

Lemma promote_task_unassigned (w : World) (t : Task.t) :
  Task.state t <> TaskState.ASSIGNED -> promote_task w t = t.
Proof.
  intros Hs. destruct (promote_task_cases w t) as [[E _]|(Ha & _)]; [exact E|].
  contradiction.
Qed.

Lemma live_after_promotion (w : World) : live w -> live (after_promotion w).
Proof.
  intros Hlive. unfold after_promotion. apply live_phase; auto with keeps.
  - intros t. apply promote_task_fields.
  - intros t. apply promote_task_fields.
  - intros k t Hg Hs.
    destruct (promote_task_live w k t Hlive Hg) as [[_ ->]|[Hn _]];
      [reflexivity|contradiction].
  - intros t Hs _. now rewrite promote_task_unassigned.
  - intros t Hs. left. rewrite promote_task_unassigned; [exact Hs|].
    rewrite Hs. discriminate.
Qed.

Lemma live_after_recompute (w : World) : live w -> live (after_recompute w).
Proof.
  intros Hlive. unfold after_recompute. apply live_phase; auto with keeps.
  - intros t. unfold recomputed_task.
    rewrite (proj1 (readiness_of_fields _ _)). apply promote_task_fields.
  - intros t. unfold recomputed_task.
    rewrite (proj2 (readiness_of_fields _ _)). apply promote_task_fields.
  - intros k t Hg Hs. unfold recomputed_task.
    destruct (promote_task_live w k t Hlive Hg) as [[_ E]|[Hn _]]; [|contradiction].
    rewrite E. rewrite readiness_of_settled; [reflexivity|discriminate].
  - intros t Hs Hp. unfold recomputed_task.
    rewrite promote_task_unassigned by exact Hs. now rewrite readiness_of_settled.
  - intros t Hs. unfold recomputed_task.
    rewrite promote_task_unassigned by (rewrite Hs; discriminate).
    apply low_readiness_of. now left.
Qed.

Lemma live_assign (w : World) (h : Z) (q : list Z) (task : Task.t) (agent : Agent.t) :
  live w -> task_queue w = h :: q ->
  get_task w h = Some task -> Task.state task = TaskState.READY ->
  get_agent w (Agent.aid agent) = Some agent -> Agent.state agent = AgentState.IDLE ->
  live (AgentScheduler.assign_task_to_agent task agent (AgentScheduler.popleft w)).
Proof.
  intros (Hwf & Hp & Hne & Hrank & Hb3 & Hb4 & Hnd & Hq & Hord) HQ Hg Hs Ha Hidle.
  destruct (dict_get_Some _ _ _ _ Hg) as [Hk _].
  set (wp := AgentScheduler.popleft w).
  set (w1 := AgentScheduler.assign_task_to_agent task agent wp).
  assert (Hgp : get_task wp (Task.tid task) = Some task) by (now rewrite Hk).
  destruct (assign_task_to_agent_spec task agent wp Hgp) as (Ht & Hag & Hqueue).
  { rewrite Hs. discriminate. }
  fold w1 in Ht, Hag, Hqueue.
  assert (Hq1 : task_queue w1 = q).
  { rewrite Hqueue. unfold wp, AgentScheduler.popleft. wsimpl. now rewrite HQ. }
  assert (Hst : steady w w1).
  { apply (steady_trans _ wp); [apply steady_pop|apply steady_assign]. }
  assert (Ht' : forall k, get_task w1 k =
            if h =? k
            then Some (Task.update_state TaskState.ASSIGNED
                         (Task.set_assigned_agent_id (Agent.aid agent) task))
            else get_task w k).
  { intros k. rewrite Ht, Hk. reflexivity. }
  assert (Ha' : forall i, get_agent w1 i =
            if Agent.aid agent =? i
            then Some (Agent.assign_task (Task.tid task) agent)
            else get_agent w i).
  { intros i. rewrite Hag. destruct (Agent.aid agent =? i) eqn:E; [|reflexivity].
    apply Z.eqb_eq in E. subst i.
    change (get_agent wp (Agent.aid agent)) with (get_agent w (Agent.aid agent)).
    now rewrite Ha. }
  inversion Hnd as [|? ? Hnotin Hndq]; [congruence|].
  assert (x = h /\ l = q) as [-> ->] by (split; congruence).
  split.
  { apply wf_assign. exact Hwf. }
  split; [now rewrite (process_steady _ _ Hst)|].
  split; [now apply (agents_nonempty_steady w)|].
  split.
  { intros k t1. rewrite Ht'. destruct (h =? k).
    - intros [= <-]. simpl. lia.
    - apply Hrank. }
  split.
  { (* tasks in flight *)
    intros k t1. rewrite Ht'. destruct (h =? k) eqn:E.
    - intros [= <-] _. exists (Agent.aid agent), (Agent.assign_task (Task.tid task) agent).
      rewrite Ha', Z.eqb_refl. split; [reflexivity|]. split; [reflexivity|].
      split; [reflexivity|]. left. split; reflexivity.
    - intros Hg1 Hact. destruct (Hb3 k t1 Hg1 Hact) as (i & a & Hx & Hai & Hc & Hsts).
      exists i, a. split; [exact Hx|]. split; [|split; assumption].
      rewrite Ha'. destruct (Agent.aid agent =? i) eqn:Ei; [|exact Hai].
      apply Z.eqb_eq in Ei. subst i. exfalso.
      assert (a = agent) by congruence. subst a.
      destruct Hsts as [[_ Hsa]|[_ Hsa]]; rewrite Hidle in Hsa; discriminate. }
  split.
  { (* busy agents *)
    intros i a1. rewrite Ha'. destruct (Agent.aid agent =? i) eqn:Ei.
    - intros [= <-] _. exists h, (Task.update_state TaskState.ASSIGNED
                                      (Task.set_assigned_agent_id (Agent.aid agent) task)).
      rewrite Ht', Z.eqb_refl. split; [simpl; now rewrite Hk|].
      split; [reflexivity|]. split; reflexivity.
    - intros Hai Hbusy. destruct (Hb4 i a1 Hai Hbusy) as (k0 & t0 & Hc0 & Hg0 & Hact0 & Hx0).
      exists k0, t0. split; [exact Hc0|]. split; [|split; assumption].
      rewrite Ht'. destruct (h =? k0) eqn:E; [|exact Hg0].
      apply Z.eqb_eq in E. subst k0. exfalso.
      assert (t0 = task) by congruence. subst t0.
      unfold active in Hact0. rewrite Hs in Hact0. discriminate. }
  split; [now rewrite Hq1|]. split.
  { intros k. rewrite Hq1. split.
    - intros Hin. assert (Hne' : (h =? k) = false).
      { apply Z.eqb_neq. intros ->. contradiction. }
      destruct (proj1 (Hq k)) as (t0 & Hg0 & Hlow); [rewrite HQ; now right|].
      exists t0. rewrite Ht', Hne'. auto.
    - intros (t1 & Hg1 & Hlow). rewrite Ht' in Hg1. destruct (h =? k) eqn:E.
      + injection Hg1 as <-. simpl in Hlow. destruct Hlow; discriminate.
      + assert (Hin : In k (task_queue w)) by (apply Hq; exists t1; auto).
        rewrite HQ in Hin. destruct Hin as [->|Hin]; [|exact Hin].
        rewrite Z.eqb_refl in E. discriminate. }
  rewrite Hq1. apply (deps_in_order_shape w); [now apply same_shape_steady|].
  rewrite HQ in Hord. apply Hord.
Qed.

(** The three ways a scheduling pass ends in a live system. *)
Lemma schedule_next_live_cases (w : World) :
  live w ->
  (task_queue w = [] /\ AgentScheduler.schedule_next w = after_promotion w)
  \/ (task_queue w <> [] /\ AgentScheduler.schedule_next w = after_recompute w)
  \/ exists h q task agent,
       task_queue w = h :: q
       /\ get_task (after_recompute w) h = Some task
       /\ Task.state task = TaskState.READY
       /\ first_idle w = Some agent
       /\ AgentScheduler.schedule_next w
          = AgentScheduler.assign_task_to_agent task agent
              (AgentScheduler.popleft (after_recompute w)).
Proof.
  intros Hlive. pose proof Hlive as (Hwf & Hp & _).
  pose proof (live_after_recompute w Hlive) as (_ & _ & _ & _ & _ & _ & _ & Hq & _).
  rewrite schedule_next_sequential by assumption.
  change (task_queue (after_recompute w)) with (task_queue w) in Hq.
  destruct (task_queue w) as [|h q] eqn:HQ; [now left|]. right.
  destruct (proj1 (Hq h)) as (task & Hg & Hlow); [now left|].
  rewrite Hg. destruct Hlow as [Hs|Hs]; rewrite Hs.
  - left. split; [discriminate|reflexivity].
  - destruct (first_idle w) as [agent|] eqn:Hf.
    + right. exists h, q, task, agent. auto.
    + left. split; [discriminate|reflexivity].
Qed.

Lemma live_schedule (w : World) : live w -> live (AgentScheduler.schedule_next w).
Proof.
  intros Hlive.
  destruct (schedule_next_live_cases w Hlive)
    as [[_ ->]|[[_ ->]|(h & q & task & agent & HQ & Hg & Hs & Hf & ->)]].
  - now apply live_after_promotion.
  - now apply live_after_recompute.
  - destruct (first_idle_Some w agent Hf) as [Hin Hidle].
    apply (live_assign (after_recompute w) h q); auto.
    + now apply live_after_recompute.
    + rewrite get_agent_after_recompute.
      assert (Ha : get_agent w (Agent.aid agent) = Some agent).
      { unfold get_agent, Crew.get_agent. apply dict_get_In; [apply Hlive|exact Hin]. }
      rewrite Ha. simpl.
      destruct (promote_agent_cases w agent) as [->|[_ E]]; [reflexivity|].
      rewrite Hidle in E. discriminate.
Qed.

(** Every task in flight is RUNNING once the pass is over. *)
Lemma schedule_next_running (w : World) (k : Z) (t : Task.t) :
  live w -> get_task w k = Some t -> active t = true ->
  exists t1, get_task (AgentScheduler.schedule_next w) k = Some t1
             /\ Task.state t1 = TaskState.RUNNING.
Proof.
  intros Hlive Hg Hact.
  assert (Hp : Task.state (promote_task w t) = TaskState.RUNNING).
  { destruct (promote_task_live w k t Hlive Hg) as [[_ ->]|[Hn ->]]; [reflexivity|].
    destruct (active_cases t Hact) as [E|E]; [contradiction|exact E]. }
  assert (Hr : Task.state (recomputed_task w t) = TaskState.RUNNING).
  { unfold recomputed_task. rewrite readiness_of_settled; [exact Hp|].
    rewrite Hp. discriminate. }
  destruct (schedule_next_live_cases w Hlive)
    as [[_ ->]|[[_ ->]|(h & q & task & agent & HQ & Hh & Hs & Hf & ->)]].
  - rewrite get_task_after_promotion, Hg. simpl. eauto.
  - rewrite get_task_after_recompute, Hg. simpl. eauto.
  - destruct (dict_get_Some _ _ _ _ Hh) as [Hk _].
    destruct (assign_task_to_agent_spec task agent
                (AgentScheduler.popleft (after_recompute w))) as (Ht & _).
    { now rewrite Hk. }
    { rewrite Hs. discriminate. }
    rewrite Ht, Hk. destruct (h =? k) eqn:E.
    + apply Z.eqb_eq in E. subst k. exfalso.
      rewrite get_task_after_recompute, Hg in Hh. simpl in Hh. injection Hh as <-.
      rewrite Hr in Hs. discriminate.
    + change (get_task (AgentScheduler.popleft (after_recompute w)) k)
        with (get_task (after_recompute w) k).
      rewrite get_task_after_recompute, Hg. simpl. eauto.
Qed.

(** With nothing in flight, the pass hands out the head of the queue. *)
Lemma schedule_next_assigns (w : World) :
  live w -> (forall k t, get_task w k = Some t -> active t = false) ->
  task_queue w <> [] ->
  exists h t1, waiting w h
    /\ get_task (AgentScheduler.schedule_next w) h = Some t1
    /\ Task.state t1 = TaskState.ASSIGNED.
Proof.
  intros Hlive Hnone Hne.
  pose proof Hlive as (Hwf & Hp & Hag & Hrank & Hb3 & Hb4 & Hnd & Hq & Hord).
  rewrite schedule_next_sequential by assumption.
  destruct (task_queue w) as [|h q] eqn:HQ; [congruence|].
  destruct (proj1 (Hq h)) as (task & Hg & Hlow); [now left|].
  assert (Hw : waiting w h) by (exists task; auto).
  (* the dependencies of the head are all completed *)
  assert (Hdeps : TaskManager.deps_met_loop (w_tasks w) (Task.dependencies task) = true).
  { apply deps_met_loop_spec. intros d Hd.
    destruct Hord as [Hhead _]. destruct (Hhead task d Hg Hd) as [[td Htd] Hnotin].
    exists td. split; [exact Htd|].
    pose proof (Hrank d td Htd) as Hr. pose proof (Hnone d td Htd) as Hna.
    assert (Hnw : ~ waiting w d) by (intros H; apply Hnotin, Hq, H).
    unfold active in Hna.
    destruct (Task.state td) eqn:Es; simpl in *; try discriminate; try lia;
      try reflexivity.
    - exfalso. apply Hnw. exists td. split; [exact Htd|left; exact Es].
    - exfalso. apply Hnw. exists td. split; [exact Htd|right; exact Es]. }
  assert (Hready : Task.state (recomputed_task w task) = TaskState.READY).
  { unfold recomputed_task.
    rewrite promote_task_unassigned by (destruct Hlow as [E|E]; rewrite E; discriminate).
    unfold readiness_of. rewrite Hdeps.
    destruct Hlow as [E|E]; rewrite E; simpl; [reflexivity|exact E]. }
  rewrite get_task_after_recompute, Hg. simpl. rewrite Hready.
  (* every agent is idle, and there is one *)
  assert (Hidle : exists agent, first_idle w = Some agent).
  { unfold first_idle.
    destruct (w_agents w) as [|a A] eqn:HA; [congruence|]. exists a. simpl.
    destruct (AgentState.eqb (Agent.state a) AgentState.IDLE) eqn:Es; [reflexivity|].
    exfalso.
    assert (Ha : get_agent w (Agent.aid a) = Some a).
    { unfold get_agent, Crew.get_agent.
      change (Crew.agents (crew w)) with (w_agents w).
      apply dict_get_In; [apply Hwf|]. rewrite HA. now left. }
    destruct (Hb4 _ a Ha) as (k0 & t0 & _ & Hg0 & Hact0 & _).
    { intros E. rewrite E in Es. discriminate. }
    rewrite (Hnone k0 t0 Hg0) in Hact0. discriminate. }
  destruct Hidle as [agent ->].
  set (tr := recomputed_task w task) in *.
  assert (Hgr : get_task (AgentScheduler.popleft (after_recompute w)) (Task.tid tr)
                = Some tr).
  { change (get_task (AgentScheduler.popleft (after_recompute w)) (Task.tid tr))
      with (get_task (after_recompute w) (Task.tid tr)).
    unfold tr. rewrite keeps_tid_recomputed_task.
    destruct (dict_get_Some _ _ _ _ Hg) as [Hk _]. rewrite Hk.
    rewrite get_task_after_recompute, Hg. reflexivity. }
  destruct (assign_task_to_agent_spec tr agent
              (AgentScheduler.popleft (after_recompute w)) Hgr) as (Ht & _).
  { rewrite Hready. discriminate. }
  exists h. eexists. split; [exact Hw|]. rewrite Ht.
  assert (E : Task.tid tr = h).
  { unfold tr. rewrite keeps_tid_recomputed_task.
    now destruct (dict_get_Some _ _ _ _ Hg). }
  rewrite E, Z.eqb_refl. split; reflexivity.
Qed.

Section SumOrder.
Context {V : Type} (key : V -> Z) (g : V -> Z).

Lemma dict_get_tail (v : V) (d : list V) (k : Z) (u : V) :
  ~ In (key v) (dict_keys key d) -> dict_get key d k = Some u ->
  dict_get key (v :: d) k = Some u.
Proof.
  intros Hn Hg. unfold dict_get. simpl. destruct (key v =? k) eqn:E; [|exact Hg].
  apply Z.eqb_eq in E. exfalso. apply Hn. destruct (dict_get_Some key _ _ _ Hg) as [Hk Hin].
  rewrite E, <- Hk. unfold dict_keys. now apply in_map.
Qed.

Lemma sum_of_le (d : list V) :
  forall d', dict_wf key d -> dict_keys key d' = dict_keys key d ->
    (forall k v v', dict_get key d k = Some v -> dict_get key d' k = Some v' ->
                    g v' <= g v) ->
    sum_of g d' <= sum_of g d.
Proof.
  induction d as [|v d IH]; intros d' Hwf Hk H.
  - destruct d'; [simpl; lia|discriminate].
  - destruct d' as [|v' d']; [discriminate|]. simpl in Hk. injection Hk as Hv Hk.
    inversion Hwf as [|? ? Hn Hwf']; subst.
    assert (Hn' : ~ In (key v') (dict_keys key d')) by (now rewrite Hv, Hk).
    assert (Hhead : g v' <= g v).
    { apply (H (key v)); unfold dict_get; simpl; [now rewrite Z.eqb_refl|].
      now rewrite Hv, Z.eqb_refl. }
    assert (Htail : sum_of g d' <= sum_of g d).
    { apply IH; [exact Hwf'|exact Hk|]. intros k u u' Hu Hu'.
      apply (H k); now apply dict_get_tail. }
    unfold sum_of in *. simpl. lia.
Qed.

Lemma sum_of_lt (d : list V) :
  forall d', dict_wf key d -> dict_keys key d' = dict_keys key d ->
    (forall k v v', dict_get key d k = Some v -> dict_get key d' k = Some v' ->
                    g v' <= g v) ->
    (exists k v v', dict_get key d k = Some v /\ dict_get key d' k = Some v'
                    /\ g v' < g v) ->
    sum_of g d' < sum_of g d.
Proof.
  induction d as [|v d IH]; intros d' Hwf Hk H (k & u & u' & Hu & Hu' & Hlt).
  - discriminate.
  - destruct d' as [|v' d']; [discriminate|]. simpl in Hk. injection Hk as Hv Hk.
    inversion Hwf as [|? ? Hn Hwf']; subst.
    assert (Hn' : ~ In (key v') (dict_keys key d')) by (now rewrite Hv, Hk).
    assert (Hhead : g v' <= g v).
    { apply (H (key v)); unfold dict_get; simpl; [now rewrite Z.eqb_refl|].
      now rewrite Hv, Z.eqb_refl. }
    assert (Hrest : forall k v0 v0', dict_get key d k = Some v0 ->
              dict_get key d' k = Some v0' -> g v0' <= g v0).
    { intros k0 v0 v0' H0 H0'. apply (H k0); now apply dict_get_tail. }
    unfold dict_get in Hu, Hu'. simpl in Hu, Hu'. rewrite Hv in Hu'.
    destruct (key v =? k) eqn:E.
    + injection Hu as <-. injection Hu' as <-.
      pose proof (sum_of_le d d' Hwf' Hk Hrest) as Htail.
      unfold sum_of in *. simpl. lia.
    + assert (Htail : sum_of g d' < sum_of g d).
      { apply IH; [exact Hwf'|exact Hk|exact Hrest|]. exists k, u, u'. auto. }
      unfold sum_of in *. simpl. lia.
Qed.
End SumOrder.

Lemma weight_forward (s s' : TaskState.t) : forward s s' -> weight s' <= weight s.
Proof.
  intros [->|[H1 H2]]; [lia|]. destruct s, s'; simpl in *; lia.
Qed.

Lemma weight_nonneg (s : TaskState.t) : 0 <= weight s.
Proof. destruct s; simpl; lia. Qed.

Lemma remaining_nonneg (w : World) : 0 <= remaining w.
Proof.
  unfold remaining, sum_of. induction (w_tasks w) as [|t T IH]; simpl; [lia|].
  pose proof (weight_nonneg (Task.state t)). lia.
Qed.

Lemma task_keys_steady (w w' : World) :
  steady w w' -> dict_keys Task.tid (w_tasks w') = dict_keys Task.tid (w_tasks w).
Proof.
  intros Hs. destruct (steady_declarations _ _ Hs) as (Ht & _). symmetry.
  apply (Forall2_keys same_task_declaration); [|exact Ht].
  intros a b (E & _). now symmetry.
Qed.

Lemma remaining_le (w w' : World) :
  wf_world w -> steady w w' -> advances w w' -> remaining w' <= remaining w.
Proof.
  intros [Hwf _] Hs Ha. unfold remaining.
  apply (sum_of_le Task.tid); [exact Hwf|now apply task_keys_steady|].
  intros k t t' Hg Hg'. apply weight_forward. specialize (Ha k).
  unfold get_task, Crew.get_task in Ha.
  change (Crew.tasks (crew w)) with (w_tasks w) in Ha.
  change (Crew.tasks (crew w')) with (w_tasks w') in Ha.
  rewrite Hg, Hg' in Ha. exact Ha.
Qed.

Lemma remaining_lt (w w' : World) (k : Z) (t t' : Task.t) :
  wf_world w -> steady w w' -> advances w w' ->
  get_task w k = Some t -> get_task w' k = Some t' ->
  weight (Task.state t') < weight (Task.state t) ->
  remaining w' < remaining w.
Proof.
  intros [Hwf _] Hs Ha Hg Hg' Hlt. unfold remaining.
  apply (sum_of_lt Task.tid); [exact Hwf|now apply task_keys_steady| |].
  - intros k0 t0 t0' H0 H0'. apply weight_forward. specialize (Ha k0).
    unfold get_task, Crew.get_task in Ha.
    change (Crew.tasks (crew w)) with (w_tasks w) in Ha.
    change (Crew.tasks (crew w')) with (w_tasks w') in Ha.
    rewrite H0, H0' in Ha. exact Ha.
  - exists k, t, t'. auto.
Qed.

Lemma live_good (w : World) : live w -> good_world w.
Proof.
  intros (Hwf & _ & _ & _ & Hb3 & _). split; [exact Hwf|].
  intros k t i Hg Hact Hx. destruct (Hb3 k t Hg Hact) as (i0 & a & Hx0 & Ha & Hc & Hst).
  destruct (dict_get_Some _ _ _ _ Hg) as [Hk _].
  assert (i0 = i) by congruence. subst i0. exists a. split; [exact Ha|].
  split; [now rewrite Hc, Hk|].
  destruct Hst as [[_ E]|[_ E]]; rewrite E; discriminate.
Qed.

(** The crew is done exactly when no work remains. *)
Lemma done_iff_remaining (w : World) :
  live w -> (Crew.all_tasks_done (crew w) = true <-> remaining w = 0).
Proof.
  intros (Hwf & _ & _ & Hrank & _).
  assert (Hr : forall t, In t (w_tasks w) -> rank (Task.state t) <= 4).
  { intros t Hin. apply (Hrank (Task.tid t)).
    unfold get_task, Crew.get_task. apply dict_get_In; [apply Hwf|exact Hin]. }
  unfold Crew.all_tasks_done, remaining, sum_of.
  change (Crew.tasks (crew w)) with (w_tasks w).
  induction (w_tasks w) as [|t T IH]; simpl; [tauto|].
  assert (HrT : forall x, In x T -> rank (Task.state x) <= 4)
    by (intros x Hx; apply Hr; now right).
  specialize (IH HrT). pose proof (Hr t (or_introl eq_refl)) as Ht.
  assert (H0 : 0 <= fold_right (fun v acc => weight (Task.state v) + acc) 0 T).
  { clear. induction T as [|x T IH]; simpl; [lia|].
    pose proof (weight_nonneg (Task.state x)). lia. }
  rewrite andb_true_iff, IH.
  set (rest := fold_right (fun v acc => weight (Task.state v) + acc) 0 T) in *.
  destruct (Task.state t); cbn [weight rank TaskState.eqb orb] in *; split;
    try (intros [H1 H2]; try discriminate; lia);
    try (intros H; exfalso; lia);
    intros H; (split; [reflexivity|lia]).
Qed.

Lemma forallb_false_exists {A : Type} (p : A -> bool) (l : list A) :
  forallb p l = false -> exists x, In x l /\ p x = false.
Proof.
  induction l as [|x l IH]; simpl; [discriminate|].
  destruct (p x) eqn:E; simpl.
  - intros H. destruct (IH H) as (y & Hy & Hp). exists y. auto.
  - intros _. exists x. auto.
Qed.

Section Progress.
Context `{RT : PyRuntime}.
Variable oracle : Oracle.
Hypothesis Hcoop : cooperative oracle.

Lemma live_tick_world (w : World) :
  live w ->
  fst (Kernel.tick_world oracle w) = Returned tt
  /\ live (snd (Kernel.tick_world oracle w)).
Proof.
  intros Hlive. unfold Kernel.tick_world. cbv zeta.
  pose proof (live_schedule w Hlive) as H1.
  set (w1 := AgentScheduler.schedule_next w) in *.
  split; [|now apply live_work_loop].
  apply (work_loop_cooperative oracle Hcoop); [now apply live_good|].
  unfold Crew.get_tasks_by_state. apply NoDup_map_filter. apply H1.
Qed.

Lemma tick_world_le (w : World) :
  live w -> remaining (snd (Kernel.tick_world oracle w)) <= remaining w.
Proof.
  intros Hlive. apply remaining_le; [apply Hlive|apply steady_tick_world|].
  exact (proj2 (advances_apply_op (OpTick oracle) w (proj1 Hlive) I)).
Qed.

Lemma tick_world_progress (w : World) :
  live w -> Crew.all_tasks_done (crew w) = false ->
  remaining (snd (Kernel.tick_world oracle w)) < remaining w.
Proof.
  intros Hlive Hnot.
  pose proof Hlive as (Hwf & _ & _ & Hrank & _ & _ & _ & Hq & _).
  pose proof (steady_tick_world oracle w) as Hst.
  pose proof (proj2 (advances_apply_op (OpTick oracle) w Hwf I)) as Hadv.
  simpl in Hadv.
  pose proof (live_schedule w Hlive) as H1.
  assert (Hlookup : forall t, In t (w_tasks w) -> get_task w (Task.tid t) = Some t).
  { intros t Hin. unfold get_task, Crew.get_task. apply dict_get_In; [apply Hwf|exact Hin]. }
  destruct (existsb active (w_tasks w)) eqn:Eact.
  - (* a task in flight is completed *)
    apply existsb_exists in Eact. destruct Eact as (t & Hin & Hact).
    pose proof (Hlookup t Hin) as Hg.
    destruct (schedule_next_running w _ t Hlive Hg Hact) as (t1 & Hg1 & Hs1).
    pose proof H1 as (Hwf1 & _ & _ & _ & Hb3 & _).
    destruct (Hb3 _ t1 Hg1) as (i & a & Hx & Ha & _ & [[E _]|[_ Hsa]]).
    { unfold active. rewrite Hs1. reflexivity. }
    { rewrite Hs1 in E. discriminate. }
    assert (Hw : workable (AgentScheduler.schedule_next w) (Task.tid t) i).
    { exists t1, a. auto. }
    assert (Hnd : NoDup (map Task.tid
                           (Crew.get_tasks_by_state
                              (crew (AgentScheduler.schedule_next w)) TaskState.RUNNING))).
    { unfold Crew.get_tasks_by_state. apply NoDup_map_filter. apply Hwf1. }
    destruct (work_loop_cooperative oracle Hcoop _ _ (live_good _ H1) Hnd)
      as (_ & I2 & _).
    destruct (I2 (Task.tid t) i) as [(t' & Hg' & Hs' & _) _]; [|exact Hw|].
    { destruct (dict_get_Some _ _ _ _ Hg1) as [Hk1 Hin1]. rewrite <- Hk1.
      apply in_map. unfold Crew.get_tasks_by_state. apply filter_In.
      split; [exact Hin1|]. rewrite Hs1. reflexivity. }
    change (snd (Kernel.work_loop oracle
                   (map Task.tid
                      (Crew.get_tasks_by_state (crew (AgentScheduler.schedule_next w))
                         TaskState.RUNNING))
                   (AgentScheduler.schedule_next w)))
      with (snd (Kernel.tick_world oracle w)) in Hg'.
    apply (remaining_lt w _ (Task.tid t) t t'); auto.
    rewrite Hs'. destruct (active_cases t Hact) as [E|E]; rewrite E; simpl; lia.
  - (* nothing is in flight: the head of the queue is handed out *)
    assert (Hnone : forall k t, get_task w k = Some t -> active t = false).
    { intros k t Hg. destruct (dict_get_Some _ _ _ _ Hg) as [_ Hin].
      destruct (active t) eqn:E; [|reflexivity].
      assert (existsb active (w_tasks w) = true)
        by (apply existsb_exists; exists t; auto).
      congruence. }
    assert (Hne : task_queue w <> []).
    { unfold Crew.all_tasks_done in Hnot.
      destruct (forallb_false_exists _ _ Hnot) as (t & Hin & Hp).
      change (Crew.tasks (crew w)) with (w_tasks w) in Hin.
      pose proof (Hlookup t Hin) as Hg.
      assert (Hw : waiting w (Task.tid t)).
      { exists t. split; [exact Hg|].
        pose proof (Hrank _ t Hg) as Hr. pose proof (Hnone _ t Hg) as Hna.
        unfold active in Hna.
        destruct (Task.state t); simpl in *; auto; try discriminate; lia. }
      apply Hq in Hw. intros E. rewrite E in Hw. contradiction. }
    destruct (schedule_next_assigns w Hlive Hnone Hne) as (h & t1 & (t & Hg & Hlow) & Hg1 & Hs1).
    pose proof (advances_work_loop oracle
                  (map Task.tid
                     (Crew.get_tasks_by_state (crew (AgentScheduler.schedule_next w))
                        TaskState.RUNNING))
                  (AgentScheduler.schedule_next w) (proj1 H1) h) as Hh.
    change (snd (Kernel.work_loop oracle
                   (map Task.tid
                      (Crew.get_tasks_by_state (crew (AgentScheduler.schedule_next w))
                         TaskState.RUNNING))
                   (AgentScheduler.schedule_next w)))
      with (snd (Kernel.tick_world oracle w)) in Hh.
    rewrite Hg1 in Hh.
    destruct (get_task (snd (Kernel.tick_world oracle w)) h) as [t'|] eqn:Hg';
      simpl in Hh; [|contradiction].
    apply (remaining_lt w _ h t t'); auto.
    pose proof (weight_forward _ _ Hh) as Hle. rewrite Hs1 in Hle. simpl in Hle.
    destruct Hlow as [E|E]; rewrite E; simpl; lia.
Qed.
End Progress.

Lemma run_loop_completes `{RT : PyRuntime} (oracles : Z -> Oracle) (max_ticks : Z)
    (fuel : nat) :
  (forall n, cooperative (oracles n)) ->
  forall (w : World) (tc : Z),
    live w -> remaining w <= max_ticks - tc -> max_ticks - tc <= Z.of_nat fuel ->
    let res := Kernel.run_loop oracles fuel max_ticks (Kernel.mk (Some w) tc true) in
    fst res = Returned tt
    /\ exists w', Kernel.loaded (snd res) = Some w' /\ live w'
         /\ Crew.all_tasks_done (crew w') = true
         /\ Kernel.tick_count (snd res) <= tc + Z.max 1 (remaining w).
Proof.
  intros Hcoop.
  assert (Hstop : forall w tc, live w -> remaining w <= 0 ->
            (Returned tt, Kernel.mk (Some w) tc true) = (Returned tt, Kernel.mk (Some w) tc true)
            /\ exists w', Kernel.loaded (Kernel.mk (Some w) tc true) = Some w' /\ live w'
                 /\ Crew.all_tasks_done (crew w') = true
                 /\ tc <= tc + Z.max 1 (remaining w)).
  { intros w tc Hlive Hr. split; [reflexivity|]. exists w. split; [reflexivity|].
    split; [exact Hlive|]. split; [|lia].
    apply (done_iff_remaining w Hlive). pose proof (remaining_nonneg w). lia. }
  induction fuel as [|fuel IH]; intros w tc Hlive Hrem Hfuel; cbv zeta.
  - simpl in *. destruct (Hstop w tc Hlive) as [_ H]; [lia|]. split; [reflexivity|exact H].
  - cbn [Kernel.run_loop Kernel.tick_count].
    destruct (tc <? max_ticks) eqn:Elt.
    2:{ apply Z.ltb_ge in Elt. destruct (Hstop w tc Hlive) as [_ H]; [lia|].
        split; [reflexivity|exact H]. }
    apply Z.ltb_lt in Elt.
    unfold Kernel.tick. cbn [Kernel.loaded Kernel.running Kernel.tick_count negb].
    destruct (live_tick_world (oracles tc) (Hcoop tc) w Hlive) as [Hret Hlive1].
    pose proof (tick_world_le (oracles tc) w Hlive) as Hle.
    pose proof (tick_world_progress (oracles tc) (Hcoop tc) w Hlive) as Hprog.
    destruct (Kernel.tick_world (oracles tc) w) as [[u|e] w1]; cbn [fst snd] in *;
      [|discriminate].
    destruct (Crew.all_tasks_done (crew w1)) eqn:Edone.
    + cbn [fst snd Kernel.loaded Kernel.tick_count]. split; [reflexivity|].
      exists w1. split; [reflexivity|]. split; [exact Hlive1|]. split; [exact Edone|lia].
    + assert (Hnot : Crew.all_tasks_done (crew w) = false).
      { destruct (Crew.all_tasks_done (crew w)) eqn:E; [|reflexivity]. exfalso.
        apply (done_iff_remaining w Hlive) in E.
        assert (E1 : remaining w1 = 0) by (pose proof (remaining_nonneg w1); lia).
        apply (done_iff_remaining w1 Hlive1) in E1. congruence. }
      specialize (Hprog Hnot).
      assert (Hpos : 0 < remaining w1).
      { pose proof (remaining_nonneg w1).
        destruct (Z.eq_dec (remaining w1) 0) as [E|E]; [|lia].
        apply (done_iff_remaining w1 Hlive1) in E. congruence. }
      destruct (IH w1 (tc + 1) Hlive1) as (R & w' & L & Lv & D & T); try lia.
      split; [exact R|]. exists w'. split; [exact L|]. split; [exact Lv|].
      split; [exact D|lia].
Qed.

(** X22.  In a live system a tick under a cooperative oracle returns
    normally, leaves the system live, and does at least one of the steps
    still needed (hand a task out, start it, complete it) unless every task
    is done: the work that remains never grows and strictly shrinks while
    the crew is not done. *)
Theorem tick_makes_progress `{RT : PyRuntime} (oracle : Oracle) (w : World) :
  live w -> cooperative oracle ->
  let res := Kernel.tick_world oracle w in
  fst res = Returned tt /\ live (snd res)
  /\ remaining (snd res) <= remaining w
  /\ (Crew.all_tasks_done (crew w) = false -> remaining (snd res) < remaining w)
  /\ (Crew.all_tasks_done (crew (snd res)) = true <-> remaining (snd res) = 0).
Proof.
  intros Hlive Hcoop. cbv zeta.
  destruct (live_tick_world oracle Hcoop w Hlive) as [Hret Hlive1].
  split; [exact Hret|]. split; [exact Hlive1|].
  split; [now apply tick_world_le|].
  split; [now apply tick_world_progress|now apply done_iff_remaining].
Qed.

Lemma NoDup_app_disjoint {A : Type} (l1 l2 : list A) (x : A) :
  NoDup (l1 ++ l2) -> In x l1 -> ~ In x l2.
Proof.
  induction l1 as [|y l1 IH]; simpl; intros H Hin; [contradiction|].
  inversion H as [|? ? Hn H']; subst. destruct Hin as [->|Hin].
  - intros Hx. apply Hn. apply in_or_app. now right.
  - now apply IH.
Qed.

Lemma declared_deps_in_order (w : World) (tasks : list Task.t) :
  dict_wf Task.tid tasks -> w_tasks w = tasks ->
  forall pre rest, tasks = (pre ++ rest)%list ->
    deps_declared_before (map Task.tid pre) rest ->
    deps_in_order w (map Task.tid rest).
Proof.
  intros Hwf HT pre rest. revert pre.
  induction rest as [|t rest IH]; intros pre Hsplit Hdecl; simpl; [exact I|].
  destruct Hdecl as [Hdeps Hrest].
  assert (Hlook : forall x, In x tasks -> get_task w (Task.tid x) = Some x).
  { intros x Hin. unfold get_task, Crew.get_task.
    change (Crew.tasks (crew w)) with (w_tasks w). rewrite HT. now apply dict_get_In. }
  split.
  - intros t' d Hg Hd.
    assert (t' = t).
    { rewrite Hlook in Hg; [congruence|]. rewrite Hsplit. apply in_or_app. right. now left. }
    subst t'. pose proof (Hdeps d Hd) as Hin. apply in_map_iff in Hin.
    destruct Hin as (td & Etd & Hin). split.
    + exists td. rewrite <- Etd. apply Hlook. rewrite Hsplit. apply in_or_app. now left.
    + unfold dict_wf, dict_keys in Hwf. rewrite Hsplit, map_app in Hwf.
      exact (NoDup_app_disjoint _ _ d Hwf (Hdeps d Hd)).
  - apply (IH (pre ++ [t])%list).
    + rewrite Hsplit, <- app_assoc. reflexivity.
    + rewrite map_app. exact Hrest.
Qed.

Lemma live_workable_declaration (registry : ToolRegistry.t) (agents : list Agent.t)
    (tasks : list Task.t) :
  workable_declaration agents tasks ->
  live (Kernel.load_world registry (Crew.init agents tasks SEQUENTIAL))
  /\ remaining (Kernel.load_world registry (Crew.init agents tasks SEQUENTIAL))
     = 3 * Z.of_nat (List.length tasks).
Proof.
  intros (Hne & Hnda & Hfa & Hndt & Hft & Hdecl).
  set (w := Kernel.load_world registry (Crew.init agents tasks SEQUENTIAL)).
  assert (HT : w_tasks w = tasks) by (apply (dict_of_list_distinct Task.tid), Hndt).
  assert (HA : w_agents w = agents) by (apply (dict_of_list_distinct Agent.aid), Hnda).
  assert (HQ : task_queue w = map Task.tid tasks) by reflexivity.
  assert (Hwf : wf_world w).
  { split; unfold dict_wf, dict_keys; [now rewrite HT|now rewrite HA]. }
  assert (Hpend : forall k t, get_task w k = Some t -> Task.state t = TaskState.PENDING).
  { intros k t Hg. destruct (dict_get_Some _ _ _ _ Hg) as [_ Hin].
    change (Crew.tasks (crew w)) with (w_tasks w) in Hin. rewrite HT in Hin.
    rewrite Forall_forall in Hft. now apply Hft. }
  assert (Hidle : forall i a, get_agent w i = Some a -> Agent.state a = AgentState.IDLE).
  { intros i a Hg. destruct (dict_get_Some _ _ _ _ Hg) as [_ Hin].
    change (Crew.agents (crew w)) with (w_agents w) in Hin. rewrite HA in Hin.
    rewrite Forall_forall in Hfa. now apply Hfa. }
  split.
  - split; [exact Hwf|]. split; [reflexivity|]. split; [now rewrite HA|].
    split; [intros k t Hg; rewrite (Hpend k t Hg); simpl; lia|].
    split; [intros k t Hg Hact; unfold active in Hact; rewrite (Hpend k t Hg) in Hact;
            discriminate|].
    split; [intros i a Hg Hbusy; exfalso; apply Hbusy; now apply (Hidle i)|].
    split; [now rewrite HQ|]. split.
    + intros k. rewrite HQ. split.
      * intros Hin. apply in_map_iff in Hin. destruct Hin as (t & <- & Hin).
        exists t. split.
        -- unfold get_task, Crew.get_task. change (Crew.tasks (crew w)) with (w_tasks w).
           rewrite HT. apply dict_get_In; [exact Hndt|exact Hin].
        -- left. rewrite Forall_forall in Hft. now apply Hft.
      * intros (t & Hg & _). destruct (dict_get_Some _ _ _ _ Hg) as [<- Hin].
        change (Crew.tasks (crew w)) with (w_tasks w) in Hin. rewrite HT in Hin.
        now apply in_map.
    + rewrite HQ. apply (declared_deps_in_order w tasks Hndt HT []); [reflexivity|exact Hdecl].
  - unfold remaining. rewrite HT. clear - Hft. unfold sum_of.
    induction Hft as [|t l Ht _ IH]; [reflexivity|].
    cbn [fold_right List.length]. rewrite IH, Ht. cbn [weight]. lia.
Qed.

(** X23.  A SEQUENTIAL crew declared with fresh agents (at least one) and
    PENDING tasks that depend only on tasks listed before them is carried
    out to the end: loaded and run under cooperative oracles with
    [max_ticks] at least three times the number of tasks, [run] returns
    normally with every task COMPLETED, every agent IDLE, the queue empty,
    and at most [max(1, 3 * tasks)] ticks counted. *)
Theorem run_completes_declaration `{RT : PyRuntime} (oracles : Z -> Oracle)
    (max_ticks : Z) (registry : ToolRegistry.t) (agents : list Agent.t)
    (tasks : list Task.t) (k : Kernel.t) :
  workable_declaration agents tasks ->
  (forall n, cooperative (oracles n)) ->
  3 * Z.of_nat (List.length tasks) <= max_ticks ->
  let res := Kernel.run oracles max_ticks
               (Kernel.load_crew registry (Crew.init agents tasks SEQUENTIAL) k) in
  fst res = Returned tt
  /\ Kernel.running (snd res) = false
  /\ Kernel.tick_count (snd res) <= Z.max 1 (3 * Z.of_nat (List.length tasks))
  /\ exists w', Kernel.loaded (snd res) = Some w'
       /\ (forall i t, get_task w' i = Some t -> Task.state t = TaskState.COMPLETED)
       /\ (forall i a, get_agent w' i = Some a -> Agent.state a = AgentState.IDLE)
       /\ task_queue w' = [].
Proof.
  intros Hdecl Hcoop Hmax. cbv zeta.
  destruct (live_workable_declaration registry agents tasks Hdecl) as [Hlive Hrem].
  unfold Kernel.run, Kernel.load_crew. cbn [Kernel.loaded Kernel.tick_count].
  set (w0 := Kernel.load_world registry (Crew.init agents tasks SEQUENTIAL)) in *.
  assert (Hfuel : max_ticks - 0 <= Z.of_nat (Z.to_nat (max_ticks - 0))) by lia.
  assert (Hbound : remaining w0 <= max_ticks - 0) by lia.
  pose proof (run_loop_completes oracles max_ticks _ Hcoop w0 0 Hlive Hbound Hfuel) as H.
  cbv zeta in H. destruct H as (Hret & w' & Hl & Hlive' & Hdone & Htc).
  destruct (Kernel.run_loop oracles (Z.to_nat (max_ticks - 0)) max_ticks
              (Kernel.mk (Some w0) 0 true)) as [r k'].
  cbn [fst snd Kernel.running Kernel.tick_count Kernel.loaded] in *.
  split; [exact Hret|]. split; [reflexivity|]. split; [lia|].
  exists w'. split; [exact Hl|].
  destruct Hlive' as (Hwf & _ & _ & Hrank & _ & Hb4 & _ & Hq & _).
  assert (Hall : forall i t, get_task w' i = Some t -> Task.state t = TaskState.COMPLETED).
  { intros i t Hg. destruct (dict_get_Some _ _ _ _ Hg) as [_ Hin].
    unfold Crew.all_tasks_done in Hdone. rewrite forallb_forall in Hdone.
    pose proof (Hdone t Hin) as Hd. pose proof (Hrank i t Hg) as Hr.
    destruct (Task.state t); simpl in *; try discriminate; try lia. reflexivity. }
  split; [exact Hall|]. split.
  - intros i a Hg.
    destruct (AgentState.eqb (Agent.state a) AgentState.IDLE) eqn:E;
      [now apply agent_state_eqb_eq|]. exfalso.
    destruct (Hb4 i a Hg) as (k0 & t0 & _ & Hg0 & Hact0 & _).
    { intros H. rewrite H in E. discriminate. }
    unfold active in Hact0. rewrite (Hall k0 t0 Hg0) in Hact0. discriminate.
  - destruct (task_queue w') as [|h q]; [reflexivity|]. exfalso.
    destruct (proj1 (Hq h)) as (t & Hg & Hlow); [now left|].
    rewrite (Hall h t Hg) in Hlow. destruct Hlow; discriminate.
Qed.

Lemma sample_workable_declaration :
  workable_declaration [Sample.researcher; Sample.calculator_agent; Sample.writer]
    [Sample.task1; Sample.task2; Sample.task3].
Proof.
  split; [discriminate|]. split; [vm_compute; nodup_keys|].
  split; [repeat constructor|]. split; [vm_compute; nodup_keys|].
  split; [repeat constructor|].
  vm_compute. repeat split; intros d H; intuition.
Qed.

Lemma sample_cooperative : cooperative final_answer_oracle.
Proof.
  intros a t. exists (PStr "done"). eexists. split; [reflexivity|].
  split; [reflexivity|]. split; [reflexivity|discriminate].
Qed.

Lemma tick_makes_progress_witness :
  live sample_world
  /\ fst (@Kernel.tick_world sample_runtime final_answer_oracle sample_world) = Returned tt.
Proof.
  assert (Hlive : live sample_world).
  { exact (proj1 (live_workable_declaration sample_registry _ _
                    sample_workable_declaration)). }
  split; [exact Hlive|].
  exact (proj1 (@tick_makes_progress sample_runtime final_answer_oracle sample_world
                  Hlive sample_cooperative)).
Defined.

Lemma run_completes_declaration_witness :
  workable_declaration [Sample.researcher; Sample.calculator_agent; Sample.writer]
    [Sample.task1; Sample.task2; Sample.task3]
  /\ fst (@Kernel.run sample_runtime (fun _ => final_answer_oracle) 50
            (Kernel.load_crew sample_registry
               (Crew.init [Sample.researcher; Sample.calculator_agent; Sample.writer]
                  [Sample.task1; Sample.task2; Sample.task3] SEQUENTIAL)
               Kernel.init)) = Returned tt.
Proof.
  split; [exact sample_workable_declaration|].
  refine (proj1 (@run_completes_declaration sample_runtime (fun _ => final_answer_oracle)
                   50 sample_registry _ _ Kernel.init sample_workable_declaration
                   (fun _ => sample_cooperative) _)).
  vm_compute. discriminate.
Defined.
